(** * bplib (Bundle Protocol v6): active-bundle table, BIB codec, send and
      receive paths

    A shallow embedding of [src/common/cbuf.c], [src/v6/bib.c], the send
    and receive paths of [src/v6/v6.c], the clock and the string length of
    [src/os/posix.c] and the page operations of [src/store/flash_sim.c],
    with the properties of the design description that concern them and
    further properties of the code.

    Conventions.
    - C integers are [Z].  [bp_val_t] is the 64-bit unsigned type: its
      arithmetic is written with the wrap-around [u64].  [int] quantities
      (sizes, offsets, byte counts) are kept unbounded, signed overflow
      being undefined in C.
    - A byte buffer is a [list Z] of values in [0, 256).
    - A computation that may divide by zero or index outside its array is
      an [exec]: [UB] is C's undefined behaviour, [Fuel] a loop cut short.
    - Constants of the absent [bplib.h] are the fields of [bplib_h]; the
      absent codecs ([sdnv.c], [pri.c], [cteb.c], [pay.c], [crc.c]) are
      Section variables. *)

From Stdlib Require Import ZArith List Bool Lia.
From stdpp Require Import base option list.
Import ListNotations.

Local Open Scope Z_scope.

(* ================================================================== *)
(** * Machine arithmetic and outcomes                                   *)
(* ================================================================== *)

(** [bp_val_t] is [unsigned long]: 64 bits. *)
Definition u64 (x : Z) : Z := x mod 2 ^ 64.
Definition u32 (x : Z) : Z := x mod 2 ^ 32.
Definition u16 (x : Z) : Z := x mod 2 ^ 16.
Definition u8 (x : Z) : Z := x mod 2 ^ 8.

(** What went wrong in an execution that C leaves undefined. *)
Inductive fault : Type :=
| DivByZero      (* x % 0 *)
| NullDeref      (* access through a pointer that points nowhere *)
| OutOfBounds    (* access outside a table or a byte buffer *)
| ExcludeOverrun (* write past the exclusion array of the receive path *).

Inductive exec (A : Type) : Type :=
| Ret (a : A)
| UB (f : fault)
| Fuel.
Arguments Ret {A} a.
Arguments UB {A} f.
Arguments Fuel {A}.

Definition bind {A B : Type} (m : exec A) (k : A -> exec B) : exec B :=
  match m with
  | Ret a => k a
  | UB f => UB f
  | Fuel => Fuel
  end.

Notation "'let*' x ':=' m 'in' k" := (bind m (fun x => k))
  (at level 10, x name, m at level 100, k at level 200).

(** C's [a % b] on unsigned operands: undefined when [b] is zero. *)
Definition umod (a b : Z) : exec Z :=
  if b =? 0 then UB DivByZero else Ret (a mod b).

(** [a[i]] and [a[i] = x]: undefined outside the array. *)
Definition load {A : Type} (a : list A) (i : Z) : exec A :=
  if i <? 0 then UB OutOfBounds
  else match a !! Z.to_nat i with
       | Some x => Ret x
       | None => UB OutOfBounds
       end.

Definition store {A : Type} (a : list A) (i : Z) (x : A) : exec (list A) :=
  if (0 <=? i) && (i <? Z.of_nat (length a))
  then Ret (<[Z.to_nat i := x]> a)
  else UB OutOfBounds.

(** Conversion of a 64-bit unsigned value to [int] (two's complement). *)
Definition to_int (x : Z) : Z := (x + 2 ^ 31) mod 2 ^ 32 - 2 ^ 31.

(* ================================================================== *)
(** * Constants                                                         *)
(* ================================================================== *)

(** [bundle_types.h] *)
Definition BP_BUNDLE_HDR_BUF_SIZE : Z := 128.
Definition BP_DUPLICATE : Z := -100.
Definition BP_FULL : Z := -101.
Definition BP_PENDING_ACKNOWLEDGMENT : Z := -102.
Definition BP_PENDING_FORWARD : Z := -103.
Definition BP_PENDING_ACCEPTANCE : Z := -104.
Definition BP_PENDING_APPLICATION : Z := -105.
Definition BP_PENDING_EXPIRATION : Z := -106.

(** [v6.c] *)
Definition BP_NUM_EXCLUDE_REGIONS : Z := 16.

(** Modelled from the spec: the block type bytes, the block flag masks
    and the cipher suite identifiers are declared in the absent [v6.h] and
    [bib.h]; the design description gives their values (wire format, and
    the BIB layout). *)
Definition BP_PAY_BLK_TYPE : Z := 0x01.
Definition BP_CTEB_BLK_TYPE : Z := 0x0A.
Definition BP_BIB_BLK_TYPE : Z := 0x0D.
Definition BP_BLK_REPALL_MASK : Z := 0x01.
Definition BP_BLK_NOTIFYNOPROC_MASK : Z := 0x02.
Definition BP_BLK_DELETENOPROC_MASK : Z := 0x04.
Definition BP_BLK_LASTBLOCK_MASK : Z := 0x08.
Definition BP_BLK_DROPNOPROC_MASK : Z := 0x10.
Definition BP_BLK_FORWARDNOPROC_MASK : Z := 0x20.
Definition BP_BLK_EIDREF_MASK : Z := 0x40.
Definition BP_BIB_CRC16_X25 : Z := 0.
Definition BP_BIB_CRC32_CASTAGNOLI : Z := 1.

(** The constants of [bplib.h] (and the few of [v6.h], [bib.h] whose value
    the design description does not give), which is not part of the
    sources at hand.  Every definition below takes them as a parameter. *)
Record bplib_h : Type := {
  BP_SUCCESS : Z;
  BP_ERROR : Z;
  BP_TIMEOUT : Z;
  BP_SID_VACANT : Z;
  BP_MAX_INDEX : Z;
  BP_IPN_NULL : Z;
  BP_MAX_ENCODED_VALUE : Z;
  BP_TTL_CREATION_TIME : Z;
  BP_UNKNOWN_CREATION_TIME : Z;
  BP_BEST_EFFORT_LIFETIME : Z;
  BP_BIB_INTEGRITY_SIGNATURE : Z;
  BP_ACS_REC_TYPE : Z;
  BP_CS_REC_TYPE : Z;
  BP_STAT_REC_TYPE : Z;
  BP_FLAG_NONCOMPLIANT : Z;
  BP_FLAG_INCOMPLETE : Z;
  BP_FLAG_UNRELIABLE_TIME : Z;
  BP_FLAG_DROPPED : Z;
  BP_FLAG_FAILED_INTEGRITY_CHECK : Z;
  BP_FLAG_BUNDLE_TOO_LARGE : Z;
  BP_FLAG_ROUTE_NEEDED : Z;
  BP_FLAG_STORE_FAILURE : Z;
  BP_FLAG_SDNV_OVERFLOW : Z;
  BP_FLAG_SDNV_INCOMPLETE : Z;
  BP_FLAG_UNKNOWNREC : Z;
  BP_FLAG_INVALID_CIPHER_SUITEID : Z;
  BP_FLAG_INVALID_BIB_RESULT_TYPE : Z;
  BP_FLAG_INVALID_BIB_TARGET_TYPE : Z;
  BP_FLAG_FAILED_TO_PARSE : Z;
  BP_PRI_VERSION : Z;
  BP_DEFAULT_CLASS_OF_SERVICE : Z;
  BP_COS_EXPEDITED : Z;
  BP_COS_EXTENDED : Z;
  BP_MAX_EID_STRING : Z;
  BPLIB_GLOBAL_CUSTODY_ID : bool
}.

(** One assignment of the constants, used to run the definitions on
    concrete inputs: success is zero, errors are negative, every event
    flag is a bit of its own. *)
Definition bplib_h_example : bplib_h := {|
  BP_SUCCESS := 0;
  BP_ERROR := -1;
  BP_TIMEOUT := -2;
  BP_SID_VACANT := 0;
  BP_MAX_INDEX := 65535;
  BP_IPN_NULL := 0;
  BP_MAX_ENCODED_VALUE := 2 ^ 64 - 1;
  BP_TTL_CREATION_TIME := 0;
  BP_UNKNOWN_CREATION_TIME := 1;
  BP_BEST_EFFORT_LIFETIME := 1576800000;
  BP_BIB_INTEGRITY_SIGNATURE := 5;
  BP_ACS_REC_TYPE := 0x40;
  BP_CS_REC_TYPE := 0x20;
  BP_STAT_REC_TYPE := 0x10;
  BP_FLAG_NONCOMPLIANT := 0x0001;
  BP_FLAG_INCOMPLETE := 0x0002;
  BP_FLAG_UNRELIABLE_TIME := 0x0004;
  BP_FLAG_DROPPED := 0x0008;
  BP_FLAG_FAILED_INTEGRITY_CHECK := 0x0010;
  BP_FLAG_BUNDLE_TOO_LARGE := 0x0020;
  BP_FLAG_ROUTE_NEEDED := 0x0040;
  BP_FLAG_STORE_FAILURE := 0x0080;
  BP_FLAG_SDNV_OVERFLOW := 0x0200;
  BP_FLAG_SDNV_INCOMPLETE := 0x0400;
  BP_FLAG_UNKNOWNREC := 0x4000;
  BP_FLAG_INVALID_CIPHER_SUITEID := 0x8000;
  BP_FLAG_INVALID_BIB_RESULT_TYPE := 0x10000;
  BP_FLAG_INVALID_BIB_TARGET_TYPE := 0x20000;
  BP_FLAG_FAILED_TO_PARSE := 0x40000;
  BP_PRI_VERSION := 6;
  BP_DEFAULT_CLASS_OF_SERVICE := 1;
  BP_COS_EXPEDITED := 2;
  BP_COS_EXTENDED := 3;
  BP_MAX_EID_STRING := 128;
  BPLIB_GLOBAL_CUSTODY_ID := false
|}.

(** [bplog(flags, event, ...)] expands to [bplib_os_log] of [os/posix.c]:
    the text goes to the log; a non-zero event is OR-ed into the flags
    word and the call returns [BP_ERROR], a zero event returns
    [BP_SUCCESS].  The result is the pair (return value, flags). *)
Definition bplog (K : bplib_h) (flags event : Z) : Z * Z :=
  if 0 <? event then (BP_ERROR K, Z.lor flags event)
  else (BP_SUCCESS K, flags).

(* ================================================================== *)
(** * The active-bundle table ([common/cbuf.c])                         *)
(* ================================================================== *)

Module CBuf.

(** [bp_active_bundle_t] of [bundle_types.h]. *)
Record bp_active_bundle_t : Type := {
  sid : Z;   (* storage id *)
  retx : Z;  (* retransmit time *)
  cid : Z    (* custody id *)
}.

(** [cbuf_t].  The table is the array behind the [table] pointer; [None]
    is the NULL pointer. *)
Record cbuf_t : Type := {
  table : option (list bp_active_bundle_t);
  size : Z;
  num_entries : Z;
  newest_cid : Z;
  oldest_cid : Z
}.

Definition zero_bundle : bp_active_bundle_t := {| sid := 0; retx := 0; cid := 0 |}.

Section Ops.
Context (K : bplib_h).

(** [bp_index_t] holds the indices up to [BP_MAX_INDEX]. *)
Definition index_wrap (x : Z) : Z := x mod (BP_MAX_INDEX K + 1).

(** [cbuf_create].  [cur] is what [*cbuf] points to on entry ([None]: no
    structure there).  With [size > 0] the structure and then the table are
    allocated with [bplib_os_calloc], which returns zero-filled memory or
    NULL: [cbuf_mem] and [table_mem] tell whether the first and the second
    allocation succeed.  The structure pointer is not checked, so the
    assignment of [table] goes through NULL when the first allocation
    fails; a NULL table returns [BP_ERROR] and leaves the zero-filled
    structure in [*cbuf].  With [size = 0] the function allocates nothing
    and writes through [*cbuf] as it found it. *)
Definition cbuf_create (cbuf_mem table_mem : bool) (cur : option cbuf_t) (sz : Z)
  : exec (Z * option cbuf_t) :=
  if (sz <? 0) || (BP_MAX_INDEX K <? sz) then Ret (BP_ERROR K, cur)
  else
    let* c :=
      (if 0 <? sz
       then
         (if cbuf_mem
          then Ret {| table := (if table_mem
                                then Some (replicate (Z.to_nat sz) zero_bundle)
                                else None);
                      size := 0; num_entries := 0;
                      newest_cid := 0; oldest_cid := 0 |}
          else UB NullDeref)
       else match cur with
            | Some c0 => Ret {| table := None; size := size c0;
                                num_entries := num_entries c0;
                                newest_cid := newest_cid c0;
                                oldest_cid := oldest_cid c0 |}
            | None => UB NullDeref
            end) in
    match table c with
    | None => if 0 <? sz then Ret (BP_ERROR K, Some c)
              else Ret (BP_SUCCESS K,
                        Some {| table := None; size := sz; num_entries := 0;
                                newest_cid := 0; oldest_cid := 0 |})
    | Some t => Ret (BP_SUCCESS K,
                     Some {| table := Some t; size := sz; num_entries := 0;
                             newest_cid := 0; oldest_cid := 0 |})
    end.

(** [cbuf->table[ati]] and its assignment. *)
Definition slot_load (c : cbuf_t) (ati : Z) : exec bp_active_bundle_t :=
  match table c with
  | Some t => load t ati
  | None => UB NullDeref
  end.

Definition slot_store (c : cbuf_t) (ati : Z) (b : bp_active_bundle_t)
  : exec (option (list bp_active_bundle_t)) :=
  match table c with
  | Some t => let* t' := store t ati b in Ret (Some t')
  | None => UB NullDeref
  end.

(** [cbuf_add] *)
Definition cbuf_add (c : cbuf_t) (bundle : bp_active_bundle_t) (overwrite : bool)
  : exec (Z * cbuf_t) :=
  let* ati := umod (cid bundle) (size c) in
  let* slot := slot_load c ati in
  if negb overwrite && negb (sid slot =? BP_SID_VACANT K) && (cid slot =? cid bundle)
  then Ret (BP_DUPLICATE, c)
  else
    let* t := slot_store c ati bundle in
    Ret (BP_SUCCESS K,
         {| table := t; size := size c;
            num_entries := index_wrap (num_entries c + 1);
            newest_cid := if overwrite then newest_cid c else u64 (cid bundle + 1);
            oldest_cid := oldest_cid c |}).

(** [cbuf_next]: the loop, cut after [fuel] iterations. *)
Fixpoint cbuf_next_loop (fuel : nat) (c : cbuf_t)
  : exec (Z * cbuf_t * option bp_active_bundle_t) :=
  if oldest_cid c =? newest_cid c then Ret (BP_TIMEOUT K, c, None)
  else
    match fuel with
    | O => Fuel
    | S fuel' =>
        let* ati := umod (oldest_cid c) (size c) in
        let* slot := slot_load c ati in
        if sid slot =? BP_SID_VACANT K
        then cbuf_next_loop fuel'
               {| table := table c; size := size c; num_entries := num_entries c;
                  newest_cid := newest_cid c; oldest_cid := u64 (oldest_cid c + 1) |}
        else Ret (BP_SUCCESS K, c, Some slot)
    end.

(** The loop runs at most [newest_cid - oldest_cid] (modulo 2^64) times. *)
Definition cbuf_next (c : cbuf_t) : exec (Z * cbuf_t * option bp_active_bundle_t) :=
  cbuf_next_loop (Z.to_nat (u64 (newest_cid c - oldest_cid c))) c.

(** [cbuf_remove] *)
Definition cbuf_remove (c : cbuf_t) (cid0 : Z)
  : exec (Z * cbuf_t * option bp_active_bundle_t) :=
  let* ati := umod cid0 (size c) in
  let* slot := slot_load c ati in
  if negb (sid slot =? BP_SID_VACANT K) && (cid slot =? cid0)
  then
    (let* t := slot_store c ati
            {| sid := BP_SID_VACANT K; retx := retx slot; cid := cid slot |} in
     Ret (BP_SUCCESS K,
          {| table := t; size := size c;
             num_entries := index_wrap (num_entries c - 1);
             newest_cid := newest_cid c; oldest_cid := oldest_cid c |},
          Some slot))
  else Ret (BP_ERROR K, c, None).

(** [cbuf_available] *)
Definition cbuf_available (c : cbuf_t) (cid0 : Z) : exec Z :=
  let* ati := umod cid0 (size c) in
  let* slot := slot_load c ati in
  if sid slot =? BP_SID_VACANT K then Ret (BP_SUCCESS K) else Ret (BP_ERROR K).

(** [cbuf_count] *)
Definition cbuf_count (c : cbuf_t) : Z := num_entries c.

(** Sequences of table operations. *)
Inductive op : Type :=
| Add (bundle : bp_active_bundle_t) (overwrite : bool)
| Next
| Remove (cid0 : Z).

Definition step (c : cbuf_t) (o : op) : exec cbuf_t :=
  match o with
  | Add b ow => let* r := cbuf_add c b ow in Ret (snd r)
  | Next => let* r := cbuf_next c in Ret (snd (fst r))
  | Remove k => let* r := cbuf_remove c k in Ret (snd (fst r))
  end.

Fixpoint run (c : cbuf_t) (ops : list op) : exec cbuf_t :=
  match ops with
  | [] => Ret c
  | o :: ops' => let* c' := step c o in run c' ops'
  end.

(** The number of slots in use. *)
Definition occupied (c : cbuf_t) : Z :=
  Z.of_nat (length (filter (fun b => sid b <> BP_SID_VACANT K)
                           (default [] (table c)))).

(** Every slot in use holds a record that belongs there. *)
Definition slots_indexed (c : cbuf_t) : Prop :=
  forall (i : nat) (b : bp_active_bundle_t),
    default [] (table c) !! i = Some b -> sid b <> BP_SID_VACANT K ->
    cid b mod size c = Z.of_nat i.

End Ops.
End CBuf.

(* ================================================================== *)
(** * Bundle fields and blocks                                          *)
(* ================================================================== *)

(** [bp_field_t] of [bundle_types.h]: an SDNV field. *)
Record bp_field_t : Type := {
  value : Z;  (* value of field *)
  index : Z;  (* offset into memory block to write value *)
  width : Z   (* number of bytes in memory block value uses *)
}.

Definition field (v i w : Z) : bp_field_t := {| value := v; index := i; width := w |}.
Definition set_value (f : bp_field_t) (v : Z) : bp_field_t := field v (index f) (width f).
Definition set_index (f : bp_field_t) (i : Z) : bp_field_t := field (value f) i (width f).
Definition set_width (f : bp_field_t) (w : Z) : bp_field_t := field (value f) (index f) w.

(** The two CRC specifications of [crc.h]. *)
Inductive crc_parameters_t : Type :=
| BPLIB_CRC16_X25
| BPLIB_CRC32_CASTAGNOLI.

(** [bp_blk_bib_t] ([bib.h]), with the members that [bib.c] accesses.  The
    two members of [security_result_data] are kept apart: for a given
    cipher suite the code reads the member it wrote. *)
Record bp_blk_bib_t : Type := {
  bib_bf : bp_field_t;
  bib_blklen : bp_field_t;
  security_target_count : bp_field_t;
  security_target_type : Z;
  cipher_suite_id : bp_field_t;
  cipher_suite_flags : bp_field_t;
  compound_length : bp_field_t;
  security_result_type : Z;
  security_result_length : bp_field_t;
  crc16 : Z;
  crc32 : Z
}.

Definition with_bf (b : bp_blk_bib_t) (f : bp_field_t) : bp_blk_bib_t :=
  {| bib_bf := f; bib_blklen := bib_blklen b;
     security_target_count := security_target_count b;
     security_target_type := security_target_type b;
     cipher_suite_id := cipher_suite_id b;
     cipher_suite_flags := cipher_suite_flags b;
     compound_length := compound_length b;
     security_result_type := security_result_type b;
     security_result_length := security_result_length b;
     crc16 := crc16 b; crc32 := crc32 b |}.

Definition with_blklen (b : bp_blk_bib_t) (f : bp_field_t) : bp_blk_bib_t :=
  {| bib_bf := bib_bf b; bib_blklen := f;
     security_target_count := security_target_count b;
     security_target_type := security_target_type b;
     cipher_suite_id := cipher_suite_id b;
     cipher_suite_flags := cipher_suite_flags b;
     compound_length := compound_length b;
     security_result_type := security_result_type b;
     security_result_length := security_result_length b;
     crc16 := crc16 b; crc32 := crc32 b |}.

Definition with_target_count (b : bp_blk_bib_t) (f : bp_field_t) : bp_blk_bib_t :=
  {| bib_bf := bib_bf b; bib_blklen := bib_blklen b;
     security_target_count := f;
     security_target_type := security_target_type b;
     cipher_suite_id := cipher_suite_id b;
     cipher_suite_flags := cipher_suite_flags b;
     compound_length := compound_length b;
     security_result_type := security_result_type b;
     security_result_length := security_result_length b;
     crc16 := crc16 b; crc32 := crc32 b |}.

Definition with_target_type (b : bp_blk_bib_t) (t : Z) : bp_blk_bib_t :=
  {| bib_bf := bib_bf b; bib_blklen := bib_blklen b;
     security_target_count := security_target_count b;
     security_target_type := t;
     cipher_suite_id := cipher_suite_id b;
     cipher_suite_flags := cipher_suite_flags b;
     compound_length := compound_length b;
     security_result_type := security_result_type b;
     security_result_length := security_result_length b;
     crc16 := crc16 b; crc32 := crc32 b |}.

Definition with_suite_id (b : bp_blk_bib_t) (f : bp_field_t) : bp_blk_bib_t :=
  {| bib_bf := bib_bf b; bib_blklen := bib_blklen b;
     security_target_count := security_target_count b;
     security_target_type := security_target_type b;
     cipher_suite_id := f;
     cipher_suite_flags := cipher_suite_flags b;
     compound_length := compound_length b;
     security_result_type := security_result_type b;
     security_result_length := security_result_length b;
     crc16 := crc16 b; crc32 := crc32 b |}.

Definition with_suite_flags (b : bp_blk_bib_t) (f : bp_field_t) : bp_blk_bib_t :=
  {| bib_bf := bib_bf b; bib_blklen := bib_blklen b;
     security_target_count := security_target_count b;
     security_target_type := security_target_type b;
     cipher_suite_id := cipher_suite_id b;
     cipher_suite_flags := f;
     compound_length := compound_length b;
     security_result_type := security_result_type b;
     security_result_length := security_result_length b;
     crc16 := crc16 b; crc32 := crc32 b |}.

Definition with_compound_length (b : bp_blk_bib_t) (f : bp_field_t) : bp_blk_bib_t :=
  {| bib_bf := bib_bf b; bib_blklen := bib_blklen b;
     security_target_count := security_target_count b;
     security_target_type := security_target_type b;
     cipher_suite_id := cipher_suite_id b;
     cipher_suite_flags := cipher_suite_flags b;
     compound_length := f;
     security_result_type := security_result_type b;
     security_result_length := security_result_length b;
     crc16 := crc16 b; crc32 := crc32 b |}.

Definition with_result_type (b : bp_blk_bib_t) (t : Z) : bp_blk_bib_t :=
  {| bib_bf := bib_bf b; bib_blklen := bib_blklen b;
     security_target_count := security_target_count b;
     security_target_type := security_target_type b;
     cipher_suite_id := cipher_suite_id b;
     cipher_suite_flags := cipher_suite_flags b;
     compound_length := compound_length b;
     security_result_type := t;
     security_result_length := security_result_length b;
     crc16 := crc16 b; crc32 := crc32 b |}.

Definition with_result_length (b : bp_blk_bib_t) (f : bp_field_t) : bp_blk_bib_t :=
  {| bib_bf := bib_bf b; bib_blklen := bib_blklen b;
     security_target_count := security_target_count b;
     security_target_type := security_target_type b;
     cipher_suite_id := cipher_suite_id b;
     cipher_suite_flags := cipher_suite_flags b;
     compound_length := compound_length b;
     security_result_type := security_result_type b;
     security_result_length := f;
     crc16 := crc16 b; crc32 := crc32 b |}.

Definition with_crc16 (b : bp_blk_bib_t) (c : Z) : bp_blk_bib_t :=
  {| bib_bf := bib_bf b; bib_blklen := bib_blklen b;
     security_target_count := security_target_count b;
     security_target_type := security_target_type b;
     cipher_suite_id := cipher_suite_id b;
     cipher_suite_flags := cipher_suite_flags b;
     compound_length := compound_length b;
     security_result_type := security_result_type b;
     security_result_length := security_result_length b;
     crc16 := c; crc32 := crc32 b |}.

Definition with_crc32 (b : bp_blk_bib_t) (c : Z) : bp_blk_bib_t :=
  {| bib_bf := bib_bf b; bib_blklen := bib_blklen b;
     security_target_count := security_target_count b;
     security_target_type := security_target_type b;
     cipher_suite_id := cipher_suite_id b;
     cipher_suite_flags := cipher_suite_flags b;
     compound_length := compound_length b;
     security_result_type := security_result_type b;
     security_result_length := security_result_length b;
     crc16 := crc16 b; crc32 := c |}.

(** Assignments to the [width] and [index] members of the fields of a BIB:
    [bib->bf.width = 0] and the like for all seven fields, and
    [bib-><field>.index = i]. *)
Definition bib_clear_widths (bib : bp_blk_bib_t) : bp_blk_bib_t :=
  {| bib_bf := set_width (bib_bf bib) 0;
     bib_blklen := set_width (bib_blklen bib) 0;
     security_target_count := set_width (security_target_count bib) 0;
     security_target_type := security_target_type bib;
     cipher_suite_id := set_width (cipher_suite_id bib) 0;
     cipher_suite_flags := set_width (cipher_suite_flags bib) 0;
     compound_length := set_width (compound_length bib) 0;
     security_result_type := security_result_type bib;
     security_result_length := set_width (security_result_length bib) 0;
     crc16 := crc16 bib; crc32 := crc32 bib |}.

Definition at_bf (bib : bp_blk_bib_t) (i : Z) : bp_blk_bib_t :=
  with_bf bib (set_index (bib_bf bib) i).
Definition at_blklen (bib : bp_blk_bib_t) (i : Z) : bp_blk_bib_t :=
  with_blklen bib (set_index (bib_blklen bib) i).
Definition at_target_count (bib : bp_blk_bib_t) (i : Z) : bp_blk_bib_t :=
  with_target_count bib (set_index (security_target_count bib) i).
Definition at_suite_id (bib : bp_blk_bib_t) (i : Z) : bp_blk_bib_t :=
  with_suite_id bib (set_index (cipher_suite_id bib) i).
Definition at_suite_flags (bib : bp_blk_bib_t) (i : Z) : bp_blk_bib_t :=
  with_suite_flags bib (set_index (cipher_suite_flags bib) i).
Definition at_compound_length (bib : bp_blk_bib_t) (i : Z) : bp_blk_bib_t :=
  with_compound_length bib (set_index (compound_length bib) i).
Definition at_result_length (bib : bp_blk_bib_t) (i : Z) : bp_blk_bib_t :=
  with_result_length bib (set_index (security_result_length bib) i).

(* ================================================================== *)
(** * The bundle integrity block ([v6/bib.c])                           *)
(* ================================================================== *)

Section Bib.
Context (K : bplib_h).

(** The SDNV codec of the absent [sdnv.c].  [sdnv_read block size sdnv
    flags] gives the return value, the field as the call leaves it and the
    flags word; [sdnv_write block size sdnv flags] gives the return value,
    the block as the call leaves it and the flags word. *)
Variable sdnv_read : list Z -> Z -> bp_field_t -> Z -> Z * bp_field_t * Z.
Variable sdnv_write : list Z -> Z -> bp_field_t -> Z -> Z * list Z * Z.

(** [bplib_crc_get data length params] of the absent [crc.c]. *)
Variable bplib_crc_get : list Z -> Z -> crc_parameters_t -> Z.

Definition write_crc16 (crc : Z) (buffer : list Z) (at_ : Z) : exec (list Z) :=
  let* b := store buffer at_ (Z.land (Z.shiftr crc 8) 0xFF) in
  store b (at_ + 1) (Z.land crc 0xFF).

Definition write_crc32 (crc : Z) (buffer : list Z) (at_ : Z) : exec (list Z) :=
  let* b := store buffer at_ (Z.land (Z.shiftr crc 24) 0xFF) in
  let* b := store b (at_ + 1) (Z.land (Z.shiftr crc 16) 0xFF) in
  let* b := store b (at_ + 2) (Z.land (Z.shiftr crc 8) 0xFF) in
  store b (at_ + 3) (Z.land crc 0xFF).

Definition read_crc16 (buffer : list Z) (at_ : Z) : exec Z :=
  let* b0 := load buffer at_ in
  let* b1 := load buffer (at_ + 1) in
  let crc := u16 (Z.lor 0 (Z.shiftl (u16 b0) 8)) in
  Ret (u16 (Z.lor crc (u16 b1))).

Definition read_crc32 (buffer : list Z) (at_ : Z) : exec Z :=
  let* b0 := load buffer at_ in
  let* b1 := load buffer (at_ + 1) in
  let* b2 := load buffer (at_ + 2) in
  let* b3 := load buffer (at_ + 3) in
  let crc := Z.lor 0 (u32 (Z.shiftl (u32 b0) 24)) in
  let crc := Z.lor crc (u32 (Z.shiftl (u32 b1) 16)) in
  let crc := Z.lor crc (u32 (Z.shiftl (u32 b2) 8)) in
  Ret (Z.lor crc (u32 b3)).

(** [return bplog(flags, event, ...)] in a function that also leaves a
    structure [s] behind: return value, structure, flags word. *)
Definition bplog_ret {S : Type} (flags event : Z) (s : S) : Z * S * Z :=
  (fst (bplog K flags event), s, snd (bplog K flags event)).

(** [bib_init] *)
Definition bib_init : Z := BP_SUCCESS K.

(** ** [bib_read] *)

(** "Read Block": the two branches on [update_indices].  [inl] is the
    early return on a block that ends before one of the two type bytes;
    [inr] carries [bytes_read], the block structure and [sdnvflags]. *)
Definition bib_read_block (buffer : list Z) (size : Z) (bib : bp_blk_bib_t)
    (update_indices : bool) (flags : Z)
  : exec ((Z * bp_blk_bib_t * Z) + (Z * bp_blk_bib_t * Z)) :=
  let sdnvflags := 0 in
  if negb update_indices then
    let '(_, f, sdnvflags) := sdnv_read buffer size (bib_bf bib) sdnvflags in
    let bib := with_bf bib f in
    let '(_, f, sdnvflags) := sdnv_read buffer size (bib_blklen bib) sdnvflags in
    let bib := with_blklen bib f in
    let '(bytes_read, f, sdnvflags) :=
      sdnv_read buffer size (security_target_count bib) sdnvflags in
    let bib := with_target_count bib f in
    if size <? bytes_read + 1
    then Ret (inl (bplog_ret flags (BP_FLAG_FAILED_TO_PARSE K) bib))
    else
      let* t := load buffer bytes_read in
      let bib := with_target_type bib t in
      let '(_, f, sdnvflags) := sdnv_read buffer size (cipher_suite_id bib) sdnvflags in
      let bib := with_suite_id bib f in
      let '(_, f, sdnvflags) := sdnv_read buffer size (cipher_suite_flags bib) sdnvflags in
      let bib := with_suite_flags bib f in
      let '(bytes_read, f, sdnvflags) :=
        sdnv_read buffer size (compound_length bib) sdnvflags in
      let bib := with_compound_length bib f in
      if size <? bytes_read + 1
      then Ret (inl (bplog_ret flags (BP_FLAG_FAILED_TO_PARSE K) bib))
      else
        let* t := load buffer bytes_read in
        let bib := with_result_type bib t in
        let '(bytes_read, f, sdnvflags) :=
          sdnv_read buffer size (security_result_length bib) sdnvflags in
        let bib := with_result_length bib f in
        Ret (inr (bytes_read, bib, sdnvflags))
  else
    let bib := bib_clear_widths bib in
    let bib := at_bf bib 1 in
    let '(r, f, sdnvflags) := sdnv_read buffer size (bib_bf bib) sdnvflags in
    let bib := with_bf bib f in
    let bib := at_blklen bib r in
    let '(r, f, sdnvflags) := sdnv_read buffer size (bib_blklen bib) sdnvflags in
    let bib := with_blklen bib f in
    let bib := at_target_count bib r in
    let '(bytes_read, f, sdnvflags) :=
      sdnv_read buffer size (security_target_count bib) sdnvflags in
    let bib := with_target_count bib f in
    if size <? bytes_read + 1
    then Ret (inl (bplog_ret flags (BP_FLAG_FAILED_TO_PARSE K) bib))
    else
      let* t := load buffer bytes_read in
      let bib := with_target_type bib t in
      let bib := at_suite_id bib (bytes_read + 1) in
      let '(r, f, sdnvflags) := sdnv_read buffer size (cipher_suite_id bib) sdnvflags in
      let bib := with_suite_id bib f in
      let bib := at_suite_flags bib r in
      let '(r, f, sdnvflags) := sdnv_read buffer size (cipher_suite_flags bib) sdnvflags in
      let bib := with_suite_flags bib f in
      let bib := at_compound_length bib r in
      let '(bytes_read, f, sdnvflags) :=
        sdnv_read buffer size (compound_length bib) sdnvflags in
      let bib := with_compound_length bib f in
      if size <? bytes_read + 1
      then Ret (inl (bplog_ret flags (BP_FLAG_FAILED_TO_PARSE K) bib))
      else
        let* t := load buffer bytes_read in
        let bib := with_result_type bib t in
        let bib :=
          at_result_length bib (bytes_read + 1) in
        let '(bytes_read, f, sdnvflags) :=
          sdnv_read buffer size (security_result_length bib) sdnvflags in
        let bib := with_result_length bib f in
        Ret (inr (bytes_read, bib, sdnvflags)).

(** "Read Integrity Check" and "Success Oriented Error Checking". *)
Definition bib_read_check (buffer : list Z) (size bytes_read : Z)
    (bib : bp_blk_bib_t) (sdnvflags flags : Z) : exec (Z * bp_blk_bib_t * Z) :=
  let finish (bytes_read : Z) (bib : bp_blk_bib_t) :=
    if negb (sdnvflags =? 0)
    then Ret (bplog_ret (Z.lor flags sdnvflags) (BP_FLAG_FAILED_TO_PARSE K) bib)
    else Ret (bytes_read, bib, flags) in
  let fail (event : Z) := Ret (bplog_ret flags event bib) in
  if negb (security_target_type bib =? BP_PAY_BLK_TYPE)
  then fail (BP_FLAG_INVALID_BIB_TARGET_TYPE K)
  else if negb (security_result_type bib =? BP_BIB_INTEGRITY_SIGNATURE K)
  then fail (BP_FLAG_INVALID_BIB_RESULT_TYPE K)
  else if value (cipher_suite_id bib) =? BP_BIB_CRC16_X25
  then
    if negb (value (security_result_length bib) =? 2) || (size <? bytes_read + 2)
    then fail (BP_FLAG_FAILED_TO_PARSE K)
    else (let* c := read_crc16 buffer bytes_read in
          finish (bytes_read + 2) (with_crc16 bib c))
  else if value (cipher_suite_id bib) =? BP_BIB_CRC32_CASTAGNOLI
  then
    if negb (value (security_result_length bib) =? 4) || (size <? bytes_read + 4)
    then fail (BP_FLAG_FAILED_TO_PARSE K)
    else (let* c := read_crc32 buffer bytes_read in
          finish (bytes_read + 4) (with_crc32 bib c))
  else fail (BP_FLAG_INVALID_CIPHER_SUITEID K).

(** [bib_read block size bib update_indices flags]: the return value, the
    block structure and the flags word as the call leaves them. *)
Definition bib_read (buffer : list Z) (size : Z) (bib : bp_blk_bib_t)
    (update_indices : bool) (flags : Z) : exec (Z * bp_blk_bib_t * Z) :=
  if size <? 1
  then Ret (bplog_ret flags (BP_FLAG_FAILED_TO_PARSE K) bib)
  else
    let* b0 := load buffer 0 in
    if negb (b0 =? BP_BIB_BLK_TYPE)
    then Ret (bplog_ret flags (BP_FLAG_FAILED_TO_PARSE K) bib)
    else
      let* blk := bib_read_block buffer size bib update_indices flags in
      match blk with
      | inl early => Ret early
      | inr (bytes_read, bib', sdnvflags) =>
          bib_read_check buffer size bytes_read bib' sdnvflags flags
      end.

(** ** [bib_write] *)

(** "Write Block": the fields of the block in either layout, after the
    type byte.  [inl] is the early return for lack of room; [inr] carries
    [bytes_written], the block memory and structure, and [sdnvflags]. *)
Definition bib_write_fields (buffer : list Z) (size : Z) (bib : bp_blk_bib_t)
    (update_indices : bool) (flags : Z)
  : exec ((Z * (list Z * bp_blk_bib_t) * Z) + (Z * list Z * bp_blk_bib_t * Z)) :=
  let sdnvflags := 0 in
    (if negb update_indices then
       let '(_, buffer, sdnvflags) := sdnv_write buffer size (bib_bf bib) sdnvflags in
       let '(_, buffer, sdnvflags) := sdnv_write buffer size (bib_blklen bib) sdnvflags in
       let '(bytes_written, buffer, sdnvflags) :=
         sdnv_write buffer size (security_target_count bib) sdnvflags in
       if size <? bytes_written + 1
       then Ret (inl (bplog_ret flags (BP_FLAG_FAILED_TO_PARSE K) (buffer, bib)))
       else
         let* buffer := store buffer bytes_written (security_target_type bib) in
         let '(_, buffer, sdnvflags) :=
           sdnv_write buffer size (cipher_suite_id bib) sdnvflags in
         let '(_, buffer, sdnvflags) :=
           sdnv_write buffer size (cipher_suite_flags bib) sdnvflags in
         let '(bytes_written, buffer, sdnvflags) :=
           sdnv_write buffer size (compound_length bib) sdnvflags in
         if size <? bytes_written + 1
         then Ret (inl (bplog_ret flags (BP_FLAG_FAILED_TO_PARSE K) (buffer, bib)))
         else
           let* buffer := store buffer bytes_written (security_result_type bib) in
           let '(bytes_written, buffer, sdnvflags) :=
             sdnv_write buffer size (security_result_length bib) sdnvflags in
           Ret (inr (bytes_written, buffer, bib, sdnvflags))
     else
       let bib := bib_clear_widths bib in
       let bib := at_bf bib 1 in
       let '(r, buffer, sdnvflags) := sdnv_write buffer size (bib_bf bib) sdnvflags in
       let bib := at_blklen bib r in
       let '(r, buffer, sdnvflags) := sdnv_write buffer size (bib_blklen bib) sdnvflags in
       let bib := at_target_count bib r in
       let '(bytes_written, buffer, sdnvflags) :=
         sdnv_write buffer size (security_target_count bib) sdnvflags in
       if size <? bytes_written + 1
       then Ret (inl (bplog_ret flags (BP_FLAG_FAILED_TO_PARSE K) (buffer, bib)))
       else
         let* buffer := store buffer bytes_written (security_target_type bib) in
         let bib := at_suite_id bib (bytes_written + 1) in
         let '(r, buffer, sdnvflags) :=
           sdnv_write buffer size (cipher_suite_id bib) sdnvflags in
         let bib := at_suite_flags bib r in
         let '(r, buffer, sdnvflags) :=
           sdnv_write buffer size (cipher_suite_flags bib) sdnvflags in
         let bib := at_compound_length bib r in
         let '(bytes_written, buffer, sdnvflags) :=
           sdnv_write buffer size (compound_length bib) sdnvflags in
         if size <? bytes_written + 1
         then Ret (inl (bplog_ret flags (BP_FLAG_FAILED_TO_PARSE K) (buffer, bib)))
         else
           let* buffer := store buffer bytes_written (security_result_type bib) in
           let bib :=
             at_result_length bib (bytes_written + 1) in
           let '(bytes_written, buffer, sdnvflags) :=
             sdnv_write buffer size (security_result_length bib) sdnvflags in
           Ret (inr (bytes_written, buffer, bib, sdnvflags))).

(** "Write Block" to the end of the function: the block type byte, the
    fields, the CRC, the block length jammed in last.  [bib] already
    carries the lengths and block flags to encode. *)
Definition bib_write_block (buffer : list Z) (size : Z) (bib : bp_blk_bib_t)
    (update_indices : bool) (flags : Z)
  : exec (Z * (list Z * bp_blk_bib_t) * Z) :=
  let* buffer := store buffer 0 BP_BIB_BLK_TYPE in
  let* body := bib_write_fields buffer size bib update_indices flags in
  match body with
  | inl early => Ret early
  | inr (bytes_written, buffer, bib, sdnvflags) =>
      (* Write Integrity Check *)
      let* crc :=
        (if value (cipher_suite_id bib) =? BP_BIB_CRC16_X25
         then (let* b := write_crc16 (crc16 bib) buffer bytes_written in
               Ret (b, bytes_written + 2))
         else if value (cipher_suite_id bib) =? BP_BIB_CRC32_CASTAGNOLI
         then (let* b := write_crc32 (crc32 bib) buffer bytes_written in
               Ret (b, bytes_written + 4))
         else Ret (buffer, bytes_written)) in
      let '(buffer, bytes_written) := crc in
      (* Jam Block Length *)
      let bib :=
        with_blklen bib
          (set_value (bib_blklen bib)
             (u64 (bytes_written - index (security_target_count bib)))) in
      let '(_, buffer, sdnvflags) := sdnv_write buffer size (bib_blklen bib) sdnvflags in
      (* Success Oriented Error Checking *)
      if negb (sdnvflags =? 0)
      then Ret (BP_ERROR K, (buffer, bib), Z.lor flags sdnvflags)
      else Ret (bytes_written, (buffer, bib), flags)
  end.

(** "Update BIB Lengths" for a supported cipher suite. *)
Definition bib_set_lengths (bib : bp_blk_bib_t) (compound result : Z) : bp_blk_bib_t :=
  with_result_length
    (with_compound_length bib (set_value (compound_length bib) compound))
    (set_value (security_result_length bib) result).

(** "Set Block Flags": [bib->bf.value |= BP_BLK_REPALL_MASK]. *)
Definition bib_set_flags (bib : bp_blk_bib_t) : bp_blk_bib_t :=
  with_bf bib (set_value (bib_bf bib) (Z.lor (value (bib_bf bib)) BP_BLK_REPALL_MASK)).

(** [bib_write block size bib update_indices flags]: the return value, the
    block memory and structure, and the flags word as the call leaves
    them. *)
Definition bib_write (buffer : list Z) (size : Z) (bib : bp_blk_bib_t)
    (update_indices : bool) (flags : Z)
  : exec (Z * (list Z * bp_blk_bib_t) * Z) :=
  (* Check Parameters *)
  if size <? 1
  then Ret (bplog_ret flags (BP_FLAG_FAILED_TO_PARSE K) (buffer, bib))
  else if negb (security_target_type bib =? BP_PAY_BLK_TYPE)
  then Ret (bplog_ret flags (BP_FLAG_INVALID_BIB_TARGET_TYPE K) (buffer, bib))
  else if negb (security_result_type bib =? BP_BIB_INTEGRITY_SIGNATURE K)
  then Ret (bplog_ret flags (BP_FLAG_INVALID_BIB_RESULT_TYPE K) (buffer, bib))
  (* Update BIB Lengths *)
  else if value (cipher_suite_id bib) =? BP_BIB_CRC16_X25
  then bib_write_block buffer size (bib_set_flags (bib_set_lengths bib 4 2))
         update_indices flags
  else if value (cipher_suite_id bib) =? BP_BIB_CRC32_CASTAGNOLI
  then bib_write_block buffer size (bib_set_flags (bib_set_lengths bib 6 4))
         update_indices flags
  else Ret (bplog_ret flags (BP_FLAG_INVALID_CIPHER_SUITEID K) (buffer, bib)).

(** ** [bib_update] *)

(** [bib_update block size payload payload_size bib flags].  [payload] is
    the memory from the payload pointer on. *)
Definition bib_update (buffer : list Z) (size : Z) (payload : list Z)
    (payload_size : Z) (bib : bp_blk_bib_t) (flags : Z)
  : exec (Z * (list Z * bp_blk_bib_t) * Z) :=
  let srl := security_result_length bib in
  (* Check Size *)
  let room_needed := to_int (u64 (index srl + width srl + value srl)) in
  if size <? room_needed
  then Ret (bplog_ret flags (BP_FLAG_FAILED_TO_PARSE K) (buffer, bib))
  (* Calculate and Write Fragment Payload CRC *)
  else if value (cipher_suite_id bib) =? BP_BIB_CRC16_X25
  then
    let bib := with_crc16 bib (u16 (bplib_crc_get payload payload_size BPLIB_CRC16_X25)) in
    let* buffer := write_crc16 (crc16 bib) buffer (index srl + width srl) in
    Ret (BP_SUCCESS K, (buffer, bib), flags)
  else if value (cipher_suite_id bib) =? BP_BIB_CRC32_CASTAGNOLI
  then
    let bib :=
      with_crc32 bib (u32 (bplib_crc_get payload payload_size BPLIB_CRC32_CASTAGNOLI)) in
    let* buffer := write_crc32 (crc32 bib) buffer (index srl + width srl) in
    Ret (BP_SUCCESS K, (buffer, bib), flags)
  else Ret (bplog_ret flags (BP_FLAG_INVALID_CIPHER_SUITEID K) (buffer, bib)).

(** ** [bib_verify] *)

(** [bib_verify payload payload_size bib flags]: return value and flags. *)
Definition bib_verify (payload : list Z) (payload_size : Z) (bib : bp_blk_bib_t)
    (flags : Z) : Z * Z :=
  if value (cipher_suite_id bib) =? BP_BIB_CRC16_X25
  then
    let crc := u16 (bplib_crc_get payload payload_size BPLIB_CRC16_X25) in
    if negb (crc16 bib =? crc)
    then bplog K flags (BP_FLAG_FAILED_INTEGRITY_CHECK K)
    else (BP_SUCCESS K, flags)
  else if value (cipher_suite_id bib) =? BP_BIB_CRC32_CASTAGNOLI
  then
    let crc := u32 (bplib_crc_get payload payload_size BPLIB_CRC32_CASTAGNOLI) in
    if negb (crc32 bib =? crc)
    then bplog K flags (BP_FLAG_FAILED_INTEGRITY_CHECK K)
    else (BP_SUCCESS K, flags)
  else bplog K flags (BP_FLAG_INVALID_CIPHER_SUITEID K).

End Bib.

(* ================================================================== *)
(** * Bundles ([lib/bundle_types.h], and the blocks of [v6/v6.c])       *)
(* ================================================================== *)

(** [bp_blk_pri_t] ([pri.h]): the members that the initialiser
    [bundle_pri_blk] of [v6.c] names. *)
Record bp_blk_pri_t : Type := {
  version : Z;
  pcf : bp_field_t;
  pri_blklen : bp_field_t;
  dstnode : bp_field_t;
  dstserv : bp_field_t;
  srcnode : bp_field_t;
  srcserv : bp_field_t;
  rptnode : bp_field_t;
  rptserv : bp_field_t;
  cstnode : bp_field_t;
  cstserv : bp_field_t;
  createsec : bp_field_t;
  createseq : bp_field_t;
  lifetime : bp_field_t;
  dictlen : bp_field_t;
  fragoffset : bp_field_t;
  paylen : bp_field_t;
  is_admin_rec : bool;
  is_frag : bool;
  allow_frag : bool;
  cst_rqst : bool;
  ack_app : bool;
  cos : Z
}.

Definition with_rptnode (x : bp_blk_pri_t) (v : bp_field_t) : bp_blk_pri_t :=
  {| version := version x; pcf := pcf x; pri_blklen := pri_blklen x;
     dstnode := dstnode x; dstserv := dstserv x; srcnode := srcnode x;
     srcserv := srcserv x; rptnode := v; rptserv := rptserv x; cstnode := cstnode x;
     cstserv := cstserv x; createsec := createsec x; createseq := createseq x;
     lifetime := lifetime x; dictlen := dictlen x; fragoffset := fragoffset x;
     paylen := paylen x; is_admin_rec := is_admin_rec x; is_frag := is_frag x;
     allow_frag := allow_frag x; cst_rqst := cst_rqst x; ack_app := ack_app x;
     cos := cos x |}.

Definition with_rptserv (x : bp_blk_pri_t) (v : bp_field_t) : bp_blk_pri_t :=
  {| version := version x; pcf := pcf x; pri_blklen := pri_blklen x;
     dstnode := dstnode x; dstserv := dstserv x; srcnode := srcnode x;
     srcserv := srcserv x; rptnode := rptnode x; rptserv := v; cstnode := cstnode x;
     cstserv := cstserv x; createsec := createsec x; createseq := createseq x;
     lifetime := lifetime x; dictlen := dictlen x; fragoffset := fragoffset x;
     paylen := paylen x; is_admin_rec := is_admin_rec x; is_frag := is_frag x;
     allow_frag := allow_frag x; cst_rqst := cst_rqst x; ack_app := ack_app x;
     cos := cos x |}.

Definition with_cstnode (x : bp_blk_pri_t) (v : bp_field_t) : bp_blk_pri_t :=
  {| version := version x; pcf := pcf x; pri_blklen := pri_blklen x;
     dstnode := dstnode x; dstserv := dstserv x; srcnode := srcnode x;
     srcserv := srcserv x; rptnode := rptnode x; rptserv := rptserv x; cstnode := v;
     cstserv := cstserv x; createsec := createsec x; createseq := createseq x;
     lifetime := lifetime x; dictlen := dictlen x; fragoffset := fragoffset x;
     paylen := paylen x; is_admin_rec := is_admin_rec x; is_frag := is_frag x;
     allow_frag := allow_frag x; cst_rqst := cst_rqst x; ack_app := ack_app x;
     cos := cos x |}.

Definition with_cstserv (x : bp_blk_pri_t) (v : bp_field_t) : bp_blk_pri_t :=
  {| version := version x; pcf := pcf x; pri_blklen := pri_blklen x;
     dstnode := dstnode x; dstserv := dstserv x; srcnode := srcnode x;
     srcserv := srcserv x; rptnode := rptnode x; rptserv := rptserv x;
     cstnode := cstnode x; cstserv := v; createsec := createsec x;
     createseq := createseq x; lifetime := lifetime x; dictlen := dictlen x;
     fragoffset := fragoffset x; paylen := paylen x; is_admin_rec := is_admin_rec x;
     is_frag := is_frag x; allow_frag := allow_frag x; cst_rqst := cst_rqst x;
     ack_app := ack_app x; cos := cos x |}.

Definition with_createsec (x : bp_blk_pri_t) (v : bp_field_t) : bp_blk_pri_t :=
  {| version := version x; pcf := pcf x; pri_blklen := pri_blklen x;
     dstnode := dstnode x; dstserv := dstserv x; srcnode := srcnode x;
     srcserv := srcserv x; rptnode := rptnode x; rptserv := rptserv x;
     cstnode := cstnode x; cstserv := cstserv x; createsec := v;
     createseq := createseq x; lifetime := lifetime x; dictlen := dictlen x;
     fragoffset := fragoffset x; paylen := paylen x; is_admin_rec := is_admin_rec x;
     is_frag := is_frag x; allow_frag := allow_frag x; cst_rqst := cst_rqst x;
     ack_app := ack_app x; cos := cos x |}.

Definition with_createseq (x : bp_blk_pri_t) (v : bp_field_t) : bp_blk_pri_t :=
  {| version := version x; pcf := pcf x; pri_blklen := pri_blklen x;
     dstnode := dstnode x; dstserv := dstserv x; srcnode := srcnode x;
     srcserv := srcserv x; rptnode := rptnode x; rptserv := rptserv x;
     cstnode := cstnode x; cstserv := cstserv x; createsec := createsec x;
     createseq := v; lifetime := lifetime x; dictlen := dictlen x;
     fragoffset := fragoffset x; paylen := paylen x; is_admin_rec := is_admin_rec x;
     is_frag := is_frag x; allow_frag := allow_frag x; cst_rqst := cst_rqst x;
     ack_app := ack_app x; cos := cos x |}.

Definition with_fragoffset (x : bp_blk_pri_t) (v : bp_field_t) : bp_blk_pri_t :=
  {| version := version x; pcf := pcf x; pri_blklen := pri_blklen x;
     dstnode := dstnode x; dstserv := dstserv x; srcnode := srcnode x;
     srcserv := srcserv x; rptnode := rptnode x; rptserv := rptserv x;
     cstnode := cstnode x; cstserv := cstserv x; createsec := createsec x;
     createseq := createseq x; lifetime := lifetime x; dictlen := dictlen x;
     fragoffset := v; paylen := paylen x; is_admin_rec := is_admin_rec x;
     is_frag := is_frag x; allow_frag := allow_frag x; cst_rqst := cst_rqst x;
     ack_app := ack_app x; cos := cos x |}.

Definition with_paylen (x : bp_blk_pri_t) (v : bp_field_t) : bp_blk_pri_t :=
  {| version := version x; pcf := pcf x; pri_blklen := pri_blklen x;
     dstnode := dstnode x; dstserv := dstserv x; srcnode := srcnode x;
     srcserv := srcserv x; rptnode := rptnode x; rptserv := rptserv x;
     cstnode := cstnode x; cstserv := cstserv x; createsec := createsec x;
     createseq := createseq x; lifetime := lifetime x; dictlen := dictlen x;
     fragoffset := fragoffset x; paylen := v; is_admin_rec := is_admin_rec x;
     is_frag := is_frag x; allow_frag := allow_frag x; cst_rqst := cst_rqst x;
     ack_app := ack_app x; cos := cos x |}.

Definition with_is_frag (x : bp_blk_pri_t) (v : bool) : bp_blk_pri_t :=
  {| version := version x; pcf := pcf x; pri_blklen := pri_blklen x;
     dstnode := dstnode x; dstserv := dstserv x; srcnode := srcnode x;
     srcserv := srcserv x; rptnode := rptnode x; rptserv := rptserv x;
     cstnode := cstnode x; cstserv := cstserv x; createsec := createsec x;
     createseq := createseq x; lifetime := lifetime x; dictlen := dictlen x;
     fragoffset := fragoffset x; paylen := paylen x; is_admin_rec := is_admin_rec x;
     is_frag := v; allow_frag := allow_frag x; cst_rqst := cst_rqst x;
     ack_app := ack_app x; cos := cos x |}.

(** [bp_blk_cteb_t] ([cteb.h]); [csteid] is the custodian EID string. *)
Record bp_blk_cteb_t : Type := {
  cteb_bf : bp_field_t;
  cteb_blklen : bp_field_t;
  cteb_cid : bp_field_t;
  csteid : list Z;
  cteb_cstnode : Z;
  cteb_cstserv : Z
}.

(** [bp_blk_pay_t] ([pay.h]); [payptr] is the memory from the payload
    pointer on (empty for NULL). *)
Record bp_blk_pay_t : Type := {
  pay_bf : bp_field_t;
  pay_blklen : bp_field_t;
  payptr : list Z;
  paysize : Z
}.

Definition with_pay_blklen (x : bp_blk_pay_t) (v : bp_field_t) : bp_blk_pay_t :=
  {| pay_bf := pay_bf x; pay_blklen := v; payptr := payptr x; paysize := paysize x |}.

Definition with_payptr (x : bp_blk_pay_t) (v : list Z) : bp_blk_pay_t :=
  {| pay_bf := pay_bf x; pay_blklen := pay_blklen x; payptr := v;
     paysize := paysize x |}.

Definition with_paysize (x : bp_blk_pay_t) (v : Z) : bp_blk_pay_t :=
  {| pay_bf := pay_bf x; pay_blklen := pay_blklen x; payptr := payptr x;
     paysize := v |}.

(** [bp_v6blocks_t] of [v6.c]. *)
Record bp_v6blocks_t : Type := {
  primary_block : bp_blk_pri_t;
  custody_block : bp_blk_cteb_t;
  integrity_block : bp_blk_bib_t;
  payload_block : bp_blk_pay_t
}.

Definition with_primary_block (x : bp_v6blocks_t) (v : bp_blk_pri_t) : bp_v6blocks_t :=
  {| primary_block := v; custody_block := custody_block x;
     integrity_block := integrity_block x; payload_block := payload_block x |}.

Definition with_custody_block (x : bp_v6blocks_t) (v : bp_blk_cteb_t) : bp_v6blocks_t :=
  {| primary_block := primary_block x; custody_block := v;
     integrity_block := integrity_block x; payload_block := payload_block x |}.

Definition with_integrity_block (x : bp_v6blocks_t) (v : bp_blk_bib_t) : bp_v6blocks_t :=
  {| primary_block := primary_block x; custody_block := custody_block x;
     integrity_block := v; payload_block := payload_block x |}.

Definition with_payload_block (x : bp_v6blocks_t) (v : bp_blk_pay_t) : bp_v6blocks_t :=
  {| primary_block := primary_block x; custody_block := custody_block x;
     integrity_block := integrity_block x; payload_block := v |}.

(** [bp_route_t] ([bplib.h]): the members that [v6.c] accesses. *)
Record bp_route_t : Type := {
  local_node : Z;
  local_service : Z;
  destination_node : Z;
  destination_service : Z;
  report_node : Z;
  report_service : Z
}.

(** [bp_attr_t] ([bplib.h]): the members that [v6.c] accesses. *)
Record bp_attr_t : Type := {
  attr_lifetime : Z;
  request_custody : bool;
  admin_record : bool;
  integrity_check : bool;
  allow_fragmentation : bool;
  ignore_expiration : bool;
  cipher_suite : Z;
  class_of_service : Z;
  max_length : Z
}.

(** [bp_bundle_data_t] of [bundle_types.h]. *)
Record bp_bundle_data_t : Type := {
  exprtime : Z;
  cidfield : bp_field_t;
  cteboffset : Z;
  biboffset : Z;
  payoffset : Z;
  headersize : Z;
  bundlesize : Z;
  header : list Z
}.

Definition with_exprtime (x : bp_bundle_data_t) (v : Z) : bp_bundle_data_t :=
  {| exprtime := v; cidfield := cidfield x; cteboffset := cteboffset x;
     biboffset := biboffset x; payoffset := payoffset x; headersize := headersize x;
     bundlesize := bundlesize x; header := header x |}.

Definition with_cidfield (x : bp_bundle_data_t) (v : bp_field_t) : bp_bundle_data_t :=
  {| exprtime := exprtime x; cidfield := v; cteboffset := cteboffset x;
     biboffset := biboffset x; payoffset := payoffset x; headersize := headersize x;
     bundlesize := bundlesize x; header := header x |}.

Definition with_cteboffset (x : bp_bundle_data_t) (v : Z) : bp_bundle_data_t :=
  {| exprtime := exprtime x; cidfield := cidfield x; cteboffset := v;
     biboffset := biboffset x; payoffset := payoffset x; headersize := headersize x;
     bundlesize := bundlesize x; header := header x |}.

Definition with_biboffset (x : bp_bundle_data_t) (v : Z) : bp_bundle_data_t :=
  {| exprtime := exprtime x; cidfield := cidfield x; cteboffset := cteboffset x;
     biboffset := v; payoffset := payoffset x; headersize := headersize x;
     bundlesize := bundlesize x; header := header x |}.

Definition with_payoffset (x : bp_bundle_data_t) (v : Z) : bp_bundle_data_t :=
  {| exprtime := exprtime x; cidfield := cidfield x; cteboffset := cteboffset x;
     biboffset := biboffset x; payoffset := v; headersize := headersize x;
     bundlesize := bundlesize x; header := header x |}.

Definition with_headersize (x : bp_bundle_data_t) (v : Z) : bp_bundle_data_t :=
  {| exprtime := exprtime x; cidfield := cidfield x; cteboffset := cteboffset x;
     biboffset := biboffset x; payoffset := payoffset x; headersize := v;
     bundlesize := bundlesize x; header := header x |}.

Definition with_bundlesize (x : bp_bundle_data_t) (v : Z) : bp_bundle_data_t :=
  {| exprtime := exprtime x; cidfield := cidfield x; cteboffset := cteboffset x;
     biboffset := biboffset x; payoffset := payoffset x; headersize := headersize x;
     bundlesize := v; header := header x |}.

Definition with_header (x : bp_bundle_data_t) (v : list Z) : bp_bundle_data_t :=
  {| exprtime := exprtime x; cidfield := cidfield x; cteboffset := cteboffset x;
     biboffset := biboffset x; payoffset := payoffset x; headersize := headersize x;
     bundlesize := bundlesize x; header := v |}.

(** [bp_bundle_t] of [bundle_types.h]; [blocks] is the structure that
    [v6_create] allocated. *)
Record bp_bundle_t : Type := {
  route : bp_route_t;
  attributes : bp_attr_t;
  data : bp_bundle_data_t;
  prebuilt : bool;
  blocks : bp_v6blocks_t
}.

Definition with_data (x : bp_bundle_t) (v : bp_bundle_data_t) : bp_bundle_t :=
  {| route := route x; attributes := attributes x; data := v; prebuilt := prebuilt x;
     blocks := blocks x |}.

Definition with_prebuilt (x : bp_bundle_t) (v : bool) : bp_bundle_t :=
  {| route := route x; attributes := attributes x; data := data x; prebuilt := v;
     blocks := blocks x |}.

Definition with_blocks (x : bp_bundle_t) (v : bp_v6blocks_t) : bp_bundle_t :=
  {| route := route x; attributes := attributes x; data := data x;
     prebuilt := prebuilt x; blocks := v |}.

(** [bp_payload_data_t] of [bundle_types.h]. *)
Record bp_payload_data_t : Type := {
  pl_exprtime : Z;
  ackapp : bool;
  payloadsize : Z
}.

(** [bp_payload_t] of [bundle_types.h]. *)
Record bp_payload_t : Type := {
  pl_cid : Z;
  node : Z;
  service : Z;
  pl_data : bp_payload_data_t;
  memptr : list Z
}.

Definition with_pl_cid (x : bp_payload_t) (v : Z) : bp_payload_t :=
  {| pl_cid := v; node := node x; service := service x; pl_data := pl_data x;
     memptr := memptr x |}.

Definition with_node (x : bp_payload_t) (v : Z) : bp_payload_t :=
  {| pl_cid := pl_cid x; node := v; service := service x; pl_data := pl_data x;
     memptr := memptr x |}.

Definition with_service (x : bp_payload_t) (v : Z) : bp_payload_t :=
  {| pl_cid := pl_cid x; node := node x; service := v; pl_data := pl_data x;
     memptr := memptr x |}.

Definition with_pl_data (x : bp_payload_t) (v : bp_payload_data_t) : bp_payload_t :=
  {| pl_cid := pl_cid x; node := node x; service := service x; pl_data := v;
     memptr := memptr x |}.

Definition with_memptr (x : bp_payload_t) (v : list Z) : bp_payload_t :=
  {| pl_cid := pl_cid x; node := node x; service := service x; pl_data := pl_data x;
     memptr := v |}.


(** One call of the storage collaborator [create(parm, is_record, payload,
    size, timeout)]; [cc_payload] is the memory from the pointer on. *)
Record create_call : Type := {
  cc_is_record : bool;
  cc_payload : list Z;
  cc_size : Z;
  cc_timeout : Z
}.

(** Pointer arithmetic [&mem[off]], and the memory around a pointer once
    the callee has written through it. *)
Definition ptr_at (mem : list Z) (off : Z) : exec (list Z) :=
  if (off <? 0) || (Z.of_nat (length mem) <? off) then UB OutOfBounds
  else Ret (drop (Z.to_nat off) mem).

Definition splice (mem : list Z) (off : Z) (sub : list Z) : list Z :=
  take (Z.to_nat off) mem ++ sub.

(** [memcpy(&dst[at_], src, n)] *)
Definition memcpy (dst : list Z) (at_ : Z) (src : list Z) (n : Z) : exec (list Z) :=
  if (n <? 0) || (at_ <? 0) || (Z.of_nat (length src) <? n)
     || (Z.of_nat (length dst) <? at_ + n)
  then UB OutOfBounds
  else Ret (take (Z.to_nat at_) dst ++ take (Z.to_nat n) src
              ++ drop (Z.to_nat (at_ + n)) dst).

(* ================================================================== *)
(** * The clock ([os/posix.c])                                          *)
(* ================================================================== *)

Definition UNIX_SECS_AT_2000 : Z := 946684800.

(** A reading of the clock: [now.tv_sec] as [clock_gettime] gives it, and
    [prevnow.tv_sec] as the previous call left it. *)
Record os_clock : Type := {
  now_sec : Z;
  prevnow_sec : Z
}.

(** [bplib_os_systime]: the status and the seconds stored in [*sysnow]. *)
Definition bplib_os_systime (K : bplib_h) (clk : os_clock) : Z * Z :=
  let elapsed_secs := u64 (now_sec clk - UNIX_SECS_AT_2000) in
  let previous_secs := u64 (prevnow_sec clk - UNIX_SECS_AT_2000) in
  let status :=
    if (now_sec clk <? UNIX_SECS_AT_2000) || (elapsed_secs <? previous_secs)
    then BP_ERROR K else BP_SUCCESS K in
  (status, elapsed_secs).

(** ** [bplib_os_strnlen] *)

(** The loop of [bplib_os_strnlen], from [len] on; a string is the array
    of its characters. *)
Fixpoint strnlen_loop (fuel : nat) (str : list Z) (len maxlen : Z) : exec Z :=
  if len <? maxlen then
    match fuel with
    | O => Fuel
    | S fuel' =>
        let* c := load str len in
        if c =? 0 then Ret len else strnlen_loop fuel' str (len + 1) maxlen
    end
  else Ret maxlen.

(** The loop runs at most [maxlen] times. *)
Definition bplib_os_strnlen (str : list Z) (maxlen : Z) : exec Z :=
  strnlen_loop (Z.to_nat maxlen) str 0 maxlen.

(* ================================================================== *)
(** * Building and sending bundles ([v6/v6.c])                          *)
(* ================================================================== *)

Section V6.
Context (K : bplib_h).

(** The codecs of the absent [sdnv.c], [pri.c], [cteb.c], [pay.c] and
    [crc.c], and [bplib_ipn2eid].  A reader gives its return value, the
    block structure and the flags word as the call leaves them; a writer
    gives its return value, the memory and the block structure, and the
    flags word. *)
Variable sdnv_read : list Z -> Z -> bp_field_t -> Z -> Z * bp_field_t * Z.
Variable sdnv_write : list Z -> Z -> bp_field_t -> Z -> Z * list Z * Z.
Variable sdnv_mask : bp_field_t -> bp_field_t.
Variable bplib_crc_get : list Z -> Z -> crc_parameters_t -> Z.
Variable pri_read : list Z -> Z -> bool -> Z -> Z * bp_blk_pri_t * Z.
Variable cteb_read : list Z -> Z -> bool -> Z -> Z * bp_blk_cteb_t * Z.
Variable pay_read : list Z -> Z -> bool -> Z -> Z * bp_blk_pay_t * Z.
Variable pri_write :
  list Z -> Z -> bp_blk_pri_t -> bool -> Z -> Z * (list Z * bp_blk_pri_t) * Z.
Variable cteb_write :
  list Z -> Z -> bp_blk_cteb_t -> bool -> Z -> Z * (list Z * bp_blk_cteb_t) * Z.
Variable pay_write :
  list Z -> Z -> bp_blk_pay_t -> bool -> Z -> Z * (list Z * bp_blk_pay_t) * Z.
Variable bplib_ipn2eid : Z -> Z -> Z -> list Z.

(** The storage collaborator: the status of a call, given the calls made
    before it. *)
Variable create : list create_call -> create_call -> Z.

(** ** File data *)

Definition bundle_pri_blk : bp_blk_pri_t := {|
  version := BP_PRI_VERSION K;
  pcf := field 0 1 3;
  pri_blklen := field 0 4 1;
  dstnode := field 0 5 4;
  dstserv := field 0 9 2;
  srcnode := field 0 11 4;
  srcserv := field 0 15 2;
  rptnode := field 0 17 4;
  rptserv := field 0 21 2;
  cstnode := field 0 23 4;
  cstserv := field 0 27 2;
  createsec := field 0 29 6;
  createseq := field 0 35 2;
  lifetime := field 0 37 6;
  dictlen := field 0 43 1;
  fragoffset := field 0 44 4;
  paylen := field 0 48 4;
  is_admin_rec := false;
  is_frag := false;
  allow_frag := false;
  cst_rqst := true;
  ack_app := false;
  cos := BP_DEFAULT_CLASS_OF_SERVICE K
|}.

Definition bundle_cteb_blk : bp_blk_cteb_t := {|
  cteb_bf := field 0 1 1;
  cteb_blklen := field 0 2 1;
  cteb_cid := field 0 3 4;
  csteid := [0];
  cteb_cstnode := 0;
  cteb_cstserv := 0
|}.

Definition bundle_bib_blk : bp_blk_bib_t := {|
  bib_bf := field 0 1 1;
  bib_blklen := field 0 2 4;
  security_target_count := field 1 6 1;
  security_target_type := BP_PAY_BLK_TYPE;
  cipher_suite_id := field 0 8 1;
  cipher_suite_flags := field 0 9 1;
  compound_length := field 0 10 1;
  security_result_type := BP_BIB_INTEGRITY_SIGNATURE K;
  security_result_length := field 0 12 1;
  crc16 := 0;
  crc32 := 0
|}.

Definition bundle_pay_blk : bp_blk_pay_t := {|
  pay_bf := field 0 1 1;
  pay_blklen := field 0 2 4;
  payptr := [];
  paysize := 0
|}.

(** [memset(data, 0, sizeof(bp_bundle_data_t))] *)
Definition zero_data : bp_bundle_data_t := {|
  exprtime := 0;
  cidfield := field 0 0 0;
  cteboffset := 0;
  biboffset := 0;
  payoffset := 0;
  headersize := 0;
  bundlesize := 0;
  header := replicate (Z.to_nat BP_BUNDLE_HDR_BUF_SIZE) 0
|}.

(** ** [v6_build] *)

(** The primary block that the library provides when the caller gives none. *)
Definition library_pri_blk (bundle : bp_bundle_t) (custody_service : Z) : bp_blk_pri_t :=
  let r := route bundle in
  let a := attributes bundle in
  {| version := version bundle_pri_blk;
     pcf := pcf bundle_pri_blk;
     pri_blklen := pri_blklen bundle_pri_blk;
     dstnode := set_value (dstnode bundle_pri_blk) (destination_node r);
     dstserv := set_value (dstserv bundle_pri_blk) (destination_service r);
     srcnode := set_value (srcnode bundle_pri_blk) (local_node r);
     srcserv := set_value (srcserv bundle_pri_blk) (local_service r);
     rptnode := set_value (rptnode bundle_pri_blk) (report_node r);
     rptserv := set_value (rptserv bundle_pri_blk) (report_service r);
     cstnode := set_value (cstnode bundle_pri_blk)
                  (if request_custody a then local_node r else 0);
     cstserv := set_value (cstserv bundle_pri_blk)
                  (if request_custody a then custody_service else 0);
     createsec := createsec bundle_pri_blk;
     createseq := createseq bundle_pri_blk;
     lifetime := set_value (lifetime bundle_pri_blk) (attr_lifetime a);
     dictlen := dictlen bundle_pri_blk;
     fragoffset := fragoffset bundle_pri_blk;
     paylen := paylen bundle_pri_blk;
     is_admin_rec := admin_record a;
     is_frag := is_frag bundle_pri_blk;
     allow_frag := allow_fragmentation a;
     cst_rqst := request_custody a;
     ack_app := ack_app bundle_pri_blk;
     cos := if BP_COS_EXPEDITED K <? u32 (class_of_service a)
            then BP_COS_EXTENDED K else class_of_service a |}.

(** [v6_build bundle pri hdr_buf hdr_len flags]: the return value, the
    bundle and the flags word as the call leaves them. *)
Definition v6_build (bundle : bp_bundle_t) (pri : option bp_blk_pri_t)
    (hdr_buf : list Z) (hdr_len : Z) (flags : Z) : exec (Z * bp_bundle_t * Z) :=
  let custody_service :=
    if BPLIB_GLOBAL_CUSTODY_ID K then 0 else local_service (route bundle) in
  (* Initialize Data Storage Memory *)
  let hdr_index := 0 in
  let bundle := with_data bundle zero_data in
  (* Initialize Primary Block *)
  let bundle :=
    match pri with
    | Some p =>
        with_prebuilt (with_blocks bundle (with_primary_block (blocks bundle) p)) false
    | None =>
        with_prebuilt
          (with_blocks bundle
             (with_primary_block (blocks bundle) (library_pri_blk bundle custody_service)))
          true
    end in
  (* Write Primary Block *)
  let '(bytes_written, (hdr, p), flags) :=
    pri_write (header (data bundle)) BP_BUNDLE_HDR_BUF_SIZE
      (primary_block (blocks bundle)) false flags in
  let bundle :=
    with_blocks (with_data bundle (with_header (data bundle) hdr))
      (with_primary_block (blocks bundle) p) in
  if bytes_written <? 0
  then Ret (bplog_ret K flags (BP_FLAG_FAILED_TO_PARSE K) bundle)
  else
    let hdr_index := hdr_index + bytes_written in
    (* Write Custody Block *)
    let* custody :=
      (if cst_rqst (primary_block (blocks bundle)) then
         let cteb :=
           {| cteb_bf := cteb_bf bundle_cteb_blk;
              cteb_blklen := cteb_blklen bundle_cteb_blk;
              cteb_cid := set_value (cteb_cid bundle_cteb_blk) 0;
              csteid := bplib_ipn2eid (BP_MAX_EID_STRING K)
                          (local_node (route bundle)) custody_service;
              cteb_cstnode := cteb_cstnode bundle_cteb_blk;
              cteb_cstserv := cteb_cstserv bundle_cteb_blk |} in
         let d := with_cteboffset (with_cidfield (data bundle) (cteb_cid cteb)) hdr_index in
         let* sub := ptr_at (header d) hdr_index in
         let '(bytes_written, (sub, cteb), flags) :=
           cteb_write sub (BP_BUNDLE_HDR_BUF_SIZE - hdr_index) cteb false flags in
         let bundle :=
           with_blocks (with_data bundle (with_header d (splice (header d) hdr_index sub)))
             (with_custody_block (blocks bundle) cteb) in
         Ret (bytes_written, bundle, flags)
       else Ret (0, with_data bundle (with_cteboffset (data bundle) 0), flags)) in
    let '(bytes_written, bundle, flags) := custody in
    if bytes_written <? 0
    then Ret (bplog_ret K flags (BP_FLAG_FAILED_TO_PARSE K) bundle)
    else
      let hdr_index := hdr_index + bytes_written in
      (* Write Integrity Block *)
      let* integrity :=
        (if integrity_check (attributes bundle) then
           let bib :=
             with_suite_id bundle_bib_blk
               (set_value (cipher_suite_id bundle_bib_blk)
                  (cipher_suite (attributes bundle))) in
           let d := with_biboffset (data bundle) hdr_index in
           let* sub := ptr_at (header d) hdr_index in
           let* w :=
             bib_write K sdnv_write sub (BP_BUNDLE_HDR_BUF_SIZE - hdr_index) bib false flags in
           let '(bytes_written, (sub, bib), flags) := w in
           let bundle :=
             with_blocks
               (with_data bundle (with_header d (splice (header d) hdr_index sub)))
               (with_integrity_block (blocks bundle) bib) in
           Ret (bytes_written, bundle, flags)
         else Ret (0, with_data bundle (with_biboffset (data bundle) 0), flags)) in
      let '(bytes_written, bundle, flags) := integrity in
      if bytes_written <? 0
      then Ret (bplog_ret K flags (BP_FLAG_FAILED_TO_PARSE K) bundle)
      else
        let hdr_index := hdr_index + bytes_written in
        (* Copy Non-excluded Header Regions *)
        if hdr_index + hdr_len <? BP_BUNDLE_HDR_BUF_SIZE
        then
          let* hdr := memcpy (header (data bundle)) hdr_index hdr_buf hdr_len in
          let hdr_index := hdr_index + hdr_len in
          (* Initialize Payload Block and its offset *)
          let bundle :=
            with_blocks
              (with_data bundle (with_payoffset (with_header (data bundle) hdr) hdr_index))
              (with_payload_block (blocks bundle) bundle_pay_blk) in
          Ret (BP_SUCCESS K, bundle, flags)
        else Ret (bplog_ret K flags (BP_FLAG_BUNDLE_TOO_LARGE K) bundle).

(** [v6_populate_bundle] *)
Definition v6_populate_bundle (bundle : bp_bundle_t) (flags : Z)
  : exec (Z * bp_bundle_t * Z) :=
  v6_build bundle None [] 0 flags.

(** ** [v6_is_expired] *)

Definition v6_is_expired (bundle : bp_bundle_t) (sysnow exprtime : Z) (unrelt : bool)
  : bool :=
  negb unrelt
  && negb (ignore_expiration (attributes bundle))
  && negb (exprtime =? BP_UNKNOWN_CREATION_TIME K)
  && negb (exprtime =? BP_TTL_CREATION_TIME K)
  && (exprtime <=? sysnow).

(** ** [v6_send_bundle] *)

(** "Set Expiration Time of Bundle": the expiration time and the flags. *)
Definition send_exprtime (createsec lifetime flags : Z) : Z * Z :=
  if createsec =? BP_TTL_CREATION_TIME K
  then (BP_TTL_CREATION_TIME K, flags)
  else if createsec =? BP_UNKNOWN_CREATION_TIME K
  then (BP_UNKNOWN_CREATION_TIME K, flags)
  else
    let exprtime := u64 (createsec + lifetime) in
    if exprtime <? createsec
    then (* Rollover Detected *)
      (BP_MAX_ENCODED_VALUE K, snd (bplog K flags (BP_FLAG_SDNV_OVERFLOW K)))
    else (exprtime, flags).

(** "Check if Time Needs to be Set": the bundle, the lifetime to use and
    the flags. *)
Definition send_set_time (clk : os_clock) (bundle : bp_bundle_t) (flags : Z)
  : bp_bundle_t * bp_field_t * Z :=
  let pri := primary_block (blocks bundle) in
  let lifetime := lifetime pri in
  if prebuilt bundle then
    let '(st, sysnow) := bplib_os_systime K clk in
    let '(pri, lifetime, hdr, flags) :=
      if st =? BP_ERROR K then
        (* Unreliable Time Detected *)
        let flags := snd (bplog K flags (BP_FLAG_UNRELIABLE_TIME K)) in
        let pri := with_createsec pri (set_value (createsec pri) (BP_UNKNOWN_CREATION_TIME K)) in
        let lifetime := set_value lifetime (BP_BEST_EFFORT_LIFETIME K) in
        let '(_, hdr, flags) :=
          sdnv_write (header (data bundle)) BP_BUNDLE_HDR_BUF_SIZE lifetime flags in
        (pri, lifetime, hdr, flags)
      else
        (with_createsec pri (set_value (createsec pri) sysnow), lifetime,
         header (data bundle), flags) in
    (* Set Creation Time and Sequence *)
    let '(_, hdr, flags) := sdnv_write hdr BP_BUNDLE_HDR_BUF_SIZE (createsec pri) flags in
    let '(_, hdr, flags) := sdnv_write hdr BP_BUNDLE_HDR_BUF_SIZE (createseq pri) flags in
    (with_blocks (with_data bundle (with_header (data bundle) hdr))
       (with_primary_block (blocks bundle) pri),
     lifetime, flags)
  else (bundle, lifetime, flags).

(** One turn of the "Enqueue Bundle" loop either ends the function or
    hands the payload offset, the bundle, the flags and the calls of the
    storage collaborator to the next turn. *)
Inductive tx_step : Type :=
| TxReturn (r : Z * bp_bundle_t * Z * list create_call)
| TxContinue (payload_offset : Z) (bundle : bp_bundle_t) (flags : Z)
             (calls : list create_call).

(** The body of [while (payload_offset < pay->paysize)]. *)
Definition send_fragment (max_paysize timeout payload_offset : Z)
    (bundle : bp_bundle_t) (flags : Z) (calls : list create_call) : exec tx_step :=
  let pay := payload_block (blocks bundle) in
  (* Calculate Storage Header Size and Fragment Size *)
  let payload_remaining := paysize pay - payload_offset in
  let fragment_size :=
    if max_paysize <? payload_remaining then max_paysize else payload_remaining in
  (* Update Primary Block Fragmentation *)
  let pri := primary_block (blocks bundle) in
  let '(bundle, flags) :=
    if is_frag pri then
      let pri := with_fragoffset pri (set_value (fragoffset pri) (u64 payload_offset)) in
      let pri := with_paylen pri (set_value (paylen pri) (u64 (paysize pay))) in
      let '(_, hdr, flags) :=
        sdnv_write (header (data bundle)) BP_BUNDLE_HDR_BUF_SIZE (fragoffset pri) flags in
      let '(_, hdr, flags) :=
        sdnv_write hdr BP_BUNDLE_HDR_BUF_SIZE (paylen pri) flags in
      (with_blocks (with_data bundle (with_header (data bundle) hdr))
         (with_primary_block (blocks bundle) pri), flags)
    else (bundle, flags) in
  (* Update Integrity Block *)
  let* upd :=
    (if negb (biboffset (data bundle) =? 0) then
       let d := data bundle in
       let* sub := ptr_at (header d) (biboffset d) in
       let* frag := ptr_at (payptr pay) payload_offset in
       let* u :=
         bib_update K bplib_crc_get sub (BP_BUNDLE_HDR_BUF_SIZE - biboffset d)
           frag fragment_size (integrity_block (blocks bundle)) flags in
       let '(_, (sub, bib), flags) := u in
       Ret (with_blocks
              (with_data bundle (with_header d (splice (header d) (biboffset d) sub)))
              (with_integrity_block (blocks bundle) bib), flags)
     else Ret (bundle, flags)) in
  let '(bundle, flags) := upd in
  (* Write Payload Block (static portion) *)
  let pay := with_pay_blklen pay (set_value (pay_blklen pay) (u64 fragment_size)) in
  let d := data bundle in
  let* sub := ptr_at (header d) (payoffset d) in
  let '(bytes_written, (sub, pay), flags) :=
    pay_write sub (BP_BUNDLE_HDR_BUF_SIZE - payoffset d) pay false flags in
  let bundle :=
    with_blocks (with_data bundle (with_header d (splice (header d) (payoffset d) sub)))
      (with_payload_block (blocks bundle) pay) in
  if bytes_written <? 0
  then
    (let '(r, fl) := bplog K flags (BP_FLAG_FAILED_TO_PARSE K) in
     Ret (TxReturn (r, bundle, fl, calls)))
  else
    let d := data bundle in
    let d := with_headersize d (payoffset d + bytes_written) in
    let d := with_bundlesize d (headersize d + fragment_size) in
    let bundle := with_data bundle d in
    (* Enqueue Bundle *)
    let* frag := ptr_at (payptr pay) payload_offset in
    let call :=
      {| cc_is_record := is_admin_rec (primary_block (blocks bundle));
         cc_payload := frag; cc_size := fragment_size; cc_timeout := timeout |} in
    let status := create calls call in
    let calls := calls ++ [call] in
    if negb (status =? BP_SUCCESS K)
    then
      (let '(r, fl) := bplog K flags (BP_FLAG_STORE_FAILURE K) in
       Ret (TxReturn (r, bundle, fl, calls)))
    else Ret (TxContinue (payload_offset + fragment_size) bundle flags calls).

(** "Enqueue Bundle": the loop, cut after [fuel] turns.  The result is the
    early return value if any, the bundle, the flags and the calls of the
    storage collaborator. *)
Fixpoint send_loop (fuel : nat) (max_paysize timeout payload_offset : Z)
    (bundle : bp_bundle_t) (flags : Z) (calls : list create_call)
  : exec (option Z * bp_bundle_t * Z * list create_call) :=
  if payload_offset <? paysize (payload_block (blocks bundle)) then
    match fuel with
    | O => Fuel
    | S fuel' =>
        let* s := send_fragment max_paysize timeout payload_offset bundle flags calls in
        match s with
        | TxReturn (r, bundle, flags, calls) => Ret (Some r, bundle, flags, calls)
        | TxContinue payload_offset bundle flags calls =>
            send_loop fuel' max_paysize timeout payload_offset bundle flags calls
        end
    end
  else Ret (None, bundle, flags, calls).

(** "Check Fragmentation": [inl] is the early return (value and flags),
    [inr] the bundle to go on with. *)
Definition send_check (bundle : bp_bundle_t) (max_paysize flags : Z)
  : (Z * Z) + bp_bundle_t :=
  if max_paysize <? paysize (payload_block (blocks bundle)) then
    if allow_fragmentation (attributes bundle)
    then inr (with_blocks bundle
                (with_primary_block (blocks bundle)
                   (with_is_frag (primary_block (blocks bundle)) true)))
    else inl (bplog K flags (BP_FLAG_BUNDLE_TOO_LARGE K))
  else if max_paysize <=? 0
  then inl (bplog K flags (BP_FLAG_BUNDLE_TOO_LARGE K))
  else inr bundle.

(** [v6_send_bundle bundle buffer size create parm timeout flags], with the
    clock reading [clk]: the return value, the bundle, the flags word and
    the fragments handed to the storage collaborator. *)
Definition v6_send_bundle (fuel : nat) (clk : os_clock) (bundle : bp_bundle_t)
    (buffer : list Z) (size timeout flags : Z)
  : exec (Z * bp_bundle_t * Z * list create_call) :=
  (* Update Payload Block *)
  let pay := with_paysize (with_payptr (payload_block (blocks bundle)) buffer) size in
  let bundle := with_blocks bundle (with_payload_block (blocks bundle) pay) in
  (* Check Fragmentation *)
  let max_paysize := max_length (attributes bundle) - headersize (data bundle) in
  match send_check bundle max_paysize flags with
  | inl (r, fl) => Ret (r, bundle, fl, [])
  | inr bundle =>
      (* Check if Time Needs to be Set *)
      let '(bundle, lifetime, flags) := send_set_time clk bundle flags in
      (* Set Expiration Time of Bundle *)
      let '(e, flags) :=
        send_exprtime (value (createsec (primary_block (blocks bundle))))
          (value lifetime) flags in
      let bundle := with_data bundle (with_exprtime (data bundle) e) in
      (* Enqueue Bundle *)
      let* l := send_loop fuel max_paysize timeout 0 bundle flags [] in
      let '(early, bundle, flags, calls) := l in
      match early with
      | Some r => Ret (r, bundle, flags, calls)
      | None =>
          (* Increment Sequence Count *)
          let bundle :=
            if prebuilt bundle then
              let pri := primary_block (blocks bundle) in
              let pri :=
                with_createseq pri
                  (sdnv_mask (set_value (createseq pri) (u64 (value (createseq pri) + 1)))) in
              with_blocks bundle (with_primary_block (blocks bundle) pri)
            else bundle in
          Ret (BP_SUCCESS K, bundle, flags, calls)
      end
  end.

(** ** [v6_receive_bundle] *)

(** "Calculate Bundle's Expiration Time": the expiration time and the
    flags. *)
Definition receive_exprtime (createsec lifetime flags : Z) : Z * Z :=
  let exprtime := u64 (createsec + lifetime) in
  if createsec =? BP_UNKNOWN_CREATION_TIME K
  then (BP_UNKNOWN_CREATION_TIME K, flags)
  else if createsec =? BP_TTL_CREATION_TIME K
  then (BP_TTL_CREATION_TIME K, flags)
  else if exprtime <? createsec
  then (BP_MAX_ENCODED_VALUE K, snd (bplog K flags (BP_FLAG_SDNV_OVERFLOW K)))
  else (exprtime, flags).

(** [exclude[ei++] = x]: the list holds the [ei] entries in use of the
    array [int exclude[BP_NUM_EXCLUDE_REGIONS]]. *)
Definition exclude_push (exclude : list Z) (x : Z) : exec (list Z) :=
  if Z.of_nat (length exclude) <? BP_NUM_EXCLUDE_REGIONS
  then Ret (exclude ++ [x])
  else UB ExcludeOverrun.

(** What [v6_receive_bundle] leaves behind: the bundle, the payload and
    the received buffer (which the function writes to). *)
Definition rx_out : Type := (bp_bundle_t * bp_payload_t * list Z)%type.

(** The local variables of the block loop. *)
Record rx_t : Type := {
  rx_status : Z;
  rx_index : Z;
  rx_exclude : list Z;
  rx_cteb_present : bool;
  rx_cteb_blk : bp_blk_cteb_t;
  rx_bib_present : bool;
  rx_bib_blk : bp_blk_bib_t;
  rx_buffer : list Z;
  rx_flags : Z
}.

(** "Copy Non-excluded Header Regions": the loop
    [for (i = 1; (i + 1) < ei; i += 2)] over [exclude[i], exclude[i + 1]],
    given the entries from [exclude[1]] on.  [None]: the regions exceed
    the header buffer. *)
Fixpoint copy_regions (gaps : list Z) (buffer hdr_buf : list Z) (hdr_index : Z)
  : exec (option (list Z * Z)) :=
  match gaps with
  | start_index :: stop_index :: rest =>
      let bytes_to_copy := stop_index - start_index in
      if BP_BUNDLE_HDR_BUF_SIZE <=? hdr_index + bytes_to_copy
      then Ret None
      else
        let* src := ptr_at buffer start_index in
        let* hdr_buf := memcpy hdr_buf hdr_index src bytes_to_copy in
        copy_regions rest buffer hdr_buf (hdr_index + bytes_to_copy)
  | _ => Ret (Some (hdr_buf, hdr_index))
  end.

(** "Handle Custody Request" of the forwarding branch. *)
Definition forward_custody (bundle : bp_bundle_t) (pri_blk : bp_blk_pri_t) : bp_blk_pri_t :=
  if cst_rqst pri_blk then
    let p := with_rptnode pri_blk (set_value (rptnode pri_blk) 0) in
    let p := with_rptserv p (set_value (rptserv p) 0) in
    let p := with_cstnode p (set_value (cstnode p) (local_node (route bundle))) in
    with_cstserv p (set_value (cstserv p) (local_service (route bundle)))
  else pri_blk.

(** "Handle Custody Transfer", shared by forwarding and acceptance: the
    status on entry is [pending]. *)
Definition custody_transfer (pending : Z) (pri_blk : bp_blk_pri_t) (cteb_present : bool)
    (cteb_blk : bp_blk_cteb_t) (payload : bp_payload_t) (flags : Z)
  : Z * bp_payload_t * Z :=
  let payload := with_service (with_node payload (BP_IPN_NULL K)) (BP_IPN_NULL K) in
  if cst_rqst pri_blk then
    if cteb_present
    then (pending,
          with_pl_cid
            (with_service (with_node payload (cteb_cstnode cteb_blk)) (cteb_cstserv cteb_blk))
            (value (cteb_cid cteb_blk)),
          flags)
    else bplog_ret K flags (BP_FLAG_NONCOMPLIANT K) payload
  else (pending, payload, flags).

(** The forwarding branch (destination node is not the local node). *)
Definition receive_forward (bundle : bp_bundle_t) (pri_blk : bp_blk_pri_t)
    (exclude buffer : list Z) (cteb_present : bool) (cteb_blk : bp_blk_cteb_t)
    (payload : bp_payload_t) (flags : Z) : exec (Z * rx_out * Z) :=
  (* Handle Custody Request *)
  let pri_blk := forward_custody bundle pri_blk in
  (* Copy Non-excluded Header Regions *)
  let hdr_buf := replicate (Z.to_nat BP_BUNDLE_HDR_BUF_SIZE) 0 in
  let* copied := copy_regions (drop 1 exclude) buffer hdr_buf 0 in
  match copied with
  | None => Ret (bplog_ret K flags (BP_FLAG_BUNDLE_TOO_LARGE K) (bundle, payload, buffer))
  | Some (hdr_buf, hdr_index) =>
      (* Initialize Forwarded Bundle *)
      let* b := v6_build bundle (Some pri_blk) hdr_buf hdr_index flags in
      let '(status, bundle, flags) := b in
      if status =? BP_SUCCESS K
      then
        let '(status, payload, flags) :=
          custody_transfer BP_PENDING_FORWARD pri_blk cteb_present cteb_blk payload flags in
        Ret (status, (bundle, payload, buffer), flags)
      else Ret (status, (bundle, payload, buffer), flags)
  end.

(** "Process Payload": the disposition of a bundle whose payload block
    has been read, at [index] the first byte after the payload header. *)
Definition receive_dispose (bundle : bp_bundle_t) (pri_blk : bp_blk_pri_t) (index : Z)
    (exclude buffer : list Z) (cteb_present : bool) (cteb_blk : bp_blk_cteb_t)
    (payload : bp_payload_t) (flags : Z) : exec (Z * rx_out * Z) :=
  if negb (value (dstnode pri_blk) =? local_node (route bundle))
  then receive_forward bundle pri_blk exclude buffer cteb_present cteb_blk payload flags
  else if negb (value (dstserv pri_blk) =? 0)
          && negb (value (dstserv pri_blk) =? local_service (route bundle))
  then Ret (bplog_ret K flags (BP_FLAG_ROUTE_NEEDED K) (bundle, payload, buffer))
  else if is_admin_rec pri_blk
  then
    (* Administrative Record *)
    let* rec_type := load buffer index in
    if rec_type =? BP_ACS_REC_TYPE K
    then
      Ret (BP_PENDING_ACKNOWLEDGMENT,
           (bundle,
            with_service (with_node payload (value (cstnode pri_blk)))
              (value (cstserv pri_blk)),
            buffer),
           flags)
    else if rec_type =? BP_CS_REC_TYPE K
    then Ret (bplog_ret K flags (BP_FLAG_NONCOMPLIANT K) (bundle, payload, buffer))
    else if rec_type =? BP_STAT_REC_TYPE K
    then Ret (bplog_ret K flags (BP_FLAG_NONCOMPLIANT K) (bundle, payload, buffer))
    else Ret (bplog_ret K flags (BP_FLAG_UNKNOWNREC K) (bundle, payload, buffer))
  else
    (* bundle with payload destined for local node *)
    let '(status, payload, flags) :=
      custody_transfer BP_PENDING_ACCEPTANCE pri_blk cteb_present cteb_blk payload flags in
    Ret (status, (bundle, payload, buffer), flags).

(** The payload block branch of the loop, which ends the function. *)
Definition receive_payload (bundle : bp_bundle_t) (size : Z) (pri_blk : bp_blk_pri_t)
    (exprtime : Z) (payload : bp_payload_t) (st : rx_t) : exec (Z * rx_out * Z) :=
  let buffer := rx_buffer st in
  let pay_index := rx_index st in
  let* exclude := exclude_push (rx_exclude st) (rx_index st) in
  let* sub := ptr_at buffer pay_index in
  let '(bytes_read, pay_blk, flags) := pay_read sub (size - pay_index) true (rx_flags st) in
  if bytes_read <? 0
  then Ret (bplog_ret K flags (BP_FLAG_FAILED_TO_PARSE K) (bundle, payload, buffer))
  else
    let index := rx_index st + bytes_read in
    let* exclude := exclude_push exclude (index + paysize pay_blk) in
    (* Set Returned Payload *)
    let payload :=
      with_memptr
        (with_pl_data payload
           {| pl_exprtime := exprtime; ackapp := ack_app pri_blk;
              payloadsize := paysize pay_blk |})
        (payptr pay_blk) in
    (* Perform Integrity Check *)
    let '(status, flags) :=
      if rx_bib_present st
      then bib_verify K bplib_crc_get (payptr pay_blk) (paysize pay_blk) (rx_bib_blk st) flags
      else (rx_status st, flags) in
    if rx_bib_present st && negb (status =? BP_SUCCESS K)
    then Ret (status, (bundle, payload, buffer), flags)
    (* Check Size of Payload *)
    else if is_admin_rec pri_blk && (paysize pay_blk <? 2)
    then Ret (bplog_ret K flags (BP_FLAG_FAILED_TO_PARSE K) (bundle, payload, buffer))
    else
      receive_dispose bundle pri_blk index exclude buffer
        (rx_cteb_present st) (rx_cteb_blk st) payload flags.

(** One turn of the block loop either ends the function or hands the
    locals to the next turn. *)
Inductive rx_step : Type :=
| Return (r : Z * rx_out * Z)
| Continue (st : rx_t).

Definition rx_with (st : rx_t) (status index : Z) (exclude : list Z)
    (buffer : list Z) (flags : Z) : rx_t :=
  {| rx_status := status; rx_index := index; rx_exclude := exclude;
     rx_cteb_present := rx_cteb_present st; rx_cteb_blk := rx_cteb_blk st;
     rx_bib_present := rx_bib_present st; rx_bib_blk := rx_bib_blk st;
     rx_buffer := buffer; rx_flags := flags |}.

(** The branch of an unrecognised extension block ("skip over block"). *)
Definition receive_extension (size : Z) (st : rx_t) : exec rx_step :=
  let blk_flags := field 0 1 0 in
  let blk_len := field 0 0 0 in
  let start_index := rx_index st in
  let* sub := ptr_at (rx_buffer st) start_index in
  let '(r, blk_flags, flags) :=
    sdnv_read sub (size - start_index) blk_flags (rx_flags st) in
  let blk_len := set_index blk_len r in
  let '(data_index, blk_len, flags) := sdnv_read sub (size - start_index) blk_len flags in
  (* Check Parsing Status *)
  let '(status, index, flags) :=
    if negb (Z.land flags (Z.lor (BP_FLAG_SDNV_OVERFLOW K) (BP_FLAG_SDNV_INCOMPLETE K)) =? 0)
    then (let '(r, fl) := bplog K flags (BP_FLAG_FAILED_TO_PARSE K) in
          (r, rx_index st, fl))
    else (rx_status st,
          to_int (u64 (rx_index st + u64 (data_index + value blk_len))), flags) in
  (* Mark Processing as Incomplete (unrecognized extension block) *)
  let flags := snd (bplog K flags (BP_FLAG_INCOMPLETE K)) in
  (* Should transmit status report that block cannot be processed *)
  let flags :=
    if negb (Z.land (value blk_flags) BP_BLK_NOTIFYNOPROC_MASK =? 0)
    then snd (bplog K flags (BP_FLAG_NONCOMPLIANT K)) else flags in
  (* Delete bundle since block not recognized *)
  let '(status, flags) :=
    if negb (Z.land (value blk_flags) BP_BLK_DELETENOPROC_MASK =? 0)
    then bplog K flags (BP_FLAG_DROPPED K) else (status, flags) in
  (* Check if Block Should be Included *)
  if negb (Z.land (value blk_flags) BP_BLK_DROPNOPROC_MASK =? 0)
  then
    (* Exclude Block *)
    let* exclude := exclude_push (rx_exclude st) start_index in
    let* exclude := exclude_push exclude index in
    Ret (Continue (rx_with st status index exclude (rx_buffer st) flags))
  else
    (* Mark As Forwarded without Processed *)
    let blk_flags :=
      set_value blk_flags (Z.lor (value blk_flags) BP_BLK_FORWARDNOPROC_MASK) in
    let '(_, sub, flags) := sdnv_write sub (size - start_index) blk_flags flags in
    Ret (Continue (rx_with st status index (rx_exclude st)
                     (splice (rx_buffer st) start_index sub) flags)).

(** The body of [while (status == BP_SUCCESS && index < size)]. *)
Definition receive_block (bundle : bp_bundle_t) (size : Z) (pri_blk : bp_blk_pri_t)
    (exprtime : Z) (payload : bp_payload_t) (st : rx_t) : exec rx_step :=
  let index := rx_index st in
  let buffer := rx_buffer st in
  (* Read Block Information *)
  let* blk_type := load buffer index in
  (* Check for Room in Exclude Region Array *)
  if BP_NUM_EXCLUDE_REGIONS - 2 <=? Z.of_nat (length (rx_exclude st))
  then Ret (Return (bplog_ret K (rx_flags st) (BP_FLAG_NONCOMPLIANT K)
                      (bundle, payload, buffer)))
  (* Check Block Type *)
  else if blk_type =? BP_BIB_BLK_TYPE
  then
    (* Mark Start of BIB Region *)
    let bib_index := index in
    let* exclude := exclude_push (rx_exclude st) index in
    (* Read BIB *)
    let* sub := ptr_at buffer bib_index in
    let* rd := bib_read K sdnv_read sub (size - bib_index) (rx_bib_blk st) true (rx_flags st) in
    let '(bytes_read, bib_blk, flags) := rd in
    if bytes_read <? 0
    then Ret (Return (bplog_ret K flags (BP_FLAG_FAILED_TO_PARSE K)
                        (bundle, payload, buffer)))
    else
      let index := index + bytes_read in
      (* Mark End of BIB Region *)
      let* exclude := exclude_push exclude index in
      Ret (Continue
             {| rx_status := rx_status st; rx_index := index; rx_exclude := exclude;
                rx_cteb_present := rx_cteb_present st; rx_cteb_blk := rx_cteb_blk st;
                rx_bib_present := true; rx_bib_blk := bib_blk;
                rx_buffer := buffer; rx_flags := flags |})
  else if blk_type =? BP_CTEB_BLK_TYPE
  then
    (* Mark Start of CTEB Region *)
    let cteb_index := index in
    (* Read CTEB *)
    let* sub := ptr_at buffer cteb_index in
    let '(bytes_read, cteb_blk, flags) :=
      cteb_read sub (size - cteb_index) true (rx_flags st) in
    if bytes_read <? 0
    then Ret (Return (bplog_ret K flags (BP_FLAG_FAILED_TO_PARSE K)
                        (bundle, payload, buffer)))
    else
      Ret (Continue
             {| rx_status := rx_status st; rx_index := index + bytes_read;
                rx_exclude := rx_exclude st;
                rx_cteb_present := true; rx_cteb_blk := cteb_blk;
                rx_bib_present := rx_bib_present st; rx_bib_blk := rx_bib_blk st;
                rx_buffer := buffer; rx_flags := flags |})
  else if negb (blk_type =? BP_PAY_BLK_TYPE)
  then receive_extension size st
  else
    let* r := receive_payload bundle size pri_blk exprtime payload st in
    Ret (Return r).

(** "Parse and Process Remaining Blocks": the loop, cut after [fuel]
    turns. *)
Fixpoint receive_loop (fuel : nat) (bundle : bp_bundle_t) (size : Z)
    (pri_blk : bp_blk_pri_t) (exprtime : Z) (payload : bp_payload_t) (st : rx_t)
  : exec (Z * rx_out * Z) :=
  if (rx_status st =? BP_SUCCESS K) && (rx_index st <? size) then
    match fuel with
    | O => Fuel
    | S fuel' =>
        let* s := receive_block bundle size pri_blk exprtime payload st in
        match s with
        | Return r => Ret r
        | Continue st' => receive_loop fuel' bundle size pri_blk exprtime payload st'
        end
    end
  else Ret (rx_status st, (bundle, payload, rx_buffer st), rx_flags st).

(** The part of [v6_receive_bundle] before the block loop: the primary
    block, the expiration time, the clock.  [inl] is an early return;
    [inr] carries the primary block, the expiration time and the locals
    for the loop.  [cteb_blk] and [bib_blk] are the contents of the
    locals of these names on entry (indeterminate in C). *)
Definition receive_primary (clk : os_clock) (bundle : bp_bundle_t) (buffer : list Z)
    (size : Z) (payload : bp_payload_t) (flags : Z)
    (cteb_blk : bp_blk_cteb_t) (bib_blk : bp_blk_bib_t)
  : exec ((Z * rx_out * Z) + (bp_blk_pri_t * Z * rx_t)) :=
  let status := BP_SUCCESS K in
  let index := 0 in
  (* Parse Primary Block *)
  let* exclude := exclude_push [] index in
  let '(bytes_read, pri_blk, flags) := pri_read buffer size true flags in
  if bytes_read <? 0
  then Ret (inl (bplog_ret K flags (BP_FLAG_FAILED_TO_PARSE K) (bundle, payload, buffer)))
  else
    let index := index + bytes_read in
    let* exclude := exclude_push exclude index in
    (* Check Unsupported *)
    if negb (value (dictlen pri_blk) =? 0)
    then Ret (inl (bplog_ret K flags (BP_FLAG_NONCOMPLIANT K) (bundle, payload, buffer)))
    else
      (* Calculate Bundle's Expiration Time *)
      let '(exprtime, flags) :=
        receive_exprtime (value (createsec pri_blk)) (value (lifetime pri_blk)) flags in
      (* Get Current Time *)
      let '(st, sysnow) := bplib_os_systime K clk in
      let unrelt := st =? BP_ERROR K in
      let flags :=
        if unrelt then snd (bplog K flags (BP_FLAG_UNRELIABLE_TIME K)) else flags in
      (* Check Expiration *)
      if v6_is_expired bundle sysnow exprtime unrelt
      then Ret (inl (BP_PENDING_EXPIRATION, (bundle, payload, buffer), flags))
      else
        Ret (inr (pri_blk, exprtime,
                  {| rx_status := status; rx_index := index; rx_exclude := exclude;
                     rx_cteb_present := false; rx_cteb_blk := cteb_blk;
                     rx_bib_present := false; rx_bib_blk := bib_blk;
                     rx_buffer := buffer; rx_flags := flags |})).

(** [v6_receive_bundle bundle buffer size payload flags], with the clock
    reading [clk]: the return value; the bundle, the payload and the
    buffer; the flags word. *)
Definition v6_receive_bundle (fuel : nat) (clk : os_clock) (bundle : bp_bundle_t)
    (buffer : list Z) (size : Z) (payload : bp_payload_t) (flags : Z)
    (cteb_blk : bp_blk_cteb_t) (bib_blk : bp_blk_bib_t) : exec (Z * rx_out * Z) :=
  let* p := receive_primary clk bundle buffer size payload flags cteb_blk bib_blk in
  match p with
  | inl r => Ret r
  | inr (pri_blk, exprtime, st) =>
      receive_loop fuel bundle size pri_blk exprtime payload st
  end.

End V6.

(* ================================================================== *)
(** * The simulated flash device ([store/flash_sim.c])                  *)
(* ================================================================== *)

(** The geometry of the device is declared in [bplib_flash_sim.h], which
    is not part of the sources at hand.  Every definition below takes it
    as a parameter. *)
Record bplib_flash_sim_h : Type := {
  FLASH_SIM_NUM_BLOCKS : Z;
  FLASH_SIM_PAGES_PER_BLOCK : Z;
  FLASH_SIM_PAGE_SIZE : Z;
  FLASH_SIM_SPARE_SIZE : Z
}.

(** [memset(dst, c, n)] *)
Definition memset (dst : list Z) (c n : Z) : exec (list Z) :=
  if (n <? 0) || (Z.of_nat (length dst) <? n) then UB OutOfBounds
  else Ret (replicate (Z.to_nat n) c ++ drop (Z.to_nat n) dst).

Module FlashSim.

Definition FLASH_SIM_BAD_BLOCK_MARK : Z := 0xA5.

Record flash_driver_page_t : Type := {
  data : list Z;
  spare : list Z
}.

Record flash_driver_block_t : Type := {
  pages : list flash_driver_page_t
}.

Record flash_driver_device_t : Type := {
  blocks : list flash_driver_block_t
}.

(** [bp_flash_addr_t], of the absent [bplib_store_flash.h]: the two
    members the simulation reads. *)
Record bp_flash_addr_t : Type := {
  block : Z;
  page : Z
}.

Section Sim.
Context (K : bplib_h) (F : bplib_flash_sim_h).

(** [flash_driver_device.blocks[b].pages[p] = pg] *)
Definition set_page (dev : flash_driver_device_t) (b p : Z) (pg : flash_driver_page_t)
  : exec flash_driver_device_t :=
  let* blk := load (blocks dev) b in
  let* pgs := store (pages blk) p pg in
  let* bs := store (blocks dev) b {| pages := pgs |} in
  Ret {| blocks := bs |}.

(** [bplib_flash_sim_page_read]: the status and the caller's buffer. *)
Definition bplib_flash_sim_page_read (dev : flash_driver_device_t) (addr : bp_flash_addr_t)
    (page_data : list Z) : exec (Z * list Z) :=
  let* blk := load (blocks dev) (block addr) in
  let* pg := load (pages blk) (page addr) in
  let* out := memcpy page_data 0 (data pg) (FLASH_SIM_PAGE_SIZE F) in
  Ret (BP_SUCCESS K, out).

(** The loop of [bplib_flash_sim_page_write], from [i] on, [n] rounds. *)
Fixpoint page_write_loop (n : nat) (i : Z) (dst byte_ptr : list Z) : exec (list Z) :=
  match n with
  | O => Ret dst
  | S n' =>
      let* old := load dst i in
      let* new := load byte_ptr i in
      let* dst' := store dst i (Z.land old new) in
      page_write_loop n' (i + 1) dst' byte_ptr
  end.

(** [bplib_flash_sim_page_write]: the status and the device. *)
Definition bplib_flash_sim_page_write (dev : flash_driver_device_t) (addr : bp_flash_addr_t)
    (page_data : list Z) : exec (Z * flash_driver_device_t) :=
  let* blk := load (blocks dev) (block addr) in
  let* pg := load (pages blk) (page addr) in
  let* d := page_write_loop (Z.to_nat (FLASH_SIM_PAGE_SIZE F)) 0 (data pg) page_data in
  let* dev' := set_page dev (block addr) (page addr) {| data := d; spare := spare pg |} in
  Ret (BP_SUCCESS K, dev').

(** The loop of [bplib_flash_sim_block_erase], from page [p] on. *)
Fixpoint block_erase_loop (n : nat) (p : Z) (pgs : list flash_driver_page_t)
  : exec (list flash_driver_page_t) :=
  match n with
  | O => Ret pgs
  | S n' =>
      let* pg := load pgs p in
      let* d := memset (data pg) 0xFF (FLASH_SIM_PAGE_SIZE F) in
      let* s := memset (spare pg) 0xFF (FLASH_SIM_SPARE_SIZE F) in
      let* pgs' := store pgs p {| data := d; spare := s |} in
      block_erase_loop n' (p + 1) pgs'
  end.

(** [bplib_flash_sim_block_erase] *)
Definition bplib_flash_sim_block_erase (dev : flash_driver_device_t) (blk_index : Z)
  : exec (Z * flash_driver_device_t) :=
  let* blk := load (blocks dev) blk_index in
  let* pgs := block_erase_loop (Z.to_nat (FLASH_SIM_PAGES_PER_BLOCK F)) 0 (pages blk) in
  let* bs := store (blocks dev) blk_index {| pages := pgs |} in
  Ret (BP_SUCCESS K, {| blocks := bs |}).

(** [bplib_flash_sim_block_is_bad]: the value of the comparison. *)
Definition bplib_flash_sim_block_is_bad (dev : flash_driver_device_t) (blk_index : Z)
  : exec Z :=
  let* blk := load (blocks dev) blk_index in
  let* pg := load (pages blk) 0 in
  let* mark := load (spare pg) 0 in
  Ret (if mark =? FLASH_SIM_BAD_BLOCK_MARK then 1 else 0).

(** [bplib_flash_sim_block_mark_bad] *)
Definition bplib_flash_sim_block_mark_bad (dev : flash_driver_device_t) (blk_index : Z)
  : exec (Z * flash_driver_device_t) :=
  let* blk := load (blocks dev) blk_index in
  let* pg := load (pages blk) 0 in
  let* s := store (spare pg) 0 FLASH_SIM_BAD_BLOCK_MARK in
  let* dev' := set_page dev blk_index 0 {| data := data pg; spare := s |} in
  Ret (BP_SUCCESS K, dev').

End Sim.
End FlashSim.

(* ================================================================== *)
(** * The absent codecs, for running the definitions                    *)
(* ================================================================== *)

(** The definitions of this part stand in for code that is not among the
    sources at hand.  No property of the code below is proved from them;
    they give the Section variables a value where a definition above is
    run on a concrete input, or where a hypothesis about a codec is shown
    to hold of one. *)

(** Modelled from the spec: [sdnv.c] is absent.  The design description
    has an SDNV as a big-endian base-128 stream in which every byte but
    the last has its high bit set; a write with [width = 0] picks the
    minimum width, a write with [width > 0] right-justifies into that many
    bytes; both return the next byte offset and raise [SDNV_OVERFLOW] or
    [SDNV_INCOMPLETE]. *)
Definition sdnv_min_width (v : Z) : Z := Z.log2 v / 7 + 1.

Definition sdnv_bytes (v w : Z) : list Z :=
  map (fun i : nat =>
         let d := Z.land (Z.shiftr v (7 * (w - 1 - Z.of_nat i))) 0x7F in
         if Z.of_nat i =? w - 1 then d else Z.lor d 0x80)
      (seq 0 (Z.to_nat w)).

Fixpoint write_bytes (buf : list Z) (at_ limit : Z) (bytes : list Z) : list Z :=
  match bytes with
  | [] => buf
  | b :: rest =>
      write_bytes (if (0 <=? at_) && (at_ <? limit) then <[Z.to_nat at_ := b]> buf else buf)
        (at_ + 1) limit rest
  end.

Definition sdnv_write_model (K : bplib_h) (block : list Z) (size : Z) (sdnv : bp_field_t)
    (flags : Z) : Z * list Z * Z :=
  let w := if width sdnv <=? 0 then sdnv_min_width (value sdnv) else width sdnv in
  let flags :=
    if 2 ^ (7 * w) <=? value sdnv then Z.lor flags (BP_FLAG_SDNV_OVERFLOW K) else flags in
  let flags :=
    if size <? index sdnv + w then Z.lor flags (BP_FLAG_SDNV_INCOMPLETE K) else flags in
  (index sdnv + w, write_bytes block (index sdnv) size (sdnv_bytes (value sdnv) w), flags).

(** The scan of a read: accumulated value, bytes consumed, and whether the
    field ended inside the block. *)
Fixpoint sdnv_scan (fuel : nat) (fixed : bool) (block : list Z) (i acc n : Z)
  : Z * Z * bool :=
  match fuel with
  | O => (acc, n, fixed)
  | S fuel' =>
      match block !! Z.to_nat i with
      | None => (acc, n, false)
      | Some b =>
          let acc := acc * 128 + Z.land b 0x7F in
          if negb fixed && (b <? 0x80) then (acc, n + 1, true)
          else sdnv_scan fuel' fixed block (i + 1) acc (n + 1)
      end
  end.

Definition sdnv_read_model (K : bplib_h) (block : list Z) (size : Z) (sdnv : bp_field_t)
    (flags : Z) : Z * bp_field_t * Z :=
  let fixed := 0 <? width sdnv in
  let room := Z.max 0 (size - index sdnv) in
  let fuel := Z.to_nat (if fixed then Z.min (width sdnv) room else room) in
  let '(acc, n, ended) := sdnv_scan fuel fixed block (index sdnv) 0 0 in
  let complete := if fixed then n =? width sdnv else ended in
  let flags := if 2 ^ 64 <=? acc then Z.lor flags (BP_FLAG_SDNV_OVERFLOW K) else flags in
  let flags := if complete then flags else Z.lor flags (BP_FLAG_SDNV_INCOMPLETE K) in
  let w := if fixed then width sdnv else n in
  (index sdnv + w, field (u64 acc) (index sdnv) w, flags).

Definition sdnv_mask_model (sdnv : bp_field_t) : bp_field_t :=
  set_value sdnv (value sdnv mod 2 ^ (7 * width sdnv)).

(** Modelled from the spec: [crc.c] and its tables are absent.  The design
    description names the two checks, CRC-16/X.25 and CRC-32/Castagnoli;
    both are reflected CRCs with all-ones initial value and final XOR. *)
Fixpoint crc_shift (n : nat) (poly crc : Z) : Z :=
  match n with
  | O => crc
  | S n' =>
      crc_shift n' poly
        (if Z.odd crc then Z.lxor (Z.shiftr crc 1) poly else Z.shiftr crc 1)
  end.

Definition crc_reflected (poly init xorout : Z) (bytes : list Z) : Z :=
  Z.lxor (fold_left (fun crc b => crc_shift 8 poly (Z.lxor crc b)) bytes init) xorout.

Definition crc_get_model (data : list Z) (length : Z) (params : crc_parameters_t) : Z :=
  let bytes := take (Z.to_nat length) data in
  match params with
  | BPLIB_CRC16_X25 => crc_reflected 0x8408 0xFFFF 0xFFFF bytes
  | BPLIB_CRC32_CASTAGNOLI => crc_reflected 0x82F63B78 0xFFFFFFFF 0xFFFFFFFF bytes
  end.

(** Modelled from the spec: [pay.c] is absent.  A payload block is its
    type byte, a flags SDNV and a block-length SDNV, followed by the
    payload; written here at the offsets the structure carries. *)
Definition pay_write_model (K : bplib_h) (block : list Z) (size : Z) (pay : bp_blk_pay_t)
    (update_indices : bool) (flags : Z) : Z * (list Z * bp_blk_pay_t) * Z :=
  if size <? 1 then bplog_ret K flags (BP_FLAG_FAILED_TO_PARSE K) (block, pay)
  else
    let block := <[0%nat := BP_PAY_BLK_TYPE]> block in
    let '(_, block, sdnvflags) := sdnv_write_model K block size (pay_bf pay) 0 in
    let '(bytes_written, block, sdnvflags) :=
      sdnv_write_model K block size (pay_blklen pay) sdnvflags in
    if negb (sdnvflags =? 0)
    then (BP_ERROR K, (block, pay), Z.lor flags sdnvflags)
    else (bytes_written, (block, pay), flags).

(** A reader that finds the block [b] in [n] bytes, and a writer that
    reports [n] bytes written: stand-ins for [pri_read], [cteb_read],
    [pay_read], [pri_write] and [cteb_write]. *)
Definition found {B : Type} (n : Z) (b : B)
  : list Z -> Z -> bool -> Z -> Z * B * Z :=
  fun _ _ _ flags => (n, b, flags).

Definition wrote {B : Type} (n : Z)
  : list Z -> Z -> B -> bool -> Z -> Z * (list Z * B) * Z :=
  fun block _ b _ flags => (n, (block, b), flags).

(** A storage collaborator that accepts every fragment. *)
Definition create_ok (K : bplib_h) : list create_call -> create_call -> Z :=
  fun _ _ => BP_SUCCESS K.

Definition ipn2eid_model : Z -> Z -> Z -> list Z := fun _ _ _ => [0].

(** ["123456789"] and ["HELLO"] *)
Definition check_string : list Z := [0x31; 0x32; 0x33; 0x34; 0x35; 0x36; 0x37; 0x38; 0x39].
Definition hello : list Z := [0x48; 0x45; 0x4C; 0x4C; 0x4F].

(** ** Concrete inputs *)

(** The BIB structure for CRC-16/X.25 in the canonical layout of
    [bundle_bib_blk], with the lengths that [bib_write] gives it. *)
Definition bib_crc16_blk : bp_blk_bib_t :=
  bib_set_lengths (bundle_bib_blk bplib_h_example) 4 2.

(** The same with caller-supplied block flags 0x08 (last block). *)
Definition bib_flagged_blk : bp_blk_bib_t :=
  with_bf bib_crc16_blk (field 0x08 1 1).

(** The same with the security result placed at offset 200, beyond a
    header buffer of 128 bytes. *)
Definition bib_far_result_blk : bp_blk_bib_t :=
  with_result_length bib_crc16_blk (field 2 200 1).

(** The same with security target type 0 instead of the payload block
    type. *)
Definition bib_bad_target_blk : bp_blk_bib_t :=
  with_target_type bib_crc16_blk 0.

Definition zero_block (n : nat) : list Z := replicate n 0.

(** A channel from node 1, service 1 to node 2, service 1. *)
Definition example_route : bp_route_t := {|
  local_node := 1; local_service := 1;
  destination_node := 2; destination_service := 1;
  report_node := 0; report_service := 0
|}.

Definition example_attributes (max_len : Z) (frag ignore_exp : bool) : bp_attr_t := {|
  attr_lifetime := 3600; request_custody := false; admin_record := false;
  integrity_check := false; allow_fragmentation := frag;
  ignore_expiration := ignore_exp; cipher_suite := 0; class_of_service := 1;
  max_length := max_len
|}.

(** Attributes with the largest 64-bit value as lifetime. *)
Definition long_lived_attributes : bp_attr_t := {|
  attr_lifetime := 2 ^ 64 - 1; request_custody := false; admin_record := false;
  integrity_check := false; allow_fragmentation := false;
  ignore_expiration := false; cipher_suite := 0; class_of_service := 1;
  max_length := 56
|}.

(** The bundle as [v6_create] leaves it. *)
Definition created_bundle (attrs : bp_attr_t) : bp_bundle_t := {|
  route := example_route;
  attributes := attrs;
  data := zero_data;
  prebuilt := false;
  blocks := {| primary_block := bundle_pri_blk bplib_h_example;
               custody_block := bundle_cteb_blk;
               integrity_block := bundle_bib_blk bplib_h_example;
               payload_block := bundle_pay_blk |}
|}.

(** The bundle as [v6_populate_bundle] leaves it, with a primary block
    writer that reports the 50 bytes of the canonical layout. *)
Definition populated_bundle (attrs : bp_attr_t) : bp_bundle_t :=
  match v6_populate_bundle bplib_h_example (sdnv_write_model bplib_h_example)
          (wrote 50) (wrote 12) ipn2eid_model (created_bundle attrs) 0 with
  | Ret (_, b, _) => b
  | _ => created_bundle attrs
  end.

(** A reliable clock, 1000 seconds after the epoch of 2000. *)
Definition example_clock : os_clock :=
  {| now_sec := UNIX_SECS_AT_2000 + 1000; prevnow_sec := UNIX_SECS_AT_2000 + 999 |}.

(** [v6_send_bundle] of the model codecs, with timeout and flags zero. *)
Abbreviation send_model fuel bundle buffer size :=
  (v6_send_bundle bplib_h_example (sdnv_write_model bplib_h_example) sdnv_mask_model
     crc_get_model (pay_write_model bplib_h_example) (create_ok bplib_h_example)
     fuel example_clock bundle buffer size 0 0).

(** The bundle after a first send of ["HELLO"]. *)
Definition sent_bundle (attrs : bp_attr_t) : bp_bundle_t :=
  match send_model 8 (populated_bundle attrs) hello 5 with
  | Ret (_, b, _, _) => b
  | _ => populated_bundle attrs
  end.

(** The primary block of a received bundle from node 3, service 1 to
    service 1 of node [dst]. *)
Definition received_pri (dst : Z) (custody : bool) (created life : Z) : bp_blk_pri_t := {|
  version := 6;
  pcf := field 0 1 3;
  pri_blklen := field 45 4 1;
  dstnode := field dst 5 4;
  dstserv := field 1 9 2;
  srcnode := field 3 11 4;
  srcserv := field 1 15 2;
  rptnode := field 3 17 4;
  rptserv := field 1 21 2;
  cstnode := field 3 23 4;
  cstserv := field 1 27 2;
  createsec := field created 29 6;
  createseq := field 0 35 2;
  lifetime := field life 37 6;
  dictlen := field 0 43 1;
  fragoffset := field 0 44 4;
  paylen := field 0 48 4;
  is_admin_rec := false;
  is_frag := false;
  allow_frag := false;
  cst_rqst := custody;
  ack_app := false;
  cos := 1
|}.

(** A CTEB with custody id 7, custodian node 3, service 1. *)
Definition received_cteb : bp_blk_cteb_t := {|
  cteb_bf := field 0 1 1;
  cteb_blklen := field 7 2 1;
  cteb_cid := field 7 3 1;
  csteid := [0];
  cteb_cstnode := 3;
  cteb_cstserv := 1
|}.

(** The payload block of ["HELLO"]. *)
Definition received_pay : bp_blk_pay_t := {|
  pay_bf := field 0x08 1 1;
  pay_blklen := field 5 2 4;
  payptr := hello;
  paysize := 5
|}.

Definition empty_payload : bp_payload_t := {|
  pl_cid := 0; node := 0; service := 0;
  pl_data := {| pl_exprtime := 0; ackapp := false; payloadsize := 0 |};
  memptr := []
|}.

(** Received bundles, as bytes: 50 bytes of primary block, then a CTEB of
    10 bytes (type 0x0A), an unrecognised extension block (type 0x05,
    flags 0, length 144) and the payload block (type 0x01) of ["HELLO"]. *)
Definition cteb_bytes : list Z := [0x0A; 0; 7; 7; 0; 0; 0; 0; 0; 0].
Definition pay_bytes : list Z := [0x01; 0x08; 0x80; 0x80; 0x80; 5] ++ hello.
Definition ext_bytes : list Z := [0x05; 0x00; 0x81; 0x10] ++ zero_block 144.

Definition bundle_plain : list Z := zero_block 50 ++ pay_bytes.
Definition bundle_custody : list Z := zero_block 50 ++ cteb_bytes ++ pay_bytes.
Definition bundle_big_ext : list Z :=
  zero_block 50 ++ cteb_bytes ++ ext_bytes ++ pay_bytes.

(** [v6_receive_bundle] of the model codecs at node 1, with readers that
    find the primary block [pri], [received_cteb] and [received_pay]. *)
Abbreviation receive_model pri fuel bundle buffer :=
  (v6_receive_bundle bplib_h_example (sdnv_read_model bplib_h_example)
     (sdnv_write_model bplib_h_example) crc_get_model
     (found 50 pri) (found 10 received_cteb) (found 6 received_pay)
     (wrote 50) (wrote 12) ipn2eid_model
     fuel example_clock bundle buffer (Z.of_nat (length buffer)) empty_payload 0
     received_cteb bib_crc16_blk).

(** The bundle of node 1 that receives, and two primary blocks addressed
    to node 2: one that expired at second 50, one that requests custody. *)
Definition local_bundle (ignore_exp : bool) : bp_bundle_t :=
  created_bundle (example_attributes 4096 false ignore_exp).
Definition expired_pri : bp_blk_pri_t := received_pri 2 false 10 40.
Definition custody_pri : bp_blk_pri_t := received_pri 2 true 10 4000.

(** The exclusion list after the primary block, the CTEB and the payload
    header of [bundle_custody], and the header and bundle built from it. *)
Definition custody_exclude : list Z := [0; 50; 60; 66].

Definition custody_header : list Z * Z :=
  match copy_regions (drop 1 custody_exclude) bundle_custody
          (replicate (Z.to_nat BP_BUNDLE_HDR_BUF_SIZE) 0) 0 with
  | Ret (Some r) => r
  | _ => ([], 0)
  end.

Definition custody_built : Z * bp_bundle_t * Z :=
  match v6_build bplib_h_example (sdnv_write_model bplib_h_example)
          (wrote 50) (wrote 12) ipn2eid_model (local_bundle false)
          (Some (forward_custody (local_bundle false) custody_pri))
          (fst custody_header) (snd custody_header) 0 with
  | Ret r => r
  | _ => (0, local_bundle false, 0)
  end.

(** Loop variables with 14 entries of the exclusion list in use. *)
Definition rx_full : rx_t := {|
  rx_status := 0;
  rx_index := 50;
  rx_exclude := [0; 50; 50; 54; 54; 58; 58; 62; 62; 66; 66; 70; 70; 74];
  rx_cteb_present := false;
  rx_cteb_blk := received_cteb;
  rx_bib_present := false;
  rx_bib_blk := bib_crc16_blk;
  rx_buffer := bundle_plain;
  rx_flags := 0
|}.

(** The return value and the flags of a call that returned. *)
Definition returned {S : Type} (m : exec (Z * S * Z)) : option (Z * Z) :=
  match m with
  | Ret (st, _, fl) => Some (st, fl)
  | _ => None
  end.

(** ** Concrete inputs of the further properties *)

(** A table of four slots as [cbuf_create] leaves it, two records for
    custody id 5, the table after the first is added, and a sequence of
    operations. *)
Definition table4 : CBuf.cbuf_t :=
  {| CBuf.table := Some (replicate 4 CBuf.zero_bundle); CBuf.size := 4;
     CBuf.num_entries := 0; CBuf.newest_cid := 0; CBuf.oldest_cid := 0 |}.

Definition bundle5 : CBuf.bp_active_bundle_t :=
  {| CBuf.sid := 9; CBuf.retx := 0; CBuf.cid := 5 |}.

Definition bundle5_again : CBuf.bp_active_bundle_t :=
  {| CBuf.sid := 10; CBuf.retx := 1; CBuf.cid := 5 |}.

Definition table4_added : CBuf.cbuf_t :=
  {| CBuf.table := Some (<[1%nat := bundle5]> (replicate 4 CBuf.zero_bundle));
     CBuf.size := 4; CBuf.num_entries := 1;
     CBuf.newest_cid := 6; CBuf.oldest_cid := 0 |}.

Definition table4_ops : list CBuf.op :=
  [CBuf.Add bundle5 false; CBuf.Next; CBuf.Remove 5].

(** What [bib_update] and [bib_write] leave of a zeroed block and
    [bib_crc16_blk]. *)
Definition bib_updated : list Z * bp_blk_bib_t :=
  match bib_update bplib_h_example crc_get_model (zero_block 128) 128 hello 5
          bib_crc16_blk 0 with
  | Ret (_, r, _) => r
  | _ => ([], bib_crc16_blk)
  end.

Definition bib_written : list Z * bp_blk_bib_t :=
  match bib_write bplib_h_example (sdnv_write_model bplib_h_example) (zero_block 32) 32
          bib_crc16_blk false 0 with
  | Ret (_, r, _) => r
  | _ => ([], bib_crc16_blk)
  end.

(** What [bib_write] leaves of a block of 32 bytes and of the structure
    with caller-supplied block flags 0x08, in either layout. *)
Definition bib_flagged_written (update_indices : bool) : list Z * bp_blk_bib_t :=
  match bib_write bplib_h_example (sdnv_write_model bplib_h_example) (zero_block 32) 32
          bib_flagged_blk update_indices 0 with
  | Ret (_, r, _) => r
  | _ => ([], bib_flagged_blk)
  end.

(** A bundle that sends ["HELLO"] in fragments of two bytes, what the
    send leaves of it, and a storage collaborator that accepts one
    fragment and refuses the next. *)
Definition fragmenting_bundle : bp_bundle_t :=
  populated_bundle (example_attributes 2 true false).

Definition create_once (K : bplib_h) : list create_call -> create_call -> Z :=
  fun calls _ => if Z.of_nat (length calls) <? 1 then BP_SUCCESS K else BP_ERROR K.

Definition send_result (create : list create_call -> create_call -> Z)
  : Z * bp_bundle_t * Z * list create_call :=
  match v6_send_bundle bplib_h_example (sdnv_write_model bplib_h_example) sdnv_mask_model
          crc_get_model (pay_write_model bplib_h_example) create
          8 example_clock fragmenting_bundle hello 5 0 0 with
  | Ret r => r
  | _ => (0, fragmenting_bundle, 0, [])
  end.

(** Primary blocks addressed to service 1 of node 1: a data bundle, and
    an administrative record. *)
Definition local_pri : bp_blk_pri_t := received_pri 1 false 10 4000.

Definition admin_pri : bp_blk_pri_t := {|
  version := version local_pri;
  pcf := pcf local_pri;
  pri_blklen := pri_blklen local_pri;
  dstnode := dstnode local_pri;
  dstserv := dstserv local_pri;
  srcnode := srcnode local_pri;
  srcserv := srcserv local_pri;
  rptnode := rptnode local_pri;
  rptserv := rptserv local_pri;
  cstnode := cstnode local_pri;
  cstserv := cstserv local_pri;
  createsec := createsec local_pri;
  createseq := createseq local_pri;
  lifetime := lifetime local_pri;
  dictlen := dictlen local_pri;
  fragoffset := fragoffset local_pri;
  paylen := paylen local_pri;
  is_admin_rec := true;
  is_frag := false;
  allow_frag := false;
  cst_rqst := false;
  ack_app := false;
  cos := 1
|}.

(** Loop variables at the payload block of [bundle_plain]. *)
Definition rx_at_payload : rx_t := {|
  rx_status := 0;
  rx_index := 50;
  rx_exclude := [0; 50];
  rx_cteb_present := false;
  rx_cteb_blk := received_cteb;
  rx_bib_present := false;
  rx_bib_blk := bib_crc16_blk;
  rx_buffer := bundle_plain;
  rx_flags := 0
|}.

(** Loop variables of [bundle_custody]: after the primary block, where
    the CTEB is, and after the CTEB, where the payload block is. *)
Definition rx_at_cteb : rx_t := {|
  rx_status := 0;
  rx_index := 50;
  rx_exclude := [0; 50];
  rx_cteb_present := false;
  rx_cteb_blk := received_cteb;
  rx_bib_present := false;
  rx_bib_blk := bib_crc16_blk;
  rx_buffer := bundle_custody;
  rx_flags := 0
|}.

Definition rx_after_cteb : rx_t := {|
  rx_status := 0;
  rx_index := 60;
  rx_exclude := [0; 50];
  rx_cteb_present := true;
  rx_cteb_blk := received_cteb;
  rx_bib_present := false;
  rx_bib_blk := bib_crc16_blk;
  rx_buffer := bundle_custody;
  rx_flags := 0
|}.

(** The header and the bundle built from [bundle_plain], which carries
    no CTEB: its exclusion list at the forwarding branch is
    [[0; 50; 50; 56]]. *)
Definition plain_header : list Z * Z :=
  match copy_regions [50; 50; 56] bundle_plain
          (replicate (Z.to_nat BP_BUNDLE_HDR_BUF_SIZE) 0) 0 with
  | Ret (Some r) => r
  | _ => ([], 0)
  end.

Definition plain_built : Z * bp_bundle_t * Z :=
  match v6_build bplib_h_example (sdnv_write_model bplib_h_example)
          (wrote 50) (wrote 12) ipn2eid_model (local_bundle false)
          (Some (forward_custody (local_bundle false) custody_pri))
          (fst plain_header) (snd plain_header) 0 with
  | Ret r => r
  | _ => (0, local_bundle false, 0)
  end.

(** A device of two blocks of two pages of four bytes, with two spare
    bytes each. *)
Definition flash_sim_h_example : bplib_flash_sim_h := {|
  FLASH_SIM_NUM_BLOCKS := 2;
  FLASH_SIM_PAGES_PER_BLOCK := 2;
  FLASH_SIM_PAGE_SIZE := 4;
  FLASH_SIM_SPARE_SIZE := 2
|}.

Definition flash_example : FlashSim.flash_driver_device_t :=
  {| FlashSim.blocks :=
       replicate 2
         {| FlashSim.pages :=
              replicate 2 {| FlashSim.data := [0x0F; 0xF0; 0xFF; 0x00];
                             FlashSim.spare := [0xFF; 0xFF] |} |} |}.

Definition flash_addr_example : FlashSim.bp_flash_addr_t :=
  {| FlashSim.block := 1; FlashSim.page := 0 |}.


(** [table4_added] once [cbuf_next] has moved to the first slot in use
    (custody id 1 maps to the slot of custody id 5), and [table4] after
    [table4_ops]. *)
Definition table4_peeked : CBuf.cbuf_t :=
  {| CBuf.table := CBuf.table table4_added; CBuf.size := 4; CBuf.num_entries := 1;
     CBuf.newest_cid := 6; CBuf.oldest_cid := 1 |}.

Definition table4_done : CBuf.cbuf_t :=
  match CBuf.run bplib_h_example table4 table4_ops with
  | Ret c => c
  | _ => table4
  end.

(** The BIB structure that [bib_read] fills from what [bib_write] wrote. *)
Definition bib_reread : bp_blk_bib_t :=
  match bib_read bplib_h_example (sdnv_read_model bplib_h_example) (fst bib_written) 32
          bib_crc16_blk true 0 with
  | Ret (_, b, _) => b
  | _ => bib_crc16_blk
  end.

(** [v6_receive_bundle] of the model codecs at node 1 on [bundle_plain],
    with a given reader of the primary block. *)
Abbreviation receive_with pri_read :=
  (v6_receive_bundle bplib_h_example (sdnv_read_model bplib_h_example)
     (sdnv_write_model bplib_h_example) crc_get_model
     pri_read (found 10 received_cteb) (found 6 received_pay)
     (wrote 50) (wrote 12) ipn2eid_model
     8%nat example_clock (local_bundle false) bundle_plain 61 empty_payload 0
     received_cteb bib_crc16_blk).

(** [receive_dispose] and [receive_payload] of the model codecs at node 1. *)
Abbreviation dispose_model pri index buffer :=
  (receive_dispose bplib_h_example (sdnv_write_model bplib_h_example)
     (wrote 50) (wrote 12) ipn2eid_model
     (local_bundle false) pri index [0; 50; 56] buffer false received_cteb
     empty_payload 0).

Abbreviation payload_model st :=
  (receive_payload bplib_h_example (sdnv_write_model bplib_h_example) crc_get_model
     (found 6 received_pay) (wrote 50) (wrote 12) ipn2eid_model
     (local_bundle false) 61 local_pri 4010 empty_payload st).

(** The page operations on [flash_example]. *)
Abbreviation flash_write dev addr page_data :=
  (FlashSim.bplib_flash_sim_page_write bplib_h_example flash_sim_h_example dev addr page_data).
Abbreviation flash_read dev addr buf :=
  (FlashSim.bplib_flash_sim_page_read bplib_h_example flash_sim_h_example dev addr buf).
Abbreviation flash_erase dev blk :=
  (FlashSim.bplib_flash_sim_block_erase bplib_h_example flash_sim_h_example dev blk).

(* ================================================================== *)
(** * Vocabulary of the properties                                      *)
(* ================================================================== *)

Section Vocabulary.
Context (K : bplib_h).

(** The three requirements on the fields of a BIB. *)
Definition bib_fields_valid (bib : bp_blk_bib_t) : Prop :=
  security_target_type bib = BP_PAY_BLK_TYPE
  /\ security_result_type bib = BP_BIB_INTEGRITY_SIGNATURE K
  /\ (value (cipher_suite_id bib) = BP_BIB_CRC16_X25
      \/ value (cipher_suite_id bib) = BP_BIB_CRC32_CASTAGNOLI).

(** The flag of the first field check that fails, in the order of the
    code: target type, result type, cipher suite. *)
Definition bib_field_flag (bib : bp_blk_bib_t) : Z :=
  if negb (security_target_type bib =? BP_PAY_BLK_TYPE)
  then BP_FLAG_INVALID_BIB_TARGET_TYPE K
  else if negb (security_result_type bib =? BP_BIB_INTEGRITY_SIGNATURE K)
  then BP_FLAG_INVALID_BIB_RESULT_TYPE K
  else BP_FLAG_INVALID_CIPHER_SUITEID K.

(** The event flags of [bib.c] are non-zero bits and [BP_ERROR] is a
    negative return value. *)
Definition bib_events_ok : Prop :=
  BP_ERROR K < 0
  /\ 0 < BP_FLAG_FAILED_TO_PARSE K
  /\ 0 < BP_FLAG_INVALID_BIB_TARGET_TYPE K
  /\ 0 < BP_FLAG_INVALID_BIB_RESULT_TYPE K
  /\ 0 < BP_FLAG_INVALID_CIPHER_SUITEID K.

(** The expiration time in the words of the design description: a
    sentinel creation time is propagated; otherwise creation time plus
    lifetime, saturated to the maximum encoded value when the 64-bit sum
    wraps (is less than the creation time). *)
Definition exprtime_spec (createsec lifetime : Z) : Z :=
  if (createsec =? BP_TTL_CREATION_TIME K) || (createsec =? BP_UNKNOWN_CREATION_TIME K)
  then createsec
  else if u64 (createsec + lifetime) <? createsec
  then BP_MAX_ENCODED_VALUE K
  else u64 (createsec + lifetime).

(** The sum wraps, for a creation time that is not a sentinel. *)
Definition exprtime_wraps (createsec lifetime : Z) : bool :=
  negb (createsec =? BP_TTL_CREATION_TIME K)
  && negb (createsec =? BP_UNKNOWN_CREATION_TIME K)
  && (u64 (createsec + lifetime) <? createsec).

(** "Update Payload Block" of [v6_send_bundle]. *)
Definition send_payload (bundle : bp_bundle_t) (buffer : list Z) (size : Z) : bp_bundle_t :=
  with_blocks bundle
    (with_payload_block (blocks bundle)
       (with_paysize (with_payptr (payload_block (blocks bundle)) buffer) size)).

(** What the design description says of an SDNV write, as far as the last
    byte of a field goes.  The flags only accumulate; the return value is
    the offset after the field, [width] bytes after its index when the
    width is given; the bytes outside the field are left alone; and a
    field written without an error into a block that has [size] bytes
    ends in a byte that carries the low-order bit of the value (the last
    byte of the big-endian base-128 stream holds the seven low-order
    bits). *)
Definition sdnv_write_encodes
    (sdnv_write : list Z -> Z -> bp_field_t -> Z -> Z * list Z * Z) : Prop :=
  forall (block : list Z) (size : Z) (f : bp_field_t) (flags : Z),
    let next := fst (fst (sdnv_write block size f flags)) in
    let block' := snd (fst (sdnv_write block size f flags)) in
    let flags' := snd (sdnv_write block size f flags) in
    (flags' = 0 -> flags = 0)
    /\ index f < next
    /\ (0 < width f -> next = index f + width f)
    /\ (forall j : nat,
           Z.of_nat j < index f \/ next <= Z.of_nat j -> block' !! j = block !! j)
    /\ (flags' = 0 -> 0 <= index f -> size <= Z.of_nat (length block) ->
        exists b : Z,
          block' !! Z.to_nat (next - 1) = Some b
          /\ Z.testbit b 0 = Z.testbit (value f) 0).

(** The offset of the last byte of the block flags of a written BIB: with
    [update_indices] the block length follows the block flags, without it
    the field has the width the caller gave it. *)
Definition bib_bf_last (update_indices : bool) (bib : bp_blk_bib_t) : Z :=
  if update_indices then index (bib_blklen bib) - 1
  else index (bib_bf bib) + width (bib_bf bib) - 1.

(** A caller-supplied layout in which the block flags have a width and the
    other fields start after them. *)
Definition bib_bf_apart (bib : bp_blk_bib_t) : Prop :=
  0 <= index (bib_bf bib) /\ 0 < width (bib_bf bib)
  /\ Forall (fun f : bp_field_t => index (bib_bf bib) + width (bib_bf bib) <= index f)
       [bib_blklen bib; security_target_count bib; cipher_suite_id bib;
        cipher_suite_flags bib; compound_length bib; security_result_length bib].

(** The undefined behaviour that the guard of the receive loop is there
    to prevent. *)
Definition no_overrun {A : Type} (m : exec A) : Prop := m <> UB ExcludeOverrun.

End Vocabulary.

Section TableVocabulary.
Import CBuf.
Context (K : bplib_h).

(** A table as [cbuf_create] allocates it for a size above zero: the
    array has [size] slots and the two custody id counters are 64-bit
    values. *)
Definition cbuf_wf (c : cbuf_t) : Prop :=
  exists t : list bp_active_bundle_t,
    table c = Some t /\ 0 < size c /\ Z.of_nat (length t) = size c
    /\ 0 <= oldest_cid c < 2 ^ 64 /\ 0 <= newest_cid c < 2 ^ 64.

(** The slot that custody id [k] maps to, for a table that has one. *)
Definition slot_of (c : cbuf_t) (k : Z) : option bp_active_bundle_t :=
  default [] (table c) !! Z.to_nat (k mod size c).

(** A sequence of operations in which every [add] stores a record with a
    storage id into a slot that [cbuf_available] reports vacant. *)
Fixpoint adds_to_vacant (c : cbuf_t) (ops : list op) : Prop :=
  match ops with
  | [] => True
  | o :: ops' =>
      match o with
      | Add b _ =>
          sid b <> BP_SID_VACANT K
          /\ cbuf_available K c (cid b) = Ret (BP_SUCCESS K)
      | _ => True
      end
      /\ match step K c o with
         | Ret c' => adds_to_vacant c' ops'
         | _ => True
         end
  end.

End TableVocabulary.

Section SendVocabulary.
Context (K : bplib_h).

(** The bytes that a list of calls of the storage collaborator were
    handed, by their [size] arguments. *)
Definition sum_sizes (calls : list create_call) : Z :=
  fold_right Z.add 0 (map cc_size calls).

(** A payload block writer that leaves the payload pointer and size of
    the block structure as they are. *)
Definition keeps_payload
    (pay_write : list Z -> Z -> bp_blk_pay_t -> bool -> Z -> Z * (list Z * bp_blk_pay_t) * Z)
  : Prop :=
  forall (block : list Z) (size : Z) (pay : bp_blk_pay_t) (upd : bool) (flags : Z),
    paysize (snd (snd (fst (pay_write block size pay upd flags)))) = paysize pay
    /\ payptr (snd (snd (fst (pay_write block size pay upd flags)))) = payptr pay.

(** The event flags of the send path are non-zero bits, and [BP_ERROR] is
    not [BP_SUCCESS]. *)
Definition send_events_ok : Prop :=
  BP_SUCCESS K <> BP_ERROR K
  /\ 0 < BP_FLAG_BUNDLE_TOO_LARGE K
  /\ 0 < BP_FLAG_FAILED_TO_PARSE K
  /\ 0 < BP_FLAG_STORE_FAILURE K.

(** Every bit of [event] is set in [flags]. *)
Definition raised (event flags : Z) : Prop := Z.land flags event = event.

(** Writers that only raise flags, as the C code does with [*flags |= ...]:
    a bit that is set in the flags word on entry is set on return. *)
Definition sdnv_write_keeps_flags
    (sdnv_write : list Z -> Z -> bp_field_t -> Z -> Z * list Z * Z) : Prop :=
  forall (block : list Z) (size : Z) (f : bp_field_t) (flags event : Z),
    raised event flags -> raised event (snd (sdnv_write block size f flags)).

Definition pay_write_keeps_flags
    (pay_write : list Z -> Z -> bp_blk_pay_t -> bool -> Z -> Z * (list Z * bp_blk_pay_t) * Z)
  : Prop :=
  forall (block : list Z) (size : Z) (pay : bp_blk_pay_t) (upd : bool) (flags event : Z),
    raised event flags -> raised event (snd (pay_write block size pay upd flags)).

End SendVocabulary.

Section ReceiveVocabulary.
Context (K : bplib_h).

(** The header regions of a forwarded bundle lie in the received buffer:
    every pair of the list is a range [start, stop] within it. *)
Fixpoint regions_within (gaps : list Z) (len : Z) : Prop :=
  match gaps with
  | start_index :: stop_index :: rest =>
      0 <= start_index <= stop_index /\ stop_index <= len /\ regions_within rest len
  | _ => True
  end.

(** The bytes of the regions. *)
Fixpoint regions_size (gaps : list Z) : Z :=
  match gaps with
  | start_index :: stop_index :: rest => stop_index - start_index + regions_size rest
  | _ => 0
  end.

(** The bytes of the regions, one after the other. *)
Fixpoint regions_bytes (gaps : list Z) (buffer : list Z) : list Z :=
  match gaps with
  | start_index :: stop_index :: rest =>
      take (Z.to_nat (stop_index - start_index)) (drop (Z.to_nat start_index) buffer)
      ++ regions_bytes rest buffer
  | _ => []
  end.

End ReceiveVocabulary.

(** The block loop of [v6_receive_bundle]. *)
Section BlockLoopVocabulary.
Context (K : bplib_h).
Variable sdnv_read : list Z -> Z -> bp_field_t -> Z -> Z * bp_field_t * Z.
Variable sdnv_write : list Z -> Z -> bp_field_t -> Z -> Z * list Z * Z.
Variable bplib_crc_get : list Z -> Z -> crc_parameters_t -> Z.
Variable cteb_read : list Z -> Z -> bool -> Z -> Z * bp_blk_cteb_t * Z.
Variable pay_read : list Z -> Z -> bool -> Z -> Z * bp_blk_pay_t * Z.
Variable pri_write :
  list Z -> Z -> bp_blk_pri_t -> bool -> Z -> Z * (list Z * bp_blk_pri_t) * Z.
Variable cteb_write :
  list Z -> Z -> bp_blk_cteb_t -> bool -> Z -> Z * (list Z * bp_blk_cteb_t) * Z.
Variable bplib_ipn2eid : Z -> Z -> Z -> list Z.

(** The condition of the block loop,
    [while (status == BP_SUCCESS && index < size)]. *)
Definition rx_guard (size : Z) (st : rx_t) : bool :=
  (rx_status st =? BP_SUCCESS K) && (rx_index st <? size).

(** The CTEB that the received bundle carries at the index of [st], if
    the block there is one: what [cteb_read] makes of the bytes from that
    index on. *)
Definition cteb_at (size : Z) (st : rx_t) : option bp_blk_cteb_t :=
  match load (rx_buffer st) (rx_index st), ptr_at (rx_buffer st) (rx_index st) with
  | Ret blk_type, Ret sub =>
      if blk_type =? BP_CTEB_BLK_TYPE
      then Some (snd (fst (cteb_read sub (size - rx_index st) true (rx_flags st))))
      else None
  | _, _ => None
  end.

(** [rx_passes n st st' seen]: [n] turns of the block loop lead from the
    locals [st] to the locals [st'], none of them ending the function;
    [seen] is the last CTEB among the blocks of these turns, if there is
    one. *)
Inductive rx_passes (bundle : bp_bundle_t) (size : Z) (pri_blk : bp_blk_pri_t)
    (exprtime : Z) (payload : bp_payload_t)
  : nat -> rx_t -> rx_t -> option bp_blk_cteb_t -> Prop :=
| rx_passes_none (st : rx_t) :
    rx_passes bundle size pri_blk exprtime payload 0 st st None
| rx_passes_turn (n : nat) (st st1 st' : rx_t) (later seen : option bp_blk_cteb_t) :
    rx_guard size st = true ->
    receive_block K sdnv_read sdnv_write bplib_crc_get cteb_read pay_read pri_write
      cteb_write bplib_ipn2eid bundle size pri_blk exprtime payload st
    = Ret (Continue st1) ->
    rx_passes bundle size pri_blk exprtime payload n st1 st' later ->
    seen = match later with Some c => Some c | None => cteb_at size st end ->
    rx_passes bundle size pri_blk exprtime payload (S n) st st' seen.

End BlockLoopVocabulary.

(** "Set Returned Payload" of the payload turn: the payload descriptor of
    a bundle whose payload block [pay_blk] has been read. *)
Definition rx_delivered (pri_blk : bp_blk_pri_t) (exprtime : Z) (payload : bp_payload_t)
    (pay_blk : bp_blk_pay_t) : bp_payload_t :=
  with_memptr
    (with_pl_data payload
       {| pl_exprtime := exprtime; ackapp := ack_app pri_blk;
          payloadsize := paysize pay_blk |})
    (payptr pay_blk).

(** The flags after "Perform Integrity Check" of the payload turn, [flags]
    being those that the payload block reader returned. *)
Definition rx_verified_flags (K : bplib_h)
    (bplib_crc_get : list Z -> Z -> crc_parameters_t -> Z)
    (st : rx_t) (pay_blk : bp_blk_pay_t) (flags : Z) : Z :=
  if rx_bib_present st
  then snd (bib_verify K bplib_crc_get (payptr pay_blk) (paysize pay_blk)
              (rx_bib_blk st) flags)
  else flags.

Section FlashVocabulary.
Import FlashSim.
Context (F : bplib_flash_sim_h).

(** A page, a block, a device of the declared geometry, as
    [bplib_flash_sim_initialize] allocates them. *)
Definition page_wf (pg : flash_driver_page_t) : Prop :=
  Z.of_nat (length (data pg)) = FLASH_SIM_PAGE_SIZE F
  /\ Z.of_nat (length (spare pg)) = FLASH_SIM_SPARE_SIZE F.

Definition block_wf (blk : flash_driver_block_t) : Prop :=
  Z.of_nat (length (pages blk)) = FLASH_SIM_PAGES_PER_BLOCK F
  /\ Forall page_wf (pages blk).

Definition flash_wf (dev : flash_driver_device_t) : Prop :=
  Z.of_nat (length (blocks dev)) = FLASH_SIM_NUM_BLOCKS F
  /\ Forall block_wf (blocks dev).

(** An address inside the device. *)
Definition addr_ok (addr : bp_flash_addr_t) : Prop :=
  0 <= block addr < FLASH_SIM_NUM_BLOCKS F
  /\ 0 <= page addr < FLASH_SIM_PAGES_PER_BLOCK F.

(** The data of the page at an address, if there is one. *)
Definition page_at (dev : flash_driver_device_t) (b p : Z) : option flash_driver_page_t :=
  match blocks dev !! Z.to_nat b with
  | Some blk => pages blk !! Z.to_nat p
  | None => None
  end.

(** The erased page. *)
Definition erased_page : flash_driver_page_t :=
  {| data := replicate (Z.to_nat (FLASH_SIM_PAGE_SIZE F)) 0xFF;
     spare := replicate (Z.to_nat (FLASH_SIM_SPARE_SIZE F)) 0xFF |}.

(** Bytes. *)
Definition page_bytes (l : list Z) : Prop := Forall (fun b => 0 <= b < 256) l.

End FlashVocabulary.

(** The index of the first NUL of a string, if it has one. *)
Fixpoint first_nul (str : list Z) : option nat :=
  match str with
  | [] => None
  | c :: rest => if c =? 0 then Some O else S <$> first_nul rest
  end.

(* ================================================================== *)
(** * Properties                                                        *)
(* ================================================================== *)

(** ** Outcomes, arithmetic, the log *)

Lemma bind_Ret {A B : Type} (m : exec A) (k : A -> exec B) (b : B) :
  bind m k = Ret b -> exists a, m = Ret a /\ k a = Ret b.
Proof. destruct m; simpl; intros H; try discriminate. eauto. Qed.

Lemma umod_zero (a : Z) : umod a 0 = UB DivByZero.
Proof. reflexivity. Qed.

Lemma umod_Ret (a b r : Z) : umod a b = Ret r -> b <> 0 /\ r = a mod b.
Proof.
  unfold umod. destruct (b =? 0) eqn:E; intros H; [discriminate|].
  apply Z.eqb_neq in E. inversion H. auto.
Qed.

Lemma load_Ret {A : Type} (a : list A) (i : Z) (x : A) :
  load a i = Ret x -> 0 <= i /\ a !! Z.to_nat i = Some x.
Proof.
  unfold load. destruct (i <? 0) eqn:E; [discriminate|].
  apply Z.ltb_ge in E. destruct (a !! Z.to_nat i); intros H; inversion H. auto.
Qed.

Lemma store_Ret {A : Type} (a : list A) (i : Z) (x : A) (a' : list A) :
  store a i x = Ret a' ->
  0 <= i /\ (Z.to_nat i < length a)%nat /\ a' = <[Z.to_nat i := x]> a.
Proof.
  unfold store. destruct ((0 <=? i) && (i <? Z.of_nat (length a))) eqn:E; [|discriminate].
  apply andb_true_iff in E as [E1 E2]. apply Z.leb_le in E1. apply Z.ltb_lt in E2.
  intros H. inversion H. repeat split; auto. lia.
Qed.

(** Case analysis of an execution that returned: binds are split, the
    scrutinees of the matches on the way are destructed. *)
Ltac exec_inv H :=
  repeat first
    [ match type of H with
      | bind _ _ = Ret _ =>
          let x := fresh "x" in
          let Hx := fresh "Hx" in
          apply bind_Ret in H as (x & Hx & H)
      end
    | match type of H with
      | context [match ?x with _ => _ end] =>
          first [ is_var x; destruct x
                | let E := fresh "E" in destruct x eqn:E ]
      end; simpl in H; try discriminate H ].

(** The same over all the hypotheses, equations of pairs and of returned
    values included. *)
Ltac exec_crack :=
  repeat match goal with
  | H : bind _ _ = Ret _ |- _ =>
      let x := fresh "x" in
      let Hx := fresh "Hx" in
      apply bind_Ret in H as (x & Hx & H)
  | H : context [match ?x with _ => _ end] |- _ =>
      first [ is_var x; destruct x
            | let E := fresh "E" in destruct x eqn:E ];
      simpl in H; try discriminate H
  | H : Ret _ = Ret _ |- _ => inversion H; clear H; subst
  | H : (_, _) = (_, _) |- _ => inversion H; clear H; subst
  | H : inl _ = inl _ |- _ => inversion H; clear H; subst
  | H : inr _ = inr _ |- _ => inversion H; clear H; subst
  end.

Lemma store_in_bounds {A : Type} (a : list A) (i : Z) (x : A) :
  0 <= i < Z.of_nat (length a) -> store a i x = Ret (<[Z.to_nat i := x]> a).
Proof.
  intros H. unfold store.
  replace ((0 <=? i) && (i <? Z.of_nat (length a))) with true; [reflexivity|].
  symmetry. apply andb_true_iff. split; [apply Z.leb_le|apply Z.ltb_lt]; lia.
Qed.

Lemma bplog_event (K : bplib_h) (flags event : Z) :
  0 < event -> bplog K flags event = (BP_ERROR K, Z.lor flags event).
Proof. intros H. unfold bplog. apply Z.ltb_lt in H. now rewrite H. Qed.

Lemma bplog_ret_event (K : bplib_h) {S : Type} (flags event : Z) (s : S) :
  0 < event -> bplog_ret K flags event s = (BP_ERROR K, s, Z.lor flags event).
Proof. intros H. unfold bplog_ret. now rewrite bplog_event. Qed.

Lemma bplog_flags (K : bplib_h) (flags event : Z) :
  0 <= event -> snd (bplog K flags event) = Z.lor flags event.
Proof.
  intros H. unfold bplog. destruct (0 <? event) eqn:E; simpl; [reflexivity|].
  apply Z.ltb_ge in E. assert (event = 0) by lia. subst. now rewrite Z.lor_0_r.
Qed.

(** Distances between 64-bit counters. *)
Lemma u64_distance_pos (a b : Z) :
  0 <= a < 2 ^ 64 -> 0 <= b < 2 ^ 64 -> a <> b -> 0 < u64 (b - a).
Proof.
  intros Ha Hb Hne. unfold u64.
  destruct (Z_lt_le_dec b a).
  - rewrite <- (Z_mod_plus_full (b - a) 1 (2 ^ 64)).
    rewrite Z.mod_small by lia. lia.
  - rewrite Z.mod_small by lia. lia.
Qed.

Lemma u64_distance_step (a b : Z) :
  0 <= a < 2 ^ 64 -> 0 <= b < 2 ^ 64 -> a <> b ->
  u64 (b - u64 (a + 1)) = u64 (b - a) - 1.
Proof.
  intros Ha Hb Hne. pose proof (u64_distance_pos a b Ha Hb Hne) as Hd.
  unfold u64 in *. rewrite Zminus_mod_idemp_r.
  replace (b - (a + 1)) with (b - a - 1) by ring.
  rewrite <- Zminus_mod_idemp_l.
  pose proof (Z.mod_pos_bound (b - a) (2 ^ 64)).
  rewrite Z.mod_small; lia.
Qed.

(** ** The active-bundle table *)

Section CBufFacts.
Import CBuf.
Context (K : bplib_h).

(** [cbuf_next] changes nothing but [oldest_cid]. *)
Lemma cbuf_next_loop_frame (fuel : nat) (c c' : cbuf_t) (r : Z)
    (o : option bp_active_bundle_t) :
  cbuf_next_loop K fuel c = Ret (r, c', o) ->
  table c' = table c /\ size c' = size c /\ num_entries c' = num_entries c
  /\ newest_cid c' = newest_cid c.
Proof.
  revert c. induction fuel as [|fuel IH]; intros c; simpl.
  - destruct (oldest_cid c =? newest_cid c); intros H; inversion H; auto.
  - destruct (oldest_cid c =? newest_cid c); [intros H; inversion H; auto|].
    intros H. apply bind_Ret in H as (ati & _ & H).
    apply bind_Ret in H as (slot & _ & H).
    destruct (sid slot =? BP_SID_VACANT K).
    + apply IH in H. simpl in H. exact H.
    + inversion H; auto.
Qed.

(** The fuel that [cbuf_next] gives its loop is enough: the function
    never stops for lack of it. *)
Lemma cbuf_next_loop_total (fuel : nat) (c : cbuf_t) :
  0 <= oldest_cid c < 2 ^ 64 -> 0 <= newest_cid c < 2 ^ 64 ->
  u64 (newest_cid c - oldest_cid c) <= Z.of_nat fuel ->
  cbuf_next_loop K fuel c <> Fuel.
Proof.
  revert c. induction fuel as [|fuel IH]; intros c Ho Hn Hd; simpl.
  - destruct (oldest_cid c =? newest_cid c) eqn:E; [discriminate|].
    apply Z.eqb_neq in E. exfalso.
    pose proof (u64_distance_pos (oldest_cid c) (newest_cid c) Ho Hn E). lia.
  - destruct (oldest_cid c =? newest_cid c) eqn:E; [discriminate|].
    apply Z.eqb_neq in E.
    unfold umod. destruct (size c =? 0); simpl; [discriminate|].
    unfold slot_load, load.
    destruct (table c) as [t|]; simpl; [|discriminate].
    destruct (oldest_cid c mod size c <? 0); simpl; [discriminate|].
    destruct (t !! Z.to_nat (oldest_cid c mod size c)) as [slot|]; simpl; [|discriminate].
    destruct (sid slot =? BP_SID_VACANT K); [|discriminate].
    apply IH; simpl; auto.
    + unfold u64. apply Z.mod_pos_bound. lia.
    + rewrite u64_distance_step by auto. lia.
Qed.

Lemma cbuf_next_total (c : cbuf_t) :
  0 <= oldest_cid c < 2 ^ 64 -> 0 <= newest_cid c < 2 ^ 64 ->
  cbuf_next K c <> Fuel.
Proof.
  intros Ho Hn. unfold cbuf_next. apply cbuf_next_loop_total; auto.
  rewrite Z2Nat.id; [lia|]. unfold u64. apply Z.mod_pos_bound. lia.
Qed.

(** *** Every slot in use holds a record that belongs there *)

Lemma slot_load_Ret (c : cbuf_t) (ati : Z) (b : bp_active_bundle_t) :
  slot_load c ati = Ret b ->
  exists t, table c = Some t /\ 0 <= ati /\ t !! Z.to_nat ati = Some b.
Proof.
  unfold slot_load. destruct (table c) as [t|]; [|discriminate].
  intros H. apply load_Ret in H. eauto.
Qed.

Lemma slot_store_Ret (c : cbuf_t) (ati : Z) (b : bp_active_bundle_t)
    (t' : option (list bp_active_bundle_t)) :
  slot_store c ati b = Ret t' ->
  exists t, table c = Some t /\ 0 <= ati /\ (Z.to_nat ati < length t)%nat
            /\ t' = Some (<[Z.to_nat ati := b]> t).
Proof.
  unfold slot_store. destruct (table c) as [t|]; [|discriminate].
  intros H. apply bind_Ret in H as (t1 & Hs & H). inversion H; subst.
  apply store_Ret in Hs as (? & ? & ->). eauto 6.
Qed.

Lemma cbuf_add_slots_indexed (c c' : cbuf_t) (b : bp_active_bundle_t) (ow : bool) (r : Z) :
  slots_indexed K c -> cbuf_add K c b ow = Ret (r, c') -> slots_indexed K c'.
Proof.
  intros Hinv H. unfold cbuf_add in H.
  apply bind_Ret in H as (ati & Hati & H). apply umod_Ret in Hati as [Hsz ->].
  apply bind_Ret in H as (slot & _ & H).
  destruct (negb ow && negb (sid slot =? BP_SID_VACANT K) && (cid slot =? cid b)).
  - inversion H; subst; exact Hinv.
  - apply bind_Ret in H as (t' & Hst & H). inversion H; subst; clear H.
    apply slot_store_Ret in Hst as (t & Ht & Hge & Hlt & ->).
    intros i x Hx Hocc. simpl in *.
    destruct (decide (i = Z.to_nat (cid b mod size c))) as [->|Hne].
    + rewrite list_lookup_insert_eq in Hx by exact Hlt. inversion Hx; subst. lia.
    + rewrite list_lookup_insert_ne in Hx by auto.
      apply (Hinv i x); [rewrite Ht; exact Hx | exact Hocc].
Qed.

Lemma cbuf_remove_slots_indexed (c c' : cbuf_t) (k r : Z)
    (o : option bp_active_bundle_t) :
  slots_indexed K c -> cbuf_remove K c k = Ret (r, c', o) -> slots_indexed K c'.
Proof.
  intros Hinv H. unfold cbuf_remove in H.
  apply bind_Ret in H as (ati & Hati & H). apply umod_Ret in Hati as [Hsz ->].
  apply bind_Ret in H as (slot & _ & H).
  destruct (negb (sid slot =? BP_SID_VACANT K) && (cid slot =? k)).
  - apply bind_Ret in H as (t' & Hst & H). inversion H; subst; clear H.
    apply slot_store_Ret in Hst as (t & Ht & Hge & Hlt & ->).
    intros i x Hx Hocc. simpl in *.
    destruct (decide (i = Z.to_nat (k mod size c))) as [->|Hne].
    + rewrite list_lookup_insert_eq in Hx by exact Hlt. inversion Hx; subst.
      simpl in Hocc. congruence.
    + rewrite list_lookup_insert_ne in Hx by auto.
      apply (Hinv i x); [rewrite Ht; exact Hx | exact Hocc].
  - inversion H; subst; exact Hinv.
Qed.

Lemma cbuf_next_slots_indexed (c c' : cbuf_t) (r : Z) (o : option bp_active_bundle_t) :
  slots_indexed K c -> cbuf_next K c = Ret (r, c', o) -> slots_indexed K c'.
Proof.
  intros Hinv H. apply cbuf_next_loop_frame in H as (Ht & Hs & _).
  unfold slots_indexed. rewrite Ht, Hs. exact Hinv.
Qed.

Lemma step_slots_indexed (c c' : cbuf_t) (o : op) :
  slots_indexed K c -> step K c o = Ret c' -> slots_indexed K c'.
Proof.
  intros Hinv H. destruct o as [b ow| |k]; simpl in H;
    apply bind_Ret in H as (r & Hr & H); inversion H; subst; clear H.
  - destruct r as [r c']. eapply cbuf_add_slots_indexed; eauto.
  - destruct r as [[r c'] o]. eapply cbuf_next_slots_indexed; eauto.
  - destruct r as [[r c'] o]. eapply cbuf_remove_slots_indexed; eauto.
Qed.

Lemma fresh_slots_indexed (cbuf_mem table_mem : bool) (sz : Z)
    (cur : option cbuf_t) (c : cbuf_t) :
  BP_SID_VACANT K = 0 -> 0 < sz <= BP_MAX_INDEX K ->
  cbuf_create K cbuf_mem table_mem cur sz = Ret (BP_SUCCESS K, Some c) ->
  slots_indexed K c.
Proof.
  intros Hv Hsz H. unfold cbuf_create in H.
  replace ((sz <? 0) || (BP_MAX_INDEX K <? sz)) with false in H
    by (symmetry; apply orb_false_iff; split; apply Z.ltb_ge; lia).
  replace (0 <? sz) with true in H by (symmetry; apply Z.ltb_lt; lia).
  destruct cbuf_mem; [|discriminate H].
  destruct table_mem; simpl in H; inversion H; subst; clear H.
  - intros i b Hb Hocc. simpl in Hb.
    apply lookup_replicate in Hb as [-> _]. simpl in Hocc. congruence.
  - intros i b Hb. simpl in Hb. discriminate Hb.
Qed.

(** The second half of the table invariant of the design description
    holds: after any sequence of operations on a fresh table, every slot
    in use at index [i] holds a record whose [cid mod size] is [i]. *)
Lemma run_slots_indexed (ops : list op) (c c' : cbuf_t) :
  slots_indexed K c -> run K c ops = Ret c' -> slots_indexed K c'.
Proof.
  revert c. induction ops as [|o ops IH]; intros c Hinv H; simpl in H.
  - inversion H; subst; exact Hinv.
  - apply bind_Ret in H as (c1 & Hstep & H).
    eapply IH; [|exact H]. eapply step_slots_indexed; eauto.
Qed.

(** *** The entry count *)

(** C1.  The table invariant of the design description (after any sequence
    of [add], [remove] and [next] on a fresh table, [num_entries] is the
    number of slots in use) does not hold of [cbuf_add]: an [add] into a
    slot in use writes the slot and counts one more entry.  On a fresh
    table of 8 slots, adding custody id 0 and then custody id 8 (both go
    to slot 0, both calls succeed) leaves [num_entries = 2] with one slot
    in use; so does adding custody id 0 twice with [overwrite].  The fresh
    table is the one [cbuf_create] returns when its two allocations
    succeed. *)
Theorem cbuf_add_occupied_slot_overcounts :
  BP_SID_VACANT K = 0 -> 8 <= BP_MAX_INDEX K ->
  exists c0 : cbuf_t,
    cbuf_create K true true None 8 = Ret (BP_SUCCESS K, Some c0)
    /\ (exists c1 c2 : cbuf_t,
          cbuf_add K c0 {| sid := 1; retx := 0; cid := 0 |} false = Ret (BP_SUCCESS K, c1)
          /\ cbuf_add K c1 {| sid := 2; retx := 0; cid := 8 |} false = Ret (BP_SUCCESS K, c2)
          /\ cbuf_count c2 = 2 /\ occupied K c2 = 1)
    /\ (exists c1 c2 : cbuf_t,
          cbuf_add K c0 {| sid := 1; retx := 0; cid := 0 |} true = Ret (BP_SUCCESS K, c1)
          /\ cbuf_add K c1 {| sid := 1; retx := 0; cid := 0 |} true = Ret (BP_SUCCESS K, c2)
          /\ cbuf_count c2 = 2 /\ occupied K c2 = 1).
Proof.
  intros Hv Hm.
  assert (E : (BP_MAX_INDEX K <? 8) = false) by (apply Z.ltb_ge; lia).
  assert (W1 : (0 + 1) mod (BP_MAX_INDEX K + 1) = 1) by (apply Z.mod_small; lia).
  assert (W2 : (1 + 1) mod (BP_MAX_INDEX K + 1) = 2) by (apply Z.mod_small; lia).
  eexists. split.
  { unfold cbuf_create. rewrite E. simpl. reflexivity. }
  split.
  - do 2 eexists. split; [|split; [|split]].
    + unfold cbuf_add, index_wrap. simpl. rewrite Hv, W1. simpl. reflexivity.
    + unfold cbuf_add, index_wrap. simpl. rewrite Hv, W2. simpl. reflexivity.
    + reflexivity.
    + unfold occupied. simpl. rewrite Hv. reflexivity.
  - do 2 eexists. split; [|split; [|split]].
    + unfold cbuf_add, index_wrap. simpl. rewrite W1. reflexivity.
    + unfold cbuf_add, index_wrap. simpl. rewrite W2. reflexivity.
    + reflexivity.
    + unfold occupied. simpl. rewrite Hv. reflexivity.
Qed.

(** *** A table of size zero *)

(** C9 (as amended).  Every table operation computes its slot index as
    [cid mod size], undefined when [size] is zero.  The range check of
    [cbuf_create] rejects the sizes below zero and above [BP_MAX_INDEX]
    and accepts zero: given a structure to fill in, it returns success with
    [size = 0] and no table (it allocates nothing for that size, so the
    outcome of an allocation plays no part).  On a table of size zero [add], [remove] and
    [available] divide by zero, whatever their arguments; [next] does so
    only when [oldest_cid] and [newest_cid] differ, and on the table as
    created (both zero) it returns [BP_TIMEOUT] without computing an
    index. *)
Theorem cbuf_size_zero_modulo :
  0 <= BP_MAX_INDEX K ->
  (forall (cbuf_mem table_mem : bool) (cur : option cbuf_t) (sz : Z),
      sz < 0 \/ BP_MAX_INDEX K < sz ->
      cbuf_create K cbuf_mem table_mem cur sz = Ret (BP_ERROR K, cur))
  /\ (forall (cbuf_mem table_mem : bool) (c0 : cbuf_t),
         cbuf_create K cbuf_mem table_mem (Some c0) 0
         = Ret (BP_SUCCESS K,
                Some {| table := None; size := 0; num_entries := 0;
                        newest_cid := 0; oldest_cid := 0 |}))
  /\ (forall c : cbuf_t,
         size c = 0 ->
         (forall (b : bp_active_bundle_t) (ow : bool), cbuf_add K c b ow = UB DivByZero)
         /\ (forall k : Z, cbuf_remove K c k = UB DivByZero)
         /\ (forall k : Z, cbuf_available K c k = UB DivByZero)
         /\ (forall fuel : nat,
                oldest_cid c <> newest_cid c ->
                cbuf_next_loop K (S fuel) c = UB DivByZero)
         /\ (oldest_cid c = newest_cid c -> cbuf_next K c = Ret (BP_TIMEOUT K, c, None))).
Proof.
  intros Hm. split; [|split].
  - intros cbuf_mem table_mem cur sz Hsz. unfold cbuf_create.
    replace ((sz <? 0) || (BP_MAX_INDEX K <? sz)) with true; [reflexivity|].
    symmetry. apply orb_true_iff. destruct Hsz; [left|right]; apply Z.ltb_lt; lia.
  - intros cbuf_mem table_mem c0. unfold cbuf_create.
    replace (BP_MAX_INDEX K <? 0) with false by (symmetry; apply Z.ltb_ge; lia).
    reflexivity.
  - intros c Hsz. repeat split.
    + intros b ow. unfold cbuf_add. rewrite Hsz. reflexivity.
    + intros k. unfold cbuf_remove. rewrite Hsz. reflexivity.
    + intros k. unfold cbuf_available. rewrite Hsz. reflexivity.
    + intros fuel Hne. simpl. apply Z.eqb_neq in Hne. rewrite Hne, Hsz. reflexivity.
    + intros Heq. unfold cbuf_next. apply Z.eqb_eq in Heq.
      destruct (Z.to_nat _); simpl; rewrite Heq; reflexivity.
Qed.

End CBufFacts.

Lemma cbuf_add_occupied_slot_overcounts_witness :
  BP_SID_VACANT bplib_h_example = 0 /\ 8 <= BP_MAX_INDEX bplib_h_example
  /\ exists c0 : CBuf.cbuf_t,
       CBuf.cbuf_create bplib_h_example true true None 8 = Ret (0, Some c0).
Proof.
  split; [reflexivity|]. split; [simpl; lia|].
  destruct (cbuf_add_occupied_slot_overcounts bplib_h_example) as (c0 & H & _);
    [reflexivity | simpl; lia |].
  exists c0. exact H.
Defined.

Lemma cbuf_size_zero_modulo_witness :
  0 <= BP_MAX_INDEX bplib_h_example
  /\ forall k : Z,
       CBuf.cbuf_available bplib_h_example
         {| CBuf.table := None; CBuf.size := 0; CBuf.num_entries := 0;
            CBuf.newest_cid := 0; CBuf.oldest_cid := 0 |} k
       = UB DivByZero.
Proof.
  split; [simpl; lia|].
  apply (cbuf_size_zero_modulo bplib_h_example); [simpl; lia | reflexivity].
Defined.

(** C9, as stated, fails for [next]: on the table that [cbuf_create] makes
    for size zero, [cbuf_next] returns [BP_TIMEOUT] and reaches no modulo. *)
Lemma cbuf_next_size_zero_no_modulo :
  exists c : CBuf.cbuf_t,
    CBuf.cbuf_create bplib_h_example false false (Some c) 0 = Ret (0, Some c)
    /\ CBuf.size c = 0
    /\ CBuf.cbuf_next bplib_h_example c = Ret (-2, c, None)
    /\ CBuf.cbuf_next bplib_h_example c <> UB DivByZero.
Proof.
  exists {| CBuf.table := None; CBuf.size := 0; CBuf.num_entries := 0;
            CBuf.newest_cid := 0; CBuf.oldest_cid := 0 |}.
  repeat split; try reflexivity. discriminate.
Qed.

(** ** The bundle integrity block *)

Section BibFacts.
Context (K : bplib_h).
Variable sdnv_read : list Z -> Z -> bp_field_t -> Z -> Z * bp_field_t * Z.
Variable sdnv_write : list Z -> Z -> bp_field_t -> Z -> Z * list Z * Z.

Lemma classic_valid (bib : bp_blk_bib_t) :
  bib_fields_valid K bib \/ ~ bib_fields_valid K bib.
Proof.
  unfold bib_fields_valid.
  destruct (Z.eq_dec (security_target_type bib) BP_PAY_BLK_TYPE);
  destruct (Z.eq_dec (security_result_type bib) (BP_BIB_INTEGRITY_SIGNATURE K));
  destruct (Z.eq_dec (value (cipher_suite_id bib)) BP_BIB_CRC16_X25);
  destruct (Z.eq_dec (value (cipher_suite_id bib)) BP_BIB_CRC32_CASTAGNOLI);
  tauto.
Qed.

Lemma bib_field_flag_pos (bib : bp_blk_bib_t) :
  bib_events_ok K -> 0 < bib_field_flag K bib.
Proof.
  intros (_ & _ & Ht & Hr & Hc). unfold bib_field_flag.
  destruct (negb _); [assumption|]. destruct (negb _); assumption.
Qed.

(** [bib_write] checks the fields before it touches the block. *)
Lemma bib_write_rejects (buffer : list Z) (size : Z) (bib : bp_blk_bib_t)
    (upd : bool) (flags : Z) :
  bib_events_ok K -> ~ bib_fields_valid K bib ->
  bib_write K sdnv_write buffer size bib upd flags
  = Ret (BP_ERROR K, (buffer, bib),
         Z.lor flags (if size <? 1 then BP_FLAG_FAILED_TO_PARSE K
                      else bib_field_flag K bib)).
Proof.
  intros Hok Hbad. pose proof Hok as (_ & Hp & Ht & Hr & Hc).
  unfold bib_write, bib_field_flag, bib_fields_valid in *.
  destruct (size <? 1); [now rewrite bplog_ret_event|].
  destruct (security_target_type bib =? BP_PAY_BLK_TYPE) eqn:E1; simpl;
    [|now rewrite bplog_ret_event].
  destruct (security_result_type bib =? BP_BIB_INTEGRITY_SIGNATURE K) eqn:E2; simpl;
    [|now rewrite bplog_ret_event].
  apply Z.eqb_eq in E1, E2.
  destruct (value (cipher_suite_id bib) =? BP_BIB_CRC16_X25) eqn:E3;
    [apply Z.eqb_eq in E3; tauto|].
  destruct (value (cipher_suite_id bib) =? BP_BIB_CRC32_CASTAGNOLI) eqn:E4;
    [apply Z.eqb_eq in E4; tauto|].
  now rewrite bplog_ret_event.
Qed.

(** The field checks of [bib_read], once the block has been read. *)
Lemma bib_read_check_rejects (buffer : list Z) (size n : Z) (bib : bp_blk_bib_t)
    (sf flags : Z) :
  bib_events_ok K -> ~ bib_fields_valid K bib ->
  bib_read_check K buffer size n bib sf flags
  = Ret (BP_ERROR K, bib, Z.lor flags (bib_field_flag K bib)).
Proof.
  intros Hok Hbad. pose proof Hok as (_ & Hp & Ht & Hr & Hc).
  unfold bib_read_check, bib_field_flag, bib_fields_valid in *.
  destruct (security_target_type bib =? BP_PAY_BLK_TYPE) eqn:E1; simpl;
    [|now rewrite bplog_ret_event].
  destruct (security_result_type bib =? BP_BIB_INTEGRITY_SIGNATURE K) eqn:E2; simpl;
    [|now rewrite bplog_ret_event].
  apply Z.eqb_eq in E1, E2.
  destruct (value (cipher_suite_id bib) =? BP_BIB_CRC16_X25) eqn:E3;
    [apply Z.eqb_eq in E3; tauto|].
  destruct (value (cipher_suite_id bib) =? BP_BIB_CRC32_CASTAGNOLI) eqn:E4;
    [apply Z.eqb_eq in E4; tauto|].
  now rewrite bplog_ret_event.
Qed.

(** What [bib_read_check] returns when it does not return [BP_ERROR]
    belongs to a block whose fields are valid. *)
Lemma bib_read_check_fields (buffer : list Z) (size n : Z) (bib bib' : bp_blk_bib_t)
    (sf flags r fl : Z) :
  bib_events_ok K ->
  bib_read_check K buffer size n bib sf flags = Ret (r, bib', fl) ->
  r = BP_ERROR K \/ bib_fields_valid K bib'.
Proof.
  intros Hok H. pose proof Hok as (_ & Hp & Ht & Hr & Hc).
  destruct (classic_valid bib) as [Hv|Hv].
  2:{ rewrite bib_read_check_rejects in H by assumption. inversion H; auto. }
  unfold bib_read_check in H. unfold bib_fields_valid in *.
  destruct Hv as (E1 & E2 & E3).
  apply Z.eqb_eq in E1, E2. rewrite E1, E2 in H. simpl in H.
  destruct (value (cipher_suite_id bib) =? BP_BIB_CRC16_X25) eqn:E4.
  - destruct (_ || _) in H.
    + rewrite bplog_ret_event in H by assumption. inversion H; auto.
    + apply bind_Ret in H as (c & _ & H).
      destruct (negb (sf =? 0)).
      * rewrite bplog_ret_event in H by assumption. inversion H; auto.
      * inversion H; subst. right. simpl. rewrite !Z.eqb_eq in *. auto.
  - destruct (value (cipher_suite_id bib) =? BP_BIB_CRC32_CASTAGNOLI) eqn:E5.
    + destruct (_ || _) in H.
      * rewrite bplog_ret_event in H by assumption. inversion H; auto.
      * apply bind_Ret in H as (c & _ & H).
        destruct (negb (sf =? 0)).
        -- rewrite bplog_ret_event in H by assumption. inversion H; auto.
        -- inversion H; subst. right. simpl. rewrite !Z.eqb_eq in *. auto.
    + rewrite bplog_ret_event in H by assumption. inversion H; auto.
Qed.

(** An early return of the block reader is an error return. *)
Lemma bib_read_block_early (buffer : list Z) (size : Z) (bib : bp_blk_bib_t)
    (upd : bool) (flags : Z) (e : Z * bp_blk_bib_t * Z) :
  bib_events_ok K ->
  bib_read_block K sdnv_read buffer size bib upd flags = Ret (inl e) ->
  fst (fst e) = BP_ERROR K.
Proof.
  intros (_ & Hp & _) H. unfold bib_read_block in H.
  exec_inv H; inversion H; subst; rewrite bplog_ret_event by assumption; reflexivity.
Qed.

(** [bib_read] never returns a byte count for a block whose fields are
    not valid. *)
Lemma bib_read_rejects (buffer : list Z) (size : Z) (bib bib' : bp_blk_bib_t)
    (upd : bool) (flags r fl : Z) :
  bib_events_ok K ->
  bib_read K sdnv_read buffer size bib upd flags = Ret (r, bib', fl) ->
  ~ bib_fields_valid K bib' -> r = BP_ERROR K.
Proof.
  intros Hok H Hbad. pose proof Hok as (_ & Hp & _). unfold bib_read in H.
  destruct (size <? 1).
  { rewrite bplog_ret_event in H by assumption. now inversion H. }
  apply bind_Ret in H as (b0 & _ & H).
  destruct (negb (b0 =? BP_BIB_BLK_TYPE)).
  { rewrite bplog_ret_event in H by assumption. now inversion H. }
  apply bind_Ret in H as (blk & Hblk & H).
  destruct blk as [e|[[n bib1] sf]].
  - apply bib_read_block_early in Hblk; [|assumption]. inversion H; subst. exact Hblk.
  - apply bib_read_check_fields in H as [H|H]; [assumption|tauto|assumption].
Qed.

(** Once the size and block type checks have passed and the block has
    been read, [bib_read] is its field checks. *)
Lemma bib_read_reaches_check (buffer : list Z) (size : Z) (bib bib1 : bp_blk_bib_t)
    (upd : bool) (flags n sf : Z) :
  1 <= size -> load buffer 0 = Ret BP_BIB_BLK_TYPE ->
  bib_read_block K sdnv_read buffer size bib upd flags = Ret (inr (n, bib1, sf)) ->
  bib_read K sdnv_read buffer size bib upd flags
  = bib_read_check K buffer size n bib1 sf flags.
Proof.
  intros Hsz Hl Hb. unfold bib_read.
  replace (size <? 1) with false by (symmetry; apply Z.ltb_ge; lia).
  rewrite Hl. simpl. rewrite Hb. reflexivity.
Qed.

(** The early returns of [bib_read]: a size below one, a first byte that
    is not the BIB block type, and a block that ends before one of its two
    type bytes each return [BP_ERROR] with [FAILED_TO_PARSE] raised. *)
Lemma bib_read_block_early_flag (buffer : list Z) (size : Z) (bib : bp_blk_bib_t)
    (upd : bool) (flags : Z) (e : Z * bp_blk_bib_t * Z) :
  bib_events_ok K ->
  bib_read_block K sdnv_read buffer size bib upd flags = Ret (inl e) ->
  snd e = Z.lor flags (BP_FLAG_FAILED_TO_PARSE K).
Proof.
  intros (_ & Hp & _) H. unfold bib_read_block in H.
  exec_inv H; inversion H; subst; rewrite bplog_ret_event by assumption; reflexivity.
Qed.

Lemma bib_read_small (buffer : list Z) (size : Z) (bib : bp_blk_bib_t)
    (upd : bool) (flags : Z) :
  bib_events_ok K -> size < 1 ->
  bib_read K sdnv_read buffer size bib upd flags
  = Ret (BP_ERROR K, bib, Z.lor flags (BP_FLAG_FAILED_TO_PARSE K)).
Proof.
  intros (_ & Hp & _) Hsz. unfold bib_read.
  replace (size <? 1) with true by (symmetry; apply Z.ltb_lt; lia).
  now rewrite bplog_ret_event.
Qed.

Lemma bib_read_other_type (buffer : list Z) (size b0 : Z) (bib : bp_blk_bib_t)
    (upd : bool) (flags : Z) :
  bib_events_ok K -> 1 <= size -> load buffer 0 = Ret b0 -> b0 <> BP_BIB_BLK_TYPE ->
  bib_read K sdnv_read buffer size bib upd flags
  = Ret (BP_ERROR K, bib, Z.lor flags (BP_FLAG_FAILED_TO_PARSE K)).
Proof.
  intros (_ & Hp & _) Hsz Hl Hne. unfold bib_read.
  replace (size <? 1) with false by (symmetry; apply Z.ltb_ge; lia).
  rewrite Hl. cbn [bind].
  replace (b0 =? BP_BIB_BLK_TYPE) with false by (symmetry; now apply Z.eqb_neq).
  cbn [negb]. now rewrite bplog_ret_event.
Qed.

Lemma bib_read_truncated (buffer : list Z) (size : Z) (bib : bp_blk_bib_t)
    (upd : bool) (flags : Z) (e : Z * bp_blk_bib_t * Z) :
  bib_events_ok K -> 1 <= size -> load buffer 0 = Ret BP_BIB_BLK_TYPE ->
  bib_read_block K sdnv_read buffer size bib upd flags = Ret (inl e) ->
  bib_read K sdnv_read buffer size bib upd flags
  = Ret (BP_ERROR K, snd (fst e), Z.lor flags (BP_FLAG_FAILED_TO_PARSE K)).
Proof.
  intros Hok Hsz Hl Hb. unfold bib_read.
  replace (size <? 1) with false by (symmetry; apply Z.ltb_ge; lia).
  rewrite Hl. cbn [bind]. rewrite Z.eqb_refl. cbn [negb]. rewrite Hb. cbn [bind].
  pose proof (bib_read_block_early _ _ _ _ _ _ Hok Hb) as H1.
  pose proof (bib_read_block_early_flag _ _ _ _ _ _ Hok Hb) as H2.
  destruct e as [[r b] f]. simpl in *. now subst.
Qed.

(** The flag that a failing [bib_read] raises for a block whose fields are
    not valid is [FAILED_TO_PARSE] or the flag of the first invalid
    field. *)
Lemma bib_read_rejects_flag (buffer : list Z) (size : Z) (bib bib' : bp_blk_bib_t)
    (upd : bool) (flags r fl : Z) :
  bib_events_ok K ->
  bib_read K sdnv_read buffer size bib upd flags = Ret (r, bib', fl) ->
  ~ bib_fields_valid K bib' ->
  fl = Z.lor flags (BP_FLAG_FAILED_TO_PARSE K)
  \/ fl = Z.lor flags (bib_field_flag K bib').
Proof.
  intros Hok H Hbad. pose proof Hok as (_ & Hp & _). unfold bib_read in H.
  destruct (size <? 1).
  { rewrite bplog_ret_event in H by assumption. inversion H; auto. }
  apply bind_Ret in H as (b0 & _ & H).
  destruct (negb (b0 =? BP_BIB_BLK_TYPE)).
  { rewrite bplog_ret_event in H by assumption. inversion H; auto. }
  apply bind_Ret in H as (blk & Hblk & H).
  destruct blk as [e|[[n bib1] sf]].
  - apply bib_read_block_early_flag in Hblk; [|assumption]. inversion H; subst. auto.
  - destruct (classic_valid bib1) as [Hv|Hv].
    + pose proof (bib_read_check_fields _ _ _ _ _ _ _ _ _ Hok H) as [Hr|Hr];
        [|contradiction].
      unfold bib_read_check in H. destruct Hv as (E1 & E2 & E3).
      apply Z.eqb_eq in E1, E2. rewrite E1, E2 in H. cbn [negb] in H.
      exec_inv H; inversion H; subst;
        try (rewrite bplog_ret_event by assumption; auto);
        try (exfalso; apply Hbad; unfold bib_fields_valid; simpl;
             rewrite !Z.eqb_eq in *; auto).
      all: rewrite ?Z.eqb_eq, ?Z.eqb_neq in *; tauto.
    + rewrite bib_read_check_rejects in H by assumption. inversion H; subst. auto.
Qed.

(** C8 (as amended).  [bib_read] and [bib_write] return [BP_ERROR], a
    negative value and never a byte count, whenever the security target
    type is not the payload block type, or the security result type is not
    the integrity signature, or the cipher suite is neither CRC-16/X.25
    nor CRC-32/Castagnoli.  The flag raised is that of the first check
    that fails: [bib_write] raises [FAILED_TO_PARSE] for a size below one
    and otherwise the flag of the first invalid field, in the order target
    type, result type, cipher suite; [bib_read] raises the flag of the
    first invalid field once its size, block type and truncation checks
    have passed, and [FAILED_TO_PARSE] before that: for a size below one,
    for a first byte that is not the BIB block type, and for a block that
    ends before one of its two type bytes.  A failing [bib_read] that
    leaves invalid fields behind has raised one of these two flags. *)
Theorem bib_invalid_fields_rejected :
  bib_events_ok K ->
  (forall (buffer : list Z) (size : Z) (bib : bp_blk_bib_t) (upd : bool) (flags : Z),
      ~ bib_fields_valid K bib ->
      BP_ERROR K < 0
      /\ bib_write K sdnv_write buffer size bib upd flags
         = Ret (BP_ERROR K, (buffer, bib),
                Z.lor flags (if size <? 1 then BP_FLAG_FAILED_TO_PARSE K
                             else bib_field_flag K bib)))
  /\ (forall (buffer : list Z) (size : Z) (bib bib' : bp_blk_bib_t) (upd : bool)
             (flags r fl : Z),
         bib_read K sdnv_read buffer size bib upd flags = Ret (r, bib', fl) ->
         ~ bib_fields_valid K bib' ->
         r = BP_ERROR K /\ r < 0
         /\ (fl = Z.lor flags (BP_FLAG_FAILED_TO_PARSE K)
             \/ fl = Z.lor flags (bib_field_flag K bib')))
  /\ (forall (buffer : list Z) (size : Z) (bib bib1 : bp_blk_bib_t) (upd : bool)
             (flags n sf : Z),
         1 <= size -> load buffer 0 = Ret BP_BIB_BLK_TYPE ->
         bib_read_block K sdnv_read buffer size bib upd flags = Ret (inr (n, bib1, sf)) ->
         ~ bib_fields_valid K bib1 ->
         bib_read K sdnv_read buffer size bib upd flags
         = Ret (BP_ERROR K, bib1, Z.lor flags (bib_field_flag K bib1)))
  /\ (forall (buffer : list Z) (size : Z) (bib : bp_blk_bib_t) (upd : bool) (flags : Z),
         size < 1 ->
         bib_read K sdnv_read buffer size bib upd flags
         = Ret (BP_ERROR K, bib, Z.lor flags (BP_FLAG_FAILED_TO_PARSE K)))
  /\ (forall (buffer : list Z) (size b0 : Z) (bib : bp_blk_bib_t) (upd : bool)
             (flags : Z),
         1 <= size -> load buffer 0 = Ret b0 -> b0 <> BP_BIB_BLK_TYPE ->
         bib_read K sdnv_read buffer size bib upd flags
         = Ret (BP_ERROR K, bib, Z.lor flags (BP_FLAG_FAILED_TO_PARSE K)))
  /\ (forall (buffer : list Z) (size : Z) (bib : bp_blk_bib_t) (upd : bool)
             (flags : Z) (e : Z * bp_blk_bib_t * Z),
         1 <= size -> load buffer 0 = Ret BP_BIB_BLK_TYPE ->
         bib_read_block K sdnv_read buffer size bib upd flags = Ret (inl e) ->
         bib_read K sdnv_read buffer size bib upd flags
         = Ret (BP_ERROR K, snd (fst e), Z.lor flags (BP_FLAG_FAILED_TO_PARSE K))).
Proof.
  intros Hok. pose proof Hok as (Hneg & _). split; [|split; [|split; [|split; [|split]]]].
  - intros buffer size bib upd flags Hbad. split; [assumption|].
    now apply bib_write_rejects.
  - intros buffer size bib bib' upd flags r fl H Hbad.
    pose proof (bib_read_rejects _ _ _ _ _ _ _ _ Hok H Hbad).
    pose proof (bib_read_rejects_flag _ _ _ _ _ _ _ _ Hok H Hbad). subst. auto.
  - intros buffer size bib bib1 upd flags n sf Hsz Hl Hb Hbad.
    rewrite (bib_read_reaches_check _ _ _ _ _ _ _ _ Hsz Hl Hb).
    now apply bib_read_check_rejects.
  - intros buffer size bib upd flags Hsz. now apply bib_read_small.
  - intros buffer size b0 bib upd flags Hsz Hl Hne.
    now apply (bib_read_other_type buffer size b0).
  - intros buffer size bib upd flags e Hsz Hl Hb. now apply bib_read_truncated.
Qed.

(** The block writer leaves the value of the block flags as it got it. *)
Lemma bib_write_block_bf (buffer buf' : list Z) (size : Z) (bib bib' : bp_blk_bib_t)
    (upd : bool) (flags r fl : Z) :
  bib_write_block K sdnv_write buffer size bib upd flags = Ret (r, (buf', bib'), fl) ->
  value (bib_bf bib') = value (bib_bf bib).
Proof.
  intros H. unfold bib_write_block in H.
  apply bind_Ret in H as (b0 & _ & H). apply bind_Ret in H as (body & Hbody & H).
  unfold bib_write_fields in Hbody.
  exec_inv Hbody; inversion Hbody; subst;
    exec_inv H; inversion H; subst; reflexivity.
Qed.

Lemma replicate_bit_set (v : Z) :
  Z.testbit (Z.lor v BP_BLK_REPALL_MASK) 0 = true.
Proof. rewrite Z.lor_spec. apply orb_true_r. Qed.

(** *** The bytes of the block flags *)

Lemma store_keeps (a a' : list Z) (i x : Z) (p : nat) :
  store a i x = Ret a' -> Z.of_nat p < i -> a' !! p = a !! p.
Proof.
  intros H Hp. apply store_Ret in H as (H0 & _ & ->).
  apply list_lookup_insert_ne. lia.
Qed.

Lemma write_crc16_keeps (crc : Z) (a a' : list Z) (i : Z) (p : nat) :
  write_crc16 crc a i = Ret a' -> Z.of_nat p < i -> a' !! p = a !! p.
Proof.
  unfold write_crc16. intros H Hp. apply bind_Ret in H as (b & H0 & H1).
  rewrite (store_keeps _ _ _ _ _ H1) by lia. now apply (store_keeps _ _ _ _ _ H0).
Qed.

Lemma write_crc32_keeps (crc : Z) (a a' : list Z) (i : Z) (p : nat) :
  write_crc32 crc a i = Ret a' -> Z.of_nat p < i -> a' !! p = a !! p.
Proof.
  unfold write_crc32. intros H Hp. apply bind_Ret in H as (b & H0 & H).
  apply bind_Ret in H as (b1 & H1 & H). apply bind_Ret in H as (b2 & H2 & H3).
  rewrite (store_keeps _ _ _ _ _ H3) by lia. rewrite (store_keeps _ _ _ _ _ H2) by lia.
  rewrite (store_keeps _ _ _ _ _ H1) by lia. now apply (store_keeps _ _ _ _ _ H0).
Qed.

Lemma bib_write_crc_keeps (bib : bp_blk_bib_t) (a a' : list Z) (i n : Z) :
  (if value (cipher_suite_id bib) =? BP_BIB_CRC16_X25
   then (let* b := write_crc16 (crc16 bib) a i in Ret (b, i + 2))
   else if value (cipher_suite_id bib) =? BP_BIB_CRC32_CASTAGNOLI
   then (let* b := write_crc32 (crc32 bib) a i in Ret (b, i + 4))
   else Ret (a, i)) = Ret (a', n) ->
  forall p : nat, Z.of_nat p < i -> a' !! p = a !! p.
Proof.
  intros H p Hp.
  destruct (_ =? _) in H.
  { apply bind_Ret in H as (b & Hw & H). inversion H; subst.
    now apply (write_crc16_keeps _ _ _ _ _ Hw). }
  destruct (_ =? _) in H.
  { apply bind_Ret in H as (b & Hw & H). inversion H; subst.
    now apply (write_crc32_keeps _ _ _ _ _ Hw). }
  now inversion H.
Qed.

(** One call of the writer in [H], with what the codec promises of it. *)
Ltac sdnv_call Hcodec H :=
  match type of H with
  | context [sdnv_write ?a ?b ?c ?d] =>
      let E := fresh "E" in
      pose proof (Hcodec a b c d) as E; cbv zeta in E;
      destruct (sdnv_write a b c d) as [[? ?] ?];
      cbn [fst snd] in E;
      let Eacc := fresh "Eacc" in
      let Eadv := fresh "Eadv" in
      let Ewid := fresh "Ewid" in
      let Efr := fresh "Efr" in
      let Elast := fresh "Elast" in
      destruct E as (Eacc & Eadv & Ewid & Efr & Elast)
  end.

Ltac keep_byte :=
  repeat match goal with
  | H : store _ _ _ = Ret ?a |- ?a !! _ = _ =>
      rewrite (store_keeps _ _ _ _ _ H) by (cbn in *; lia)
  | H : write_crc16 _ _ _ _ = Ret ?a |- ?a !! _ = _ =>
      rewrite (write_crc16_keeps _ _ _ _ _ H) by (cbn in *; lia)
  | H : write_crc32 _ _ _ _ = Ret ?a |- ?a !! _ = _ =>
      rewrite (write_crc32_keeps _ _ _ _ _ H) by (cbn in *; lia)
  | H : forall j : nat, _ -> ?a !! j = _ |- ?a !! _ = _ =>
      rewrite H by (cbn in *; lia)
  end.

Lemma bib_write_block_bf_byte (buffer buf' : list Z) (size : Z)
    (bib bib' : bp_blk_bib_t) (upd : bool) (flags r fl : Z) :
  sdnv_write_encodes sdnv_write ->
  0 < BP_FLAG_FAILED_TO_PARSE K ->
  size <= Z.of_nat (length buffer) ->
  (upd = false -> bib_bf_apart bib) ->
  bib_write_block K sdnv_write buffer size bib upd flags = Ret (r, (buf', bib'), fl) ->
  r <> BP_ERROR K ->
  exists b : Z,
    buf' !! Z.to_nat (bib_bf_last upd bib') = Some b
    /\ Z.testbit b 0 = Z.testbit (value (bib_bf bib)) 0.
Proof.
  intros Hcodec Hp Hsz Hlay H Hr. unfold bib_write_block in H.
  apply bind_Ret in H as (buf0 & H0 & H). apply bind_Ret in H as (body & Hbody & H).
  assert (Hlen : size <= Z.of_nat (length buf0)).
  { apply store_Ret in H0 as (_ & _ & ->). now rewrite length_insert. }
  unfold bib_write_fields in Hbody.
  destruct upd; cbn [negb] in Hbody; cbv zeta in Hbody.
  all: sdnv_call Hcodec Hbody; sdnv_call Hcodec Hbody; sdnv_call Hcodec Hbody;
    (destruct (size <? _);
     [rewrite bplog_ret_event in Hbody by assumption;
      inversion Hbody; subst; inversion H; subst; now elim Hr|]);
    apply bind_Ret in Hbody as (buf1 & Hs1 & Hbody);
    sdnv_call Hcodec Hbody; sdnv_call Hcodec Hbody; sdnv_call Hcodec Hbody;
    (destruct (size <? _);
     [rewrite bplog_ret_event in Hbody by assumption;
      inversion Hbody; subst; inversion H; subst; now elim Hr|]);
    apply bind_Ret in Hbody as (buf2 & Hs2 & Hbody);
    sdnv_call Hcodec Hbody;
    inversion Hbody; subst body; clear Hbody;
    apply bind_Ret in H as ([buf3 bw] & Hcrc & H);
    sdnv_call Hcodec H;
    (destruct (negb (_ =? 0)) eqn:Ez; [inversion H; subst; now elim Hr|]);
    apply negb_false_iff, Z.eqb_eq in Ez; inversion H; subst; clear H;
    cbn [bib_bf_last bib_bf bib_blklen security_target_count cipher_suite_id
         cipher_suite_flags compound_length security_result_length
         with_bf with_blklen with_target_count with_suite_id with_suite_flags
         with_compound_length with_result_length
         at_bf at_blklen at_target_count at_suite_id at_suite_flags
         at_compound_length at_result_length bib_clear_widths
         set_index set_value set_width field index width value] in *;
    repeat match goal with
    | Hx : ?a = 0 -> ?b = 0 |- _ =>
        first [ specialize (Hx eq_refl)
              | match goal with Hy : a = 0 |- _ => specialize (Hx Hy) end ]
    end;
    pose proof (bib_write_crc_keeps _ _ _ _ _ Hcrc) as Hkeep.
  - destruct Elast as (b & Hb & Hodd); [assumption|lia|assumption|].
    exists b. split; [|exact Hodd]. rewrite <- Hb. keep_byte. reflexivity.
  - destruct (Hlay eq_refl) as (Hi & Hw & Hall).
    repeat (apply Forall_cons in Hall as [? Hall]).
    destruct Elast as (b & Hb & Hodd); [assumption|lia|assumption|].
    specialize (Ewid Hw). subst.
    exists b. split; [|exact Hodd]. rewrite <- Hb. keep_byte. reflexivity.
Qed.

Lemma bib_bf_apart_lengths (bib : bp_blk_bib_t) (compound result : Z) :
  bib_bf_apart bib -> bib_bf_apart (bib_set_flags (bib_set_lengths bib compound result)).
Proof.
  intros (H0 & H1 & H). repeat (apply Forall_cons in H as [? H]).
  split; [exact H0|]. split; [exact H1|]. simpl. repeat constructor; assumption.
Qed.

(** C10.  Every BIB that [bib_write] emits has the replicate-in-all-
    fragments bit (0x01) set in its block flags, whatever flags value the
    caller supplied: either the call returns on one of its parameter
    checks, before it writes anything, or it encodes the block structure
    whose flags value is the caller's OR-ed with the mask; the structure
    that a call returning a byte count leaves behind carries that value;
    and in the block that such a call leaves behind, the last byte of the
    block-flags SDNV, which holds the low-order bits of the field, has
    bit 0 set.  The last statement is about the bytes, so it takes what
    the design description says of the SDNV writer ([sdnv_write_encodes]),
    a block of [size] bytes and, when the caller supplies the layout, one
    in which the other fields come after the block flags. *)
Theorem bib_write_sets_replicate_flag (buffer : list Z) (size : Z) (bib : bp_blk_bib_t)
    (upd : bool) (flags : Z) :
  ((exists event : Z,
       bib_write K sdnv_write buffer size bib upd flags
       = Ret (bplog_ret K flags event (buffer, bib)))
   \/ (exists bib1 : bp_blk_bib_t,
          bib_write K sdnv_write buffer size bib upd flags
          = bib_write_block K sdnv_write buffer size bib1 upd flags
          /\ value (bib_bf bib1) = Z.lor (value (bib_bf bib)) BP_BLK_REPALL_MASK
          /\ Z.testbit (value (bib_bf bib1)) 0 = true))
  /\ (forall (r : Z) (buf' : list Z) (bib' : bp_blk_bib_t) (fl : Z),
         bib_write K sdnv_write buffer size bib upd flags = Ret (r, (buf', bib'), fl) ->
         r <> BP_ERROR K ->
         0 < BP_FLAG_FAILED_TO_PARSE K -> 0 < BP_FLAG_INVALID_BIB_TARGET_TYPE K ->
         0 < BP_FLAG_INVALID_BIB_RESULT_TYPE K -> 0 < BP_FLAG_INVALID_CIPHER_SUITEID K ->
         value (bib_bf bib') = Z.lor (value (bib_bf bib)) BP_BLK_REPALL_MASK
         /\ Z.testbit (value (bib_bf bib')) 0 = true)
  /\ (forall (r : Z) (buf' : list Z) (bib' : bp_blk_bib_t) (fl : Z),
         sdnv_write_encodes sdnv_write ->
         size <= Z.of_nat (length buffer) ->
         (upd = false -> bib_bf_apart bib) ->
         bib_write K sdnv_write buffer size bib upd flags = Ret (r, (buf', bib'), fl) ->
         r <> BP_ERROR K ->
         0 < BP_FLAG_FAILED_TO_PARSE K -> 0 < BP_FLAG_INVALID_BIB_TARGET_TYPE K ->
         0 < BP_FLAG_INVALID_BIB_RESULT_TYPE K -> 0 < BP_FLAG_INVALID_CIPHER_SUITEID K ->
         exists b : Z,
           buf' !! Z.to_nat (bib_bf_last upd bib') = Some b
           /\ Z.testbit b 0 = true).
Proof.
  split; [|split].
  - unfold bib_write.
    destruct (size <? 1); [left; eauto|].
    destruct (negb _); [left; eauto|].
    destruct (negb _); [left; eauto|].
    destruct (_ =? BP_BIB_CRC16_X25).
    { right. eexists. split; [reflexivity|]. simpl. split; [reflexivity|].
      apply replicate_bit_set. }
    destruct (_ =? BP_BIB_CRC32_CASTAGNOLI).
    { right. eexists. split; [reflexivity|]. simpl. split; [reflexivity|].
      apply replicate_bit_set. }
    left; eauto.
  - intros r buf' bib' fl H Hr Hp Ht Hrt Hc. unfold bib_write in H.
    destruct (size <? 1).
    { rewrite bplog_ret_event in H by assumption. inversion H; subst. congruence. }
    destruct (negb _).
    { rewrite bplog_ret_event in H by assumption. inversion H; subst. congruence. }
    destruct (negb _).
    { rewrite bplog_ret_event in H by assumption. inversion H; subst. congruence. }
    destruct (_ =? BP_BIB_CRC16_X25).
    { apply bib_write_block_bf in H. rewrite H. simpl. split; [reflexivity|].
      apply replicate_bit_set. }
    destruct (_ =? BP_BIB_CRC32_CASTAGNOLI).
    { apply bib_write_block_bf in H. rewrite H. simpl. split; [reflexivity|].
      apply replicate_bit_set. }
    rewrite bplog_ret_event in H by assumption. inversion H; subst. congruence.
  - intros r buf' bib' fl Hcodec Hsz Hlay H Hr Hp Ht Hrt Hc. unfold bib_write in H.
    destruct (size <? 1).
    { rewrite bplog_ret_event in H by assumption. inversion H; subst. congruence. }
    destruct (negb _).
    { rewrite bplog_ret_event in H by assumption. inversion H; subst. congruence. }
    destruct (negb _).
    { rewrite bplog_ret_event in H by assumption. inversion H; subst. congruence. }
    destruct (_ =? BP_BIB_CRC16_X25).
    { apply bib_write_block_bf_byte in H as (b & Hb & Hbit); try assumption.
      - exists b. split; [exact Hb|]. rewrite Hbit. apply replicate_bit_set.
      - intros Hu. apply bib_bf_apart_lengths. exact (Hlay Hu). }
    destruct (_ =? BP_BIB_CRC32_CASTAGNOLI).
    { apply bib_write_block_bf_byte in H as (b & Hb & Hbit); try assumption.
      - exists b. split; [exact Hb|]. rewrite Hbit. apply replicate_bit_set.
      - intros Hu. apply bib_bf_apart_lengths. exact (Hlay Hu). }
    rewrite bplog_ret_event in H by assumption. inversion H; subst. congruence.
Qed.

End BibFacts.

(** *** Verification after update *)

Section BibCrcFacts.
Context (K : bplib_h).
Variable bplib_crc_get : list Z -> Z -> crc_parameters_t -> Z.

Lemma write_crc16_Ret (crc : Z) (buffer : list Z) (at_ : Z) :
  0 <= at_ -> at_ + 2 <= Z.of_nat (length buffer) ->
  exists buf', write_crc16 crc buffer at_ = Ret buf'.
Proof.
  intros H0 H1. unfold write_crc16.
  rewrite store_in_bounds by lia. cbn [bind].
  rewrite store_in_bounds by (rewrite length_insert; lia). eauto.
Qed.

Lemma write_crc32_Ret (crc : Z) (buffer : list Z) (at_ : Z) :
  0 <= at_ -> at_ + 4 <= Z.of_nat (length buffer) ->
  exists buf', write_crc32 crc buffer at_ = Ret buf'.
Proof.
  intros H0 H1. unfold write_crc32.
  rewrite store_in_bounds by lia. cbn [bind].
  rewrite store_in_bounds by (rewrite length_insert; lia). cbn [bind].
  rewrite store_in_bounds by (rewrite !length_insert; lia). cbn [bind].
  rewrite store_in_bounds by (rewrite !length_insert; lia). eauto.
Qed.

(** C7 (as amended).  For every payload and every BIB whose cipher suite is
    CRC-16/X.25 or CRC-32/Castagnoli: when the block has room for the
    security result (the size check of [bib_update] passes, and the bytes
    of the result lie in the block), [bib_update] returns success, and
    [bib_verify] on the same payload bytes then returns success and raises
    no flag. *)
Theorem bib_verify_after_update (buffer : list Z) (size : Z) (payload : list Z)
    (payload_size : Z) (bib : bp_blk_bib_t) (flags : Z) :
  let srl := security_result_length bib in
  let crc_bytes := if value (cipher_suite_id bib) =? BP_BIB_CRC16_X25 then 2 else 4 in
  value (cipher_suite_id bib) = BP_BIB_CRC16_X25
  \/ value (cipher_suite_id bib) = BP_BIB_CRC32_CASTAGNOLI ->
  to_int (u64 (index srl + width srl + value srl)) <= size ->
  0 <= index srl + width srl ->
  index srl + width srl + crc_bytes <= Z.of_nat (length buffer) ->
  exists (buf' : list Z) (bib' : bp_blk_bib_t),
    bib_update K bplib_crc_get buffer size payload payload_size bib flags
    = Ret (BP_SUCCESS K, (buf', bib'), flags)
    /\ bib_verify K bplib_crc_get payload payload_size bib' flags = (BP_SUCCESS K, flags).
Proof.
  intros srl crc_bytes Hsuite Hroom H0 Hlen. subst srl crc_bytes.
  unfold bib_update.
  replace (size <? _) with false by (symmetry; apply Z.ltb_ge; lia).
  destruct (value (cipher_suite_id bib) =? BP_BIB_CRC16_X25) eqn:E16.
  - destruct (write_crc16_Ret
                (crc16 (with_crc16 bib (u16 (bplib_crc_get payload payload_size BPLIB_CRC16_X25))))
                buffer _ H0 Hlen) as [buf' Hw].
    rewrite Hw. simpl. do 2 eexists. split; [reflexivity|].
    unfold bib_verify. simpl. rewrite E16, Z.eqb_refl. reflexivity.
  - destruct Hsuite as [Hs|Hs]; [apply Z.eqb_neq in E16; contradiction|].
    assert (E32 : (value (cipher_suite_id bib) =? BP_BIB_CRC32_CASTAGNOLI) = true)
      by (now apply Z.eqb_eq).
    rewrite E32. cbv zeta.
    destruct (write_crc32_Ret
                (crc32 (with_crc32 bib (u32 (bplib_crc_get payload payload_size
                                               BPLIB_CRC32_CASTAGNOLI))))
                buffer _ H0 Hlen) as [buf' Hw].
    rewrite Hw. cbn [bind]. do 2 eexists. split; [reflexivity|].
    unfold bib_verify. cbn [cipher_suite_id with_crc32 crc32].
    rewrite E16, E32, Z.eqb_refl. reflexivity.
Qed.

End BibCrcFacts.

Lemma bib_invalid_fields_rejected_witness :
  bib_events_ok bplib_h_example
  /\ bib_write bplib_h_example (sdnv_write_model bplib_h_example) (zero_block 16) 16 bib_bad_target_blk false 0
     = Ret (-1, (zero_block 16, bib_bad_target_blk), 0x20000)
  /\ bib_read bplib_h_example (sdnv_read_model bplib_h_example) (zero_block 16) 16 bib_bad_target_blk false 0
     = Ret (-1, bib_bad_target_blk, 0x40000)
  /\ bib_read bplib_h_example (sdnv_read_model bplib_h_example) [] 0 bib_bad_target_blk false 0
     = Ret (-1, bib_bad_target_blk, 0x40000).
Proof.
  assert (Hok : bib_events_ok bplib_h_example) by (repeat split).
  split; [exact Hok|].
  destruct (bib_invalid_fields_rejected bplib_h_example (sdnv_read_model bplib_h_example) (sdnv_write_model bplib_h_example) Hok)
    as (Hw & _ & _ & Hsmall & Htype & _).
  split; [|split].
  - refine (proj2 (Hw (zero_block 16) 16 bib_bad_target_blk false 0 _)).
    intros (Ht & _). discriminate Ht.
  - apply (Htype (zero_block 16) 16 0 bib_bad_target_blk false 0);
      [vm_compute; discriminate | reflexivity | discriminate].
  - apply (Hsmall [] 0 bib_bad_target_blk false 0). reflexivity.
Defined.

(** C8, as stated, fails where an earlier check fails: [bib_write] on a
    block of size zero and a BIB whose target type is not the payload
    block returns [BP_ERROR] with [FAILED_TO_PARSE] alone; the flag
    [INVALID_BIB_TARGET_TYPE] is not raised. *)
Lemma bib_write_size_zero_flag :
  ~ bib_fields_valid bplib_h_example bib_bad_target_blk
  /\ bib_write bplib_h_example (sdnv_write_model bplib_h_example) [] 0 bib_bad_target_blk false 0
     = Ret (-1, ([], bib_bad_target_blk), BP_FLAG_FAILED_TO_PARSE bplib_h_example)
  /\ Z.land (BP_FLAG_FAILED_TO_PARSE bplib_h_example)
            (BP_FLAG_INVALID_BIB_TARGET_TYPE bplib_h_example) = 0.
Proof.
  split; [|split]; try reflexivity.
  intros (Ht & _). discriminate Ht.
Qed.

(** The SDNV writer of the design description meets [sdnv_write_encodes]. *)
Lemma write_bytes_length (bytes buf : list Z) (at_ limit : Z) :
  length (write_bytes buf at_ limit bytes) = length buf.
Proof.
  revert buf at_. induction bytes as [|b bytes IH]; intros buf at_; simpl; [reflexivity|].
  rewrite IH. destruct (_ && _); [apply length_insert|reflexivity].
Qed.

Lemma write_bytes_frame (bytes buf : list Z) (at_ limit : Z) (j : nat) :
  Z.of_nat j < at_ \/ at_ + Z.of_nat (length bytes) <= Z.of_nat j ->
  write_bytes buf at_ limit bytes !! j = buf !! j.
Proof.
  revert buf at_. induction bytes as [|b bytes IH]; intros buf at_ Hj; simpl; [reflexivity|].
  simpl length in Hj. rewrite IH by lia.
  destruct (_ && _) eqn:E; [|reflexivity].
  apply andb_true_iff in E as [E _]. apply Z.leb_le in E.
  apply list_lookup_insert_ne. lia.
Qed.

Lemma write_bytes_lookup (bytes buf : list Z) (at_ limit : Z) (i : nat) (x : Z) :
  0 <= at_ -> at_ + Z.of_nat (length bytes) <= limit -> limit <= Z.of_nat (length buf) ->
  bytes !! i = Some x ->
  write_bytes buf at_ limit bytes !! Z.to_nat (at_ + Z.of_nat i) = Some x.
Proof.
  revert buf at_ i. induction bytes as [|b bytes IH]; intros buf at_ i H0 H1 H2 Hx;
    [discriminate|].
  simpl length in H1. simpl.
  replace ((0 <=? at_) && (at_ <? limit)) with true
    by (symmetry; apply andb_true_iff; split; [apply Z.leb_le|apply Z.ltb_lt]; lia).
  destruct i as [|i]; simpl in Hx.
  - inversion Hx; subst. rewrite write_bytes_frame by lia.
    replace (Z.to_nat (at_ + Z.of_nat 0)) with (Z.to_nat at_) by (f_equal; lia).
    apply list_lookup_insert_eq. lia.
  - replace (at_ + Z.of_nat (S i)) with (at_ + 1 + Z.of_nat i) by lia.
    apply IH; try lia; [rewrite length_insert; lia|exact Hx].
Qed.

Lemma sdnv_bytes_length (v w : Z) : length (sdnv_bytes v w) = Z.to_nat w.
Proof. unfold sdnv_bytes. now rewrite length_map, length_seq. Qed.

Lemma sdnv_bytes_last (v w : Z) :
  1 <= w -> sdnv_bytes v w !! Z.to_nat (w - 1) = Some (Z.land v 0x7F).
Proof.
  intros Hw. unfold sdnv_bytes.
  change (map ?f ?l) with (f <$> l). rewrite list_lookup_fmap.
  rewrite (proj2 (lookup_seq 0 (Z.to_nat w) (Z.to_nat (w - 1)) (Z.to_nat (w - 1))))
    by (split; lia).
  simpl. replace (Z.of_nat (Z.to_nat (w - 1))) with (w - 1) by lia.
  rewrite Z.eqb_refl. replace (7 * (w - 1 - (w - 1))) with 0 by lia.
  now rewrite Z.shiftr_0_r.
Qed.

Lemma sdnv_min_width_pos (v : Z) : 1 <= sdnv_min_width v.
Proof.
  unfold sdnv_min_width. pose proof (Z.log2_nonneg v).
  pose proof (Z.div_pos (Z.log2 v) 7). lia.
Qed.

Lemma sdnv_write_model_encodes (K : bplib_h) :
  BP_FLAG_SDNV_INCOMPLETE K <> 0 ->
  sdnv_write_encodes (sdnv_write_model K).
Proof.
  intros Hinc block size f flags. unfold sdnv_write_model. cbv zeta. cbn [fst snd].
  set (w := if width f <=? 0 then sdnv_min_width (value f) else width f).
  assert (Hw : 1 <= w).
  { subst w. destruct (width f <=? 0) eqn:E; [apply sdnv_min_width_pos|].
    apply Z.leb_gt in E. lia. }
  split; [|split; [lia|split; [|split]]].
  - intros H. destruct (size <? index f + w); [apply Z.lor_eq_0_iff in H as [H _]|];
      (destruct (2 ^ (7 * w) <=? value f); [now apply Z.lor_eq_0_iff in H|exact H]).
  - intros Hwd. subst w. replace (width f <=? 0) with false
      by (symmetry; apply Z.leb_gt; lia). reflexivity.
  - intros j Hj. apply write_bytes_frame. rewrite sdnv_bytes_length. lia.
  - intros H Hi Hsz.
    assert (Hfit : index f + w <= size).
    { destruct (size <? index f + w) eqn:E; [|apply Z.ltb_ge in E; lia].
      apply Z.lor_eq_0_iff in H as [_ H]. contradiction. }
    exists (Z.land (value f) 0x7F). split.
    + replace (index f + w - 1) with (index f + Z.of_nat (Z.to_nat (w - 1))) by lia.
      apply write_bytes_lookup; try lia.
      * rewrite sdnv_bytes_length. lia.
      * now apply sdnv_bytes_last.
    + rewrite Z.land_spec. apply andb_true_r.
Qed.

Lemma bib_write_sets_replicate_flag_witness :
  (bib_write bplib_h_example (sdnv_write_model bplib_h_example) (zero_block 32) 32
     bib_flagged_blk false 0
   = Ret (15, bib_flagged_written false, 0)
   /\ value (bib_bf (snd (bib_flagged_written false))) = 0x09
   /\ bib_bf_last false (snd (bib_flagged_written false)) = 1
   /\ fst (bib_flagged_written false) !! 1%nat = Some 0x09
   /\ exists b : Z,
        fst (bib_flagged_written false)
          !! Z.to_nat (bib_bf_last false (snd (bib_flagged_written false))) = Some b
        /\ Z.testbit b 0 = true)
  /\ (bib_write bplib_h_example (sdnv_write_model bplib_h_example) (zero_block 32) 32
     bib_flagged_blk true 0
   = Ret (12, bib_flagged_written true, 0)
   /\ value (bib_bf (snd (bib_flagged_written true))) = 0x09
   /\ bib_bf_last true (snd (bib_flagged_written true)) = 1
   /\ fst (bib_flagged_written true) !! 1%nat = Some 0x09
   /\ exists b : Z,
        fst (bib_flagged_written true)
          !! Z.to_nat (bib_bf_last true (snd (bib_flagged_written true))) = Some b
        /\ Z.testbit b 0 = true).
Proof.
  assert (Hcodec : sdnv_write_encodes (sdnv_write_model bplib_h_example))
    by (apply sdnv_write_model_encodes; discriminate).
  assert (Hlay : bib_bf_apart bib_flagged_blk).
  { split; [vm_compute; discriminate|]. split; [reflexivity|].
    repeat constructor; vm_compute; discriminate. }
  assert (Hinst : forall (upd : bool) (r : Z),
    bib_write bplib_h_example (sdnv_write_model bplib_h_example) (zero_block 32) 32
      bib_flagged_blk upd 0
    = Ret (r, (fst (bib_flagged_written upd), snd (bib_flagged_written upd)), 0) ->
    r <> BP_ERROR bplib_h_example ->
    value (bib_bf (snd (bib_flagged_written upd))) = 0x09
    /\ exists b : Z,
         fst (bib_flagged_written upd)
           !! Z.to_nat (bib_bf_last upd (snd (bib_flagged_written upd))) = Some b
         /\ Z.testbit b 0 = true).
  { intros upd r Hrun Hr.
    destruct (bib_write_sets_replicate_flag bplib_h_example
                (sdnv_write_model bplib_h_example)
                (zero_block 32) 32 bib_flagged_blk upd 0) as (_ & Hstruct & Hbytes).
    split.
    - apply (Hstruct r _ _ 0 Hrun Hr); reflexivity.
    - refine (Hbytes r _ _ 0 Hcodec _ (fun _ => Hlay) Hrun Hr _ _ _ _);
        first [reflexivity | vm_compute; discriminate]. }
  split.
  - destruct (Hinst false 15) as [Hv Hb]; [vm_compute; reflexivity|discriminate|].
    split; [vm_compute; reflexivity|]. split; [exact Hv|].
    split; [vm_compute; reflexivity|]. split; [vm_compute; reflexivity|exact Hb].
  - destruct (Hinst true 12) as [Hv Hb]; [vm_compute; reflexivity|discriminate|].
    split; [vm_compute; reflexivity|]. split; [exact Hv|].
    split; [vm_compute; reflexivity|]. split; [vm_compute; reflexivity|exact Hb].
Defined.

Lemma bib_verify_after_update_witness :
  (value (cipher_suite_id bib_crc16_blk) = BP_BIB_CRC16_X25
   \/ value (cipher_suite_id bib_crc16_blk) = BP_BIB_CRC32_CASTAGNOLI)
  /\ exists (buf' : list Z) (bib' : bp_blk_bib_t),
       bib_update bplib_h_example crc_get_model (zero_block 128) 128 hello 5
         bib_crc16_blk 0
       = Ret (0, (buf', bib'), 0)
       /\ bib_verify bplib_h_example crc_get_model hello 5 bib' 0 = (0, 0).
Proof.
  split; [left; reflexivity|].
  apply (bib_verify_after_update bplib_h_example crc_get_model (zero_block 128) 128 hello 5
           bib_crc16_blk 0).
  - left; reflexivity.
  - vm_compute; discriminate.
  - vm_compute; discriminate.
  - vm_compute; discriminate.
Defined.

(** C7, as stated, fails where [bib_update] has no room: with the security
    result at offset 200 of a block of 128 bytes, [bib_update] returns
    [BP_ERROR] and stores nothing, and [bib_verify] on the same payload
    compares the CRC that the structure held before and fails. *)
Lemma bib_update_without_room_verify_fails :
  (value (cipher_suite_id bib_far_result_blk) = BP_BIB_CRC16_X25)
  /\ bib_update bplib_h_example crc_get_model (zero_block 128) 128 hello 5
       bib_far_result_blk 0
     = Ret (-1, (zero_block 128, bib_far_result_blk), BP_FLAG_FAILED_TO_PARSE bplib_h_example)
  /\ bib_verify bplib_h_example crc_get_model hello 5 bib_far_result_blk
       (BP_FLAG_FAILED_TO_PARSE bplib_h_example)
     = (-1, Z.lor (BP_FLAG_FAILED_TO_PARSE bplib_h_example)
                  (BP_FLAG_FAILED_INTEGRITY_CHECK bplib_h_example)).
Proof. repeat split. Qed.

(** ** The send path *)

(** Flags are only ever raised. *)
Lemma raised_lor (event flags x : Z) : raised event flags -> raised event (Z.lor flags x).
Proof.
  unfold raised. intros H. rewrite Z.land_lor_distr_l, H.
  apply Z.bits_inj'. intros n Hn. rewrite Z.lor_spec, Z.land_spec.
  destruct (Z.testbit event n); [reflexivity|]. now rewrite andb_false_r.
Qed.

Lemma raised_self (event flags : Z) : raised event (Z.lor flags event).
Proof.
  unfold raised. rewrite Z.land_lor_distr_l, Z.land_diag.
  apply Z.bits_inj'. intros n Hn. rewrite Z.lor_spec, Z.land_spec.
  destruct (Z.testbit event n); [apply orb_true_r|]. now rewrite andb_false_r.
Qed.

Section SendFacts.
Context (K : bplib_h).
Variable sdnv_write : list Z -> Z -> bp_field_t -> Z -> Z * list Z * Z.
Variable sdnv_mask : bp_field_t -> bp_field_t.
Variable bplib_crc_get : list Z -> Z -> crc_parameters_t -> Z.
Variable pay_write :
  list Z -> Z -> bp_blk_pay_t -> bool -> Z -> Z * (list Z * bp_blk_pay_t) * Z.
Variable create : list create_call -> create_call -> Z.

Lemma send_exprtime_spec (createsec lifetime flags : Z) :
  fst (send_exprtime K createsec lifetime flags) = exprtime_spec K createsec lifetime.
Proof.
  unfold send_exprtime, exprtime_spec.
  destruct (createsec =? BP_TTL_CREATION_TIME K) eqn:E1; simpl.
  { apply Z.eqb_eq in E1. congruence. }
  destruct (createsec =? BP_UNKNOWN_CREATION_TIME K) eqn:E2; simpl.
  { apply Z.eqb_eq in E2. congruence. }
  destruct (u64 (createsec + lifetime) <? createsec); reflexivity.
Qed.

Lemma send_exprtime_flags (createsec lifetime flags : Z) :
  0 <= BP_FLAG_SDNV_OVERFLOW K ->
  snd (send_exprtime K createsec lifetime flags)
  = if exprtime_wraps K createsec lifetime
    then Z.lor flags (BP_FLAG_SDNV_OVERFLOW K) else flags.
Proof.
  intros Hf. unfold send_exprtime, exprtime_wraps.
  destruct (createsec =? BP_TTL_CREATION_TIME K); simpl; [reflexivity|].
  destruct (createsec =? BP_UNKNOWN_CREATION_TIME K); simpl; [reflexivity|].
  destruct (u64 (createsec + lifetime) <? createsec); simpl; [|reflexivity].
  now apply bplog_flags.
Qed.

(** A turn of the send loop leaves the expiration time where it is. *)
Lemma send_fragment_exprtime (max_paysize timeout off : Z) (b : bp_bundle_t)
    (fl : Z) (calls : list create_call) (s : tx_step) :
  send_fragment K sdnv_write bplib_crc_get pay_write create max_paysize timeout off b fl calls
  = Ret s ->
  match s with
  | TxReturn (_, b', _, _) => exprtime (data b') = exprtime (data b)
  | TxContinue _ b' _ _ => exprtime (data b') = exprtime (data b)
  end.
Proof.
  intros H. unfold send_fragment in H.
  exec_crack; reflexivity.
Qed.

Lemma send_loop_exprtime (fuel : nat) (max_paysize timeout off : Z) (b b' : bp_bundle_t)
    (fl fl' : Z) (calls calls' : list create_call) (early : option Z) :
  send_loop K sdnv_write bplib_crc_get pay_write create fuel max_paysize timeout off b fl calls
  = Ret (early, b', fl', calls') ->
  exprtime (data b') = exprtime (data b).
Proof.
  revert off b fl calls. induction fuel as [|fuel IH]; intros off b fl calls H; simpl in H.
  - destruct (off <? _); [discriminate|]. now inversion H.
  - destruct (off <? _); [|now inversion H].
    apply bind_Ret in H as (s & Hs & H).
    apply send_fragment_exprtime in Hs.
    destruct s as [[[[r b1] fl1] calls1]|off1 b1 fl1 calls1].
    + inversion H; subst. exact Hs.
    + apply IH in H. congruence.
Qed.

(** *** The flags of a send *)

Lemma raised_bplog (event flags x : Z) :
  raised event flags -> raised event (snd (bplog K flags x)).
Proof.
  intros H. unfold bplog. destruct (0 <? x); [now apply raised_lor|exact H].
Qed.

Lemma bib_update_keeps_flags (buffer : list Z) (size : Z) (payload : list Z)
    (psz : Z) (bib : bp_blk_bib_t) (flags event : Z) (u : Z * (list Z * bp_blk_bib_t) * Z) :
  raised event flags ->
  bib_update K bplib_crc_get buffer size payload psz bib flags = Ret u ->
  raised event (snd u).
Proof.
  intros Hr H. unfold bib_update in H.
  exec_inv H; inversion H; subst; simpl; try exact Hr; now apply raised_bplog.
Qed.

Lemma send_fragment_keeps_flags (max_paysize timeout off : Z) (b : bp_bundle_t)
    (fl event : Z) (calls : list create_call) (s : tx_step) :
  sdnv_write_keeps_flags sdnv_write -> pay_write_keeps_flags pay_write ->
  raised event fl ->
  send_fragment K sdnv_write bplib_crc_get pay_write create max_paysize timeout off b fl calls
  = Ret s ->
  match s with
  | TxReturn (_, _, fl', _) => raised event fl'
  | TxContinue _ _ fl' _ => raised event fl'
  end.
Proof.
  intros Hs Hp Hr H. unfold send_fragment in H. cbv zeta in H.
  set (st1 := if is_frag (primary_block (blocks b)) then _ else _) in H.
  assert (H1 : raised event (snd st1)).
  { subst st1. destruct (is_frag _); [|exact Hr].
    match goal with |- context [sdnv_write ?a ?b ?c ?d] =>
      pose proof (Hs a b c d event Hr) as Hx;
      destruct (sdnv_write a b c d) as [[? ?] ?] end.
    simpl in Hx.
    match goal with |- context [sdnv_write ?a ?b ?c ?d] =>
      pose proof (Hs a b c d event Hx) as Hy;
      destruct (sdnv_write a b c d) as [[? ?] ?] end.
    exact Hy. }
  destruct st1 as [b1 fl1]. simpl in H1.
  apply bind_Ret in H as ([b2 fl2] & Hu & H).
  assert (H2 : raised event fl2).
  { destruct (negb _) in Hu.
    - apply bind_Ret in Hu as (sub & _ & Hu). apply bind_Ret in Hu as (frag & _ & Hu).
      apply bind_Ret in Hu as (u & Hu & Hv).
      apply (bib_update_keeps_flags _ _ _ _ _ _ event _ H1) in Hu.
      destruct u as [[? [? ?]] ?]. inversion Hv; subst. exact Hu.
    - inversion Hu; subst. exact H1. }
  apply bind_Ret in H as (sub & _ & H).
  match type of H with context [pay_write ?a ?b ?c ?d ?e] =>
    pose proof (Hp a b c d e event H2) as H3;
    destruct (pay_write a b c d e) as [[bw [sub' pay']] fl3] end.
  simpl in H3.
  destruct (bw <? 0).
  - pose proof (raised_bplog event fl3 (BP_FLAG_FAILED_TO_PARSE K) H3) as H4.
    destruct (bplog K fl3 _) as [r f]. inversion H; subst. exact H4.
  - apply bind_Ret in H as (frag & _ & H).
    destruct (negb _) in H.
    + pose proof (raised_bplog event fl3 (BP_FLAG_STORE_FAILURE K) H3) as H4.
      destruct (bplog K fl3 _) as [r f]. inversion H; subst. exact H4.
    + inversion H; subst. exact H3.
Qed.

Lemma send_loop_keeps_flags (fuel : nat) (max_paysize timeout off : Z) (b b' : bp_bundle_t)
    (fl fl' event : Z) (calls calls' : list create_call) (early : option Z) :
  sdnv_write_keeps_flags sdnv_write -> pay_write_keeps_flags pay_write ->
  raised event fl ->
  send_loop K sdnv_write bplib_crc_get pay_write create fuel max_paysize timeout off b fl calls
  = Ret (early, b', fl', calls') ->
  raised event fl'.
Proof.
  intros Hs Hp. revert off b fl calls.
  induction fuel as [|fuel IH]; intros off b fl calls Hr H; simpl in H.
  - destruct (off <? _); [discriminate|]. inversion H; subst. exact Hr.
  - destruct (off <? _); [|inversion H; subst; exact Hr].
    apply bind_Ret in H as (s & Hs' & H).
    apply (send_fragment_keeps_flags _ _ _ _ _ event _ _ Hs Hp Hr) in Hs'.
    destruct s as [[[[r b1] fl1] calls1]|off1 b1 fl1 calls1].
    + inversion H; subst. exact Hs'.
    + eapply IH; eauto.
Qed.

Lemma send_bundle_raises_overflow (fuel : nat) (clk : os_clock)
    (bundle b0 bundle' : bp_bundle_t) (buffer : list Z) (size timeout flags r fl' : Z)
    (calls : list create_call) :
  sdnv_write_keeps_flags sdnv_write -> pay_write_keeps_flags pay_write ->
  0 <= BP_FLAG_SDNV_OVERFLOW K ->
  send_check K (send_payload bundle buffer size)
    (max_length (attributes bundle) - headersize (data bundle)) flags = inr b0 ->
  v6_send_bundle K sdnv_write sdnv_mask bplib_crc_get pay_write create
    fuel clk bundle buffer size timeout flags
  = Ret (r, bundle', fl', calls) ->
  exprtime_wraps K
    (value (createsec (primary_block
                         (blocks (fst (fst (send_set_time K sdnv_write clk b0 flags)))))))
    (value (snd (fst (send_set_time K sdnv_write clk b0 flags)))) = true ->
  raised (BP_FLAG_SDNV_OVERFLOW K) fl'.
Proof.
  intros Hs Hp Hf Hc H Hw.
  unfold v6_send_bundle in H. cbv zeta in H.
  change (with_blocks bundle
            (with_payload_block (blocks bundle)
               (with_paysize (with_payptr (payload_block (blocks bundle)) buffer) size)))
    with (send_payload bundle buffer size) in H.
  change (max_length (attributes (send_payload bundle buffer size)))
    with (max_length (attributes bundle)) in H.
  change (headersize (data (send_payload bundle buffer size)))
    with (headersize (data bundle)) in H.
  rewrite Hc in H.
  destruct (send_set_time K sdnv_write clk b0 flags) as [[b1 lifetime] fl1] eqn:Et.
  simpl fst in Hw. simpl snd in Hw.
  pose proof (send_exprtime_flags (value (createsec (primary_block (blocks b1))))
                (value lifetime) fl1 Hf) as Hfl.
  rewrite Hw in Hfl.
  destruct (send_exprtime K (value (createsec (primary_block (blocks b1))))
              (value lifetime) fl1) as [e fl2].
  simpl in Hfl. subst fl2.
  apply bind_Ret in H as (l & Hl & H).
  destruct l as [[[early b2] fl3] calls3].
  apply (send_loop_keeps_flags _ _ _ _ _ _ _ _ (BP_FLAG_SDNV_OVERFLOW K) _ _ _ Hs Hp
           (raised_self _ _)) in Hl.
  destruct early as [r0|]; inversion H; subst; exact Hl.
Qed.

(** C5.  The expiration time that [v6_send_bundle] stores is the one of
    the design description: a creation time equal to the TTL or to the
    unknown-time sentinel is propagated; otherwise it is creation time
    plus lifetime, saturated to [BP_MAX_ENCODED_VALUE], with the
    [SDNV_OVERFLOW] flag raised, when the sum wraps.  This is the value in
    the bundle data whenever the call gets past its fragmentation check
    and returns; creation time and lifetime are those that the time-setting
    step leaves.  When their sum wraps, the bundle data of the returning
    call holds [BP_MAX_ENCODED_VALUE] and the flags word it returns has
    [SDNV_OVERFLOW] set, given that the SDNV and payload block writers
    of the loop only raise flags. *)
Theorem send_stores_exprtime :
  (forall createsec lifetime flags : Z,
      fst (send_exprtime K createsec lifetime flags) = exprtime_spec K createsec lifetime)
  /\ (forall createsec lifetime flags : Z,
         0 <= BP_FLAG_SDNV_OVERFLOW K ->
         snd (send_exprtime K createsec lifetime flags)
         = if exprtime_wraps K createsec lifetime
           then Z.lor flags (BP_FLAG_SDNV_OVERFLOW K) else flags)
  /\ (forall (fuel : nat) (clk : os_clock) (bundle b0 bundle' : bp_bundle_t)
             (buffer : list Z) (size timeout flags r fl' : Z) (calls : list create_call),
         send_check K (send_payload bundle buffer size)
           (max_length (attributes bundle) - headersize (data bundle)) flags = inr b0 ->
         v6_send_bundle K sdnv_write sdnv_mask bplib_crc_get pay_write create
           fuel clk bundle buffer size timeout flags
         = Ret (r, bundle', fl', calls) ->
         exprtime (data bundle')
         = exprtime_spec K
             (value (createsec (primary_block
                                  (blocks (fst (fst (send_set_time K sdnv_write clk b0 flags)))))))
             (value (snd (fst (send_set_time K sdnv_write clk b0 flags)))))
  /\ (forall (fuel : nat) (clk : os_clock) (bundle b0 bundle' : bp_bundle_t)
             (buffer : list Z) (size timeout flags r fl' : Z) (calls : list create_call),
         sdnv_write_keeps_flags sdnv_write -> pay_write_keeps_flags pay_write ->
         0 <= BP_FLAG_SDNV_OVERFLOW K ->
         send_check K (send_payload bundle buffer size)
           (max_length (attributes bundle) - headersize (data bundle)) flags = inr b0 ->
         v6_send_bundle K sdnv_write sdnv_mask bplib_crc_get pay_write create
           fuel clk bundle buffer size timeout flags
         = Ret (r, bundle', fl', calls) ->
         exprtime_wraps K
           (value (createsec (primary_block
                                (blocks (fst (fst (send_set_time K sdnv_write clk b0 flags)))))))
           (value (snd (fst (send_set_time K sdnv_write clk b0 flags)))) = true ->
         exprtime (data bundle') = BP_MAX_ENCODED_VALUE K
         /\ raised (BP_FLAG_SDNV_OVERFLOW K) fl').
Proof.
  split; [exact send_exprtime_spec|]. split; [exact send_exprtime_flags|].
  assert (Hstored :
    forall (fuel : nat) (clk : os_clock) (bundle b0 bundle' : bp_bundle_t)
           (buffer : list Z) (size timeout flags r fl' : Z) (calls : list create_call),
      send_check K (send_payload bundle buffer size)
        (max_length (attributes bundle) - headersize (data bundle)) flags = inr b0 ->
      v6_send_bundle K sdnv_write sdnv_mask bplib_crc_get pay_write create
        fuel clk bundle buffer size timeout flags
      = Ret (r, bundle', fl', calls) ->
      exprtime (data bundle')
      = exprtime_spec K
          (value (createsec (primary_block
                               (blocks (fst (fst (send_set_time K sdnv_write clk b0 flags)))))))
          (value (snd (fst (send_set_time K sdnv_write clk b0 flags))))).
  2:{ split; [exact Hstored|].
      intros fuel clk bundle b0 bundle' buffer size timeout flags r fl' calls
        Hs Hp Hf Hc H Hw.
      split; [|exact (send_bundle_raises_overflow _ _ _ _ _ _ _ _ _ _ _ _ Hs Hp Hf Hc H Hw)].
      rewrite (Hstored _ _ _ _ _ _ _ _ _ _ _ _ Hc H).
      unfold exprtime_wraps in Hw. unfold exprtime_spec.
      apply andb_true_iff in Hw as [Hw Hw3]. apply andb_true_iff in Hw as [Hw1 Hw2].
      apply negb_true_iff in Hw1, Hw2. rewrite Hw1, Hw2, Hw3. reflexivity. }
  intros fuel clk bundle b0 bundle' buffer size timeout flags r fl' calls Hc H.
  unfold v6_send_bundle in H. cbv zeta in H.
  change (with_blocks bundle
            (with_payload_block (blocks bundle)
               (with_paysize (with_payptr (payload_block (blocks bundle)) buffer) size)))
    with (send_payload bundle buffer size) in H.
  change (max_length (attributes (send_payload bundle buffer size)))
    with (max_length (attributes bundle)) in H.
  change (headersize (data (send_payload bundle buffer size)))
    with (headersize (data bundle)) in H.
  rewrite Hc in H.
  destruct (send_set_time K sdnv_write clk b0 flags) as [[b1 lifetime] fl1] eqn:Et.
  simpl fst. simpl snd.
  pose proof (send_exprtime_spec (value (createsec (primary_block (blocks b1))))
                (value lifetime) fl1) as Hspec.
  destruct (send_exprtime K (value (createsec (primary_block (blocks b1))))
              (value lifetime) fl1) as [e fl2].
  simpl in Hspec. subst e.
  apply bind_Ret in H as (l & Hl & H).
  destruct l as [[[early b2] fl3] calls3].
  apply send_loop_exprtime in Hl. simpl in Hl.
  destruct early as [r0|].
  - inversion H; subst. exact Hl.
  - inversion H; subst. rewrite <- Hl.
    destruct (prebuilt b2); reflexivity.
Qed.

(** C2.  The design description has [v6_send_bundle] fail with
    [BUNDLE_TOO_LARGE], handing nothing to storage, whenever the header
    leaves no room for payload ([max_paysize <= 0]).  The code tests
    [max_paysize <= 0] only when the payload fits in [max_paysize]: with
    fragmentation allowed and a payload larger than [max_paysize] the
    check passes and marks the bundle as a fragment, and every turn of the
    loop that reaches the storage collaborator hands it a fragment of
    [max_paysize] bytes (zero or negative) and moves the payload offset by
    as much, that is, not forward. *)
Theorem send_fragments_without_budget :
  (forall (bundle : bp_bundle_t) (max_paysize flags : Z),
      allow_fragmentation (attributes bundle) = true ->
      max_paysize <= 0 ->
      max_paysize < paysize (payload_block (blocks bundle)) ->
      send_check K bundle max_paysize flags
      = inr (with_blocks bundle
               (with_primary_block (blocks bundle)
                  (with_is_frag (primary_block (blocks bundle)) true))))
  /\ (forall (max_paysize timeout off off' : Z) (b b' : bp_bundle_t) (fl fl' : Z)
             (calls calls' : list create_call),
         max_paysize <= 0 ->
         off < paysize (payload_block (blocks b)) ->
         send_fragment K sdnv_write bplib_crc_get pay_write create
           max_paysize timeout off b fl calls
         = Ret (TxContinue off' b' fl' calls') ->
         off' = off + max_paysize
         /\ exists call : create_call,
              calls' = calls ++ [call] /\ cc_size call = max_paysize).
Proof.
  split.
  - intros bundle max_paysize flags Ha Hm Hp. unfold send_check.
    replace (max_paysize <? paysize (payload_block (blocks bundle))) with true
      by (symmetry; apply Z.ltb_lt; lia).
    rewrite Ha. reflexivity.
  - intros max_paysize timeout off off' b b' fl fl' calls calls' Hm Hoff H.
    unfold send_fragment in H. cbv zeta in H.
    replace (max_paysize <? paysize (payload_block (blocks b)) - off) with true in H
      by (symmetry; apply Z.ltb_lt; lia).
    exec_crack; (split; [reflexivity|]); eexists; split; reflexivity.
Qed.

End SendFacts.

Lemma sdnv_write_model_keeps_flags (K : bplib_h) :
  sdnv_write_keeps_flags (sdnv_write_model K).
Proof.
  intros block size f flags event H. unfold sdnv_write_model. cbn [snd].
  repeat (match goal with |- context [if ?c then _ else _] => destruct c end);
    repeat apply raised_lor; exact H.
Qed.

Lemma pay_write_model_keeps_flags (K : bplib_h) :
  pay_write_keeps_flags (pay_write_model K).
Proof.
  intros block size pay upd flags event H. unfold pay_write_model.
  destruct (size <? 1); [now apply raised_bplog|].
  destruct (sdnv_write_model K _ size (pay_bf pay) 0) as [[? ?] ?].
  destruct (sdnv_write_model K _ size (pay_blklen pay) _) as [[? ?] ?].
  destruct (negb _); simpl; [now apply raised_lor|exact H].
Qed.

Lemma send_fragments_without_budget_witness :
  allow_fragmentation (attributes (sent_bundle (example_attributes 56 true false))) = true
  /\ max_length (attributes (sent_bundle (example_attributes 56 true false)))
     - headersize (data (sent_bundle (example_attributes 56 true false))) <= 0
  /\ (exists b : bp_bundle_t,
         send_check bplib_h_example
           (send_payload (sent_bundle (example_attributes 56 true false)) hello 5) 0 0
         = inr b
         /\ is_frag (primary_block (blocks b)) = true)
  /\ send_model 64 (sent_bundle (example_attributes 56 true false)) hello 5 = Fuel.
Proof.
  split; [vm_compute; reflexivity|]. split; [vm_compute; discriminate|].
  split; [|vm_compute; reflexivity].
  eexists. split.
  - apply (proj1 (send_fragments_without_budget bplib_h_example
                    (sdnv_write_model bplib_h_example) crc_get_model
                    (pay_write_model bplib_h_example) (create_ok bplib_h_example))).
    + vm_compute; reflexivity.
    + vm_compute; discriminate.
    + vm_compute; reflexivity.
  - vm_compute; reflexivity.
Defined.

Lemma send_stores_exprtime_witness :
  (send_model 8 (populated_bundle (example_attributes 56 true false)) hello 5
   = Ret (0, sent_bundle (example_attributes 56 true false), 0,
          [{| cc_is_record := false; cc_payload := hello; cc_size := 5; cc_timeout := 0 |}])
   /\ exprtime (data (sent_bundle (example_attributes 56 true false))) = 1000 + 3600)
  /\ (send_model 8 (populated_bundle long_lived_attributes) hello 5
      = Ret (0, sent_bundle long_lived_attributes, 0x200,
             [{| cc_is_record := false; cc_payload := hello; cc_size := 5; cc_timeout := 0 |}])
      /\ exprtime (data (sent_bundle long_lived_attributes)) = 2 ^ 64 - 1
      /\ raised (BP_FLAG_SDNV_OVERFLOW bplib_h_example) 0x200).
Proof.
  pose proof (send_stores_exprtime bplib_h_example
                (sdnv_write_model bplib_h_example) sdnv_mask_model crc_get_model
                (pay_write_model bplib_h_example) (create_ok bplib_h_example))
    as (_ & _ & Hstored & Hwraps).
  split.
  - assert (Hrun :
      send_model 8 (populated_bundle (example_attributes 56 true false)) hello 5
      = Ret (0, sent_bundle (example_attributes 56 true false), 0,
             [{| cc_is_record := false; cc_payload := hello; cc_size := 5;
                 cc_timeout := 0 |}]))
      by (vm_compute; reflexivity).
    split; [exact Hrun|].
    assert (Hcheck :
      send_check bplib_h_example
        (send_payload (populated_bundle (example_attributes 56 true false)) hello 5)
        (max_length (attributes (populated_bundle (example_attributes 56 true false)))
         - headersize (data (populated_bundle (example_attributes 56 true false)))) 0
      = inr (send_payload (populated_bundle (example_attributes 56 true false)) hello 5))
      by (vm_compute; reflexivity).
    rewrite (Hstored 8%nat example_clock (populated_bundle (example_attributes 56 true false))
               (send_payload (populated_bundle (example_attributes 56 true false)) hello 5)
               (sent_bundle (example_attributes 56 true false))
               hello 5 0 0 0 0 _ Hcheck Hrun).
    vm_compute; reflexivity.
  - assert (Hrun :
      send_model 8 (populated_bundle long_lived_attributes) hello 5
      = Ret (0, sent_bundle long_lived_attributes, 0x200,
             [{| cc_is_record := false; cc_payload := hello; cc_size := 5;
                 cc_timeout := 0 |}]))
      by (vm_compute; reflexivity).
    split; [exact Hrun|].
    assert (Hcheck :
      send_check bplib_h_example
        (send_payload (populated_bundle long_lived_attributes) hello 5)
        (max_length (attributes (populated_bundle long_lived_attributes))
         - headersize (data (populated_bundle long_lived_attributes))) 0
      = inr (send_payload (populated_bundle long_lived_attributes) hello 5))
      by (vm_compute; reflexivity).
    apply (Hwraps 8%nat example_clock (populated_bundle long_lived_attributes)
             (send_payload (populated_bundle long_lived_attributes) hello 5)
             (sent_bundle long_lived_attributes)
             hello 5 0 0 0 0x200 _
             (sdnv_write_model_keeps_flags bplib_h_example)
             (pay_write_model_keeps_flags bplib_h_example)
             ltac:(vm_compute; discriminate) Hcheck Hrun).
    vm_compute; reflexivity.
Defined.

(** ** The receive path *)

Section ReceiveFacts.
Context (K : bplib_h).
Variable sdnv_read : list Z -> Z -> bp_field_t -> Z -> Z * bp_field_t * Z.
Variable sdnv_write : list Z -> Z -> bp_field_t -> Z -> Z * list Z * Z.
Variable bplib_crc_get : list Z -> Z -> crc_parameters_t -> Z.
Variable pri_read : list Z -> Z -> bool -> Z -> Z * bp_blk_pri_t * Z.
Variable cteb_read : list Z -> Z -> bool -> Z -> Z * bp_blk_cteb_t * Z.
Variable pay_read : list Z -> Z -> bool -> Z -> Z * bp_blk_pay_t * Z.
Variable pri_write :
  list Z -> Z -> bp_blk_pri_t -> bool -> Z -> Z * (list Z * bp_blk_pri_t) * Z.
Variable cteb_write :
  list Z -> Z -> bp_blk_cteb_t -> bool -> Z -> Z * (list Z * bp_blk_cteb_t) * Z.
Variable bplib_ipn2eid : Z -> Z -> Z -> list Z.

(** *** Return values *)

(** [BP_PENDING_EXPIRATION] is a return value of its own. *)
Hypothesis error_not_expiration : BP_ERROR K <> BP_PENDING_EXPIRATION.
Hypothesis success_not_expiration : BP_SUCCESS K <> BP_PENDING_EXPIRATION.

Lemma bplog_not_expiration (flags event : Z) :
  fst (bplog K flags event) <> BP_PENDING_EXPIRATION.
Proof. unfold bplog. destruct (0 <? event); assumption. Qed.

Lemma bib_verify_not_expiration (payload : list Z) (n : Z) (bib : bp_blk_bib_t)
    (flags : Z) :
  fst (bib_verify K bplib_crc_get payload n bib flags) <> BP_PENDING_EXPIRATION.
Proof.
  unfold bib_verify.
  repeat match goal with
         | |- context [if ?c then _ else _] => destruct c
         end; simpl; auto using bplog_not_expiration.
Qed.

Lemma v6_build_not_expiration (bundle b' : bp_bundle_t) (pri : option bp_blk_pri_t)
    (hdr_buf : list Z) (hdr_len flags st fl' : Z) :
  v6_build K sdnv_write pri_write cteb_write bplib_ipn2eid bundle pri hdr_buf hdr_len flags
  = Ret (st, b', fl') ->
  st <> BP_PENDING_EXPIRATION.
Proof.
  intros H. unfold v6_build, bplog_ret in H.
  exec_crack; auto using bplog_not_expiration.
Qed.

Lemma receive_block_not_expiration (bundle : bp_bundle_t) (size : Z)
    (pri_blk : bp_blk_pri_t) (exprtime : Z) (payload : bp_payload_t) (st : rx_t)
    (s : rx_step) :
  rx_status st <> BP_PENDING_EXPIRATION ->
  receive_block K sdnv_read sdnv_write bplib_crc_get cteb_read pay_read pri_write
    cteb_write bplib_ipn2eid bundle size pri_blk exprtime payload st = Ret s ->
  match s with
  | Return (r, _, _) => r <> BP_PENDING_EXPIRATION
  | Continue st' => rx_status st' <> BP_PENDING_EXPIRATION
  end.
Proof.
  intros Hst H.
  unfold receive_block, receive_extension, receive_payload, receive_dispose,
    receive_forward, custody_transfer, bplog_ret in H.
  exec_crack; simpl; auto using bplog_not_expiration; try discriminate.
  all: match goal with
       | E : bib_verify _ _ ?p ?n ?b ?f = (?z, _) |- ?z <> _ =>
           pose proof (bib_verify_not_expiration p n b f) as Hv;
           rewrite E in Hv; exact Hv
       | E : v6_build _ _ _ _ _ _ _ _ _ _ = Ret (?z, _, _) |- ?z <> _ =>
           exact (v6_build_not_expiration _ _ _ _ _ _ _ _ E)
       | E : bplog _ ?f ?e = (?z, _) |- ?z <> _ =>
           pose proof (bplog_not_expiration f e) as Hv;
           rewrite E in Hv; exact Hv
       end.
Qed.

Lemma receive_loop_not_expiration (fuel : nat) (bundle : bp_bundle_t) (size : Z)
    (pri_blk : bp_blk_pri_t) (exprtime : Z) (payload : bp_payload_t) (st : rx_t)
    (r : Z) (out : rx_out) (fl : Z) :
  rx_status st <> BP_PENDING_EXPIRATION ->
  receive_loop K sdnv_read sdnv_write bplib_crc_get cteb_read pay_read pri_write
    cteb_write bplib_ipn2eid fuel bundle size pri_blk exprtime payload st
  = Ret (r, out, fl) ->
  r <> BP_PENDING_EXPIRATION.
Proof.
  revert st. induction fuel as [|fuel IH]; intros st Hst H; simpl in H.
  - destruct (_ && _); [discriminate|]. inversion H; subst. exact Hst.
  - destruct (_ && _); [|inversion H; subst; exact Hst].
    apply bind_Ret in H as (s & Hs & H).
    apply receive_block_not_expiration in Hs; [|exact Hst].
    destruct s as [[[r0 out0] fl0]|st'].
    + inversion H; subst. exact Hs.
    + eapply IH; eassumption.
Qed.

(** The receive path computes the expiration time as the send path does. *)
Lemma receive_exprtime_spec (createsec lifetime flags : Z) :
  fst (receive_exprtime K createsec lifetime flags) = exprtime_spec K createsec lifetime.
Proof.
  unfold receive_exprtime, exprtime_spec.
  destruct (createsec =? BP_UNKNOWN_CREATION_TIME K) eqn:E1.
  { apply Z.eqb_eq in E1. rewrite orb_true_r. simpl. congruence. }
  destruct (createsec =? BP_TTL_CREATION_TIME K) eqn:E2; simpl.
  { apply Z.eqb_eq in E2. congruence. }
  destruct (u64 (createsec + lifetime) <? createsec); reflexivity.
Qed.

Lemma v6_is_expired_true (bundle : bp_bundle_t) (sysnow exprtime : Z) (unrelt : bool) :
  v6_is_expired K bundle sysnow exprtime unrelt = true
  <-> unrelt = false
      /\ ignore_expiration (attributes bundle) = false
      /\ exprtime <> BP_UNKNOWN_CREATION_TIME K
      /\ exprtime <> BP_TTL_CREATION_TIME K
      /\ exprtime <= sysnow.
Proof.
  unfold v6_is_expired. rewrite !andb_true_iff, !negb_true_iff, !Z.eqb_neq, Z.leb_le.
  tauto.
Qed.

(** C6 (as amended).  For a received bundle whose primary block parses and
    has no dictionary, [v6_receive_bundle] computes the expiration time as
    the send path does and reads the clock, and it returns
    [BP_PENDING_EXPIRATION] exactly when the clock is reliable, the
    bundle's attributes do not ask to ignore expiration, the expiration
    time is neither of the two sentinels, and the current time is at or
    past the expiration time. *)
Theorem receive_expiration_exactly (fuel : nat) (clk : os_clock) (bundle : bp_bundle_t)
    (buffer : list Z) (size : Z) (payload : bp_payload_t) (flags : Z)
    (cteb_blk : bp_blk_cteb_t) (bib_blk : bp_blk_bib_t)
    (n : Z) (pri_blk : bp_blk_pri_t) (fl1 : Z) :
  pri_read buffer size true flags = (n, pri_blk, fl1) ->
  0 <= n ->
  value (dictlen pri_blk) = 0 ->
  let exprtime := exprtime_spec K (value (createsec pri_blk)) (value (lifetime pri_blk)) in
  fst (receive_exprtime K (value (createsec pri_blk)) (value (lifetime pri_blk)) fl1)
  = exprtime
  /\ ((exists (out : rx_out) (fl' : Z),
          v6_receive_bundle K sdnv_read sdnv_write bplib_crc_get pri_read cteb_read
            pay_read pri_write cteb_write bplib_ipn2eid
            fuel clk bundle buffer size payload flags cteb_blk bib_blk
          = Ret (BP_PENDING_EXPIRATION, out, fl'))
      <-> (fst (bplib_os_systime K clk) <> BP_ERROR K
           /\ ignore_expiration (attributes bundle) = false
           /\ exprtime <> BP_UNKNOWN_CREATION_TIME K
           /\ exprtime <> BP_TTL_CREATION_TIME K
           /\ exprtime <= snd (bplib_os_systime K clk))).
Proof.
  intros Hpri Hn Hdict exprtime. split; [apply receive_exprtime_spec|].
  unfold v6_receive_bundle, receive_primary. cbn [exclude_push length bind].
  replace (Z.of_nat 0 <? BP_NUM_EXCLUDE_REGIONS) with true by reflexivity.
  cbn [bind]. rewrite Hpri.
  replace (n <? 0) with false by (symmetry; apply Z.ltb_ge; lia).
  unfold exclude_push at 1. cbn [length app].
  replace (Z.of_nat 1 <? BP_NUM_EXCLUDE_REGIONS) with true by reflexivity.
  cbn [bind]. rewrite Hdict. cbn [Z.eqb negb].
  pose proof (receive_exprtime_spec (value (createsec pri_blk)) (value (lifetime pri_blk)) fl1)
    as Hspec.
  destruct (receive_exprtime K (value (createsec pri_blk)) (value (lifetime pri_blk)) fl1)
    as [e fl2].
  simpl in Hspec. fold exprtime in Hspec. subst e.
  destruct (bplib_os_systime K clk) as [st sysnow]. cbn [fst snd].
  pose proof (v6_is_expired_true bundle sysnow exprtime (st =? BP_ERROR K)) as Hexp.
  destruct (v6_is_expired K bundle sysnow exprtime (st =? BP_ERROR K)).
  - cbn [bind]. split.
    + intros _. destruct Hexp as [Hexp _]. specialize (Hexp eq_refl).
      destruct Hexp as (Hu & Hrest). apply Z.eqb_neq in Hu. tauto.
    + intros _. eauto.
  - cbn [bind]. split.
    + intros (out & fl' & H).
      apply receive_loop_not_expiration in H; [contradiction|]. exact success_not_expiration.
    + intros (Hu & Hrest). apply Z.eqb_neq in Hu.
      destruct Hexp as [_ Hexp]. discriminate Hexp. tauto.
Qed.

(** *** The exclusion list *)

Lemma no_overrun_Ret {A : Type} (a : A) : no_overrun (Ret a).
Proof. discriminate. Qed.

Lemma no_overrun_bind {A B : Type} (m : exec A) (k : A -> exec B) :
  no_overrun m -> (forall a : A, m = Ret a -> no_overrun (k a)) -> no_overrun (bind m k).
Proof.
  unfold no_overrun. destruct m as [a|f|]; simpl; intros Hm Hk.
  - now apply Hk.
  - intros E. apply Hm. inversion E. reflexivity.
  - discriminate.
Qed.

Lemma no_overrun_load {A : Type} (a : list A) (i : Z) : no_overrun (load a i).
Proof.
  unfold no_overrun, load. destruct (i <? 0); [discriminate|].
  destruct (a !! Z.to_nat i); discriminate.
Qed.

Lemma no_overrun_store {A : Type} (a : list A) (i : Z) (x : A) : no_overrun (store a i x).
Proof. unfold no_overrun, store. destruct (_ && _); discriminate. Qed.

Lemma no_overrun_ptr_at (mem : list Z) (off : Z) : no_overrun (ptr_at mem off).
Proof. unfold no_overrun, ptr_at. destruct (_ || _); discriminate. Qed.

Lemma no_overrun_memcpy (dst : list Z) (at_ : Z) (src : list Z) (n : Z) :
  no_overrun (memcpy dst at_ src n).
Proof. unfold no_overrun, memcpy. destruct (_ || _); discriminate. Qed.

Lemma exclude_push_Ret (exclude exclude' : list Z) (x : Z) :
  exclude_push exclude x = Ret exclude' ->
  exclude' = exclude ++ [x]
  /\ Z.of_nat (length exclude') = Z.of_nat (length exclude) + 1
  /\ Z.of_nat (length exclude') <= BP_NUM_EXCLUDE_REGIONS.
Proof.
  unfold exclude_push. destruct (_ <? _) eqn:E; [|discriminate].
  apply Z.ltb_lt in E. intros H. inversion H; subst.
  rewrite length_app. simpl. split; [reflexivity|]. lia.
Qed.

Lemma no_overrun_push (exclude : list Z) (x : Z) :
  Z.of_nat (length exclude) < BP_NUM_EXCLUDE_REGIONS -> no_overrun (exclude_push exclude x).
Proof.
  intros H. unfold exclude_push. apply Z.ltb_lt in H. rewrite H. discriminate.
Qed.

Lemma no_overrun_let {A B : Type} (e : A) (k : A -> exec B) :
  (forall x : A, no_overrun (k x)) -> no_overrun (let x := e in k x).
Proof. intros H. apply H. Qed.

(** Goals [no_overrun m]: through binds and matches down to the memory
    accesses, none of which touches the exclusion array. *)
Ltac no_overrun_step :=
  lazymatch goal with
  | |- no_overrun (let x := ?e in @?k x) =>
      let v := fresh "v" in
      refine (no_overrun_let e k _); intros v; cbv beta
  | |- no_overrun (Ret _) => apply no_overrun_Ret
  | |- no_overrun (load _ _) => apply no_overrun_load
  | |- no_overrun (store _ _ _) => apply no_overrun_store
  | |- no_overrun (ptr_at _ _) => apply no_overrun_ptr_at
  | |- no_overrun (memcpy _ _ _ _) => apply no_overrun_memcpy
  | |- no_overrun (bind _ _) =>
      apply no_overrun_bind;
      [| let a := fresh "a" in let Ha := fresh "Ha" in intros a Ha ]
  | |- no_overrun (match ?x with _ => _ end) =>
      first [ is_var x; destruct x
            | let E := fresh "E" in destruct x eqn:E ]
  end.

Lemma no_overrun_write_crc16 (crc : Z) (buffer : list Z) (at_ : Z) :
  no_overrun (write_crc16 crc buffer at_).
Proof. unfold write_crc16. repeat no_overrun_step. Qed.

Lemma no_overrun_write_crc32 (crc : Z) (buffer : list Z) (at_ : Z) :
  no_overrun (write_crc32 crc buffer at_).
Proof. unfold write_crc32. repeat no_overrun_step. Qed.

Lemma no_overrun_bib_read (buffer : list Z) (size : Z) (bib : bp_blk_bib_t)
    (upd : bool) (flags : Z) :
  no_overrun (bib_read K sdnv_read buffer size bib upd flags).
Proof.
  unfold bib_read, bib_read_block, bib_read_check, read_crc16, read_crc32.
  repeat no_overrun_step.
Qed.

Lemma no_overrun_bib_write (buffer : list Z) (size : Z) (bib : bp_blk_bib_t)
    (upd : bool) (flags : Z) :
  no_overrun (bib_write K sdnv_write buffer size bib upd flags).
Proof.
  unfold bib_write, bib_write_block, bib_write_fields.
  repeat first [ apply no_overrun_write_crc16 | apply no_overrun_write_crc32
               | no_overrun_step ].
Qed.

Lemma no_overrun_v6_build (bundle : bp_bundle_t) (pri : option bp_blk_pri_t)
    (hdr_buf : list Z) (hdr_len flags : Z) :
  no_overrun (v6_build K sdnv_write pri_write cteb_write bplib_ipn2eid
                bundle pri hdr_buf hdr_len flags).
Proof.
  unfold v6_build.
  repeat first [ apply no_overrun_bib_write | no_overrun_step ].
Qed.

Lemma no_overrun_copy_regions (gaps buffer hdr_buf : list Z) (hdr_index : Z) :
  no_overrun (copy_regions gaps buffer hdr_buf hdr_index).
Proof.
  revert hdr_buf hdr_index.
  induction gaps as [gaps IH] using (induction_ltof1 _ (@length Z)); unfold ltof in IH.
  intros hdr_buf hdr_index.
  destruct gaps as [|start_index [|stop_index rest]]; simpl;
    try apply no_overrun_Ret.
  destruct (_ <=? _); [apply no_overrun_Ret|].
  repeat first [ apply IH; simpl; lia | no_overrun_step ].
Qed.

(** The entries in use stay below the capacity where a push is made: the
    guard of the loop, and the pushes made since. *)
Ltac push_bound :=
  repeat match goal with
         | H : exclude_push _ _ = Ret _ |- _ =>
             apply exclude_push_Ret in H; destruct H as (_ & H & _)
         | H : (_ <=? _) = false |- _ => apply Z.leb_gt in H
         end;
  unfold BP_NUM_EXCLUDE_REGIONS in *; simpl length in *; lia.

Ltac no_overrun_rx :=
  repeat first
    [ apply no_overrun_bib_read
    | apply no_overrun_v6_build
    | apply no_overrun_copy_regions
    | lazymatch goal with
      | |- no_overrun (exclude_push _ _) => apply no_overrun_push; push_bound
      end
    | no_overrun_step ].

Lemma no_overrun_receive_block (bundle : bp_bundle_t) (size : Z)
    (pri_blk : bp_blk_pri_t) (exprtime : Z) (payload : bp_payload_t) (st : rx_t) :
  no_overrun
    (receive_block K sdnv_read sdnv_write bplib_crc_get cteb_read pay_read pri_write
       cteb_write bplib_ipn2eid bundle size pri_blk exprtime payload st).
Proof.
  unfold receive_block, receive_extension, receive_payload, receive_dispose,
    receive_forward, custody_transfer.
  no_overrun_rx.
Qed.

Lemma no_overrun_receive_loop (fuel : nat) (bundle : bp_bundle_t) (size : Z)
    (pri_blk : bp_blk_pri_t) (exprtime : Z) (payload : bp_payload_t) (st : rx_t) :
  no_overrun
    (receive_loop K sdnv_read sdnv_write bplib_crc_get cteb_read pay_read pri_write
       cteb_write bplib_ipn2eid fuel bundle size pri_blk exprtime payload st).
Proof.
  revert st. induction fuel as [|fuel IH]; intros st; simpl.
  - destruct (_ && _); discriminate.
  - destruct (_ && _); [|discriminate].
    apply no_overrun_bind; [apply no_overrun_receive_block|].
    intros [r|st'] _; [discriminate|apply IH].
Qed.

Lemma no_overrun_receive_primary (clk : os_clock) (bundle : bp_bundle_t)
    (buffer : list Z) (size : Z) (payload : bp_payload_t) (flags : Z)
    (cteb_blk : bp_blk_cteb_t) (bib_blk : bp_blk_bib_t) :
  no_overrun
    (receive_primary K pri_read clk bundle buffer size payload flags cteb_blk bib_blk).
Proof. unfold receive_primary. no_overrun_rx. Qed.

(** A turn of the loop hands on an exclusion list within the array. *)
Lemma receive_block_exclude_length (bundle : bp_bundle_t) (size : Z)
    (pri_blk : bp_blk_pri_t) (exprtime : Z) (payload : bp_payload_t) (st st' : rx_t) :
  receive_block K sdnv_read sdnv_write bplib_crc_get cteb_read pay_read pri_write
    cteb_write bplib_ipn2eid bundle size pri_blk exprtime payload st
  = Ret (Continue st') ->
  Z.of_nat (length (rx_exclude st')) <= Z.of_nat (length (rx_exclude st)) + 2
  /\ Z.of_nat (length (rx_exclude st')) < BP_NUM_EXCLUDE_REGIONS.
Proof.
  intros H. unfold receive_block, receive_extension in H.
  exec_crack; simpl; push_bound.
Qed.

(** C3.  The exclusion list of [v6_receive_bundle] never holds more than
    its 16 entries, whatever the bundle: no execution writes past the
    array.  Before it processes a block after the primary block, the loop
    tests the entries in use: with 14 or more in use it drops the bundle,
    returning [BP_ERROR] with the [NONCOMPLIANT] flag, and writes
    nothing; with fewer in use a turn adds at most two entries and hands
    on a list within the array. *)
Theorem receive_exclusion_guard :
  (forall (fuel : nat) (clk : os_clock) (bundle : bp_bundle_t) (buffer : list Z)
          (size : Z) (payload : bp_payload_t) (flags : Z)
          (cteb_blk : bp_blk_cteb_t) (bib_blk : bp_blk_bib_t),
      v6_receive_bundle K sdnv_read sdnv_write bplib_crc_get pri_read cteb_read
        pay_read pri_write cteb_write bplib_ipn2eid
        fuel clk bundle buffer size payload flags cteb_blk bib_blk
      <> UB ExcludeOverrun)
  /\ (forall (bundle : bp_bundle_t) (size : Z) (pri_blk : bp_blk_pri_t) (exprtime : Z)
             (payload : bp_payload_t) (st : rx_t) (blk_type : Z),
         load (rx_buffer st) (rx_index st) = Ret blk_type ->
         14 <= Z.of_nat (length (rx_exclude st)) ->
         0 < BP_FLAG_NONCOMPLIANT K ->
         receive_block K sdnv_read sdnv_write bplib_crc_get cteb_read pay_read pri_write
           cteb_write bplib_ipn2eid bundle size pri_blk exprtime payload st
         = Ret (Return (BP_ERROR K, (bundle, payload, rx_buffer st),
                        Z.lor (rx_flags st) (BP_FLAG_NONCOMPLIANT K))))
  /\ (forall (bundle : bp_bundle_t) (size : Z) (pri_blk : bp_blk_pri_t) (exprtime : Z)
             (payload : bp_payload_t) (st st' : rx_t),
         receive_block K sdnv_read sdnv_write bplib_crc_get cteb_read pay_read pri_write
           cteb_write bplib_ipn2eid bundle size pri_blk exprtime payload st
         = Ret (Continue st') ->
         Z.of_nat (length (rx_exclude st')) <= Z.of_nat (length (rx_exclude st)) + 2
         /\ Z.of_nat (length (rx_exclude st')) < BP_NUM_EXCLUDE_REGIONS).
Proof.
  split; [|split].
  - intros. unfold v6_receive_bundle.
    apply no_overrun_bind; [apply no_overrun_receive_primary|].
    intros [r|[[pri_blk exprtime] st]] _; [discriminate|apply no_overrun_receive_loop].
  - intros bundle size pri_blk exprtime payload st blk_type Hl Hn Hf.
    unfold receive_block. rewrite Hl. cbn [bind].
    replace (BP_NUM_EXCLUDE_REGIONS - 2 <=? Z.of_nat (length (rx_exclude st))) with true
      by (symmetry; apply Z.leb_le; unfold BP_NUM_EXCLUDE_REGIONS; lia).
    now rewrite bplog_ret_event.
  - exact receive_block_exclude_length.
Qed.

(** *** Forwarding *)

(** The forwarding branch by itself, given the exclusion list, the CTEB
    locals, the payload and the flags that the block loop hands it: what
    it returns when the header regions fit and the builder succeeds, when
    the regions do not fit, and when the builder fails. *)
Lemma receive_forward_results (bundle : bp_bundle_t) (pri_blk : bp_blk_pri_t)
    (exclude buffer : list Z) (cteb_present : bool) (cteb_blk : bp_blk_cteb_t)
    (payload : bp_payload_t) (flags : Z) :
  let forward :=
    receive_forward K sdnv_write pri_write cteb_write bplib_ipn2eid
      bundle pri_blk exclude buffer cteb_present cteb_blk payload flags in
  let copied :=
    copy_regions (drop 1 exclude) buffer
      (replicate (Z.to_nat BP_BUNDLE_HDR_BUF_SIZE) 0) 0 in
  let built (hdr_buf : list Z) (hdr_index : Z) :=
    v6_build K sdnv_write pri_write cteb_write bplib_ipn2eid
      bundle (Some (forward_custody bundle pri_blk)) hdr_buf hdr_index flags in
  (forall index : Z,
      value (dstnode pri_blk) <> local_node (route bundle) ->
      receive_dispose K sdnv_write pri_write cteb_write bplib_ipn2eid
        bundle pri_blk index exclude buffer cteb_present cteb_blk payload flags
      = forward)
  /\ (cst_rqst pri_blk = true ->
      value (cstnode (forward_custody bundle pri_blk)) = local_node (route bundle)
      /\ value (cstserv (forward_custody bundle pri_blk)) = local_service (route bundle)
      /\ value (rptnode (forward_custody bundle pri_blk)) = 0
      /\ value (rptserv (forward_custody bundle pri_blk)) = 0)
  /\ (forall (hdr_buf : list Z) (hdr_index : Z) (bundle' : bp_bundle_t) (fl' : Z),
         cst_rqst pri_blk = true ->
         copied = Ret (Some (hdr_buf, hdr_index)) ->
         built hdr_buf hdr_index = Ret (BP_SUCCESS K, bundle', fl') ->
         (cteb_present = true ->
          exists payload' : bp_payload_t,
            forward = Ret (BP_PENDING_FORWARD, (bundle', payload', buffer), fl')
            /\ pl_cid payload' = value (cteb_cid cteb_blk)
            /\ node payload' = cteb_cstnode cteb_blk
            /\ service payload' = cteb_cstserv cteb_blk)
         /\ (cteb_present = false ->
             0 < BP_FLAG_NONCOMPLIANT K ->
             exists payload' : bp_payload_t,
               forward = Ret (BP_ERROR K, (bundle', payload', buffer),
                              Z.lor fl' (BP_FLAG_NONCOMPLIANT K))
               /\ node payload' = BP_IPN_NULL K
               /\ service payload' = BP_IPN_NULL K))
  /\ (copied = Ret None ->
      0 < BP_FLAG_BUNDLE_TOO_LARGE K ->
      forward = Ret (BP_ERROR K, (bundle, payload, buffer),
                     Z.lor flags (BP_FLAG_BUNDLE_TOO_LARGE K)))
  /\ (forall (hdr_buf : list Z) (hdr_index st : Z) (bundle' : bp_bundle_t) (fl' : Z),
         copied = Ret (Some (hdr_buf, hdr_index)) ->
         built hdr_buf hdr_index = Ret (st, bundle', fl') ->
         st <> BP_SUCCESS K ->
         forward = Ret (st, (bundle', payload, buffer), fl')).
Proof.
  intros forward copied built. subst forward copied built.
  split; [|split; [|split; [|split]]].
  - intros index Hdst. unfold receive_dispose.
    apply Z.eqb_neq in Hdst. rewrite Hdst. reflexivity.
  - intros Hc. unfold forward_custody. rewrite Hc. simpl. auto.
  - intros hdr_buf hdr_index bundle' fl' Hc Hcopy Hbuild.
    unfold receive_forward. rewrite Hcopy. cbn [bind]. rewrite Hbuild. cbn [bind].
    rewrite Z.eqb_refl. unfold custody_transfer.
    assert (Hc' : cst_rqst (forward_custody bundle pri_blk) = true).
    { unfold forward_custody. rewrite Hc. simpl. exact Hc. }
    rewrite Hc'. split.
    + intros ->. eexists. split; [reflexivity|]. simpl. auto.
    + intros -> Hf. rewrite bplog_ret_event by assumption.
      eexists. split; [reflexivity|]. simpl. auto.
  - intros Hcopy Hf. unfold receive_forward. rewrite Hcopy. cbn [bind].
    now rewrite bplog_ret_event.
  - intros hdr_buf hdr_index st bundle' fl' Hcopy Hbuild Hst.
    unfold receive_forward. rewrite Hcopy. cbn [bind]. rewrite Hbuild. cbn [bind].
    apply Z.eqb_neq in Hst. rewrite Hst. reflexivity.
Qed.

(** *** The forwarding branch in the call *)

(** A turn of the loop that goes on to the next has set the CTEB locals
    from the block it met if that was a CTEB, and has left them alone
    otherwise. *)
Lemma receive_block_cteb (bundle : bp_bundle_t) (size : Z) (pri_blk : bp_blk_pri_t)
    (exprtime : Z) (payload : bp_payload_t) (st st1 : rx_t) :
  receive_block K sdnv_read sdnv_write bplib_crc_get cteb_read pay_read pri_write
    cteb_write bplib_ipn2eid bundle size pri_blk exprtime payload st
  = Ret (Continue st1) ->
  match cteb_at cteb_read size st with
  | Some c => rx_cteb_present st1 = true /\ rx_cteb_blk st1 = c
  | None => rx_cteb_present st1 = rx_cteb_present st
            /\ rx_cteb_blk st1 = rx_cteb_blk st
  end.
Proof.
  intros H. unfold receive_block in H. unfold cteb_at.
  apply bind_Ret in H as (blk_type & Hl & H). rewrite Hl.
  destruct (_ <=? _); [discriminate|].
  destruct (blk_type =? BP_BIB_BLK_TYPE) eqn:Eb.
  { apply Z.eqb_eq in Eb. subst blk_type.
    change (BP_BIB_BLK_TYPE =? BP_CTEB_BLK_TYPE) with false.
    assert (Hkeep : rx_cteb_present st1 = rx_cteb_present st
                    /\ rx_cteb_blk st1 = rx_cteb_blk st).
    { exec_inv H; inversion H; subst; simpl; auto. }
    destruct (ptr_at _ _); exact Hkeep. }
  destruct (blk_type =? BP_CTEB_BLK_TYPE) eqn:Ec.
  { apply bind_Ret in H as (sub & Hs & H). rewrite Hs.
    destruct (cteb_read sub _ true _) as [[nb c] fl]. simpl.
    destruct (nb <? 0); inversion H; subst; simpl; auto. }
  assert (Hkeep : rx_cteb_present st1 = rx_cteb_present st
                  /\ rx_cteb_blk st1 = rx_cteb_blk st).
  { destruct (negb _).
    - unfold receive_extension in H. exec_inv H; inversion H; subst; simpl; auto.
    - apply bind_Ret in H as (r & _ & H). discriminate. }
  destruct (ptr_at _ _); exact Hkeep.
Qed.

Lemma rx_passes_cteb (bundle : bp_bundle_t) (size : Z) (pri_blk : bp_blk_pri_t)
    (exprtime : Z) (payload : bp_payload_t) (n : nat) (st st' : rx_t)
    (seen : option bp_blk_cteb_t) :
  rx_passes K sdnv_read sdnv_write bplib_crc_get cteb_read pay_read pri_write
    cteb_write bplib_ipn2eid bundle size pri_blk exprtime payload n st st' seen ->
  match seen with
  | Some c => rx_cteb_present st' = true /\ rx_cteb_blk st' = c
  | None => rx_cteb_present st' = rx_cteb_present st
            /\ rx_cteb_blk st' = rx_cteb_blk st
  end.
Proof.
  induction 1 as [st|n st st1 st' later seen Hg Hb Hrun IH Hseen]; [auto|].
  apply receive_block_cteb in Hb. subst seen.
  destruct later as [c|]; [exact IH|].
  destruct (cteb_at cteb_read size st) as [c|].
  - destruct IH as [-> ->]. exact Hb.
  - destruct IH as [-> ->]. exact Hb.
Qed.

(** The turns of [rx_passes] are turns of the loop. *)
Lemma rx_passes_loop (bundle : bp_bundle_t) (size : Z) (pri_blk : bp_blk_pri_t)
    (exprtime : Z) (payload : bp_payload_t) (n : nat) (st st' : rx_t)
    (seen : option bp_blk_cteb_t) (fuel : nat) :
  rx_passes K sdnv_read sdnv_write bplib_crc_get cteb_read pay_read pri_write
    cteb_write bplib_ipn2eid bundle size pri_blk exprtime payload n st st' seen ->
  receive_loop K sdnv_read sdnv_write bplib_crc_get cteb_read pay_read pri_write
    cteb_write bplib_ipn2eid (n + fuel)%nat bundle size pri_blk exprtime payload st
  = receive_loop K sdnv_read sdnv_write bplib_crc_get cteb_read pay_read pri_write
    cteb_write bplib_ipn2eid fuel bundle size pri_blk exprtime payload st'.
Proof.
  induction 1 as [st|n st st1 st' later seen Hg Hb Hrun IH Hseen]; [reflexivity|].
  simpl. unfold rx_guard in Hg. rewrite Hg, Hb. cbn [bind]. exact IH.
Qed.

(** The turn that meets the payload block. *)
Lemma receive_loop_payload (bundle : bp_bundle_t) (size : Z) (pri_blk : bp_blk_pri_t)
    (exprtime : Z) (payload : bp_payload_t) (st : rx_t) (fuel : nat) :
  rx_guard K size st = true ->
  Z.of_nat (length (rx_exclude st)) < BP_NUM_EXCLUDE_REGIONS - 2 ->
  load (rx_buffer st) (rx_index st) = Ret BP_PAY_BLK_TYPE ->
  receive_loop K sdnv_read sdnv_write bplib_crc_get cteb_read pay_read pri_write
    cteb_write bplib_ipn2eid (S fuel) bundle size pri_blk exprtime payload st
  = receive_payload K sdnv_write bplib_crc_get pay_read pri_write cteb_write bplib_ipn2eid
      bundle size pri_blk exprtime payload st.
Proof.
  intros Hg He Hl. simpl. unfold rx_guard in Hg. rewrite Hg.
  unfold receive_block. rewrite Hl. cbn [bind].
  replace (BP_NUM_EXCLUDE_REGIONS - 2 <=? Z.of_nat (length (rx_exclude st))) with false
    by (symmetry; apply Z.leb_gt; lia).
  change (BP_PAY_BLK_TYPE =? BP_BIB_BLK_TYPE) with false.
  change (BP_PAY_BLK_TYPE =? BP_CTEB_BLK_TYPE) with false.
  rewrite Z.eqb_refl. cbn [negb].
  destruct (receive_payload _ _ _ _ _ _ _ _ _ _ _ _ _); reflexivity.
Qed.

(** The loop locals that [receive_primary] hands over record no CTEB. *)
Lemma receive_primary_no_cteb (clk : os_clock) (bundle : bp_bundle_t) (buffer : list Z)
    (size : Z) (payload : bp_payload_t) (flags : Z) (cteb0 : bp_blk_cteb_t)
    (bib0 : bp_blk_bib_t) (pri_blk : bp_blk_pri_t) (exprtime : Z) (st0 : rx_t) :
  receive_primary K pri_read clk bundle buffer size payload flags cteb0 bib0
  = Ret (inr (pri_blk, exprtime, st0)) ->
  rx_cteb_present st0 = false.
Proof.
  intros H. unfold receive_primary in H.
  exec_inv H; inversion H; subst; reflexivity.
Qed.

(** The payload turn of a bundle for another node is the forwarding
    branch, on the exclusion list with the payload region added, the CTEB
    locals of the loop, the payload descriptor filled in and the flags
    after the integrity check. *)
Lemma receive_payload_forward (bundle : bp_bundle_t) (size : Z) (pri_blk : bp_blk_pri_t)
    (exprtime : Z) (payload : bp_payload_t) (st : rx_t) (sub : list Z) (nb : Z)
    (pay_blk : bp_blk_pay_t) (fl2 : Z) :
  Z.of_nat (length (rx_exclude st)) < BP_NUM_EXCLUDE_REGIONS - 2 ->
  ptr_at (rx_buffer st) (rx_index st) = Ret sub ->
  pay_read sub (size - rx_index st) true (rx_flags st) = (nb, pay_blk, fl2) ->
  0 <= nb ->
  (rx_bib_present st = true ->
   fst (bib_verify K bplib_crc_get (payptr pay_blk) (paysize pay_blk) (rx_bib_blk st) fl2)
   = BP_SUCCESS K) ->
  (is_admin_rec pri_blk = true -> 2 <= paysize pay_blk) ->
  value (dstnode pri_blk) <> local_node (route bundle) ->
  receive_payload K sdnv_write bplib_crc_get pay_read pri_write cteb_write bplib_ipn2eid
    bundle size pri_blk exprtime payload st
  = receive_forward K sdnv_write pri_write cteb_write bplib_ipn2eid bundle pri_blk
      (rx_exclude st ++ [rx_index st; rx_index st + nb + paysize pay_blk])
      (rx_buffer st) (rx_cteb_present st) (rx_cteb_blk st)
      (rx_delivered pri_blk exprtime payload pay_blk)
      (rx_verified_flags K bplib_crc_get st pay_blk fl2).
Proof.
  intros He Hs Hp Hnb Hv Ha Hd. unfold receive_payload, rx_delivered, rx_verified_flags.
  unfold exclude_push at 1.
  replace (Z.of_nat (length (rx_exclude st)) <? BP_NUM_EXCLUDE_REGIONS) with true
    by (symmetry; apply Z.ltb_lt; unfold BP_NUM_EXCLUDE_REGIONS in *; lia).
  cbn [bind]. rewrite Hs. cbn [bind]. rewrite Hp.
  replace (nb <? 0) with false by (symmetry; apply Z.ltb_ge; lia).
  unfold exclude_push.
  replace (Z.of_nat (length (rx_exclude st ++ [rx_index st])) <? BP_NUM_EXCLUDE_REGIONS)
    with true
    by (symmetry; apply Z.ltb_lt; rewrite length_app; simpl length;
        unfold BP_NUM_EXCLUDE_REGIONS in *; lia).
  cbn [bind]. rewrite <- app_assoc. cbn [app].
  assert (Hadmin : is_admin_rec pri_blk && (paysize pay_blk <? 2) = false).
  { destruct (is_admin_rec pri_blk); [|reflexivity]. simpl.
    apply Z.ltb_ge. now apply Ha. }
  destruct (rx_bib_present st) eqn:Eb.
  - specialize (Hv eq_refl).
    destruct (bib_verify K bplib_crc_get (payptr pay_blk) (paysize pay_blk)
                (rx_bib_blk st) fl2) as [vs vf].
    simpl in Hv. subst vs. rewrite Z.eqb_refl. cbn [negb andb]. rewrite Hadmin.
    unfold receive_dispose. apply Z.eqb_neq in Hd. rewrite Hd. reflexivity.
  - cbn [andb]. rewrite Hadmin.
    unfold receive_dispose. apply Z.eqb_neq in Hd. rewrite Hd. reflexivity.
Qed.

(** The call as a whole: past the primary block, [n] turns of the loop
    and the payload turn, it is the forwarding branch. *)
Lemma receive_bundle_forward (fuel n : nat) (clk : os_clock) (bundle : bp_bundle_t)
    (buffer : list Z) (size : Z) (payload : bp_payload_t) (flags : Z)
    (cteb0 : bp_blk_cteb_t) (bib0 : bp_blk_bib_t) (pri_blk : bp_blk_pri_t)
    (exprtime : Z) (st0 st : rx_t) (seen : option bp_blk_cteb_t) (sub : list Z)
    (nb : Z) (pay_blk : bp_blk_pay_t) (fl2 : Z) :
  receive_primary K pri_read clk bundle buffer size payload flags cteb0 bib0
  = Ret (inr (pri_blk, exprtime, st0)) ->
  rx_passes K sdnv_read sdnv_write bplib_crc_get cteb_read pay_read pri_write
    cteb_write bplib_ipn2eid bundle size pri_blk exprtime payload n st0 st seen ->
  (n < fuel)%nat ->
  rx_guard K size st = true ->
  Z.of_nat (length (rx_exclude st)) < BP_NUM_EXCLUDE_REGIONS - 2 ->
  load (rx_buffer st) (rx_index st) = Ret BP_PAY_BLK_TYPE ->
  ptr_at (rx_buffer st) (rx_index st) = Ret sub ->
  pay_read sub (size - rx_index st) true (rx_flags st) = (nb, pay_blk, fl2) ->
  0 <= nb ->
  (rx_bib_present st = true ->
   fst (bib_verify K bplib_crc_get (payptr pay_blk) (paysize pay_blk) (rx_bib_blk st) fl2)
   = BP_SUCCESS K) ->
  (is_admin_rec pri_blk = true -> 2 <= paysize pay_blk) ->
  value (dstnode pri_blk) <> local_node (route bundle) ->
  v6_receive_bundle K sdnv_read sdnv_write bplib_crc_get pri_read cteb_read pay_read
    pri_write cteb_write bplib_ipn2eid fuel clk bundle buffer size payload flags cteb0 bib0
  = receive_forward K sdnv_write pri_write cteb_write bplib_ipn2eid bundle pri_blk
      (rx_exclude st ++ [rx_index st; rx_index st + nb + paysize pay_blk])
      (rx_buffer st)
      (match seen with Some _ => true | None => false end)
      (match seen with Some c => c | None => cteb0 end)
      (rx_delivered pri_blk exprtime payload pay_blk)
      (rx_verified_flags K bplib_crc_get st pay_blk fl2).
Proof.
  intros Hpri Hrun Hfuel Hg He Hl Hs Hp Hnb Hv Ha Hd.
  unfold v6_receive_bundle. rewrite Hpri. cbn [bind].
  replace fuel with (n + S (fuel - n - 1))%nat by lia.
  rewrite (rx_passes_loop _ _ _ _ _ _ _ _ _ _ Hrun).
  rewrite receive_loop_payload by assumption.
  rewrite (receive_payload_forward _ _ _ _ _ _ _ _ _ _ He Hs Hp Hnb Hv Ha Hd).
  pose proof (rx_passes_cteb _ _ _ _ _ _ _ _ _ Hrun) as Hc.
  pose proof (receive_primary_no_cteb _ _ _ _ _ _ _ _ _ _ _ Hpri) as H0.
  assert (Hblk0 : rx_cteb_blk st0 = cteb0).
  { clear -Hpri. unfold receive_primary in Hpri.
    exec_inv Hpri; inversion Hpri; subst; reflexivity. }
  destruct seen as [c|]; destruct Hc as [-> ->]; [reflexivity|].
  now rewrite H0, Hblk0.
Qed.

(** C4 (as amended).  A received bundle whose destination node is not the
    local node is forwarded.  The call is taken past its primary block
    ([receive_primary]), through [n] turns of the block loop
    ([rx_passes], [seen] being the CTEB met in them) and into the turn
    that meets the payload block, whose integrity and size checks pass.
    If custody was requested, the primary block handed to the bundle
    builder has the local node and service as custodian and 0.0 as
    report-to endpoint.  When the header regions to keep fit the header
    buffer and the builder succeeds, a bundle that requested custody and
    carries a CTEB makes [v6_receive_bundle] return [BP_PENDING_FORWARD]
    and expose the CTEB's custody id, custodian node and custodian
    service, and one that requested custody without a CTEB makes it fail
    with [NONCOMPLIANT]; when the regions do not fit, [v6_receive_bundle]
    fails with [BUNDLE_TOO_LARGE], and when the builder fails, it returns
    the builder's return value. *)
Theorem receive_forward_custody (fuel n : nat) (clk : os_clock) (bundle : bp_bundle_t)
    (buffer : list Z) (size : Z) (payload : bp_payload_t) (flags : Z)
    (cteb0 : bp_blk_cteb_t) (bib0 : bp_blk_bib_t) (pri_blk : bp_blk_pri_t)
    (exprtime : Z) (st0 st : rx_t) (seen : option bp_blk_cteb_t) (sub : list Z)
    (nb : Z) (pay_blk : bp_blk_pay_t) (fl2 : Z) :
  receive_primary K pri_read clk bundle buffer size payload flags cteb0 bib0
  = Ret (inr (pri_blk, exprtime, st0)) ->
  rx_passes K sdnv_read sdnv_write bplib_crc_get cteb_read pay_read pri_write
    cteb_write bplib_ipn2eid bundle size pri_blk exprtime payload n st0 st seen ->
  (n < fuel)%nat ->
  rx_guard K size st = true ->
  Z.of_nat (length (rx_exclude st)) < BP_NUM_EXCLUDE_REGIONS - 2 ->
  load (rx_buffer st) (rx_index st) = Ret BP_PAY_BLK_TYPE ->
  ptr_at (rx_buffer st) (rx_index st) = Ret sub ->
  pay_read sub (size - rx_index st) true (rx_flags st) = (nb, pay_blk, fl2) ->
  0 <= nb ->
  (rx_bib_present st = true ->
   fst (bib_verify K bplib_crc_get (payptr pay_blk) (paysize pay_blk) (rx_bib_blk st) fl2)
   = BP_SUCCESS K) ->
  (is_admin_rec pri_blk = true -> 2 <= paysize pay_blk) ->
  value (dstnode pri_blk) <> local_node (route bundle) ->
  let received :=
    v6_receive_bundle K sdnv_read sdnv_write bplib_crc_get pri_read cteb_read pay_read
      pri_write cteb_write bplib_ipn2eid fuel clk bundle buffer size payload flags
      cteb0 bib0 in
  let exclude := rx_exclude st ++ [rx_index st; rx_index st + nb + paysize pay_blk] in
  let delivered := rx_delivered pri_blk exprtime payload pay_blk in
  let fl3 := rx_verified_flags K bplib_crc_get st pay_blk fl2 in
  let copied :=
    copy_regions (drop 1 exclude) (rx_buffer st)
      (replicate (Z.to_nat BP_BUNDLE_HDR_BUF_SIZE) 0) 0 in
  let built (hdr_buf : list Z) (hdr_index : Z) :=
    v6_build K sdnv_write pri_write cteb_write bplib_ipn2eid
      bundle (Some (forward_custody bundle pri_blk)) hdr_buf hdr_index fl3 in
  (cst_rqst pri_blk = true ->
   value (cstnode (forward_custody bundle pri_blk)) = local_node (route bundle)
   /\ value (cstserv (forward_custody bundle pri_blk)) = local_service (route bundle)
   /\ value (rptnode (forward_custody bundle pri_blk)) = 0
   /\ value (rptserv (forward_custody bundle pri_blk)) = 0)
  /\ (forall (hdr_buf : list Z) (hdr_index : Z) (bundle' : bp_bundle_t) (fl' : Z),
         cst_rqst pri_blk = true ->
         copied = Ret (Some (hdr_buf, hdr_index)) ->
         built hdr_buf hdr_index = Ret (BP_SUCCESS K, bundle', fl') ->
         match seen with
         | Some cteb =>
             exists payload' : bp_payload_t,
               received = Ret (BP_PENDING_FORWARD, (bundle', payload', rx_buffer st), fl')
               /\ pl_cid payload' = value (cteb_cid cteb)
               /\ node payload' = cteb_cstnode cteb
               /\ service payload' = cteb_cstserv cteb
         | None =>
             0 < BP_FLAG_NONCOMPLIANT K ->
             exists payload' : bp_payload_t,
               received = Ret (BP_ERROR K, (bundle', payload', rx_buffer st),
                               Z.lor fl' (BP_FLAG_NONCOMPLIANT K))
               /\ node payload' = BP_IPN_NULL K
               /\ service payload' = BP_IPN_NULL K
         end)
  /\ (copied = Ret None ->
      0 < BP_FLAG_BUNDLE_TOO_LARGE K ->
      received = Ret (BP_ERROR K, (bundle, delivered, rx_buffer st),
                      Z.lor fl3 (BP_FLAG_BUNDLE_TOO_LARGE K)))
  /\ (forall (hdr_buf : list Z) (hdr_index status : Z) (bundle' : bp_bundle_t) (fl' : Z),
         copied = Ret (Some (hdr_buf, hdr_index)) ->
         built hdr_buf hdr_index = Ret (status, bundle', fl') ->
         status <> BP_SUCCESS K ->
         received = Ret (status, (bundle', delivered, rx_buffer st), fl')).
Proof.
  intros Hpri Hrun Hfuel Hg He Hl Hs Hp Hnb Hv Ha Hd received exclude delivered fl3
    copied built.
  assert (Hrec : received
                 = receive_forward K sdnv_write pri_write cteb_write bplib_ipn2eid
                     bundle pri_blk exclude (rx_buffer st)
                     (match seen with Some _ => true | None => false end)
                     (match seen with Some c => c | None => cteb0 end)
                     delivered fl3).
  { subst received exclude delivered fl3.
    exact (receive_bundle_forward _ _ _ _ _ _ _ _ _ _ _ _ _ _ _ _ _ _ _
             Hpri Hrun Hfuel Hg He Hl Hs Hp Hnb Hv Ha Hd). }
  pose proof (receive_forward_results bundle pri_blk exclude (rx_buffer st)
                (match seen with Some _ => true | None => false end)
                (match seen with Some c => c | None => cteb0 end)
                delivered fl3) as Hres.
  cbv zeta in Hres. rewrite <- Hrec in Hres.
  destruct Hres as (_ & Hcust & Hok & Hbig & Hfail).
  split; [exact Hcust|]. split; [|split; [exact Hbig|exact Hfail]].
  intros hdr_buf hdr_index bundle' fl' Hc Hcopy Hbuild.
  destruct (Hok hdr_buf hdr_index bundle' fl' Hc Hcopy Hbuild) as [Hyes Hno].
  destruct seen as [cteb|]; [exact (Hyes eq_refl)|exact (Hno eq_refl)].
Qed.

End ReceiveFacts.


(** The guard at work: with 14 entries in use the block at index 50 is not
    processed. *)
Lemma receive_exclusion_guard_witness :
  receive_block bplib_h_example (sdnv_read_model bplib_h_example)
    (sdnv_write_model bplib_h_example) crc_get_model
    (found 10 received_cteb) (found 6 received_pay) (wrote 50) (wrote 12)
    ipn2eid_model (local_bundle false) 61 expired_pri 50 empty_payload rx_full
  = Ret (Return (BP_ERROR bplib_h_example,
                 (local_bundle false, empty_payload, rx_buffer rx_full),
                 Z.lor (rx_flags rx_full) (BP_FLAG_NONCOMPLIANT bplib_h_example))).
Proof.
  assert (Hload : load (rx_buffer rx_full) (rx_index rx_full) = Ret 1)
    by (vm_compute; reflexivity).
  assert (Hlen : 14 <= Z.of_nat (length (rx_exclude rx_full)))
    by (vm_compute; discriminate).
  assert (Hflag : 0 < BP_FLAG_NONCOMPLIANT bplib_h_example) by reflexivity.
  exact (proj1 (proj2 (receive_exclusion_guard bplib_h_example
                         (sdnv_read_model bplib_h_example)
                         (sdnv_write_model bplib_h_example) crc_get_model
                         (found 50 expired_pri)
                         (found 10 received_cteb) (found 6 received_pay)
                         (wrote 50) (wrote 12) ipn2eid_model))
           (local_bundle false) 61 expired_pri 50 empty_payload rx_full 1
           Hload Hlen Hflag).
Defined.

(** A bundle for node 2 that requests custody is forwarded by node 1
    with the CTEB's custody information when it carries a CTEB, and
    rejected as non-compliant when it carries none. *)
Lemma receive_forward_custody_witness :
  (exists payload' : bp_payload_t,
      receive_model custody_pri 8%nat (local_bundle false) bundle_custody
      = Ret (BP_PENDING_FORWARD,
             (snd (fst custody_built), payload', bundle_custody), snd custody_built)
      /\ pl_cid payload' = value (cteb_cid received_cteb)
      /\ node payload' = cteb_cstnode received_cteb
      /\ service payload' = cteb_cstserv received_cteb)
  /\ (exists payload' : bp_payload_t,
         receive_model custody_pri 8%nat (local_bundle false) bundle_plain
         = Ret (BP_ERROR bplib_h_example,
                (snd (fst plain_built), payload', bundle_plain),
                Z.lor (snd plain_built) (BP_FLAG_NONCOMPLIANT bplib_h_example))
         /\ node payload' = BP_IPN_NULL bplib_h_example
         /\ service payload' = BP_IPN_NULL bplib_h_example).
Proof.
  split.
  - assert (Hpri :
      receive_primary bplib_h_example (found 50 custody_pri) example_clock
        (local_bundle false) bundle_custody (Z.of_nat (length bundle_custody))
        empty_payload 0 received_cteb bib_crc16_blk
      = Ret (inr (custody_pri, 4010, rx_at_cteb)))
      by (vm_compute; reflexivity).
    assert (Hrun :
      rx_passes bplib_h_example (sdnv_read_model bplib_h_example)
        (sdnv_write_model bplib_h_example) crc_get_model
        (found 10 received_cteb) (found 6 received_pay) (wrote 50) (wrote 12)
        ipn2eid_model (local_bundle false) (Z.of_nat (length bundle_custody))
        custody_pri 4010 empty_payload 1 rx_at_cteb rx_after_cteb (Some received_cteb)).
    { eapply rx_passes_turn.
      - vm_compute; reflexivity.
      - vm_compute; reflexivity.
      - apply rx_passes_none.
      - vm_compute; reflexivity. }
    assert (Hcopy :
      copy_regions (drop 1 (rx_exclude rx_after_cteb
                            ++ [rx_index rx_after_cteb;
                                rx_index rx_after_cteb + 6 + paysize received_pay]))
        (rx_buffer rx_after_cteb)
        (replicate (Z.to_nat BP_BUNDLE_HDR_BUF_SIZE) 0) 0
      = Ret (Some (fst custody_header, snd custody_header)))
      by (vm_compute; reflexivity).
    assert (Hbuild :
      v6_build bplib_h_example (sdnv_write_model bplib_h_example)
        (wrote 50) (wrote 12) ipn2eid_model (local_bundle false)
        (Some (forward_custody (local_bundle false) custody_pri))
        (fst custody_header) (snd custody_header)
        (rx_verified_flags bplib_h_example crc_get_model rx_after_cteb received_pay 0)
      = Ret (BP_SUCCESS bplib_h_example, snd (fst custody_built), snd custody_built))
      by (vm_compute; reflexivity).
    pose proof (receive_forward_custody bplib_h_example
                  (sdnv_read_model bplib_h_example) (sdnv_write_model bplib_h_example)
                  crc_get_model (found 50 custody_pri)
                  (found 10 received_cteb) (found 6 received_pay) (wrote 50) (wrote 12)
                  ipn2eid_model 8%nat 1%nat example_clock (local_bundle false)
                  bundle_custody (Z.of_nat (length bundle_custody)) empty_payload 0
                  received_cteb bib_crc16_blk custody_pri 4010 rx_at_cteb rx_after_cteb
                  (Some received_cteb) pay_bytes 6 received_pay 0
                  Hpri Hrun) as H.
    cbv zeta in H.
    destruct H as (_ & Hok & _).
    + lia.
    + vm_compute; reflexivity.
    + vm_compute; reflexivity.
    + vm_compute; reflexivity.
    + vm_compute; reflexivity.
    + reflexivity.
    + vm_compute; discriminate.
    + intros Hb. discriminate Hb.
    + intros Ha. discriminate Ha.
    + vm_compute; discriminate.
    + exact (Hok (fst custody_header) (snd custody_header)
               (snd (fst custody_built)) (snd custody_built) eq_refl Hcopy Hbuild).
  - assert (Hpri :
      receive_primary bplib_h_example (found 50 custody_pri) example_clock
        (local_bundle false) bundle_plain (Z.of_nat (length bundle_plain))
        empty_payload 0 received_cteb bib_crc16_blk
      = Ret (inr (custody_pri, 4010, rx_at_payload)))
      by (vm_compute; reflexivity).
    assert (Hcopy :
      copy_regions (drop 1 (rx_exclude rx_at_payload
                            ++ [rx_index rx_at_payload;
                                rx_index rx_at_payload + 6 + paysize received_pay]))
        (rx_buffer rx_at_payload)
        (replicate (Z.to_nat BP_BUNDLE_HDR_BUF_SIZE) 0) 0
      = Ret (Some (fst plain_header, snd plain_header)))
      by (vm_compute; reflexivity).
    assert (Hbuild :
      v6_build bplib_h_example (sdnv_write_model bplib_h_example)
        (wrote 50) (wrote 12) ipn2eid_model (local_bundle false)
        (Some (forward_custody (local_bundle false) custody_pri))
        (fst plain_header) (snd plain_header)
        (rx_verified_flags bplib_h_example crc_get_model rx_at_payload received_pay 0)
      = Ret (BP_SUCCESS bplib_h_example, snd (fst plain_built), snd plain_built))
      by (vm_compute; reflexivity).
    pose proof (receive_forward_custody bplib_h_example
                  (sdnv_read_model bplib_h_example) (sdnv_write_model bplib_h_example)
                  crc_get_model (found 50 custody_pri)
                  (found 10 received_cteb) (found 6 received_pay) (wrote 50) (wrote 12)
                  ipn2eid_model 8%nat 0%nat example_clock (local_bundle false)
                  bundle_plain (Z.of_nat (length bundle_plain)) empty_payload 0
                  received_cteb bib_crc16_blk custody_pri 4010 rx_at_payload rx_at_payload
                  None pay_bytes 6 received_pay 0
                  Hpri (rx_passes_none _ _ _ _ _ _ _ _ _ _ _ _ _ _ _)) as H.
    cbv zeta in H.
    destruct H as (_ & Hno & _).
    + lia.
    + vm_compute; reflexivity.
    + vm_compute; reflexivity.
    + vm_compute; reflexivity.
    + vm_compute; reflexivity.
    + reflexivity.
    + vm_compute; discriminate.
    + intros Hb. discriminate Hb.
    + intros Ha. discriminate Ha.
    + vm_compute; discriminate.
    + exact (Hno (fst plain_header) (snd plain_header)
               (snd (fst plain_built)) (snd plain_built) eq_refl Hcopy Hbuild eq_refl).
Defined.

(** The same bundle with an extension block of 144 bytes before the
    payload: custody is requested, the CTEB is there, the destination is
    not local, and the bundle is dropped, not forwarded, since the header
    regions to keep exceed the header buffer of 128 bytes. *)
Lemma receive_forward_header_too_large :
  value (dstnode custody_pri) <> local_node (route (local_bundle false))
  /\ cst_rqst custody_pri = true
  /\ returned (receive_model custody_pri 8%nat (local_bundle false) bundle_custody)
     = Some (BP_PENDING_FORWARD, 0)
  /\ returned (receive_model custody_pri 8%nat (local_bundle false) bundle_big_ext)
     = Some (BP_ERROR bplib_h_example,
             Z.lor (BP_FLAG_INCOMPLETE bplib_h_example)
                   (BP_FLAG_BUNDLE_TOO_LARGE bplib_h_example)).
Proof.
  split; [vm_compute; discriminate|].
  split; [reflexivity|].
  split; vm_compute; reflexivity.
Qed.

(** A bundle that expired at second 50, received at second 1000 by a node
    that does not ignore expiration. *)
Lemma receive_expiration_exactly_witness :
  exists (out : rx_out) (fl' : Z),
    v6_receive_bundle bplib_h_example (sdnv_read_model bplib_h_example)
      (sdnv_write_model bplib_h_example) crc_get_model
      (found 50 expired_pri) (found 10 received_cteb) (found 6 received_pay)
      (wrote 50) (wrote 12) ipn2eid_model
      8%nat example_clock (local_bundle false) bundle_plain 61 empty_payload 0
      received_cteb bib_crc16_blk
    = Ret (BP_PENDING_EXPIRATION, out, fl').
Proof.
  assert (Herr : BP_ERROR bplib_h_example <> BP_PENDING_EXPIRATION)
    by (vm_compute; discriminate).
  assert (Hsuc : BP_SUCCESS bplib_h_example <> BP_PENDING_EXPIRATION)
    by (vm_compute; discriminate).
  assert (Hn : 0 <= 50) by (vm_compute; discriminate).
  assert (Hclock :
    fst (bplib_os_systime bplib_h_example example_clock) <> BP_ERROR bplib_h_example
    /\ ignore_expiration (attributes (local_bundle false)) = false
    /\ exprtime_spec bplib_h_example (value (createsec expired_pri))
         (value (lifetime expired_pri))
       <> BP_UNKNOWN_CREATION_TIME bplib_h_example
    /\ exprtime_spec bplib_h_example (value (createsec expired_pri))
         (value (lifetime expired_pri))
       <> BP_TTL_CREATION_TIME bplib_h_example
    /\ exprtime_spec bplib_h_example (value (createsec expired_pri))
         (value (lifetime expired_pri))
       <= snd (bplib_os_systime bplib_h_example example_clock)).
  { repeat split; vm_compute; discriminate. }
  exact (proj2 (proj2 (receive_expiration_exactly bplib_h_example
                         (sdnv_read_model bplib_h_example)
                         (sdnv_write_model bplib_h_example) crc_get_model
                         (found 50 expired_pri)
                         (found 10 received_cteb) (found 6 received_pay)
                         (wrote 50) (wrote 12) ipn2eid_model Herr Hsuc
                         8%nat example_clock (local_bundle false) bundle_plain 61
                         empty_payload 0 received_cteb bib_crc16_blk
                         50 expired_pri 0 eq_refl Hn eq_refl)) Hclock).
Defined.

(** The same bundle received by a node whose attributes ask to ignore
    expiration: the clock is reliable, the expiration time 50 is no
    sentinel and has passed at second 1000, and the bundle is forwarded. *)
Lemma receive_expired_bundle_when_ignoring :
  fst (bplib_os_systime bplib_h_example example_clock) <> BP_ERROR bplib_h_example
  /\ exprtime_spec bplib_h_example (value (createsec expired_pri))
       (value (lifetime expired_pri)) = 50
  /\ 50 <> BP_UNKNOWN_CREATION_TIME bplib_h_example
  /\ 50 <> BP_TTL_CREATION_TIME bplib_h_example
  /\ snd (bplib_os_systime bplib_h_example example_clock) = 1000
  /\ returned (receive_model expired_pri 8%nat (local_bundle true) bundle_plain)
     = Some (BP_PENDING_FORWARD, 0)
  /\ returned (receive_model expired_pri 8%nat (local_bundle false) bundle_plain)
     = Some (BP_PENDING_EXPIRATION, 0).
Proof.
  repeat split; try (vm_compute; reflexivity); vm_compute; discriminate.
Qed.

(** ** More on the active-bundle table *)

Section TableFacts.
Import CBuf.
Context (K : bplib_h).

Lemma wf_slot (c : cbuf_t) (k : Z) :
  cbuf_wf c ->
  exists (t : list bp_active_bundle_t) (x : bp_active_bundle_t),
    table c = Some t /\ Z.of_nat (length t) = size c
    /\ 0 <= k mod size c < size c
    /\ umod k (size c) = Ret (k mod size c)
    /\ t !! Z.to_nat (k mod size c) = Some x
    /\ slot_load c (k mod size c) = Ret x.
Proof.
  intros (t & Ht & Hsz & Hlen & _).
  pose proof (Z.mod_pos_bound k (size c) Hsz) as Hb.
  destruct (lookup_lt_is_Some_2 t (Z.to_nat (k mod size c))) as [x Hx]; [lia|].
  exists t, x. repeat split; try lia; auto.
  - unfold umod. replace (size c =? 0) with false by (symmetry; apply Z.eqb_neq; lia).
    reflexivity.
  - unfold slot_load, load. rewrite Ht.
    replace (k mod size c <? 0) with false by (symmetry; apply Z.ltb_ge; lia).
    now rewrite Hx.
Qed.

Lemma wf_store (c : cbuf_t) (k : Z) (b : bp_active_bundle_t) (t : list bp_active_bundle_t) :
  table c = Some t -> Z.of_nat (length t) = size c -> 0 <= k mod size c < size c ->
  slot_store c (k mod size c) b = Ret (Some (<[Z.to_nat (k mod size c) := b]> t)).
Proof.
  intros Ht Hlen Hb. unfold slot_store. rewrite Ht.
  rewrite store_in_bounds by lia. reflexivity.
Qed.


(** *** A fresh table *)

Lemma occupied_replicate_zero (n : nat) :
  BP_SID_VACANT K = 0 ->
  length (filter (fun b => sid b <> BP_SID_VACANT K) (replicate n zero_bundle)) = 0%nat.
Proof.
  intros Hv. induction n as [|n IH]; [reflexivity|].
  simpl. rewrite filter_cons_False; [exact IH|]. simpl. intros H. apply H. auto.
Qed.

(** X1.  For a size between 1 and [BP_MAX_INDEX] (and a
    vacant storage id of zero, which is what the zero-filled allocation
    relies on), whatever [*cbuf] held before: when both allocations
    succeed, [cbuf_create] succeeds and returns an empty table of that
    size (the count is zero, no slot is in use, [cbuf_available] succeeds
    for every custody id, [cbuf_remove] fails for every custody id and
    leaves the table as it is, and [cbuf_next] times out); when the
    allocation of the table fails, it returns [BP_ERROR] and leaves the
    zero-filled structure, without a table, behind; when the allocation of
    the structure fails, it writes through the NULL pointer. *)
Theorem cbuf_create_fresh_table (cur : option cbuf_t) (sz : Z) :
  BP_SID_VACANT K = 0 -> 0 < sz <= BP_MAX_INDEX K ->
  (exists c : cbuf_t,
      cbuf_create K true true cur sz = Ret (BP_SUCCESS K, Some c)
      /\ cbuf_wf c /\ size c = sz /\ cbuf_count c = 0 /\ occupied K c = 0
      /\ (forall k : Z, cbuf_available K c k = Ret (BP_SUCCESS K))
      /\ (forall k : Z, cbuf_remove K c k = Ret (BP_ERROR K, c, None))
      /\ cbuf_next K c = Ret (BP_TIMEOUT K, c, None))
  /\ cbuf_create K true false cur sz
     = Ret (BP_ERROR K,
            Some {| table := None; size := 0; num_entries := 0;
                    newest_cid := 0; oldest_cid := 0 |})
  /\ (forall table_mem : bool, cbuf_create K false table_mem cur sz = UB NullDeref).
Proof.
  intros Hv Hsz.
  assert (Hrange : (sz <? 0) || (BP_MAX_INDEX K <? sz) = false)
    by (apply orb_false_iff; split; apply Z.ltb_ge; lia).
  assert (Hpos : (0 <? sz) = true) by (apply Z.ltb_lt; lia).
  split; [|split].
  2: { unfold cbuf_create. rewrite Hrange, Hpos. reflexivity. }
  2: { intros table_mem. unfold cbuf_create. rewrite Hrange, Hpos. reflexivity. }
  set (c := {| table := Some (replicate (Z.to_nat sz) zero_bundle); size := sz;
               num_entries := 0; newest_cid := 0; oldest_cid := 0 |}).
  assert (Hwf : cbuf_wf c).
  { exists (replicate (Z.to_nat sz) zero_bundle). simpl.
    rewrite length_replicate. repeat split; try lia. }
  assert (Hslot : forall k, slot_load c (k mod size c) = Ret zero_bundle).
  { intros k. destruct (wf_slot c k Hwf) as (t & x & Ht & _ & _ & _ & Hx & Hl).
    simpl in Ht. inversion Ht; subst t. apply lookup_replicate in Hx as [-> _]. exact Hl. }
  assert (Hmod : forall k, umod k (size c) = Ret (k mod size c)).
  { intros k. destruct (wf_slot c k Hwf) as (t & x & _ & _ & _ & Hu & _). exact Hu. }
  exists c. split; [|split; [exact Hwf|repeat split]].
  - unfold cbuf_create. rewrite Hrange, Hpos. reflexivity.
  - unfold occupied. simpl. now rewrite occupied_replicate_zero.
  - intros k. unfold cbuf_available. rewrite Hmod. cbn [bind]. rewrite Hslot. cbn [bind].
    simpl. rewrite Hv. reflexivity.
  - intros k. unfold cbuf_remove. rewrite Hmod. cbn [bind]. rewrite Hslot. cbn [bind].
    simpl. rewrite Hv. reflexivity.
Qed.

(** *** Insert and look up *)

Lemma index_wrap_round (n : Z) :
  0 <= n <= BP_MAX_INDEX K -> index_wrap K (index_wrap K (n + 1) - 1) = n.
Proof.
  intros H. unfold index_wrap. rewrite Zminus_mod_idemp_l.
  replace (n + 1 - 1) with n by ring. apply Z.mod_small. lia.
Qed.

(** What a successful [add] leaves behind. *)
Lemma cbuf_add_stored (c c1 : cbuf_t) (b : bp_active_bundle_t) (ow : bool) :
  cbuf_wf c -> BP_SUCCESS K <> BP_DUPLICATE ->
  cbuf_add K c b ow = Ret (BP_SUCCESS K, c1) ->
  exists t : list bp_active_bundle_t,
    table c = Some t
    /\ c1 = {| table := Some (<[Z.to_nat (cid b mod size c) := b]> t); size := size c;
               num_entries := index_wrap K (num_entries c + 1);
               newest_cid := if ow then newest_cid c else u64 (cid b + 1);
               oldest_cid := oldest_cid c |}
    /\ cbuf_wf c1.
Proof.
  intros Hwf Hd H.
  destruct (wf_slot c (cid b) Hwf) as (t & x & Ht & Hlen & Hb & Hu & Hx & Hl).
  unfold cbuf_add in H. rewrite Hu in H. cbn [bind] in H. rewrite Hl in H. cbn [bind] in H.
  destruct (negb ow && negb (sid x =? BP_SID_VACANT K) && (cid x =? cid b)).
  { inversion H. congruence. }
  rewrite (wf_store c (cid b) b t Ht Hlen Hb) in H. cbn [bind] in H.
  inversion H; subst; clear H.
  exists t. split; [exact Ht|]. split; [reflexivity|].
  destruct Hwf as (t0 & Ht0 & Hsz & _ & Ho & Hn).
  exists (<[Z.to_nat (cid b mod size c) := b]> t). simpl.
  rewrite length_insert. repeat split; try lia.
  - destruct ow; [lia|]. unfold u64. apply Z.mod_pos_bound. lia.
  - destruct ow; [lia|]. unfold u64. apply Z.mod_pos_bound. lia.
Qed.

(** X2.  On a table of positive size, after a successful
    [cbuf_add] of a record with a storage id, [cbuf_available] reports its
    custody id taken, and [cbuf_remove] of that custody id succeeds, hands
    back the very record that was added and frees the slot: the custody id
    is available again, a second [cbuf_remove] fails and changes nothing,
    and the entry count is back to what it was before the add. *)
Theorem cbuf_add_remove_round_trip (c c1 : cbuf_t) (b : bp_active_bundle_t) (ow : bool) :
  cbuf_wf c -> sid b <> BP_SID_VACANT K -> BP_SUCCESS K <> BP_DUPLICATE ->
  cbuf_add K c b ow = Ret (BP_SUCCESS K, c1) ->
  cbuf_available K c1 (cid b) = Ret (BP_ERROR K)
  /\ exists c2 : cbuf_t,
       cbuf_remove K c1 (cid b) = Ret (BP_SUCCESS K, c2, Some b)
       /\ cbuf_available K c2 (cid b) = Ret (BP_SUCCESS K)
       /\ cbuf_remove K c2 (cid b) = Ret (BP_ERROR K, c2, None)
       /\ (0 <= cbuf_count c <= BP_MAX_INDEX K -> cbuf_count c2 = cbuf_count c).
Proof.
  intros Hwf Hs Hd H.
  destruct (cbuf_add_stored c c1 b ow Hwf Hd H) as (t & Ht & -> & Hwf1).
  destruct (wf_slot _ (cid b) Hwf1) as (t1 & x & Ht1 & Hlen1 & Hb1 & Hu1 & Hx1 & Hl1).
  simpl in Ht1, Hlen1, Hb1, Hu1, Hx1, Hl1. inversion Ht1; subst t1; clear Ht1.
  rewrite list_lookup_insert_eq in Hx1 by (rewrite length_insert in Hlen1; lia).
  inversion Hx1; subst x; clear Hx1.
  apply Z.eqb_neq in Hs.
  split.
  { unfold cbuf_available. simpl. rewrite Hu1. cbn [bind]. rewrite Hl1. cbn [bind].
    now rewrite Hs. }
  eexists. split; [|split; [|split]].
  - unfold cbuf_remove. simpl. rewrite Hu1. cbn [bind]. rewrite Hl1. cbn [bind].
    rewrite Hs, Z.eqb_refl. simpl.
    unfold slot_store. simpl. rewrite store_in_bounds by lia. cbn [bind]. reflexivity.
  - unfold cbuf_available, slot_load, load. simpl. rewrite Hu1. cbn [bind].
    replace (cid b mod size c <? 0) with false by (symmetry; apply Z.ltb_ge; lia).
    rewrite list_lookup_insert_eq by (rewrite length_insert in *; lia).
    cbn [bind]. simpl. now rewrite Z.eqb_refl.
  - unfold cbuf_remove, slot_load, load. simpl. rewrite Hu1. cbn [bind].
    replace (cid b mod size c <? 0) with false by (symmetry; apply Z.ltb_ge; lia).
    rewrite list_lookup_insert_eq by (rewrite length_insert in *; lia).
    cbn [bind]. simpl. now rewrite Z.eqb_refl.
  - intros Hn. unfold cbuf_count. simpl. now apply index_wrap_round.
Qed.

(** X3.  Once a record with a storage id is in the table,
    adding a record with the same custody id without [overwrite] returns
    [BP_DUPLICATE] and leaves the table as it is; with [overwrite] it
    succeeds, the slot then holds the new record, and neither custody id
    counter moves. *)
Theorem cbuf_add_duplicate (c c1 : cbuf_t) (b b' : bp_active_bundle_t) (ow : bool) :
  cbuf_wf c -> sid b <> BP_SID_VACANT K -> BP_SUCCESS K <> BP_DUPLICATE ->
  cbuf_add K c b ow = Ret (BP_SUCCESS K, c1) ->
  cid b' = cid b ->
  cbuf_add K c1 b' false = Ret (BP_DUPLICATE, c1)
  /\ exists c2 : cbuf_t,
       cbuf_add K c1 b' true = Ret (BP_SUCCESS K, c2)
       /\ slot_of c2 (cid b) = Some b'
       /\ newest_cid c2 = newest_cid c1
       /\ oldest_cid c2 = oldest_cid c1.
Proof.
  intros Hwf Hs Hd H Hcid.
  destruct (cbuf_add_stored c c1 b ow Hwf Hd H) as (t & Ht & -> & Hwf1).
  destruct (wf_slot _ (cid b) Hwf1) as (t1 & x & Ht1 & Hlen1 & Hb1 & Hu1 & Hx1 & Hl1).
  simpl in Ht1, Hlen1, Hb1, Hu1, Hx1, Hl1. inversion Ht1; subst t1; clear Ht1.
  rewrite list_lookup_insert_eq in Hx1 by (rewrite length_insert in Hlen1; lia).
  inversion Hx1; subst x; clear Hx1.
  apply Z.eqb_neq in Hs. rewrite length_insert in Hlen1.
  split.
  - unfold cbuf_add. simpl. rewrite Hcid, Hu1. cbn [bind]. rewrite Hl1. cbn [bind].
    now rewrite Hs, Z.eqb_refl.
  - eexists. split; [|split; [|split]].
    + unfold cbuf_add. simpl. rewrite Hcid, Hu1. cbn [bind]. rewrite Hl1. cbn [bind].
      simpl. unfold slot_store. simpl.
      rewrite store_in_bounds by (rewrite length_insert; lia). cbn [bind]. reflexivity.
    + unfold slot_of. simpl.
      apply list_lookup_insert_eq. rewrite length_insert. lia.
    + reflexivity.
    + reflexivity.
Qed.


(** *** Operations on other slots *)

(** X4.  [cbuf_add] and [cbuf_remove] touch one slot:
    whatever they return, the table keeps its size and every custody id
    that maps to another slot than the one of the call finds its slot as it
    was. *)
Theorem cbuf_other_slots_untouched (c : cbuf_t) :
  cbuf_wf c ->
  (forall (b : bp_active_bundle_t) (ow : bool) (r : Z) (c' : cbuf_t),
      cbuf_add K c b ow = Ret (r, c') ->
      size c' = size c
      /\ forall k : Z, k mod size c <> cid b mod size c -> slot_of c' k = slot_of c k)
  /\ (forall (k0 r : Z) (c' : cbuf_t) (o : option bp_active_bundle_t),
         cbuf_remove K c k0 = Ret (r, c', o) ->
         size c' = size c
         /\ forall k : Z, k mod size c <> k0 mod size c -> slot_of c' k = slot_of c k).
Proof.
  intros (t0 & _ & Hpos & _). split.
  - intros b ow r c' H. unfold cbuf_add in H.
    apply bind_Ret in H as (ati & Hati & H). apply umod_Ret in Hati as [Hsz ->].
    apply bind_Ret in H as (slot & Hslot & H).
    destruct (negb ow && negb (sid slot =? BP_SID_VACANT K) && (cid slot =? cid b)).
    { inversion H; subst. auto. }
    apply bind_Ret in H as (t' & Hst & H). inversion H; subst; clear H.
    apply slot_store_Ret in Hst as (t & Ht & Hge & Hlt & ->).
    split; [reflexivity|]. intros k1 Hne. unfold slot_of. simpl. rewrite Ht. simpl.
    apply list_lookup_insert_ne. intros E. apply Hne.
    pose proof (Z.mod_pos_bound k1 (size c) Hpos).
    apply Z2Nat.inj in E; lia.
  - intros k0 r c' o H. unfold cbuf_remove in H.
    apply bind_Ret in H as (ati & Hati & H). apply umod_Ret in Hati as [Hsz ->].
    apply bind_Ret in H as (slot & Hslot & H).
    destruct (negb (sid slot =? BP_SID_VACANT K) && (cid slot =? k0)).
    + apply bind_Ret in H as (t' & Hst & H). inversion H; subst; clear H.
      apply slot_store_Ret in Hst as (t & Ht & Hge & Hlt & ->).
      split; [reflexivity|]. intros k1 Hne. unfold slot_of. simpl. rewrite Ht. simpl.
      apply list_lookup_insert_ne. intros E. apply Hne.
      pose proof (Z.mod_pos_bound k1 (size c) Hpos).
      apply Z2Nat.inj in E; lia.
    + inversion H; subst. auto.
Qed.

(** *** The oldest record *)

(** The loop of [cbuf_next], given fuel for the distance between the two
    counters. *)
Lemma cbuf_next_loop_result (fuel : nat) (c : cbuf_t) :
  cbuf_wf c ->
  u64 (newest_cid c - oldest_cid c) <= Z.of_nat fuel ->
  exists (r : Z) (c' : cbuf_t) (o : option bp_active_bundle_t),
    cbuf_next_loop K fuel c = Ret (r, c', o)
    /\ cbuf_wf c'
    /\ (r = BP_TIMEOUT K /\ o = None /\ oldest_cid c' = newest_cid c'
        \/ r = BP_SUCCESS K /\ oldest_cid c' <> newest_cid c'
           /\ exists b : bp_active_bundle_t,
                o = Some b /\ sid b <> BP_SID_VACANT K
                /\ slot_of c' (oldest_cid c') = Some b).
Proof.
  revert c. induction fuel as [|fuel IH]; intros c Hwf Hd.
  - pose proof Hwf as (t & Ht & Hsz & Hlen & Ho & Hn).
    simpl. destruct (oldest_cid c =? newest_cid c) eqn:E.
    + apply Z.eqb_eq in E. exists (BP_TIMEOUT K), c, None. auto 10.
    + apply Z.eqb_neq in E. exfalso.
      pose proof (u64_distance_pos (oldest_cid c) (newest_cid c) Ho Hn E). lia.
  - pose proof Hwf as (t & Ht & Hsz & Hlen & Ho & Hn).
    simpl. destruct (oldest_cid c =? newest_cid c) eqn:E.
    + apply Z.eqb_eq in E. exists (BP_TIMEOUT K), c, None. auto 10.
    + apply Z.eqb_neq in E.
      destruct (wf_slot c (oldest_cid c) Hwf) as (t1 & x & Ht1 & _ & Hb & Hu & Hx & Hl).
      rewrite Hu. cbn [bind]. rewrite Hl. cbn [bind].
      destruct (sid x =? BP_SID_VACANT K) eqn:Ev.
      * apply IH.
        -- exists t. simpl. repeat split; try lia; auto;
             unfold u64; apply Z.mod_pos_bound; lia.
        -- simpl. rewrite u64_distance_step by auto. lia.
      * apply Z.eqb_neq in Ev. exists (BP_SUCCESS K), c, (Some x).
        split; [reflexivity|]. split; [exact Hwf|]. right.
        split; [reflexivity|]. split; [exact E|].
        exists x. split; [reflexivity|]. split; [exact Ev|].
        unfold slot_of. rewrite Ht1. exact Hx.
Qed.

Lemma cbuf_next_peeks_oldest_aux (c : cbuf_t) :
  cbuf_wf c ->
  exists (r : Z) (c' : cbuf_t) (o : option bp_active_bundle_t),
    cbuf_next K c = Ret (r, c', o) /\ cbuf_wf c' /\ size c' = size c.
Proof.
  intros Hwf.
  destruct (cbuf_next_loop_result (Z.to_nat (u64 (newest_cid c - oldest_cid c))) c Hwf)
    as (r & c' & o & Hrun & Hwf' & _).
  { rewrite Z2Nat.id; [lia|]. unfold u64. apply Z.mod_pos_bound. lia. }
  exists r, c', o. fold (cbuf_next K c) in Hrun.
  destruct (cbuf_next_loop_frame K _ _ _ _ _ Hrun) as (_ & Es & _).
  auto.
Qed.

(** X5.  On a table of positive size [cbuf_next] always
    returns, with [BP_TIMEOUT] or with [BP_SUCCESS].  It changes nothing
    but [oldest_cid]: with [BP_TIMEOUT] there is no record, and
    [oldest_cid] has reached [newest_cid]; with [BP_SUCCESS] the record
    returned has a storage id and is the one in the slot of the new
    [oldest_cid].  The record is not removed: the same call again returns
    the same record and the same table. *)
Theorem cbuf_next_peeks_oldest (c : cbuf_t) :
  cbuf_wf c ->
  exists (r : Z) (c' : cbuf_t) (o : option bp_active_bundle_t),
    cbuf_next K c = Ret (r, c', o)
    /\ table c' = table c /\ size c' = size c
    /\ num_entries c' = num_entries c /\ newest_cid c' = newest_cid c
    /\ (r = BP_TIMEOUT K /\ o = None /\ oldest_cid c' = newest_cid c
        \/ r = BP_SUCCESS K
           /\ exists b : bp_active_bundle_t,
                o = Some b /\ sid b <> BP_SID_VACANT K
                /\ slot_of c (oldest_cid c') = Some b)
    /\ cbuf_next K c' = Ret (r, c', o).
Proof.
  intros Hwf. pose proof Hwf as (t & Ht & Hsz & Hlen & Ho & Hn).
  assert (Hfuel : forall x, 0 <= u64 x) by (intros x; unfold u64; apply Z.mod_pos_bound; lia).
  destruct (cbuf_next_loop_result (Z.to_nat (u64 (newest_cid c - oldest_cid c))) c Hwf)
    as (r & c' & o & Hrun & Hwf' & Hres).
  { rewrite Z2Nat.id by apply Hfuel. lia. }
  exists r, c', o. fold (cbuf_next K c) in Hrun.
  destruct (cbuf_next_loop_frame K _ _ _ _ _ Hrun) as (Et & Es & En & Ew).
  split; [exact Hrun|]. repeat (split; [assumption|]).
  pose proof Hwf' as (t' & Ht' & Hsz' & Hlen' & Ho' & Hn').
  split.
  - destruct Hres as [(-> & -> & E)|(-> & Hne & b & -> & Hb & Hs)].
    + left. repeat split. congruence.
    + right. split; [reflexivity|]. exists b. repeat split; auto.
      unfold slot_of in *. now rewrite <- Et, <- Es.
  - unfold cbuf_next.
    destruct Hres as [(-> & -> & E)|(-> & Hne & b & -> & Hb & Hs)].
    + apply Z.eqb_eq in E. destruct (Z.to_nat _); simpl; rewrite E; reflexivity.
    + pose proof (u64_distance_pos _ _ Ho' Hn' Hne) as Hpos.
      destruct (Z.to_nat (u64 (newest_cid c' - oldest_cid c'))) as [|n] eqn:En'; [lia|].
      simpl. apply Z.eqb_neq in Hne. rewrite Hne.
      destruct (wf_slot c' (oldest_cid c') Hwf') as (t1 & x & Ht1 & _ & _ & Hu & Hx & Hl).
      rewrite Hu. cbn [bind]. rewrite Hl. cbn [bind].
      unfold slot_of in Hs. rewrite Ht1 in Hs. simpl in Hs.
      assert (x = b) by congruence. subst x.
      apply Z.eqb_neq in Hb. now rewrite Hb.
Qed.

(** *** Memory safety *)

Lemma step_wf (c : cbuf_t) (o : op) :
  cbuf_wf c -> exists c' : cbuf_t, step K c o = Ret c' /\ cbuf_wf c' /\ size c' = size c.
Proof.
  intros Hwf. pose proof Hwf as (t & Ht & Hsz & Hlen & Ho & Hn).
  destruct o as [b ow| |k]; simpl.
  - destruct (wf_slot c (cid b) Hwf) as (t1 & x & Ht1 & Hlen1 & Hb & Hu & Hx & Hl).
    unfold cbuf_add. rewrite Hu. cbn [bind]. rewrite Hl. cbn [bind].
    destruct (negb ow && negb (sid x =? BP_SID_VACANT K) && (cid x =? cid b)).
    + cbn [bind]. simpl. eauto.
    + rewrite (wf_store c (cid b) b t1 Ht1 Hlen1 Hb). cbn [bind]. simpl.
      eexists. split; [reflexivity|]. split; [|reflexivity].
      exists (<[Z.to_nat (cid b mod size c) := b]> t1). simpl.
      rewrite length_insert. repeat split; try lia;
        destruct ow; try lia; unfold u64; apply Z.mod_pos_bound; lia.
  - destruct (cbuf_next_peeks_oldest_aux c Hwf) as (r & c' & o & Hrun & Hwf' & Hs).
    rewrite Hrun. cbn [bind]. simpl. eauto.
  - destruct (wf_slot c k Hwf) as (t1 & x & Ht1 & Hlen1 & Hb & Hu & Hx & Hl).
    unfold cbuf_remove. rewrite Hu. cbn [bind]. rewrite Hl. cbn [bind].
    destruct (negb (sid x =? BP_SID_VACANT K) && (cid x =? k)).
    + rewrite (wf_store c k _ t1 Ht1 Hlen1 Hb). cbn [bind]. simpl.
      eexists. split; [reflexivity|]. split; [|reflexivity].
      exists (<[Z.to_nat (k mod size c) := {| sid := BP_SID_VACANT K; retx := retx x; cid := cid x |}]> t1).
      simpl. rewrite length_insert. repeat split; try lia.
    + cbn [bind]. simpl. eauto.
Qed.

(** X6.  On a table of positive size every sequence of
    [cbuf_add], [cbuf_next] and [cbuf_remove] runs to its end: no call
    divides by zero or indexes outside the table, [cbuf_next] terminates,
    and the table keeps its size, its array of that many slots and 64-bit
    custody id counters. *)
Theorem cbuf_run_stays_in_table (c : cbuf_t) (ops : list op) :
  cbuf_wf c ->
  exists c' : cbuf_t, run K c ops = Ret c' /\ cbuf_wf c' /\ size c' = size c.
Proof.
  revert c. induction ops as [|o ops IH]; intros c Hwf; simpl.
  - eauto.
  - destruct (step_wf c o Hwf) as (c1 & Hstep & Hwf1 & Hs1).
    rewrite Hstep. cbn [bind].
    destruct (IH c1 Hwf1) as (c' & Hrun & Hwf' & Hs'). exists c'. 
    repeat split; auto. congruence.
Qed.

(** *** The entry count of a disciplined caller *)

Lemma filter_insert_length {A : Type} (P : A -> Prop) `{!forall x, Decision (P x)}
    (l : list A) (i : nat) (x y : A) :
  l !! i = Some x ->
  (length (filter P (<[i := y]> l)) + (if decide (P x) then 1 else 0)
   = length (filter P l) + (if decide (P y) then 1 else 0))%nat.
Proof.
  revert i. induction l as [|a l IH]; intros i Hi; [discriminate|].
  destruct i as [|i]; simpl in *.
  - inversion Hi; subst a. rewrite !filter_cons.
    destruct (decide (P x)), (decide (P y)); simpl; lia.
  - rewrite !filter_cons. specialize (IH i Hi).
    destruct (decide (P a)); simpl; lia.
Qed.

Lemma step_count_exact (c c' : cbuf_t) (o : op) :
  cbuf_wf c -> size c <= BP_MAX_INDEX K -> BP_SUCCESS K <> BP_ERROR K ->
  cbuf_count c = occupied K c ->
  match o with
  | Add b _ =>
      sid b <> BP_SID_VACANT K /\ cbuf_available K c (cid b) = Ret (BP_SUCCESS K)
  | _ => True
  end ->
  step K c o = Ret c' -> cbuf_count c' = occupied K c'.
Proof.
  intros Hwf Hmax Hse Hcnt Hop H.
  pose proof Hwf as (t & Ht & Hsz & Hlen & Ho & Hn).
  unfold cbuf_count, occupied in *. rewrite Ht in Hcnt. simpl in Hcnt.
  pose proof (length_filter (fun b => sid b <> BP_SID_VACANT K) t) as Hle.
  destruct o as [b ow| |k]; simpl in H.
  - destruct Hop as [Hb Hav].
    destruct (wf_slot c (cid b) Hwf) as (t1 & x & Ht1 & Hlen1 & Hbd & Hu & Hx & Hl).
    assert (t1 = t) by congruence. subst t1.
    unfold cbuf_available in Hav. rewrite Hu in Hav. cbn [bind] in Hav.
    rewrite Hl in Hav. cbn [bind] in Hav.
    destruct (sid x =? BP_SID_VACANT K) eqn:Ev; [|inversion Hav; congruence].
    apply Z.eqb_eq in Ev.
    unfold cbuf_add in H. rewrite Hu in H. cbn [bind] in H. rewrite Hl in H. cbn [bind] in H.
    replace (sid x =? BP_SID_VACANT K) with true in H by (symmetry; now apply Z.eqb_eq).
    rewrite andb_false_r in H. simpl in H.
    rewrite (wf_store c (cid b) b t Ht Hlen Hbd) in H. cbn [bind] in H.
    inversion H; subst c'; clear H. simpl.
    pose proof (filter_insert_length (fun b => sid b <> BP_SID_VACANT K) t _ x b Hx) as Hf.
    rewrite decide_False in Hf by (intros E; now apply E).
    rewrite decide_True in Hf by exact Hb.
    pose proof (length_filter (fun b => sid b <> BP_SID_VACANT K)
                  (<[Z.to_nat (cid b mod size c) := b]> t)) as Hle'.
    rewrite length_insert in Hle'.
    unfold index_wrap. rewrite Z.mod_small; lia.
  - apply bind_Ret in H as ([[r c1] o] & Hrun & H). inversion H; subst c'; clear H. simpl.
    apply cbuf_next_loop_frame in Hrun as (Et & _ & En & _).
    rewrite Et, En, Ht. exact Hcnt.
  - destruct (wf_slot c k Hwf) as (t1 & x & Ht1 & Hlen1 & Hbd & Hu & Hx & Hl).
    assert (t1 = t) by congruence. subst t1.
    unfold cbuf_remove in H. rewrite Hu in H. cbn [bind] in H. rewrite Hl in H. cbn [bind] in H.
    destruct (negb (sid x =? BP_SID_VACANT K) && (cid x =? k)) eqn:E.
    + apply andb_true_iff in E as [Ev _]. apply negb_true_iff, Z.eqb_neq in Ev.
      rewrite (wf_store c k _ t Ht Hlen Hbd) in H. cbn [bind] in H. simpl in H.
      inversion H; subst c'; clear H. simpl.
      pose proof (filter_insert_length (fun b => sid b <> BP_SID_VACANT K) t _ x
                    {| sid := BP_SID_VACANT K; retx := retx x; cid := cid x |} Hx) as Hf.
      rewrite decide_True in Hf by exact Ev.
      rewrite decide_False in Hf by (simpl; intros E; now apply E).
      unfold index_wrap. rewrite Z.mod_small; lia.
    + cbn [bind] in H. simpl in H. inversion H; subst c'. rewrite Ht. exact Hcnt.
Qed.

(** X7.  When every [cbuf_add] of a sequence
    of operations stores a record with a storage id into a slot that
    [cbuf_available] reports vacant (the discipline of the caller that
    checks availability first), the entry count stays the number of slots
    in use, on a table of positive size not above [BP_MAX_INDEX] that
    started that way. *)
Theorem cbuf_count_exact_when_adds_vacant (c c' : cbuf_t) (ops : list op) :
  cbuf_wf c -> size c <= BP_MAX_INDEX K -> BP_SUCCESS K <> BP_ERROR K ->
  cbuf_count c = occupied K c ->
  adds_to_vacant K c ops ->
  run K c ops = Ret c' ->
  cbuf_count c' = occupied K c'.
Proof.
  revert c. induction ops as [|o ops IH]; intros c Hwf Hmax Hse Hcnt Hops H; simpl in H.
  - inversion H; subst; exact Hcnt.
  - apply bind_Ret in H as (c1 & Hstep & H).
    destruct Hops as [Hop Hrest]. rewrite Hstep in Hrest.
    destruct (step_wf c o Hwf) as (c1' & Hstep' & Hwf1 & Hs1).
    assert (c1' = c1) by congruence. subst c1'.
    apply (IH c1); auto; [lia|].
    exact (step_count_exact c c1 o Hwf Hmax Hse Hcnt Hop Hstep).
Qed.

End TableFacts.

(** ** More on the bundle integrity block *)

(** *** Bytes of a CRC *)

Lemma lor_disjoint_add (a b n : Z) :
  0 <= n -> 0 <= b < 2 ^ n -> Z.lor (a * 2 ^ n) b = a * 2 ^ n + b.
Proof.
  intros Hn Hb.
  assert (Hland : Z.land (a * 2 ^ n) b = 0).
  { apply Z.bits_inj'. intros i Hi. rewrite Z.land_spec, Z.bits_0.
    destruct (Z_lt_le_dec i n).
    - rewrite Z.mul_pow2_bits_low by lia. reflexivity.
    - replace (Z.testbit b i) with false; [apply andb_false_r|].
      symmetry. apply Z.testbit_false; [lia|].
      rewrite Z.div_small; [reflexivity|].
      split; [lia|]. apply Z.lt_le_trans with (2 ^ n); [lia|].
      apply Z.pow_le_mono_r; lia. }
  rewrite <- Z.lxor_lor by exact Hland. symmetry. now apply Z.add_nocarry_lxor.
Qed.

Lemma byte_of (x k : Z) :
  0 <= k -> Z.land (Z.shiftr x k) 0xFF = (x / 2 ^ k) mod 2 ^ 8.
Proof.
  intros Hk. rewrite Z.shiftr_div_pow2 by lia.
  change 0xFF with (Z.ones 8). apply Z.land_ones. lia.
Qed.

Lemma load_insert_eq (buf : list Z) (i x : Z) :
  0 <= i < Z.of_nat (length buf) -> load (<[Z.to_nat i := x]> buf) i = Ret x.
Proof.
  intros H. unfold load.
  replace (i <? 0) with false by (symmetry; apply Z.ltb_ge; lia).
  rewrite list_lookup_insert_eq by lia. reflexivity.
Qed.

Lemma load_insert_ne (buf : list Z) (i j x : Z) :
  0 <= i -> 0 <= j -> i <> j -> load (<[Z.to_nat i := x]> buf) j = load buf j.
Proof.
  intros Hi Hj Hne. unfold load.
  rewrite list_lookup_insert_ne by lia. reflexivity.
Qed.

Lemma write_crc16_inv (crc : Z) (buffer buf' : list Z) (at_ : Z) :
  write_crc16 crc buffer at_ = Ret buf' ->
  0 <= at_ /\ at_ + 2 <= Z.of_nat (length buffer)
  /\ buf' = <[Z.to_nat (at_ + 1) := Z.land crc 0xFF]>
              (<[Z.to_nat at_ := Z.land (Z.shiftr crc 8) 0xFF]> buffer).
Proof.
  unfold write_crc16. intros H.
  apply bind_Ret in H as (b & H0 & H1).
  apply store_Ret in H0 as (? & ? & ->). apply store_Ret in H1 as (? & Hl & ->).
  rewrite length_insert in Hl. repeat split; auto; lia.
Qed.

Lemma write_crc32_inv (crc : Z) (buffer buf' : list Z) (at_ : Z) :
  write_crc32 crc buffer at_ = Ret buf' ->
  0 <= at_ /\ at_ + 4 <= Z.of_nat (length buffer)
  /\ buf' = <[Z.to_nat (at_ + 3) := Z.land crc 0xFF]>
              (<[Z.to_nat (at_ + 2) := Z.land (Z.shiftr crc 8) 0xFF]>
                 (<[Z.to_nat (at_ + 1) := Z.land (Z.shiftr crc 16) 0xFF]>
                    (<[Z.to_nat at_ := Z.land (Z.shiftr crc 24) 0xFF]> buffer))).
Proof.
  unfold write_crc32. intros H.
  apply bind_Ret in H as (b0 & H0 & H). apply bind_Ret in H as (b1 & H1 & H).
  apply bind_Ret in H as (b2 & H2 & H3).
  apply store_Ret in H0 as (? & ? & ->). apply store_Ret in H1 as (? & ? & ->).
  apply store_Ret in H2 as (? & ? & ->). apply store_Ret in H3 as (? & Hl & ->).
  rewrite !length_insert in Hl. repeat split; auto; lia.
Qed.

Lemma crc16_bytes (crc : Z) :
  0 <= crc < 2 ^ 16 ->
  u16 (Z.lor (u16 (Z.lor 0 (Z.shiftl (u16 (Z.land (Z.shiftr crc 8) 0xFF)) 8)))
             (u16 (Z.land crc 0xFF))) = crc.
Proof.
  intros H. rewrite byte_of by lia.
  replace (Z.land crc 0xFF) with (crc mod 2 ^ 8)
    by (symmetry; change 0xFF with (Z.ones 8); apply Z.land_ones; lia).
  pose proof (Z.mod_pos_bound (crc / 2 ^ 8) (2 ^ 8) ltac:(lia)) as Hh.
  pose proof (Z.mod_pos_bound crc (2 ^ 8) ltac:(lia)) as Hl.
  unfold u16. rewrite (Z.mod_small ((crc / 2 ^ 8) mod 2 ^ 8)) by lia.
  rewrite Z.lor_0_l, Z.shiftl_mul_pow2 by lia.
  rewrite (Z.mod_small (_ * 2 ^ 8)) by lia.
  rewrite (Z.mod_small (crc mod 2 ^ 8)) by lia.
  rewrite lor_disjoint_add by lia.
  change (2 ^ 16) with 65536 in *. change (2 ^ 8) with 256 in *.
  Z.div_mod_to_equations. lia.
Qed.

Lemma crc32_bytes (crc : Z) :
  0 <= crc < 2 ^ 32 ->
  Z.lor (Z.lor (Z.lor (Z.lor 0 (u32 (Z.shiftl (u32 (Z.land (Z.shiftr crc 24) 0xFF)) 24)))
                      (u32 (Z.shiftl (u32 (Z.land (Z.shiftr crc 16) 0xFF)) 16)))
               (u32 (Z.shiftl (u32 (Z.land (Z.shiftr crc 8) 0xFF)) 8)))
        (u32 (Z.land crc 0xFF)) = crc.
Proof.
  intros H. rewrite !byte_of by lia.
  replace (Z.land crc 0xFF) with (crc mod 2 ^ 8)
    by (symmetry; change 0xFF with (Z.ones 8); apply Z.land_ones; lia).
  pose proof (Z.mod_pos_bound (crc / 2 ^ 24) (2 ^ 8) ltac:(lia)) as H3.
  pose proof (Z.mod_pos_bound (crc / 2 ^ 16) (2 ^ 8) ltac:(lia)) as H2.
  pose proof (Z.mod_pos_bound (crc / 2 ^ 8) (2 ^ 8) ltac:(lia)) as H1.
  pose proof (Z.mod_pos_bound crc (2 ^ 8) ltac:(lia)) as H0.
  unfold u32. rewrite !Z.shiftl_mul_pow2 by lia.
  rewrite (Z.mod_small ((crc / 2 ^ 24) mod 2 ^ 8)) by lia.
  rewrite (Z.mod_small ((crc / 2 ^ 16) mod 2 ^ 8)) by lia.
  rewrite (Z.mod_small ((crc / 2 ^ 8) mod 2 ^ 8)) by lia.
  rewrite (Z.mod_small (crc mod 2 ^ 8)) by lia.
  rewrite !(Z.mod_small (_ * 2 ^ _)) by lia.
  rewrite Z.lor_0_l.
  rewrite (lor_disjoint_add _ _ 24) by lia.
  replace ((crc / 2 ^ 24) mod 2 ^ 8 * 2 ^ 24 + (crc / 2 ^ 16) mod 2 ^ 8 * 2 ^ 16)
    with (((crc / 2 ^ 24) mod 2 ^ 8 * 2 ^ 8 + (crc / 2 ^ 16) mod 2 ^ 8) * 2 ^ 16) by lia.
  rewrite (lor_disjoint_add _ _ 16) by lia.
  replace (((crc / 2 ^ 24) mod 2 ^ 8 * 2 ^ 8 + (crc / 2 ^ 16) mod 2 ^ 8) * 2 ^ 16
           + (crc / 2 ^ 8) mod 2 ^ 8 * 2 ^ 8)
    with ((((crc / 2 ^ 24) mod 2 ^ 8 * 2 ^ 8 + (crc / 2 ^ 16) mod 2 ^ 8) * 2 ^ 8
           + (crc / 2 ^ 8) mod 2 ^ 8) * 2 ^ 8) by lia.
  rewrite (lor_disjoint_add _ _ 8) by lia.
  change (2 ^ 32) with 4294967296 in *. change (2 ^ 24) with 16777216 in *.
  change (2 ^ 16) with 65536 in *. change (2 ^ 8) with 256 in *.
  Z.div_mod_to_equations. lia.
Qed.

Lemma read_after_write_crc16 (crc : Z) (buffer buf' : list Z) (at_ : Z) :
  0 <= crc < 2 ^ 16 ->
  write_crc16 crc buffer at_ = Ret buf' -> read_crc16 buf' at_ = Ret crc.
Proof.
  intros Hc H. apply write_crc16_inv in H as (H0 & Hlen & ->).
  unfold read_crc16.
  rewrite load_insert_ne by lia. rewrite load_insert_eq by lia. cbn [bind].
  rewrite load_insert_eq by (rewrite length_insert; lia). cbn [bind].
  now rewrite crc16_bytes.
Qed.

Lemma read_after_write_crc32 (crc : Z) (buffer buf' : list Z) (at_ : Z) :
  0 <= crc < 2 ^ 32 ->
  write_crc32 crc buffer at_ = Ret buf' -> read_crc32 buf' at_ = Ret crc.
Proof.
  intros Hc H. apply write_crc32_inv in H as (H0 & Hlen & ->).
  unfold read_crc32.
  rewrite !load_insert_ne by lia. rewrite load_insert_eq by lia. cbn [bind].
  rewrite !load_insert_ne by lia.
  rewrite load_insert_eq by (rewrite !length_insert; lia). cbn [bind].
  rewrite !load_insert_ne by lia.
  rewrite load_insert_eq by (rewrite !length_insert; lia). cbn [bind].
  rewrite load_insert_eq by (rewrite !length_insert; lia). cbn [bind].
  now rewrite crc32_bytes.
Qed.

(** X8.  The CRC helpers of [bib.c] are inverse to
    each other and big-endian: [read_crc16] of what [write_crc16] wrote is
    the 16-bit value written, its high byte first and its low byte second;
    [read_crc32] of what [write_crc32] wrote is the 32-bit value written,
    its highest byte first and its lowest byte fourth. *)
Theorem crc_write_read_round_trip (buffer buf' : list Z) (at_ crc : Z) :
  (0 <= crc < 2 ^ 16 ->
   write_crc16 crc buffer at_ = Ret buf' ->
   read_crc16 buf' at_ = Ret crc
   /\ buf' !! Z.to_nat at_ = Some (crc / 2 ^ 8)
   /\ buf' !! Z.to_nat (at_ + 1) = Some (crc mod 2 ^ 8))
  /\ (0 <= crc < 2 ^ 32 ->
      write_crc32 crc buffer at_ = Ret buf' ->
      read_crc32 buf' at_ = Ret crc
      /\ buf' !! Z.to_nat at_ = Some (crc / 2 ^ 24)
      /\ buf' !! Z.to_nat (at_ + 3) = Some (crc mod 2 ^ 8)).
Proof.
  split.
  - intros Hc H. split; [eapply read_after_write_crc16; eauto|].
    apply write_crc16_inv in H as (H0 & Hlen & ->). split.
    + rewrite list_lookup_insert_ne by lia. rewrite list_lookup_insert_eq by lia.
      rewrite byte_of by lia. f_equal. apply Z.mod_small.
      change (2 ^ 16) with 65536 in *. change (2 ^ 8) with 256 in *.
      Z.div_mod_to_equations. lia.
    + rewrite list_lookup_insert_eq by (rewrite length_insert; lia).
      f_equal. change 0xFF with (Z.ones 8). apply Z.land_ones. lia.
  - intros Hc H. split; [eapply read_after_write_crc32; eauto|].
    apply write_crc32_inv in H as (H0 & Hlen & ->). split.
    + rewrite !list_lookup_insert_ne by lia. rewrite list_lookup_insert_eq by lia.
      rewrite byte_of by lia. f_equal. apply Z.mod_small.
      change (2 ^ 32) with 4294967296 in *. change (2 ^ 24) with 16777216 in *.
      change (2 ^ 8) with 256 in *.
      Z.div_mod_to_equations. lia.
    + rewrite list_lookup_insert_eq by (rewrite !length_insert; lia).
      f_equal. change 0xFF with (Z.ones 8). apply Z.land_ones. lia.
Qed.

Section BibUpdateFacts.
Context (K : bplib_h).
Variable bplib_crc_get : list Z -> Z -> crc_parameters_t -> Z.

Lemma u16_range (x : Z) : 0 <= u16 x < 2 ^ 16.
Proof. unfold u16. apply Z.mod_pos_bound. lia. Qed.

Lemma u32_range (x : Z) : 0 <= u32 x < 2 ^ 32.
Proof. unfold u32. apply Z.mod_pos_bound. lia. Qed.

(** The cases of a call of [bib_update]: an error return that leaves
    block and structure as they were, or the CRC of the payload stored in
    the structure and written at the place of the security result. *)
Lemma bib_update_cases (buffer buf' : list Z) (size : Z) (payload : list Z)
    (payload_size : Z) (bib bib' : bp_blk_bib_t) (flags r fl : Z) :
  bib_update K bplib_crc_get buffer size payload payload_size bib flags
  = Ret (r, (buf', bib'), fl) ->
  let at_ := index (security_result_length bib) + width (security_result_length bib) in
  (exists event : Z,
      (r, fl) = bplog K flags event /\ buf' = buffer /\ bib' = bib
      /\ (event = BP_FLAG_FAILED_TO_PARSE K \/ event = BP_FLAG_INVALID_CIPHER_SUITEID K))
  \/ (r = BP_SUCCESS K /\ fl = flags
      /\ value (cipher_suite_id bib) = BP_BIB_CRC16_X25
      /\ bib' = with_crc16 bib (u16 (bplib_crc_get payload payload_size BPLIB_CRC16_X25))
      /\ write_crc16 (crc16 bib') buffer at_ = Ret buf')
  \/ (r = BP_SUCCESS K /\ fl = flags
      /\ value (cipher_suite_id bib) = BP_BIB_CRC32_CASTAGNOLI
      /\ bib' = with_crc32 bib (u32 (bplib_crc_get payload payload_size BPLIB_CRC32_CASTAGNOLI))
      /\ write_crc32 (crc32 bib') buffer at_ = Ret buf').
Proof.
  intros H at_. subst at_. unfold bib_update in H.
  destruct (size <? _).
  { left. exists (BP_FLAG_FAILED_TO_PARSE K). unfold bplog_ret in H.
    inversion H; subst. rewrite <- surjective_pairing. auto. }
  destruct (value (cipher_suite_id bib) =? BP_BIB_CRC16_X25) eqn:E16.
  { apply Z.eqb_eq in E16. apply bind_Ret in H as (b & Hw & H). inversion H; subst.
    right. left. auto. }
  destruct (value (cipher_suite_id bib) =? BP_BIB_CRC32_CASTAGNOLI) eqn:E32.
  { apply Z.eqb_eq in E32. apply bind_Ret in H as (b & Hw & H). inversion H; subst.
    right. right. auto. }
  left. exists (BP_FLAG_INVALID_CIPHER_SUITEID K). unfold bplog_ret in H.
  inversion H; subst. rewrite <- surjective_pairing. auto.
Qed.

(** X9.  [bib_update] writes the security result and
    nothing else: the block keeps its length and every byte outside the
    two (CRC-16) or four (CRC-32) bytes that follow the security result
    length field; a call that does not return success changes neither the
    block nor the structure; a call that returns success has stored the
    CRC of the payload, truncated to its width, in the structure, and the
    bytes of the block read back as that value. *)
Theorem bib_update_writes_only_crc (buffer buf' : list Z) (size : Z) (payload : list Z)
    (payload_size : Z) (bib bib' : bp_blk_bib_t) (flags r fl : Z) :
  bib_update K bplib_crc_get buffer size payload payload_size bib flags
  = Ret (r, (buf', bib'), fl) ->
  let at_ := index (security_result_length bib) + width (security_result_length bib) in
  let n := if value (cipher_suite_id bib) =? BP_BIB_CRC16_X25 then 2 else 4 in
  length buf' = length buffer
  /\ (forall j : nat,
         (j < Z.to_nat at_)%nat \/ (Z.to_nat (at_ + n) <= j)%nat ->
         buf' !! j = buffer !! j)
  /\ (r <> BP_SUCCESS K -> buf' = buffer /\ bib' = bib)
  /\ (BP_SUCCESS K <> BP_ERROR K ->
      0 < BP_FLAG_FAILED_TO_PARSE K -> 0 < BP_FLAG_INVALID_CIPHER_SUITEID K ->
      r = BP_SUCCESS K ->
      (value (cipher_suite_id bib) = BP_BIB_CRC16_X25
       /\ crc16 bib' = u16 (bplib_crc_get payload payload_size BPLIB_CRC16_X25)
       /\ read_crc16 buf' at_ = Ret (crc16 bib'))
      \/ (value (cipher_suite_id bib) = BP_BIB_CRC32_CASTAGNOLI
          /\ crc32 bib' = u32 (bplib_crc_get payload payload_size BPLIB_CRC32_CASTAGNOLI)
          /\ read_crc32 buf' at_ = Ret (crc32 bib'))).
Proof.
  intros H at_ n. subst at_ n.
  apply bib_update_cases in H.
  destruct H as [(event & Hlog & -> & -> & Hev)
                |[(-> & -> & Es & -> & Hw)|(-> & -> & Es & -> & Hw)]].
  - repeat split; auto. intros Hne Hp Hc ->.
    destruct Hev as [->| ->]; rewrite bplog_event in Hlog by assumption;
      inversion Hlog; congruence.
  - pose proof Hw as Hw'. apply write_crc16_inv in Hw' as (H0 & Hlen & ->).
    rewrite Es. simpl. split; [now rewrite !length_insert|].
    split; [|split; [congruence|]].
    + intros j Hj. rewrite !list_lookup_insert_ne by lia. reflexivity.
    + intros _ _ _ _. left. split; [reflexivity|]. split; [reflexivity|].
      eapply read_after_write_crc16; [|exact Hw]. simpl. apply u16_range.
  - pose proof Hw as Hw'. apply write_crc32_inv in Hw' as (H0 & Hlen & ->).
    rewrite Es. simpl. split; [now rewrite !length_insert|].
    split; [|split; [congruence|]].
    + intros j Hj. rewrite !list_lookup_insert_ne by lia. reflexivity.
    + intros _ _ _ _. right. split; [reflexivity|]. split; [reflexivity|].
      eapply read_after_write_crc32; [|exact Hw]. simpl. apply u32_range.
Qed.

(** X10.  After a successful [bib_update] over a
    payload, [bib_verify] of any payload succeeds, leaving the flags as
    they are, exactly when the CRC of that payload (truncated to the width
    of the cipher suite) equals the CRC of the payload of the update; when
    it differs, [bib_verify] returns [BP_ERROR] and raises
    [FAILED_INTEGRITY_CHECK], and raises nothing else. *)
Theorem bib_update_then_verify_detects (buffer buf' : list Z) (size : Z)
    (payload : list Z) (payload_size : Z) (bib bib' : bp_blk_bib_t) (flags fl : Z) :
  BP_SUCCESS K <> BP_ERROR K ->
  0 < BP_FLAG_FAILED_TO_PARSE K -> 0 < BP_FLAG_INVALID_CIPHER_SUITEID K ->
  0 < BP_FLAG_FAILED_INTEGRITY_CHECK K ->
  bib_update K bplib_crc_get buffer size payload payload_size bib flags
  = Ret (BP_SUCCESS K, (buf', bib'), fl) ->
  forall (payload2 : list Z) (payload_size2 flags2 : Z),
    let crc_of (p : list Z) (n : Z) :=
      if value (cipher_suite_id bib) =? BP_BIB_CRC16_X25
      then u16 (bplib_crc_get p n BPLIB_CRC16_X25)
      else u32 (bplib_crc_get p n BPLIB_CRC32_CASTAGNOLI) in
    bib_verify K bplib_crc_get payload2 payload_size2 bib' flags2
    = if crc_of payload2 payload_size2 =? crc_of payload payload_size
      then (BP_SUCCESS K, flags2)
      else (BP_ERROR K, Z.lor flags2 (BP_FLAG_FAILED_INTEGRITY_CHECK K)).
Proof.
  intros Hne Hp Hc Hi H payload2 payload_size2 flags2 crc_of. subst crc_of.
  apply bib_update_cases in H.
  destruct H as [(event & Hlog & -> & -> & Hev)
                |[(_ & -> & Es & -> & Hw)|(_ & -> & Es & -> & Hw)]].
  - destruct Hev as [->| ->]; rewrite bplog_event in Hlog by assumption;
      inversion Hlog; congruence.
  - unfold bib_verify. simpl. rewrite Es. simpl.
    rewrite (Z.eqb_sym (u16 (bplib_crc_get payload payload_size BPLIB_CRC16_X25))).
    destruct (_ =? _); simpl; [reflexivity|]. now rewrite bplog_event.
  - unfold bib_verify. simpl. rewrite Es. simpl.
    rewrite (Z.eqb_sym (u32 (bplib_crc_get payload payload_size BPLIB_CRC32_CASTAGNOLI))).
    destruct (_ =? _); simpl; [reflexivity|]. now rewrite bplog_event.
Qed.

End BibUpdateFacts.

Section BibCodecFacts.
Context (K : bplib_h).
Variable sdnv_read : list Z -> Z -> bp_field_t -> Z -> Z * bp_field_t * Z.
Variable sdnv_write : list Z -> Z -> bp_field_t -> Z -> Z * list Z * Z.

(** What [bib_read_check] returns when it does not return [BP_ERROR]. *)
Lemma bib_read_check_success (buffer : list Z) (size n : Z) (bib bib' : bp_blk_bib_t)
    (sf flags r fl : Z) :
  bib_events_ok K ->
  bib_read_check K buffer size n bib sf flags = Ret (r, bib', fl) ->
  r <> BP_ERROR K ->
  r <= size /\ fl = flags /\ bib_fields_valid K bib'
  /\ (value (cipher_suite_id bib') = BP_BIB_CRC16_X25 ->
      value (security_result_length bib') = 2
      /\ read_crc16 buffer (r - 2) = Ret (crc16 bib'))
  /\ (value (cipher_suite_id bib') = BP_BIB_CRC32_CASTAGNOLI ->
      value (security_result_length bib') = 4
      /\ read_crc32 buffer (r - 4) = Ret (crc32 bib')).
Proof.
  intros Hok H Hr. pose proof Hok as (_ & Hp & Ht & Hrt & Hc).
  unfold bib_read_check in H.
  destruct (security_target_type bib =? BP_PAY_BLK_TYPE) eqn:E1; simpl in H;
    [|rewrite bplog_ret_event in H by assumption; inversion H; congruence].
  destruct (security_result_type bib =? BP_BIB_INTEGRITY_SIGNATURE K) eqn:E2; simpl in H;
    [|rewrite bplog_ret_event in H by assumption; inversion H; congruence].
  apply Z.eqb_eq in E1, E2.
  destruct (value (cipher_suite_id bib) =? BP_BIB_CRC16_X25) eqn:E16.
  - apply Z.eqb_eq in E16.
    destruct (negb (value (security_result_length bib) =? 2) || (size <? n + 2)) eqn:Eg;
      [rewrite bplog_ret_event in H by assumption; inversion H; congruence|].
    apply orb_false_iff in Eg as [Ev Es].
    apply negb_false_iff, Z.eqb_eq in Ev. apply Z.ltb_ge in Es.
    apply bind_Ret in H as (c & Hc16 & H).
    destruct (negb (sf =? 0));
      [rewrite bplog_ret_event in H by assumption; inversion H; congruence|].
    inversion H; subst; clear H. simpl.
    split; [lia|]. split; [reflexivity|].
    split; [unfold bib_fields_valid; simpl; auto|].
    split.
    + intros _. split; [exact Ev|]. replace (n + 2 - 2) with n by ring. exact Hc16.
    + intros E. rewrite E16 in E. discriminate E.
  - destruct (value (cipher_suite_id bib) =? BP_BIB_CRC32_CASTAGNOLI) eqn:E32;
      [|rewrite bplog_ret_event in H by assumption; inversion H; congruence].
    apply Z.eqb_eq in E32. apply Z.eqb_neq in E16.
    destruct (negb (value (security_result_length bib) =? 4) || (size <? n + 4)) eqn:Eg;
      [rewrite bplog_ret_event in H by assumption; inversion H; congruence|].
    apply orb_false_iff in Eg as [Ev Es].
    apply negb_false_iff, Z.eqb_eq in Ev. apply Z.ltb_ge in Es.
    apply bind_Ret in H as (c & Hc32 & H).
    destruct (negb (sf =? 0));
      [rewrite bplog_ret_event in H by assumption; inversion H; congruence|].
    inversion H; subst; clear H. simpl.
    split; [lia|]. split; [reflexivity|].
    split; [unfold bib_fields_valid; simpl; auto|].
    split.
    + intros E. contradiction.
    + intros _. split; [exact Ev|]. replace (n + 4 - 4) with n by ring. exact Hc32.
Qed.

(** X11.  When [bib_read] does not return [BP_ERROR], the value
    returned is a byte count within the block, no flag was raised, the
    block starts with the BIB block type, the structure read has the
    payload as its target, an integrity signature as its result type and
    one of the two cipher suites, the security result length is the width
    of that suite's CRC, and the CRC stored in the structure is the one
    read from the last bytes consumed. *)
Theorem bib_read_success (buffer : list Z) (size : Z) (bib bib' : bp_blk_bib_t)
    (upd : bool) (flags r fl : Z) :
  bib_events_ok K ->
  bib_read K sdnv_read buffer size bib upd flags = Ret (r, bib', fl) ->
  r <> BP_ERROR K ->
  r <= size /\ fl = flags
  /\ buffer !! 0%nat = Some BP_BIB_BLK_TYPE
  /\ bib_fields_valid K bib'
  /\ (value (cipher_suite_id bib') = BP_BIB_CRC16_X25 ->
      value (security_result_length bib') = 2
      /\ read_crc16 buffer (r - 2) = Ret (crc16 bib'))
  /\ (value (cipher_suite_id bib') = BP_BIB_CRC32_CASTAGNOLI ->
      value (security_result_length bib') = 4
      /\ read_crc32 buffer (r - 4) = Ret (crc32 bib')).
Proof.
  intros Hok H Hr. pose proof Hok as (_ & Hp & _). unfold bib_read in H.
  destruct (size <? 1).
  { rewrite bplog_ret_event in H by assumption. inversion H; congruence. }
  apply bind_Ret in H as (b0 & Hb0 & H).
  destruct (negb (b0 =? BP_BIB_BLK_TYPE)) eqn:Eb.
  { rewrite bplog_ret_event in H by assumption. inversion H; congruence. }
  apply negb_false_iff, Z.eqb_eq in Eb. subst b0.
  apply load_Ret in Hb0 as [_ Hb0].
  apply bind_Ret in H as (blk & Hblk & H).
  destruct blk as [e|[[n bib1] sf]].
  - apply (bib_read_block_early K sdnv_read) in Hblk; [|assumption].
    inversion H; subst. simpl in Hblk. congruence.
  - destruct (bib_read_check_success _ _ _ _ _ _ _ _ _ Hok H Hr)
      as (H1 & H2 & H3 & H4 & H5).
    split; [exact H1|]. split; [exact H2|]. split; [exact Hb0|].
    split; [exact H3|]. split; [exact H4|exact H5].
Qed.

(** The block writer leaves the values of the fields as it got them, the
    block length apart, which it sets last. *)
Lemma bib_write_block_values (buffer buf' : list Z) (size : Z) (bib bib' : bp_blk_bib_t)
    (upd : bool) (flags r fl : Z) :
  0 < BP_FLAG_FAILED_TO_PARSE K ->
  bib_write_block K sdnv_write buffer size bib upd flags = Ret (r, (buf', bib'), fl) ->
  r <> BP_ERROR K ->
  fl = flags
  /\ value (cipher_suite_id bib') = value (cipher_suite_id bib)
  /\ value (compound_length bib') = value (compound_length bib)
  /\ value (security_result_length bib') = value (security_result_length bib)
  /\ security_target_type bib' = security_target_type bib
  /\ security_result_type bib' = security_result_type bib
  /\ value (bib_blklen bib') = u64 (r - index (security_target_count bib')).
Proof.
  intros Hp H Hr. unfold bib_write_block in H.
  apply bind_Ret in H as (b0 & _ & H). apply bind_Ret in H as (body & Hbody & H).
  unfold bib_write_fields in Hbody.
  exec_inv Hbody; inversion Hbody; subst; clear Hbody;
    try (rewrite bplog_ret_event in H by assumption);
    exec_inv H; inversion H; subst; simpl; try congruence; repeat split; reflexivity.
Qed.

(** X12.  When [bib_write] does not return [BP_ERROR], the
    block had room for at least one byte, no flag was raised, the
    structure handed in was valid (payload target, integrity signature,
    one of the two cipher suites), and the structure left behind keeps the
    cipher suite and has the lengths of that suite (compound length 4 and
    result length 2 for CRC-16, 6 and 4 for CRC-32) and a block length
    that counts the bytes from the security target count to the end. *)
Theorem bib_write_success (buffer buf' : list Z) (size : Z) (bib bib' : bp_blk_bib_t)
    (upd : bool) (flags r fl : Z) :
  bib_events_ok K ->
  bib_write K sdnv_write buffer size bib upd flags = Ret (r, (buf', bib'), fl) ->
  r <> BP_ERROR K ->
  1 <= size /\ fl = flags /\ bib_fields_valid K bib
  /\ value (cipher_suite_id bib') = value (cipher_suite_id bib)
  /\ value (compound_length bib')
     = (if value (cipher_suite_id bib) =? BP_BIB_CRC16_X25 then 4 else 6)
  /\ value (security_result_length bib')
     = (if value (cipher_suite_id bib) =? BP_BIB_CRC16_X25 then 2 else 4)
  /\ value (bib_blklen bib') = u64 (r - index (security_target_count bib')).
Proof.
  intros Hok H Hr. pose proof Hok as (_ & Hp & Ht & Hrt & Hc).
  unfold bib_write in H.
  destruct (size <? 1) eqn:Es;
    [rewrite bplog_ret_event in H by assumption; inversion H; congruence|].
  apply Z.ltb_ge in Es.
  destruct (security_target_type bib =? BP_PAY_BLK_TYPE) eqn:E1; simpl in H;
    [|rewrite bplog_ret_event in H by assumption; inversion H; congruence].
  destruct (security_result_type bib =? BP_BIB_INTEGRITY_SIGNATURE K) eqn:E2; simpl in H;
    [|rewrite bplog_ret_event in H by assumption; inversion H; congruence].
  apply Z.eqb_eq in E1, E2.
  destruct (value (cipher_suite_id bib) =? BP_BIB_CRC16_X25) eqn:E16.
  - apply Z.eqb_eq in E16.
    destruct (bib_write_block_values _ _ _ _ _ _ _ _ _ Hp H Hr)
      as (-> & Hs & Hcl & Hsl & _ & _ & Hbl).
    simpl in Hs, Hcl, Hsl. unfold bib_fields_valid. repeat split; auto; lia.
  - destruct (value (cipher_suite_id bib) =? BP_BIB_CRC32_CASTAGNOLI) eqn:E32;
      [|rewrite bplog_ret_event in H by assumption; inversion H; congruence].
    apply Z.eqb_eq in E32.
    destruct (bib_write_block_values _ _ _ _ _ _ _ _ _ Hp H Hr)
      as (-> & Hs & Hcl & Hsl & _ & _ & Hbl).
    simpl in Hs, Hcl, Hsl. unfold bib_fields_valid. repeat split; auto; lia.
Qed.

End BibCodecFacts.

(** ** More on the send path *)

Section SendMore.
Context (K : bplib_h).
Variable sdnv_write : list Z -> Z -> bp_field_t -> Z -> Z * list Z * Z.
Variable sdnv_mask : bp_field_t -> bp_field_t.
Variable bplib_crc_get : list Z -> Z -> crc_parameters_t -> Z.
Variable pay_write :
  list Z -> Z -> bp_blk_pay_t -> bool -> Z -> Z * (list Z * bp_blk_pay_t) * Z.
Variable create : list create_call -> create_call -> Z.

(** X13.  With fragmentation not allowed,
    [v6_send_bundle] of a payload larger than the room that the maximum
    bundle length leaves after the header, or with no such room at all,
    returns [BP_ERROR] and raises [BUNDLE_TOO_LARGE]; the storage
    collaborator is not called, and the bundle is as it was but for the
    payload pointer and size, which the call had stored already. *)
Theorem send_rejects_without_fragmentation (fuel : nat) (clk : os_clock)
    (bundle : bp_bundle_t) (buffer : list Z) (size timeout flags : Z) :
  allow_fragmentation (attributes bundle) = false ->
  0 < BP_FLAG_BUNDLE_TOO_LARGE K ->
  max_length (attributes bundle) - headersize (data bundle) < size
  \/ max_length (attributes bundle) - headersize (data bundle) <= 0 ->
  v6_send_bundle K sdnv_write sdnv_mask bplib_crc_get pay_write create
    fuel clk bundle buffer size timeout flags
  = Ret (BP_ERROR K, send_payload bundle buffer size,
         Z.lor flags (BP_FLAG_BUNDLE_TOO_LARGE K), []).
Proof.
  intros Hf He Hm. unfold v6_send_bundle, send_check. cbv zeta. simpl.
  rewrite Hf.
  destruct (max_length (attributes bundle) - headersize (data bundle) <? size) eqn:E.
  - rewrite bplog_event by assumption. reflexivity.
  - apply Z.ltb_ge in E.
    replace (max_length (attributes bundle) - headersize (data bundle) <=? 0) with true
      by (symmetry; apply Z.leb_le; lia).
    rewrite bplog_event by assumption. reflexivity.
Qed.

(** One turn of the send loop. *)
Lemma send_fragment_step (max_paysize timeout off : Z) (b : bp_bundle_t) (fl : Z)
    (calls : list create_call) (s : tx_step) :
  keeps_payload pay_write ->
  send_fragment K sdnv_write bplib_crc_get pay_write create max_paysize timeout off b fl calls
  = Ret s ->
  let pay := payload_block (blocks b) in
  let call_ok (call : create_call) :=
    cc_size call = Z.min max_paysize (paysize pay - off)
    /\ ptr_at (payptr pay) off = Ret (cc_payload call)
    /\ cc_timeout call = timeout in
  match s with
  | TxContinue off' b' fl' calls' =>
      paysize (payload_block (blocks b')) = paysize pay
      /\ payptr (payload_block (blocks b')) = payptr pay
      /\ createseq (primary_block (blocks b')) = createseq (primary_block (blocks b))
      /\ prebuilt b' = prebuilt b
      /\ exists call : create_call,
           calls' = calls ++ [call] /\ call_ok call
           /\ off' = off + cc_size call
           /\ create calls call = BP_SUCCESS K
  | TxReturn (r, b', fl', calls') =>
      createseq (primary_block (blocks b')) = createseq (primary_block (blocks b))
      /\ prebuilt b' = prebuilt b
      /\ ((calls' = calls
           /\ exists fl0 : Z, (r, fl') = bplog K fl0 (BP_FLAG_FAILED_TO_PARSE K))
          \/ (exists call : create_call,
                 calls' = calls ++ [call] /\ call_ok call
                 /\ create calls call <> BP_SUCCESS K
                 /\ exists fl0 : Z, (r, fl') = bplog K fl0 (BP_FLAG_STORE_FAILURE K)))
  end.
Proof.
  intros Hk H pay call_ok. subst pay call_ok.
  assert (Hmin : (if max_paysize <? paysize (payload_block (blocks b)) - off
                  then max_paysize else paysize (payload_block (blocks b)) - off)
                 = Z.min max_paysize (paysize (payload_block (blocks b)) - off)).
  { destruct (_ <? _) eqn:E; [apply Z.ltb_lt in E|apply Z.ltb_ge in E]; lia. }
  unfold send_fragment in H. cbv zeta in H. rewrite Hmin in H.
  exec_crack.
  all: repeat match goal with
       | E : pay_write ?blk ?sz ?p ?u ?f = _ |- _ =>
           let Hp := fresh "Hp" in
           pose proof (Hk blk sz p u f) as Hp; rewrite E in Hp; simpl in Hp;
           destruct Hp; clear E
       end.
  all: simpl in *.
  all: repeat match goal with
       | H : negb (_ =? _) = true |- _ => apply negb_true_iff, Z.eqb_neq in H
       | H : negb (_ =? _) = false |- _ => apply negb_false_iff, Z.eqb_eq in H
       end.
  all: repeat (split; [auto; congruence|]).
  all: try (eexists; split; [reflexivity|]; simpl; repeat split; auto; congruence).
  all: try (left; split; [reflexivity|]; eexists; symmetry; eassumption).
  all: try (right; eexists; split; [reflexivity|]; simpl; repeat split; auto;
            try congruence; eexists; symmetry; eassumption).
Qed.


Lemma sum_sizes_cons (call : create_call) (calls : list create_call) :
  sum_sizes (call :: calls) = cc_size call + sum_sizes calls.
Proof. reflexivity. Qed.

(** The calls that the send loop adds are consecutive fragments of the
    payload, each accepted by the storage collaborator but possibly the
    last. *)
Lemma send_loop_calls (max_paysize timeout size : Z) (buffer : list Z) (fuel : nat) :
  keeps_payload pay_write ->
  forall (off : Z) (b : bp_bundle_t) (fl : Z) (calls : list create_call)
         (early : option Z) (b' : bp_bundle_t) (fl' : Z) (calls' : list create_call),
    paysize (payload_block (blocks b)) = size ->
    payptr (payload_block (blocks b)) = buffer ->
    send_loop K sdnv_write bplib_crc_get pay_write create fuel max_paysize timeout off b fl calls
    = Ret (early, b', fl', calls') ->
    exists added : list create_call,
      calls' = calls ++ added
      /\ (forall (i : nat) (call : create_call),
             added !! i = Some call ->
             cc_size call = Z.min max_paysize (size - (off + sum_sizes (take i added)))
             /\ ptr_at buffer (off + sum_sizes (take i added)) = Ret (cc_payload call)
             /\ cc_timeout call = timeout
             /\ off + sum_sizes (take i added) < size
             /\ ((S i < length added)%nat ->
                 create (calls ++ take i added) call = BP_SUCCESS K)
             /\ (create (calls ++ take i added) call <> BP_SUCCESS K ->
                 S i = length added
                 /\ exists fl0 : Z,
                      (early, fl')
                      = (Some (fst (bplog K fl0 (BP_FLAG_STORE_FAILURE K))),
                         snd (bplog K fl0 (BP_FLAG_STORE_FAILURE K)))))
      /\ createseq (primary_block (blocks b')) = createseq (primary_block (blocks b))
      /\ prebuilt b' = prebuilt b
      /\ match early with
         | None => if off <? size then off + sum_sizes added = size else added = []
         | Some r =>
             exists fl0 event : Z,
               (r, fl') = bplog K fl0 event
               /\ (event = BP_FLAG_FAILED_TO_PARSE K \/ event = BP_FLAG_STORE_FAILURE K)
         end.
Proof.
  intros Hk. induction fuel as [|fuel IH];
    intros off b fl calls early b' fl' calls' Hsz Hptr H; simpl in H; rewrite Hsz in H.
  - destruct (off <? size) eqn:E; [discriminate|].
    injection H as <- <- <- <-.
    exists []. rewrite app_nil_r.
    split; [reflexivity|]. split; [intros i call Hi; now rewrite lookup_nil in Hi|auto].
  - destruct (off <? size) eqn:E.
    2:{ injection H as <- <- <- <-.
        exists []. rewrite app_nil_r.
    split; [reflexivity|]. split; [intros i call Hi; now rewrite lookup_nil in Hi|auto]. }
    apply Z.ltb_lt in E.
    apply bind_Ret in H as (s & Hs & H).
    pose proof (send_fragment_step _ _ _ _ _ _ _ Hk Hs) as Hstep. cbv zeta in Hstep.
    destruct s as [[[[r b1] fl1] calls1]|off1 b1 fl1 calls1].
    + injection H as <- <- <- <-.
      destruct Hstep as (Hseq & Hpre & [(-> & fl0 & Hlog)|(call & -> & Hcall & Hrej & fl0 & Hlog)]).
      * exists []. rewrite app_nil_r.
        split; [reflexivity|]. split; [intros i call Hi; now rewrite lookup_nil in Hi|].
        split; [exact Hseq|]. split; [exact Hpre|].
        exists fl0, (BP_FLAG_FAILED_TO_PARSE K). auto.
      * destruct Hcall as (Hcs & Hcp & Hct).
        exists [call]. split; [reflexivity|]. split; [|split; [exact Hseq|split; [exact Hpre|]]].
        -- intros i c Hi. destruct i as [|i]; [|destruct i; discriminate].
           inversion Hi; subst c. simpl. unfold sum_sizes. simpl. rewrite Z.add_0_r.
           rewrite app_nil_r. repeat split; auto; try lia; try congruence.
           exists fl0. rewrite <- Hlog. reflexivity.
        -- exists fl0, (BP_FLAG_STORE_FAILURE K). auto.
    + destruct Hstep as (Hps & Hpp & Hseq & Hpre & call & -> & (Hcs & Hcp & Hct) & -> & Hacc).
      destruct (IH _ _ _ _ _ _ _ _ (eq_trans Hps Hsz) (eq_trans Hpp Hptr) H)
        as (added & -> & Hall & Hseq' & Hpre' & Hend).
      exists (call :: added). split; [now rewrite <- app_assoc|].
      split; [|split; [congruence|split; [congruence|]]].
      * intros i c Hi. destruct i as [|i].
        -- inversion Hi; subst c. simpl. unfold sum_sizes at 1 2 3. simpl.
           rewrite Z.add_0_r, app_nil_r. repeat split; auto; try lia; try congruence.
        -- simpl in Hi. destruct (Hall i c Hi) as (H1 & H2 & H3 & H4 & H5 & H6).
           cbn [take length]. rewrite sum_sizes_cons.
           replace (off + (cc_size call + sum_sizes (take i added)))
             with (off + cc_size call + sum_sizes (take i added)) by ring.
           replace (calls ++ call :: take i added) with ((calls ++ [call]) ++ take i added)
             by (now rewrite <- app_assoc).
           split; [exact H1|]. split; [exact H2|]. split; [exact H3|].
           split; [exact H4|]. split.
           ++ intros Hlt. apply H5. lia.
           ++ intros Hrej. destruct (H6 Hrej) as [Hl He]. split; [lia|exact He].
      * destruct early as [r|]; [exact Hend|].
        rewrite sum_sizes_cons.
        destruct (off + cc_size call <? size) eqn:E'.
        -- lia.
        -- subst added. apply Z.ltb_ge in E'. unfold sum_sizes. simpl. lia.
Qed.


Lemma send_check_keeps (bundle b0 : bp_bundle_t) (max_paysize flags : Z) :
  send_check K bundle max_paysize flags = inr b0 ->
  payload_block (blocks b0) = payload_block (blocks bundle)
  /\ createseq (primary_block (blocks b0)) = createseq (primary_block (blocks bundle))
  /\ prebuilt b0 = prebuilt bundle.
Proof.
  unfold send_check. intros H.
  destruct (_ <? _); [destruct (allow_fragmentation _)|destruct (_ <=? _)];
    inversion H; subst; auto.
Qed.

Lemma send_check_early (bundle : bp_bundle_t) (max_paysize flags r fl : Z) :
  send_check K bundle max_paysize flags = inl (r, fl) ->
  (r, fl) = bplog K flags (BP_FLAG_BUNDLE_TOO_LARGE K).
Proof.
  unfold send_check. intros H.
  destruct (_ <? _); [destruct (allow_fragmentation _)|destruct (_ <=? _)];
    inversion H; subst; auto.
Qed.

Lemma send_set_time_keeps (clk : os_clock) (b0 b1 : bp_bundle_t) (lifetime : bp_field_t)
    (flags fl1 : Z) :
  send_set_time K sdnv_write clk b0 flags = (b1, lifetime, fl1) ->
  payload_block (blocks b1) = payload_block (blocks b0)
  /\ createseq (primary_block (blocks b1)) = createseq (primary_block (blocks b0))
  /\ prebuilt b1 = prebuilt b0.
Proof.
  unfold send_set_time. intros H.
  destruct (prebuilt b0) eqn:Ep; [|inversion H; subst; auto].
  destruct (bplib_os_systime K clk) as [st sysnow].
  destruct (st =? BP_ERROR K);
    repeat (match type of H with
            | context [sdnv_write ?a ?b ?c ?d] =>
                destruct (sdnv_write a b c d) as [[? ?] ?]
            end; cbn iota beta in H);
    inversion H; subst; simpl; auto.
Qed.

(** [v6_send_bundle] from its fragmentation check to the end of its
    loop. *)
Lemma send_bundle_loop (fuel : nat) (clk : os_clock) (bundle : bp_bundle_t)
    (buffer : list Z) (size timeout flags r fl' : Z) (b' : bp_bundle_t)
    (calls : list create_call) :
  v6_send_bundle K sdnv_write sdnv_mask bplib_crc_get pay_write create
    fuel clk bundle buffer size timeout flags
  = Ret (r, b', fl', calls) ->
  (calls = []
   /\ (r, fl') = bplog K flags (BP_FLAG_BUNDLE_TOO_LARGE K)
   /\ b' = send_payload bundle buffer size)
  \/ exists (b1 b2 : bp_bundle_t) (fl1 : Z) (early : option Z),
       paysize (payload_block (blocks b1)) = size
       /\ payptr (payload_block (blocks b1)) = buffer
       /\ createseq (primary_block (blocks b1)) = createseq (primary_block (blocks bundle))
       /\ prebuilt b1 = prebuilt bundle
       /\ send_loop K sdnv_write bplib_crc_get pay_write create fuel
            (max_length (attributes bundle) - headersize (data bundle)) timeout 0 b1 fl1 []
          = Ret (early, b2, fl', calls)
       /\ match early with
          | Some r0 => r = r0 /\ b' = b2
          | None =>
              r = BP_SUCCESS K
              /\ prebuilt b' = prebuilt b2
              /\ createseq (primary_block (blocks b'))
                 = if prebuilt b2
                   then sdnv_mask
                          (set_value (createseq (primary_block (blocks b2)))
                             (u64 (value (createseq (primary_block (blocks b2))) + 1)))
                   else createseq (primary_block (blocks b2))
          end.
Proof.
  intros H. unfold v6_send_bundle in H. cbv zeta in H.
  change (with_blocks bundle
            (with_payload_block (blocks bundle)
               (with_paysize (with_payptr (payload_block (blocks bundle)) buffer) size)))
    with (send_payload bundle buffer size) in H.
  change (max_length (attributes (send_payload bundle buffer size)))
    with (max_length (attributes bundle)) in H.
  change (headersize (data (send_payload bundle buffer size)))
    with (headersize (data bundle)) in H.
  destruct (send_check K (send_payload bundle buffer size) _ flags) as [[r0 fl0]|b0] eqn:Ec.
  { apply send_check_early in Ec. injection H as <- <- <- <-. left. auto. }
  right. apply send_check_keeps in Ec as (Hp0 & Hs0 & Hb0).
  destruct (send_set_time K sdnv_write clk b0 flags) as [[b1 lifetime] fl1] eqn:Et.
  apply send_set_time_keeps in Et as (Hp1 & Hs1 & Hb1).
  destruct (send_exprtime K _ _ fl1) as [e fl2].
  apply bind_Ret in H as (l & Hl & H).
  destruct l as [[[early b2] fl3] calls3].
  exists (with_data b1 (with_exprtime (data b1) e)), b2, fl2, early.
  simpl. rewrite Hp1, Hp0, Hs1, Hs0, Hb1, Hb0. simpl.
  repeat (split; [reflexivity|]).
  destruct early as [r0|]; injection H as <- <- <- <-.
  - split; [exact Hl|]. auto.
  - split; [exact Hl|]. split; [reflexivity|].
    destruct (prebuilt b2) eqn:Ep; simpl; rewrite ?Ep; auto.
Qed.

(** X14.  The fragments that [v6_send_bundle] hands to
    the storage collaborator lie end to end in the payload: each starts
    where the previous ones end, inside the payload, is as long as the
    remainder allows and at most the maximum payload size, and carries the
    timeout of the call; when the call succeeds their sizes add up to the
    size of the payload.  (The payload block writer is one that leaves the
    payload pointer and size of the structure alone.) *)
Theorem send_fragments_partition (fuel : nat) (clk : os_clock) (bundle : bp_bundle_t)
    (buffer : list Z) (size timeout flags r fl' : Z) (b' : bp_bundle_t)
    (calls : list create_call) :
  keeps_payload pay_write ->
  v6_send_bundle K sdnv_write sdnv_mask bplib_crc_get pay_write create
    fuel clk bundle buffer size timeout flags
  = Ret (r, b', fl', calls) ->
  let max_paysize := max_length (attributes bundle) - headersize (data bundle) in
  (forall (i : nat) (call : create_call),
      calls !! i = Some call ->
      sum_sizes (take i calls) < size
      /\ cc_size call = Z.min max_paysize (size - sum_sizes (take i calls))
      /\ ptr_at buffer (sum_sizes (take i calls)) = Ret (cc_payload call)
      /\ cc_timeout call = timeout)
  /\ (send_events_ok K -> r = BP_SUCCESS K -> sum_sizes calls = Z.max 0 size).
Proof.
  intros Hk H max_paysize. subst max_paysize.
  apply send_bundle_loop in H.
  destruct H as [(-> & Hlog & _)|(b1 & b2 & fl1 & early & Hsz & Hptr & _ & _ & Hl & Hend)].
  - split; [intros i call Hi; now rewrite lookup_nil in Hi|].
    intros (Hne & Ht & _) ->. rewrite bplog_event in Hlog by assumption.
    inversion Hlog. congruence.
  - destruct (send_loop_calls _ _ _ _ _ Hk _ _ _ _ _ _ _ _ Hsz Hptr Hl)
      as (added & Hc & Hall & _ & _ & Hearly).
    simpl in Hc. subst added. split.
    + intros i call Hi. destruct (Hall i call Hi) as (H1 & H2 & H3 & H4 & _).
      rewrite Z.add_0_l in *. auto.
    + intros (Hne & _ & Hp & Hs) ->. destruct early as [r0|].
      * destruct Hend as [<- _]. destruct Hearly as (fl0 & event & Hlog & [-> | ->]);
          rewrite bplog_event in Hlog by assumption; inversion Hlog; congruence.
      * destruct (0 <? size) eqn:E; [apply Z.ltb_lt in E|apply Z.ltb_ge in E].
        -- lia.
        -- subst calls. unfold sum_sizes. simpl. lia.
Qed.

(** X15.  [v6_send_bundle] stops at the first fragment
    that the storage collaborator refuses: every fragment but the last
    handed over was accepted, and when one is refused it is the last, the
    call returns [BP_ERROR] and [STORE_FAILURE] is raised. *)
Theorem send_stops_at_refusal (fuel : nat) (clk : os_clock) (bundle : bp_bundle_t)
    (buffer : list Z) (size timeout flags r fl' : Z) (b' : bp_bundle_t)
    (calls : list create_call) :
  keeps_payload pay_write ->
  v6_send_bundle K sdnv_write sdnv_mask bplib_crc_get pay_write create
    fuel clk bundle buffer size timeout flags
  = Ret (r, b', fl', calls) ->
  forall (i : nat) (call : create_call),
    calls !! i = Some call ->
    ((S i < length calls)%nat -> create (take i calls) call = BP_SUCCESS K)
    /\ (create (take i calls) call <> BP_SUCCESS K ->
        S i = length calls
        /\ (0 < BP_FLAG_STORE_FAILURE K ->
            r = BP_ERROR K
            /\ exists fl0 : Z, fl' = Z.lor fl0 (BP_FLAG_STORE_FAILURE K))).
Proof.
  intros Hk H i call Hi.
  apply send_bundle_loop in H.
  destruct H as [(-> & _)|(b1 & b2 & fl1 & early & Hsz & Hptr & _ & _ & Hl & Hend)].
  { now rewrite lookup_nil in Hi. }
  destruct (send_loop_calls _ _ _ _ _ Hk _ _ _ _ _ _ _ _ Hsz Hptr Hl)
    as (added & Hc & Hall & _).
  simpl in Hc. subst added.
  destruct (Hall i call Hi) as (_ & _ & _ & _ & H5 & H6). simpl in H5, H6.
  split; [exact H5|].
  intros Hrej. destruct (H6 Hrej) as (Hlen & fl0 & He). split; [exact Hlen|].
  intros Hs. rewrite bplog_event in He by assumption. simpl in He.
  injection He as -> ->. destruct Hend as [-> _]. eauto.
Qed.

(** X16.  [v6_send_bundle] advances the creation sequence
    number of a bundle by one (modulo 2^64, then masked to the width of the
    field) exactly when the bundle is prebuilt and the call succeeds; in
    every other case the field is left as it was. *)
Theorem send_sequence_number (fuel : nat) (clk : os_clock) (bundle : bp_bundle_t)
    (buffer : list Z) (size timeout flags r fl' : Z) (b' : bp_bundle_t)
    (calls : list create_call) :
  keeps_payload pay_write -> send_events_ok K ->
  v6_send_bundle K sdnv_write sdnv_mask bplib_crc_get pay_write create
    fuel clk bundle buffer size timeout flags
  = Ret (r, b', fl', calls) ->
  let seq := createseq (primary_block (blocks bundle)) in
  createseq (primary_block (blocks b'))
  = if prebuilt bundle && (r =? BP_SUCCESS K)
    then sdnv_mask (set_value seq (u64 (value seq + 1)))
    else seq.
Proof.
  intros Hk (Hne & Ht & Hp & Hs) H seq. subst seq.
  apply send_bundle_loop in H.
  destruct H as [(_ & Hlog & ->)|(b1 & b2 & fl1 & early & Hsz & Hptr & Hseq & Hpre & Hl & Hend)].
  - rewrite bplog_event in Hlog by assumption. injection Hlog as -> ->.
    replace (BP_ERROR K =? BP_SUCCESS K) with false
      by (symmetry; apply Z.eqb_neq; congruence).
    rewrite andb_false_r. reflexivity.
  - destruct (send_loop_calls _ _ _ _ _ Hk _ _ _ _ _ _ _ _ Hsz Hptr Hl)
      as (added & _ & _ & Hseq2 & Hpre2 & Hearly).
    destruct early as [r0|].
    + destruct Hend as [-> ->].
      destruct Hearly as (fl0 & event & Hlog & Hev).
      assert (r0 = BP_ERROR K) as ->.
      { destruct Hev as [-> | ->]; rewrite bplog_event in Hlog by assumption;
          now inversion Hlog. }
      replace (BP_ERROR K =? BP_SUCCESS K) with false
        by (symmetry; apply Z.eqb_neq; congruence).
      rewrite andb_false_r. congruence.
    + destruct Hend as (-> & Hpre3 & Hseq3).
      rewrite Z.eqb_refl, andb_true_r. rewrite Hseq3, Hpre2, Hpre, Hseq2, Hseq.
      reflexivity.
Qed.

End SendMore.

(** ** More on the receive path *)

Section ExpiryFacts.
Context (K : bplib_h).

(** X17.  Expiry is monotone in time: a bundle that
    [v6_is_expired] reports expired at one reading of the clock is expired
    at every later one.  And no bundle is ever expired when the clock is
    unreliable, when the channel ignores expiration, or when the
    expiration time is one of the two sentinels. *)
Theorem v6_is_expired_monotone (bundle : bp_bundle_t) (sysnow sysnow' exprtime : Z)
    (unrelt : bool) :
  (v6_is_expired K bundle sysnow exprtime unrelt = true ->
   sysnow <= sysnow' ->
   v6_is_expired K bundle sysnow' exprtime unrelt = true)
  /\ (unrelt = true \/ ignore_expiration (attributes bundle) = true
      \/ exprtime = BP_UNKNOWN_CREATION_TIME K \/ exprtime = BP_TTL_CREATION_TIME K ->
      v6_is_expired K bundle sysnow exprtime unrelt = false).
Proof.
  unfold v6_is_expired. split.
  - intros H Hle. rewrite !andb_true_iff in *. destruct H as ((((H1 & H2) & H3) & H4) & H5).
    repeat split; auto. apply Z.leb_le in H5. apply Z.leb_le. lia.
  - intros [->|[->|[->| ->]]].
    + reflexivity.
    + now rewrite andb_false_r.
    + rewrite Z.eqb_refl. simpl. now rewrite !andb_false_r.
    + rewrite Z.eqb_refl. simpl. now rewrite !andb_false_r.
Qed.

End ExpiryFacts.

Section BuildFacts.
Context (K : bplib_h).
Variable sdnv_write : list Z -> Z -> bp_field_t -> Z -> Z * list Z * Z.
Variable pri_write :
  list Z -> Z -> bp_blk_pri_t -> bool -> Z -> Z * (list Z * bp_blk_pri_t) * Z.
Variable cteb_write :
  list Z -> Z -> bp_blk_cteb_t -> bool -> Z -> Z * (list Z * bp_blk_cteb_t) * Z.
Variable bplib_ipn2eid : Z -> Z -> Z -> list Z.

(** X18.  When [v6_build] succeeds, the route and the
    attributes of the bundle are untouched; the bundle is marked prebuilt
    exactly when no primary block was handed in; the header fits the
    header buffer, with the payload block after the caller's header bytes;
    the CTEB and BIB offsets lie within the header, the CTEB offset being
    zero when the primary block requests no custody and the BIB offset
    zero when the channel asks for no integrity check; the sizes and the
    expiration time are reset to zero, and the payload block is the
    initial one. *)
Theorem v6_build_success_layout (bundle b' : bp_bundle_t) (pri : option bp_blk_pri_t)
    (hdr_buf : list Z) (hdr_len flags fl' : Z) :
  BP_SUCCESS K <> BP_ERROR K ->
  0 < BP_FLAG_FAILED_TO_PARSE K -> 0 < BP_FLAG_BUNDLE_TOO_LARGE K ->
  v6_build K sdnv_write pri_write cteb_write bplib_ipn2eid bundle pri hdr_buf hdr_len flags
  = Ret (BP_SUCCESS K, b', fl') ->
  let d := data b' in
  route b' = route bundle /\ attributes b' = attributes bundle
  /\ prebuilt b' = match pri with Some _ => false | None => true end
  /\ 0 <= hdr_len <= payoffset d /\ payoffset d < BP_BUNDLE_HDR_BUF_SIZE
  /\ 0 <= cteboffset d <= payoffset d - hdr_len
  /\ 0 <= biboffset d <= payoffset d - hdr_len
  /\ (cst_rqst (primary_block (blocks b')) = false -> cteboffset d = 0)
  /\ (integrity_check (attributes bundle) = false -> biboffset d = 0)
  /\ headersize d = 0 /\ bundlesize d = 0 /\ exprtime d = 0
  /\ payload_block (blocks b') = bundle_pay_blk.
Proof.
  intros Hne Hp Ht H d. subst d. unfold v6_build in H.
  exec_crack.
  all: try match goal with
       | H : context [bplog K ?f ?e] |- _ =>
           rewrite (bplog_event K f e) in H by assumption; simpl in H; congruence
       end.
  all: repeat match goal with
       | H : (_ <? _) = false |- _ => apply Z.ltb_ge in H
       | H : (_ <? _) = true |- _ => apply Z.ltb_lt in H
       | H : memcpy _ _ _ _ = Ret _ |- _ =>
           unfold memcpy in H;
           destruct (_ || _) eqn:Em in H; [discriminate H|];
           apply orb_false_iff in Em as [Em _]; apply orb_false_iff in Em as [Em _];
           apply orb_false_iff in Em as [Em _]; apply Z.ltb_ge in Em; clear H
       end.
  all: simpl in *; unfold BP_BUNDLE_HDR_BUF_SIZE in *;
       repeat split; auto; try lia; try congruence.
Qed.

End BuildFacts.

Section ReceiveMore.
Context (K : bplib_h).
Variable sdnv_read : list Z -> Z -> bp_field_t -> Z -> Z * bp_field_t * Z.
Variable sdnv_write : list Z -> Z -> bp_field_t -> Z -> Z * list Z * Z.
Variable bplib_crc_get : list Z -> Z -> crc_parameters_t -> Z.
Variable pri_read : list Z -> Z -> bool -> Z -> Z * bp_blk_pri_t * Z.
Variable cteb_read : list Z -> Z -> bool -> Z -> Z * bp_blk_cteb_t * Z.
Variable pay_read : list Z -> Z -> bool -> Z -> Z * bp_blk_pay_t * Z.
Variable pri_write :
  list Z -> Z -> bp_blk_pri_t -> bool -> Z -> Z * (list Z * bp_blk_pri_t) * Z.
Variable cteb_write :
  list Z -> Z -> bp_blk_cteb_t -> bool -> Z -> Z * (list Z * bp_blk_cteb_t) * Z.
Variable bplib_ipn2eid : Z -> Z -> Z -> list Z.

(** X19.  [v6_receive_bundle] rejects a bundle
    whose primary block does not parse with [FAILED_TO_PARSE], and one
    whose primary block carries a dictionary with [NONCOMPLIANT]; either
    way it returns [BP_ERROR] before it looks at the clock or at any other
    block, and leaves the bundle, the payload and the buffer as they
    are. *)
Theorem receive_rejects_before_blocks (fuel : nat) (clk : os_clock)
    (bundle : bp_bundle_t) (buffer : list Z) (size : Z) (payload : bp_payload_t)
    (flags : Z) (cteb_blk : bp_blk_cteb_t) (bib_blk : bp_blk_bib_t)
    (n : Z) (pri_blk : bp_blk_pri_t) (fl1 : Z) :
  pri_read buffer size true flags = (n, pri_blk, fl1) ->
  (n < 0 -> 0 < BP_FLAG_FAILED_TO_PARSE K ->
   v6_receive_bundle K sdnv_read sdnv_write bplib_crc_get pri_read cteb_read pay_read
     pri_write cteb_write bplib_ipn2eid
     fuel clk bundle buffer size payload flags cteb_blk bib_blk
   = Ret (BP_ERROR K, (bundle, payload, buffer), Z.lor fl1 (BP_FLAG_FAILED_TO_PARSE K)))
  /\ (0 <= n -> value (dictlen pri_blk) <> 0 -> 0 < BP_FLAG_NONCOMPLIANT K ->
      v6_receive_bundle K sdnv_read sdnv_write bplib_crc_get pri_read cteb_read pay_read
        pri_write cteb_write bplib_ipn2eid
        fuel clk bundle buffer size payload flags cteb_blk bib_blk
      = Ret (BP_ERROR K, (bundle, payload, buffer), Z.lor fl1 (BP_FLAG_NONCOMPLIANT K))).
Proof.
  intros Hpri. split.
  - intros Hn Hf. unfold v6_receive_bundle, receive_primary. cbn [exclude_push length bind].
    replace (Z.of_nat 0 <? BP_NUM_EXCLUDE_REGIONS) with true by reflexivity.
    cbn [bind]. rewrite Hpri.
    replace (n <? 0) with true by (symmetry; apply Z.ltb_lt; lia).
    cbn [bind]. now rewrite bplog_ret_event.
  - intros Hn Hd Hf. unfold v6_receive_bundle, receive_primary. cbn [exclude_push length bind].
    replace (Z.of_nat 0 <? BP_NUM_EXCLUDE_REGIONS) with true by reflexivity.
    cbn [bind]. rewrite Hpri.
    replace (n <? 0) with false by (symmetry; apply Z.ltb_ge; lia).
    unfold exclude_push at 1. cbn [length app].
    replace (Z.of_nat 1 <? BP_NUM_EXCLUDE_REGIONS) with true by reflexivity.
    cbn [bind]. apply Z.eqb_neq in Hd. rewrite Hd. cbn [negb bind].
    now rewrite bplog_ret_event.
Qed.

(** X20.  A buffer that ends with its primary block
    (no dictionary, not expired) is received with [BP_SUCCESS]: the loop
    over the blocks is not entered, the bundle and the payload are left as
    they are, and the only flags raised are those of the expiration time
    and of an unreliable clock. *)
Theorem receive_primary_block_only (fuel : nat) (clk : os_clock)
    (bundle : bp_bundle_t) (buffer : list Z) (size : Z) (payload : bp_payload_t)
    (flags : Z) (cteb_blk : bp_blk_cteb_t) (bib_blk : bp_blk_bib_t)
    (n : Z) (pri_blk : bp_blk_pri_t) (fl1 : Z) :
  pri_read buffer size true flags = (n, pri_blk, fl1) ->
  0 <= n -> value (dictlen pri_blk) = 0 ->
  size <= n ->
  let unrelt := fst (bplib_os_systime K clk) =? BP_ERROR K in
  let timed := receive_exprtime K (value (createsec pri_blk)) (value (lifetime pri_blk)) fl1 in
  v6_is_expired K bundle (snd (bplib_os_systime K clk)) (fst timed) unrelt = false ->
  v6_receive_bundle K sdnv_read sdnv_write bplib_crc_get pri_read cteb_read pay_read
    pri_write cteb_write bplib_ipn2eid
    fuel clk bundle buffer size payload flags cteb_blk bib_blk
  = Ret (BP_SUCCESS K, (bundle, payload, buffer),
         if unrelt then snd (bplog K (snd timed) (BP_FLAG_UNRELIABLE_TIME K))
         else snd timed).
Proof.
  intros Hpri Hn Hd Hsz unrelt timed Hexp. subst unrelt timed.
  unfold v6_receive_bundle, receive_primary. cbn [exclude_push length bind].
  replace (Z.of_nat 0 <? BP_NUM_EXCLUDE_REGIONS) with true by reflexivity.
  cbn [bind]. rewrite Hpri.
  replace (n <? 0) with false by (symmetry; apply Z.ltb_ge; lia).
  unfold exclude_push at 1. cbn [length app].
  replace (Z.of_nat 1 <? BP_NUM_EXCLUDE_REGIONS) with true by reflexivity.
  cbn [bind]. rewrite Hd. cbn [Z.eqb negb].
  destruct (receive_exprtime K _ _ fl1) as [e fl2]. simpl in Hexp |- *.
  destruct (bplib_os_systime K clk) as [st sysnow]. simpl in Hexp |- *.
  rewrite Hexp. cbn [bind].
  destruct fuel; simpl;
    replace (0 + n <? size) with false by (symmetry; apply Z.ltb_ge; lia);
    rewrite andb_false_r; reflexivity.
Qed.


(** *** Bundles for the local node *)

(** X21.  What the receive path does with the payload of
    a bundle for the local node.  For a service that is neither zero nor
    the local one: [BP_ERROR] and [ROUTE_NEEDED], payload untouched.  For a
    data bundle of the local service: [BP_PENDING_ACCEPTANCE]; without a
    custody request the custodian of the payload is the null endpoint;
    with a custody request and a CTEB it is the custodian of the CTEB,
    with the custody id of the CTEB; with a custody request and no CTEB
    the call fails with [NONCOMPLIANT].  The bundle and the buffer are
    left as they are. *)
Theorem receive_local_delivery (bundle : bp_bundle_t) (pri_blk : bp_blk_pri_t)
    (index : Z) (exclude buffer : list Z) (cteb_present : bool)
    (cteb_blk : bp_blk_cteb_t) (payload : bp_payload_t) (flags : Z) :
  value (dstnode pri_blk) = local_node (route bundle) ->
  let dispose :=
    receive_dispose K sdnv_write pri_write cteb_write bplib_ipn2eid
      bundle pri_blk index exclude buffer cteb_present cteb_blk payload flags in
  (value (dstserv pri_blk) <> 0 ->
   value (dstserv pri_blk) <> local_service (route bundle) ->
   0 < BP_FLAG_ROUTE_NEEDED K ->
   dispose = Ret (BP_ERROR K, (bundle, payload, buffer),
                  Z.lor flags (BP_FLAG_ROUTE_NEEDED K)))
  /\ (value (dstserv pri_blk) = 0
      \/ value (dstserv pri_blk) = local_service (route bundle) ->
      is_admin_rec pri_blk = false ->
      exists payload' : bp_payload_t,
        pl_data payload' = pl_data payload /\ memptr payload' = memptr payload
        /\ (cst_rqst pri_blk = false ->
            dispose = Ret (BP_PENDING_ACCEPTANCE, (bundle, payload', buffer), flags)
            /\ node payload' = BP_IPN_NULL K /\ service payload' = BP_IPN_NULL K
            /\ pl_cid payload' = pl_cid payload)
        /\ (cst_rqst pri_blk = true -> cteb_present = true ->
            dispose = Ret (BP_PENDING_ACCEPTANCE, (bundle, payload', buffer), flags)
            /\ node payload' = cteb_cstnode cteb_blk
            /\ service payload' = cteb_cstserv cteb_blk
            /\ pl_cid payload' = value (cteb_cid cteb_blk))
        /\ (cst_rqst pri_blk = true -> cteb_present = false ->
            0 < BP_FLAG_NONCOMPLIANT K ->
            dispose = Ret (BP_ERROR K, (bundle, payload', buffer),
                           Z.lor flags (BP_FLAG_NONCOMPLIANT K))
            /\ node payload' = BP_IPN_NULL K /\ service payload' = BP_IPN_NULL K)).
Proof.
  intros Hdst dispose. subst dispose. unfold receive_dispose.
  rewrite Hdst, Z.eqb_refl. cbn [negb]. split.
  - intros H0 Hs Hf. apply Z.eqb_neq in H0, Hs. rewrite H0, Hs. cbn [negb andb].
    now rewrite bplog_ret_event.
  - intros Hs Hadm.
    replace (negb (value (dstserv pri_blk) =? 0)
             && negb (value (dstserv pri_blk) =? local_service (route bundle)))
      with false
      by (symmetry; destruct Hs as [Hs|Hs]; rewrite Hs, Z.eqb_refl;
          [reflexivity|apply andb_false_r]).
    rewrite Hadm. unfold custody_transfer.
    destruct (cst_rqst pri_blk) eqn:Ec; [destruct cteb_present eqn:Ep|].
    + eexists. split; [|split; [|split; [|split]]];
        [| |discriminate|intros _ _; repeat split|discriminate]; reflexivity.
    + eexists. split; [|split; [|split; [|split]]];
        [| |discriminate|discriminate|intros _ _ Hf; rewrite bplog_ret_event by assumption;
                                      repeat split]; reflexivity.
    + eexists. split; [|split; [|split; [|split]]];
        [| |intros _; repeat split|discriminate|discriminate]; reflexivity.
Qed.

(** X22.  What the receive path does with an
    administrative record for the local node, by the record type in the
    first byte of the payload: an aggregate custody signal returns
    [BP_PENDING_ACKNOWLEDGMENT] and names the custodian of the primary
    block in the payload; a custody signal or a status report fails with
    [NONCOMPLIANT]; any other type fails with [UNKNOWNREC]. *)
Theorem receive_admin_record (bundle : bp_bundle_t) (pri_blk : bp_blk_pri_t)
    (index : Z) (exclude buffer : list Z) (cteb_present : bool)
    (cteb_blk : bp_blk_cteb_t) (payload : bp_payload_t) (flags rec_type : Z) :
  value (dstnode pri_blk) = local_node (route bundle) ->
  value (dstserv pri_blk) = 0
  \/ value (dstserv pri_blk) = local_service (route bundle) ->
  is_admin_rec pri_blk = true ->
  load buffer index = Ret rec_type ->
  let dispose :=
    receive_dispose K sdnv_write pri_write cteb_write bplib_ipn2eid
      bundle pri_blk index exclude buffer cteb_present cteb_blk payload flags in
  (rec_type = BP_ACS_REC_TYPE K ->
   dispose
   = Ret (BP_PENDING_ACKNOWLEDGMENT,
          (bundle,
           with_service (with_node payload (value (cstnode pri_blk)))
             (value (cstserv pri_blk)),
           buffer),
          flags))
  /\ (rec_type <> BP_ACS_REC_TYPE K ->
      rec_type = BP_CS_REC_TYPE K \/ rec_type = BP_STAT_REC_TYPE K ->
      0 < BP_FLAG_NONCOMPLIANT K ->
      dispose = Ret (BP_ERROR K, (bundle, payload, buffer),
                     Z.lor flags (BP_FLAG_NONCOMPLIANT K)))
  /\ (rec_type <> BP_ACS_REC_TYPE K -> rec_type <> BP_CS_REC_TYPE K ->
      rec_type <> BP_STAT_REC_TYPE K ->
      0 < BP_FLAG_UNKNOWNREC K ->
      dispose = Ret (BP_ERROR K, (bundle, payload, buffer),
                     Z.lor flags (BP_FLAG_UNKNOWNREC K))).
Proof.
  intros Hdst Hs Hadm Hl dispose. subst dispose. unfold receive_dispose.
  rewrite Hdst, Z.eqb_refl. cbn [negb].
  replace (negb (value (dstserv pri_blk) =? 0)
           && negb (value (dstserv pri_blk) =? local_service (route bundle)))
    with false
    by (symmetry; destruct Hs as [Hs|Hs]; rewrite Hs, Z.eqb_refl;
        [reflexivity|apply andb_false_r]).
  rewrite Hadm, Hl. cbn [bind]. split; [|split].
  - intros ->. now rewrite Z.eqb_refl.
  - intros Ha Hc Hf. apply Z.eqb_neq in Ha. rewrite Ha.
    destruct Hc as [-> | ->].
    + rewrite Z.eqb_refl. now rewrite bplog_ret_event.
    + destruct (_ =? BP_CS_REC_TYPE K); [|rewrite Z.eqb_refl];
        now rewrite bplog_ret_event.
  - intros Ha Hc Hst Hf. apply Z.eqb_neq in Ha, Hc, Hst. rewrite Ha, Hc, Hst.
    now rewrite bplog_ret_event.
Qed.


(** *** What the receive path leaves alone *)

(** The payload branch of the loop for a bundle whose destination is the
    local node: the bundle structure is returned as it was, and once the
    payload block has been read the payload descriptor points at it. *)
Lemma receive_payload_local (bundle : bp_bundle_t) (size : Z) (pri_blk : bp_blk_pri_t)
    (exprtime : Z) (payload : bp_payload_t) (st : rx_t)
    (r : Z) (b' : bp_bundle_t) (p' : bp_payload_t) (buf' : list Z) (fl' : Z) :
  value (dstnode pri_blk) = local_node (route bundle) ->
  receive_payload K sdnv_write bplib_crc_get pay_read pri_write cteb_write bplib_ipn2eid
    bundle size pri_blk exprtime payload st
  = Ret (r, (b', p', buf'), fl') ->
  b' = bundle /\ buf' = rx_buffer st.
Proof.
  intros Hdst H.
  unfold receive_payload, receive_dispose, custody_transfer, bplog_ret in H.
  rewrite Hdst, Z.eqb_refl in H. cbn [negb] in H.
  exec_crack; auto.
Qed.

Lemma receive_block_local (bundle : bp_bundle_t) (size : Z) (pri_blk : bp_blk_pri_t)
    (exprtime : Z) (payload : bp_payload_t) (st : rx_t) (s : rx_step) :
  value (dstnode pri_blk) = local_node (route bundle) ->
  receive_block K sdnv_read sdnv_write bplib_crc_get cteb_read pay_read pri_write
    cteb_write bplib_ipn2eid bundle size pri_blk exprtime payload st = Ret s ->
  match s with
  | Return (_, (b', _, _), _) => b' = bundle
  | Continue _ => True
  end.
Proof.
  intros Hdst H. unfold receive_block, receive_extension, bplog_ret in H.
  exec_crack; auto.
  match goal with
  | E : receive_payload _ _ _ _ _ _ _ _ _ _ _ _ _ = Ret ?x |- _ =>
      destruct x as [[r0 [[b0 p0] buf0]] fl0];
      apply (receive_payload_local _ _ _ _ _ _ _ _ _ _ _ Hdst) in E; destruct E; assumption
  end.
Qed.

Lemma receive_loop_local (fuel : nat) (bundle : bp_bundle_t) (size : Z)
    (pri_blk : bp_blk_pri_t) (exprtime : Z) (payload : bp_payload_t) (st : rx_t)
    (r : Z) (b' : bp_bundle_t) (p' : bp_payload_t) (buf' : list Z) (fl' : Z) :
  value (dstnode pri_blk) = local_node (route bundle) ->
  receive_loop K sdnv_read sdnv_write bplib_crc_get cteb_read pay_read pri_write
    cteb_write bplib_ipn2eid fuel bundle size pri_blk exprtime payload st
  = Ret (r, (b', p', buf'), fl') ->
  b' = bundle.
Proof.
  intros Hdst. revert st. induction fuel as [|fuel IH]; intros st H; simpl in H.
  - destruct (_ && _); [discriminate|]. now inversion H.
  - destruct (_ && _); [|now inversion H].
    apply bind_Ret in H as (s & Hs & H).
    apply (receive_block_local _ _ _ _ _ _ _ Hdst) in Hs.
    destruct s as [[[r0 [[b0 p0] buf0]] fl0]|st'].
    + injection H as <- <- <- <- <-. exact Hs.
    + eapply IH; eassumption.
Qed.

(** X23.  [v6_receive_bundle] changes the bundle
    structure of the channel only when it forwards: whenever the primary
    block read is addressed to the local node, the bundle is, on every
    return, exactly as it was. *)
Theorem receive_keeps_local_bundle (fuel : nat) (clk : os_clock)
    (bundle : bp_bundle_t) (buffer : list Z) (size : Z) (payload : bp_payload_t)
    (flags : Z) (cteb_blk : bp_blk_cteb_t) (bib_blk : bp_blk_bib_t)
    (r : Z) (b' : bp_bundle_t) (p' : bp_payload_t) (buf' : list Z) (fl' : Z) :
  value (dstnode (snd (fst (pri_read buffer size true flags))))
  = local_node (route bundle) ->
  v6_receive_bundle K sdnv_read sdnv_write bplib_crc_get pri_read cteb_read pay_read
    pri_write cteb_write bplib_ipn2eid
    fuel clk bundle buffer size payload flags cteb_blk bib_blk
  = Ret (r, (b', p', buf'), fl') ->
  b' = bundle.
Proof.
  intros Hdst H. unfold v6_receive_bundle in H.
  apply bind_Ret in H as (p & Hp & H).
  unfold receive_primary, bplog_ret in Hp.
  destruct (pri_read buffer size true flags) as [[n pri_blk] fl1] eqn:Epri.
  simpl in Hdst.
  destruct p as [[[r0 [[b0 p0] buf0]] fl0]|[[pri0 e0] st0]].
  - inversion H; subst; clear H. exec_crack; reflexivity.
  - assert (pri0 = pri_blk) as -> by (exec_crack; reflexivity).
    eapply receive_loop_local; eassumption.
Qed.


(** X24.  At the payload block: when the block does
    not parse, the call fails with [FAILED_TO_PARSE] and neither the
    payload nor the bundle changes; when it parses, the payload handed
    back points at the payload bytes of the block and carries the payload
    size of the block, the expiration time that the step was handed and
    the acknowledgment request of the primary block, whatever the
    disposition of the bundle turns out to be. *)
Theorem receive_payload_descriptor (bundle : bp_bundle_t) (size : Z)
    (pri_blk : bp_blk_pri_t) (exprtime : Z) (payload : bp_payload_t) (st : rx_t)
    (sub : list Z) (n : Z) (pay_blk : bp_blk_pay_t) (fl1 : Z)
    (r : Z) (b' : bp_bundle_t) (p' : bp_payload_t) (buf' : list Z) (fl' : Z) :
  ptr_at (rx_buffer st) (rx_index st) = Ret sub ->
  pay_read sub (size - rx_index st) true (rx_flags st) = (n, pay_blk, fl1) ->
  receive_payload K sdnv_write bplib_crc_get pay_read pri_write cteb_write bplib_ipn2eid
    bundle size pri_blk exprtime payload st
  = Ret (r, (b', p', buf'), fl') ->
  (n < 0 -> p' = payload /\ b' = bundle
            /\ (r, fl') = bplog K fl1 (BP_FLAG_FAILED_TO_PARSE K))
  /\ (0 <= n ->
      memptr p' = payptr pay_blk
      /\ pl_data p' = {| pl_exprtime := exprtime; ackapp := ack_app pri_blk;
                         payloadsize := paysize pay_blk |}).
Proof.
  intros Hsub Hpay H.
  unfold receive_payload in H.
  apply bind_Ret in H as (ex1 & _ & H). rewrite Hsub in H. cbn [bind] in H.
  rewrite Hpay in H.
  destruct (n <? 0) eqn:En.
  { apply Z.ltb_lt in En. unfold bplog_ret in H. inversion H; subst.
    split; [|lia]. intros _. rewrite <- surjective_pairing. auto. }
  apply Z.ltb_ge in En. split; [lia|]. intros _.
  unfold receive_dispose, receive_forward, custody_transfer, bplog_ret in H.
  exec_crack; split; reflexivity.
Qed.

End ReceiveMore.

(** *** The header regions of a forwarded bundle *)

Lemma pairs_ind (P : list Z -> Prop) :
  P [] -> (forall a : Z, P [a]) ->
  (forall (a b : Z) (rest : list Z), P rest -> P (a :: b :: rest)) ->
  forall l : list Z, P l.
Proof.
  intros H0 H1 H2 l.
  assert (H : P l /\ forall a : Z, P (a :: l)); [|exact (proj1 H)].
  induction l as [|b l [IHl IHal]]; split; auto.
Qed.

Lemma regions_size_nonneg (gaps : list Z) (len : Z) :
  regions_within gaps len -> 0 <= regions_size gaps.
Proof.
  induction gaps as [|a|a b rest IH] using pairs_ind; simpl; try lia.
  intros (H1 & H2 & H3). specialize (IH H3). lia.
Qed.

Lemma regions_bytes_length (gaps buffer : list Z) :
  regions_within gaps (Z.of_nat (length buffer)) ->
  Z.of_nat (length (regions_bytes gaps buffer)) = regions_size gaps.
Proof.
  induction gaps as [|a|a b rest IH] using pairs_ind; simpl; try reflexivity.
  intros (H1 & H2 & H3). specialize (IH H3).
  rewrite length_app, length_take, length_drop. lia.
Qed.

(** X25.  The copy of the header regions of a bundle
    to forward: for regions that lie in the buffer, the loop fails (the
    bundle is too large) exactly when the bytes of the regions do not fit
    the header buffer with one byte to spare, and otherwise leaves the
    bytes of the regions, one after the other in the order of the list, in
    the header buffer from the start index on, the rest of the header
    buffer untouched, and returns the index after them. *)
Theorem copy_regions_concatenates (gaps buffer hdr_buf : list Z) (hdr_index : Z) :
  regions_within gaps (Z.of_nat (length buffer)) ->
  0 <= hdr_index < BP_BUNDLE_HDR_BUF_SIZE ->
  Z.of_nat (length hdr_buf) = BP_BUNDLE_HDR_BUF_SIZE ->
  copy_regions gaps buffer hdr_buf hdr_index
  = Ret (if BP_BUNDLE_HDR_BUF_SIZE <=? hdr_index + regions_size gaps
         then None
         else Some (take (Z.to_nat hdr_index) hdr_buf ++ regions_bytes gaps buffer
                      ++ drop (Z.to_nat (hdr_index + regions_size gaps)) hdr_buf,
                    hdr_index + regions_size gaps)).
Proof.
  revert hdr_buf hdr_index.
  induction gaps as [|a|a b rest IH] using pairs_ind; intros hdr_buf hdr_index Hw Hi Hlen.
  - simpl. rewrite Z.add_0_r.
    replace (BP_BUNDLE_HDR_BUF_SIZE <=? hdr_index) with false
      by (symmetry; apply Z.leb_gt; lia).
    now rewrite take_drop.
  - simpl. rewrite Z.add_0_r.
    replace (BP_BUNDLE_HDR_BUF_SIZE <=? hdr_index) with false
      by (symmetry; apply Z.leb_gt; lia).
    now rewrite take_drop.
  - destruct Hw as (Hab & Hb & Hrest).
    pose proof (regions_size_nonneg rest _ Hrest) as Hnn.
    cbn [copy_regions regions_size regions_bytes].
    destruct (BP_BUNDLE_HDR_BUF_SIZE <=? hdr_index + (b - a)) eqn:E.
    + apply Z.leb_le in E.
      replace (BP_BUNDLE_HDR_BUF_SIZE <=? hdr_index + (b - a + regions_size rest)) with true
        by (symmetry; apply Z.leb_le; lia).
      reflexivity.
    + apply Z.leb_gt in E.
      unfold ptr_at.
      replace ((a <? 0) || (Z.of_nat (length buffer) <? a)) with false
        by (symmetry; apply orb_false_iff; split; apply Z.ltb_ge; lia).
      cbn [bind]. unfold memcpy.
      replace ((b - a <? 0) || (hdr_index <? 0)
               || (Z.of_nat (length (drop (Z.to_nat a) buffer)) <? b - a)
               || (Z.of_nat (length hdr_buf) <? hdr_index + (b - a))) with false.
      2:{ symmetry. rewrite !orb_false_iff, length_drop.
          repeat split; apply Z.ltb_ge; lia. }
      cbn [bind].
      set (region := take (Z.to_nat (b - a)) (drop (Z.to_nat a) buffer)).
      assert (Hreg : length region = Z.to_nat (b - a)).
      { subst region. rewrite length_take, length_drop. lia. }
      set (head := take (Z.to_nat hdr_index) hdr_buf ++ region).
      assert (Hhead : length head = Z.to_nat (hdr_index + (b - a))).
      { subst head. rewrite length_app, length_take, Hreg. lia. }
      rewrite (IH (take (Z.to_nat hdr_index) hdr_buf ++ region
                   ++ drop (Z.to_nat (hdr_index + (b - a))) hdr_buf)
                  (hdr_index + (b - a)) Hrest); [|lia|].
      2:{ rewrite !length_app, length_take, length_drop, Hreg. lia. }
      rewrite <- Z.add_assoc.
      destruct (BP_BUNDLE_HDR_BUF_SIZE <=? hdr_index + (b - a + regions_size rest));
        [reflexivity|].
      f_equal. f_equal. f_equal.
      rewrite (app_assoc (take _ hdr_buf) region). fold head.
      rewrite (take_app_length' head _ _ (eq_sym Hhead)).
      replace (Z.to_nat (hdr_index + (b - a + regions_size rest)))
        with (Z.to_nat (hdr_index + (b - a)) + Z.to_nat (regions_size rest))%nat by lia.
      rewrite (drop_app_add' head _ _ _ (eq_sym Hhead)).
      rewrite drop_drop. subst head. now rewrite <- !app_assoc.
Qed.

(** ** The simulated flash device *)

Lemma load_in_bounds {A : Type} (a : list A) (i : Z) (x : A) :
  0 <= i -> a !! Z.to_nat i = Some x -> load a i = Ret x.
Proof.
  intros Hi Hx. unfold load.
  replace (i <? 0) with false by (symmetry; apply Z.ltb_ge; lia).
  now rewrite Hx.
Qed.

Lemma load_out_of_bounds {A : Type} (a : list A) (i : Z) :
  a !! Z.to_nat i = None -> load a i = UB OutOfBounds.
Proof. intros Hx. unfold load. rewrite Hx. now destruct (i <? 0). Qed.

Lemma load_negative {A : Type} (a : list A) (i : Z) :
  i < 0 -> load a i = UB OutOfBounds.
Proof. intros Hi. unfold load. apply Z.ltb_lt in Hi. now rewrite Hi. Qed.

Lemma memset_all (dst : list Z) (c n : Z) :
  Z.of_nat (length dst) = n -> memset dst c n = Ret (replicate (Z.to_nat n) c).
Proof.
  intros Hn. unfold memset.
  replace ((n <? 0) || (Z.of_nat (length dst) <? n)) with false
    by (symmetry; apply orb_false_iff; split; apply Z.ltb_ge; lia).
  rewrite drop_ge by lia. now rewrite app_nil_r.
Qed.

Lemma memcpy_all (dst src : list Z) (n : Z) :
  Z.of_nat (length dst) = n -> Z.of_nat (length src) = n ->
  memcpy dst 0 src n = Ret src.
Proof.
  intros Hd Hs. unfold memcpy.
  replace ((n <? 0) || (0 <? 0) || (Z.of_nat (length src) <? n)
           || (Z.of_nat (length dst) <? 0 + n)) with false.
  2:{ symmetry. rewrite !orb_false_iff. repeat split; apply Z.ltb_ge; lia. }
  simpl. rewrite drop_ge by lia. rewrite take_ge by lia. now rewrite app_nil_r.
Qed.

Section FlashFacts.
Import FlashSim.
Context (K : bplib_h) (F : bplib_flash_sim_h).

Lemma page_write_loop_result (n : nat) :
  forall (i : Z) (dst byte_ptr : list Z),
    0 <= i ->
    i + Z.of_nat n <= Z.of_nat (length dst) ->
    i + Z.of_nat n <= Z.of_nat (length byte_ptr) ->
    exists r, page_write_loop n i dst byte_ptr = Ret r
      /\ length r = length dst
      /\ forall j : nat,
           r !! j = if bool_decide (Z.to_nat i <= j < Z.to_nat i + n)%nat
                    then zip_with Z.land dst byte_ptr !! j
                    else dst !! j.
Proof.
  induction n as [|n IH]; intros i dst byte_ptr Hi Hd Hb.
  - exists dst. repeat split; auto. intros j.
    rewrite bool_decide_eq_false_2 by lia. reflexivity.
  - destruct (lookup_lt_is_Some_2 dst (Z.to_nat i)) as [old Hold]; [lia|].
    destruct (lookup_lt_is_Some_2 byte_ptr (Z.to_nat i)) as [new Hnew]; [lia|].
    cbn [page_write_loop].
    rewrite (load_in_bounds dst i old Hi Hold), (load_in_bounds byte_ptr i new Hi Hnew).
    cbn [bind]. rewrite store_in_bounds by lia. cbn [bind].
    destruct (IH (i + 1) (<[Z.to_nat i := Z.land old new]> dst) byte_ptr)
      as (r & Hr & Hlen & Hj); [lia|rewrite length_insert; lia|lia|].
    exists r. rewrite length_insert in Hlen. repeat split; auto.
    intros j. rewrite Hj. clear Hj.
    rewrite !lookup_zip_with.
    destruct (decide (j = Z.to_nat i)) as [->|Hne].
    + rewrite list_lookup_insert_eq by lia.
      repeat case_bool_decide; try lia.
      rewrite Hold, Hnew. reflexivity.
    + rewrite list_lookup_insert_ne by lia.
      repeat case_bool_decide; try lia; reflexivity.
Qed.

Lemma page_write_loop_page (dst byte_ptr : list Z) :
  Z.of_nat (length dst) = FLASH_SIM_PAGE_SIZE F ->
  FLASH_SIM_PAGE_SIZE F <= Z.of_nat (length byte_ptr) ->
  page_write_loop (Z.to_nat (FLASH_SIM_PAGE_SIZE F)) 0 dst byte_ptr
  = Ret (zip_with Z.land dst byte_ptr).
Proof.
  intros Hd Hb.
  destruct (page_write_loop_result (Z.to_nat (FLASH_SIM_PAGE_SIZE F)) 0 dst byte_ptr)
    as (r & Hr & Hlen & Hj); [lia|lia|lia|].
  rewrite Hr. f_equal. apply list_eq. intros j. rewrite Hj.
  destruct (bool_decide (Z.to_nat 0 <= j < Z.to_nat 0 + Z.to_nat (FLASH_SIM_PAGE_SIZE F))%nat)
    eqn:E; [reflexivity|].
  apply bool_decide_eq_false_1 in E.
  rewrite lookup_zip_with.
  rewrite (proj2 (lookup_ge_None dst j)) by lia. reflexivity.
Qed.

Lemma erased_page_wf :
  0 <= FLASH_SIM_PAGE_SIZE F -> 0 <= FLASH_SIM_SPARE_SIZE F -> page_wf F (erased_page F).
Proof.
  intros H1 H2. unfold page_wf, erased_page. simpl. rewrite !length_replicate. lia.
Qed.

Lemma page_wf_sizes (pg : flash_driver_page_t) :
  page_wf F pg -> 0 <= FLASH_SIM_PAGE_SIZE F /\ 0 <= FLASH_SIM_SPARE_SIZE F.
Proof. intros [H1 H2]. lia. Qed.

Lemma block_erase_loop_result (n : nat) :
  forall (p : Z) (pgs : list flash_driver_page_t),
    0 <= p ->
    p + Z.of_nat n <= Z.of_nat (length pgs) ->
    Forall (page_wf F) pgs ->
    exists r, block_erase_loop F n p pgs = Ret r
      /\ length r = length pgs
      /\ forall j : nat,
           r !! j = if bool_decide (Z.to_nat p <= j < Z.to_nat p + n)%nat
                    then Some (erased_page F)
                    else pgs !! j.
Proof.
  induction n as [|n IH]; intros p pgs Hp Hlen Hwf.
  - exists pgs. repeat split; auto. intros j.
    rewrite bool_decide_eq_false_2 by lia. reflexivity.
  - destruct (lookup_lt_is_Some_2 pgs (Z.to_nat p)) as [pg Hpg]; [lia|].
    pose proof (proj1 (Forall_lookup _ _) Hwf _ _ Hpg) as Hpgwf.
    destruct (page_wf_sizes pg Hpgwf) as [Hps Hss]. destruct Hpgwf as [Hdl Hsl].
    cbn [block_erase_loop].
    rewrite (load_in_bounds pgs p pg Hp Hpg). cbn [bind].
    rewrite (memset_all _ _ _ Hdl). cbn [bind].
    rewrite (memset_all _ _ _ Hsl). cbn [bind].
    rewrite store_in_bounds by lia. cbn [bind].
    fold (erased_page F).
    destruct (IH (p + 1) (<[Z.to_nat p := erased_page F]> pgs))
      as (r & Hr & Hrl & Hj); [lia|rewrite length_insert; lia| |].
    { apply Forall_insert; auto using erased_page_wf. }
    exists r. rewrite length_insert in Hrl. repeat split; auto.
    intros j. rewrite Hj. clear Hj.
    destruct (decide (j = Z.to_nat p)) as [->|Hne].
    + rewrite list_lookup_insert_eq by lia.
      repeat case_bool_decide; try lia; reflexivity.
    + rewrite list_lookup_insert_ne by lia.
      repeat case_bool_decide; try lia; reflexivity.
Qed.

Lemma block_erase_loop_block (pgs : list flash_driver_page_t) :
  block_wf F {| pages := pgs |} ->
  block_erase_loop F (Z.to_nat (FLASH_SIM_PAGES_PER_BLOCK F)) 0 pgs
  = Ret (replicate (Z.to_nat (FLASH_SIM_PAGES_PER_BLOCK F)) (erased_page F)).
Proof.
  intros [Hlen Hwf]. simpl in *.
  destruct (block_erase_loop_result (Z.to_nat (FLASH_SIM_PAGES_PER_BLOCK F)) 0 pgs)
    as (r & Hr & Hrl & Hj); [lia|lia|auto|].
  rewrite Hr. f_equal. apply list_eq. intros j. rewrite Hj.
  destruct (bool_decide (Z.to_nat 0 <= j < Z.to_nat 0 + Z.to_nat (FLASH_SIM_PAGES_PER_BLOCK F))%nat)
    eqn:E.
  - apply bool_decide_eq_true_1 in E. symmetry. apply lookup_replicate_2. lia.
  - apply bool_decide_eq_false_1 in E.
    rewrite (proj2 (lookup_ge_None pgs j)) by lia.
    symmetry. apply lookup_ge_None. rewrite length_replicate. lia.
Qed.

(** Reading a page and testing the mark depend on the device through the
    page at the address only. *)
Lemma page_read_at (dev : flash_driver_device_t) (addr : bp_flash_addr_t)
    (page_data : list Z) :
  bplib_flash_sim_page_read K F dev addr page_data
  = if (block addr <? 0) || (page addr <? 0) then UB OutOfBounds
    else match page_at dev (block addr) (page addr) with
         | Some pg =>
             let* out := memcpy page_data 0 (data pg) (FLASH_SIM_PAGE_SIZE F) in
             Ret (BP_SUCCESS K, out)
         | None => UB OutOfBounds
         end.
Proof.
  unfold bplib_flash_sim_page_read, page_at.
  destruct (block addr <? 0) eqn:Eb.
  { apply Z.ltb_lt in Eb. now rewrite load_negative. }
  apply Z.ltb_ge in Eb. simpl.
  destruct (blocks dev !! Z.to_nat (block addr)) as [blk|] eqn:Hb.
  2:{ rewrite load_out_of_bounds by auto. now destruct (page addr <? 0). }
  rewrite (load_in_bounds _ _ _ Eb Hb). cbn [bind].
  destruct (page addr <? 0) eqn:Ep.
  { apply Z.ltb_lt in Ep. now rewrite load_negative. }
  apply Z.ltb_ge in Ep.
  destruct (pages blk !! Z.to_nat (page addr)) as [pg|] eqn:Hp.
  - now rewrite (load_in_bounds _ _ _ Ep Hp).
  - now rewrite load_out_of_bounds.
Qed.

Lemma block_is_bad_at (dev : flash_driver_device_t) (b : Z) :
  bplib_flash_sim_block_is_bad dev b
  = if b <? 0 then UB OutOfBounds
    else match page_at dev b 0 with
         | Some pg =>
             let* mark := load (spare pg) 0 in
             Ret (if mark =? FLASH_SIM_BAD_BLOCK_MARK then 1 else 0)
         | None => UB OutOfBounds
         end.
Proof.
  unfold bplib_flash_sim_block_is_bad, page_at.
  destruct (b <? 0) eqn:Eb.
  { apply Z.ltb_lt in Eb. now rewrite load_negative. }
  apply Z.ltb_ge in Eb.
  destruct (blocks dev !! Z.to_nat b) as [blk|] eqn:Hb.
  2:{ now rewrite load_out_of_bounds. }
  rewrite (load_in_bounds _ _ _ Eb Hb). cbn [bind].
  change (Z.to_nat 0) with 0%nat.
  destruct (pages blk !! 0%nat) as [pg|] eqn:Hp.
  - now rewrite (load_in_bounds (pages blk) 0 pg).
  - now rewrite load_out_of_bounds.
Qed.

Lemma page_at_wf (dev : flash_driver_device_t) (b p : Z) :
  flash_wf F dev ->
  0 <= b < FLASH_SIM_NUM_BLOCKS F -> 0 <= p < FLASH_SIM_PAGES_PER_BLOCK F ->
  exists blk pg, blocks dev !! Z.to_nat b = Some blk
    /\ block_wf F blk
    /\ pages blk !! Z.to_nat p = Some pg
    /\ page_wf F pg
    /\ page_at dev b p = Some pg.
Proof.
  intros [Hlen Hwf] Hb Hp.
  destruct (lookup_lt_is_Some_2 (blocks dev) (Z.to_nat b)) as [blk Hblk]; [lia|].
  pose proof (proj1 (Forall_lookup _ _) Hwf _ _ Hblk) as Hbw.
  destruct Hbw as [Hpl Hpw].
  destruct (lookup_lt_is_Some_2 (pages blk) (Z.to_nat p)) as [pg Hpg]; [lia|].
  pose proof (proj1 (Forall_lookup _ _) Hpw _ _ Hpg) as Hpgw.
  exists blk, pg. unfold page_at. rewrite Hblk.
  split; [reflexivity|]. split; [split; assumption|].
  split; [exact Hpg|]. split; [exact Hpgw|exact Hpg].
Qed.

Lemma set_page_result (dev : flash_driver_device_t) (b p : Z) (pg : flash_driver_page_t) :
  flash_wf F dev ->
  0 <= b < FLASH_SIM_NUM_BLOCKS F -> 0 <= p < FLASH_SIM_PAGES_PER_BLOCK F ->
  page_wf F pg ->
  exists dev', set_page dev b p pg = Ret dev'
    /\ flash_wf F dev'
    /\ page_at dev' b p = Some pg
    /\ forall b' p' : Z, 0 <= b' -> 0 <= p' -> b' <> b \/ p' <> p ->
         page_at dev' b' p' = page_at dev b' p'.
Proof.
  intros Hwf Hb Hp Hpg.
  destruct (page_at_wf dev b p Hwf Hb Hp) as (blk & pg0 & Hblk & Hbw & Hpg0 & _ & _).
  destruct Hwf as [Hlen Hall]. destruct Hbw as [Hpl Hpw].
  unfold set_page.
  rewrite (load_in_bounds _ _ _ (proj1 Hb) Hblk). cbn [bind].
  rewrite store_in_bounds by lia. cbn [bind].
  rewrite store_in_bounds by lia. cbn [bind].
  eexists. split; [reflexivity|]. split; [|split].
  - split; simpl; [rewrite length_insert; lia|].
    apply Forall_insert; auto. split; simpl; [rewrite length_insert; lia|].
    apply Forall_insert; auto.
  - unfold page_at. simpl. rewrite list_lookup_insert_eq by lia. simpl.
    apply list_lookup_insert_eq. lia.
  - intros b' p' Hb' Hp' Hne. unfold page_at. simpl.
    destruct (decide (b' = b)) as [->|Hbne].
    + rewrite list_lookup_insert_eq by lia. rewrite Hblk. simpl.
      apply list_lookup_insert_ne. destruct Hne; [congruence|lia].
    + rewrite list_lookup_insert_ne by lia. reflexivity.
Qed.

Lemma block_erase_result (dev : flash_driver_device_t) (b : Z) :
  flash_wf F dev -> 0 <= b < FLASH_SIM_NUM_BLOCKS F ->
  exists dev',
    bplib_flash_sim_block_erase K F dev b = Ret (BP_SUCCESS K, dev')
    /\ flash_wf F dev'
    /\ (forall p : Z, 0 <= p < FLASH_SIM_PAGES_PER_BLOCK F ->
          page_at dev' b p = Some (erased_page F))
    /\ (forall b' p' : Z, 0 <= b' -> b' <> b -> page_at dev' b' p' = page_at dev b' p').
Proof.
  intros Hwf Hb.
  destruct Hwf as [Hlen Hall].
  destruct (lookup_lt_is_Some_2 (blocks dev) (Z.to_nat b)) as [blk Hblk]; [lia|].
  pose proof (proj1 (Forall_lookup _ _) Hall _ _ Hblk) as Hbw.
  unfold bplib_flash_sim_block_erase.
  rewrite (load_in_bounds _ _ _ (proj1 Hb) Hblk). cbn [bind].
  rewrite block_erase_loop_block by (destruct blk; exact Hbw). cbn [bind].
  rewrite store_in_bounds by lia. cbn [bind].
  eexists. split; [reflexivity|]. split; [|split].
  - split; simpl; [rewrite length_insert; lia|].
    apply Forall_insert; auto. destruct Hbw as [Hpl Hpw].
    split; simpl; [rewrite length_replicate; lia|].
    destruct (pages blk) as [|pg0 rest] eqn:Epg.
    + simpl in Hpl. rewrite <- Hpl. constructor.
    + apply Forall_replicate. apply Forall_cons in Hpw as [Hpg0 _].
      destruct (page_wf_sizes _ Hpg0). now apply erased_page_wf.
  - intros p Hp. unfold page_at. simpl. rewrite list_lookup_insert_eq by lia. simpl.
    apply lookup_replicate_2. lia.
  - intros b' p' Hb' Hne. unfold page_at. simpl.
    rewrite list_lookup_insert_ne by lia. reflexivity.
Qed.

Lemma page_write_result (dev : flash_driver_device_t) (addr : bp_flash_addr_t)
    (page_data : list Z) :
  flash_wf F dev -> addr_ok F addr ->
  FLASH_SIM_PAGE_SIZE F <= Z.of_nat (length page_data) ->
  exists pg dev',
    page_at dev (block addr) (page addr) = Some pg
    /\ page_wf F pg
    /\ bplib_flash_sim_page_write K F dev addr page_data = Ret (BP_SUCCESS K, dev')
    /\ flash_wf F dev'
    /\ page_at dev' (block addr) (page addr)
       = Some {| data := zip_with Z.land (data pg) page_data; spare := spare pg |}
    /\ forall b' p' : Z, 0 <= b' -> 0 <= p' -> b' <> block addr \/ p' <> page addr ->
         page_at dev' b' p' = page_at dev b' p'.
Proof.
  intros Hwf [Hb Hp] Hlen.
  destruct (page_at_wf dev _ _ Hwf Hb Hp) as (blk & pg & Hblk & Hbw & Hpg & Hpgw & Hat).
  pose proof Hpgw as [Hdl Hsl].
  assert (Hnew : page_wf F {| data := zip_with Z.land (data pg) page_data; spare := spare pg |}).
  { split; simpl; [|exact Hsl]. rewrite length_zip_with. lia. }
  destruct (set_page_result dev _ _ _ Hwf Hb Hp Hnew) as (dev' & Hset & Hwf' & Hat' & Hother).
  exists pg, dev'. split; [exact Hat|]. split; [exact Hpgw|].
  split; [|split; [exact Hwf'|split; [exact Hat'|exact Hother]]].
  unfold bplib_flash_sim_page_write.
  rewrite (load_in_bounds _ _ _ (proj1 Hb) Hblk). cbn [bind].
  rewrite (load_in_bounds _ _ _ (proj1 Hp) Hpg). cbn [bind].
  rewrite (page_write_loop_page _ _ Hdl Hlen). cbn [bind].
  now rewrite Hset.
Qed.

Lemma page_read_page (dev : flash_driver_device_t) (addr : bp_flash_addr_t)
    (pg : flash_driver_page_t) (buf : list Z) :
  0 <= block addr -> 0 <= page addr ->
  page_at dev (block addr) (page addr) = Some pg ->
  Z.of_nat (length (data pg)) = FLASH_SIM_PAGE_SIZE F ->
  Z.of_nat (length buf) = FLASH_SIM_PAGE_SIZE F ->
  bplib_flash_sim_page_read K F dev addr buf = Ret (BP_SUCCESS K, data pg).
Proof.
  intros Hb Hp Hat Hdl Hbuf. rewrite page_read_at, Hat.
  replace ((block addr <? 0) || (page addr <? 0)) with false
    by (symmetry; apply orb_false_iff; split; apply Z.ltb_ge; lia).
  now rewrite memcpy_all.
Qed.

Lemma land_erased (n : nat) (page_data : list Z) :
  page_bytes page_data -> length page_data = n ->
  zip_with Z.land (replicate n 0xFF) page_data = page_data.
Proof.
  intros Hbytes Hlen. apply list_eq. intros j. rewrite lookup_zip_with.
  destruct (page_data !! j) as [b|] eqn:Hj.
  - assert (j < n)%nat by (rewrite <- Hlen; apply lookup_lt_is_Some; eauto).
    rewrite lookup_replicate_2 by lia. simpl. f_equal.
    pose proof (proj1 (Forall_lookup _ _) Hbytes _ _ Hj) as Hb. simpl in Hb.
    rewrite Z.land_comm. change 255 with (Z.ones 8).
    rewrite Z.land_ones by lia. apply Z.mod_small. lia.
  - destruct (replicate n 255 !! j); reflexivity.
Qed.

(** X26.  A page write on the simulated flash
    device can only clear bits: on a device of the declared geometry, for
    an address inside it and a buffer of at least a page, the write
    succeeds and the page then reads as the bitwise AND of what it held
    and what was written; every other page reads as before, and no block
    changes its bad-block mark. *)
Theorem flash_page_write_clears_bits (dev : flash_driver_device_t) (addr : bp_flash_addr_t)
    (page_data : list Z) :
  flash_wf F dev -> addr_ok F addr ->
  FLASH_SIM_PAGE_SIZE F <= Z.of_nat (length page_data) ->
  exists pg dev',
    page_at dev (block addr) (page addr) = Some pg
    /\ bplib_flash_sim_page_write K F dev addr page_data = Ret (BP_SUCCESS K, dev')
    /\ flash_wf F dev'
    /\ (forall buf : list Z,
          Z.of_nat (length buf) = FLASH_SIM_PAGE_SIZE F ->
          bplib_flash_sim_page_read K F dev' addr buf
          = Ret (BP_SUCCESS K, zip_with Z.land (data pg) page_data))
    /\ (forall (addr' : bp_flash_addr_t) (buf : list Z),
          block addr' <> block addr \/ page addr' <> page addr ->
          bplib_flash_sim_page_read K F dev' addr' buf
          = bplib_flash_sim_page_read K F dev addr' buf)
    /\ (forall b : Z,
          bplib_flash_sim_block_is_bad dev' b = bplib_flash_sim_block_is_bad dev b).
Proof.
  intros Hwf Haddr Hlen.
  destruct (page_write_result dev addr page_data Hwf Haddr Hlen)
    as (pg & dev' & Hat & [Hdl Hsl] & Hw & Hwf' & Hat' & Hother).
  destruct Haddr as [Hb Hp].
  exists pg, dev'. split; [exact Hat|]. split; [exact Hw|]. split; [exact Hwf'|].
  split; [|split].
  - intros buf Hbuf.
    rewrite (page_read_page dev' addr _ buf (proj1 Hb) (proj1 Hp) Hat'); [reflexivity| |exact Hbuf].
    simpl. rewrite length_zip_with. lia.
  - intros addr' buf Hne. rewrite !page_read_at.
    destruct ((block addr' <? 0) || (page addr' <? 0)) eqn:E; [reflexivity|].
    apply orb_false_iff in E as [E1 E2]. apply Z.ltb_ge in E1, E2.
    now rewrite Hother.
  - intros b. rewrite !block_is_bad_at.
    destruct (b <? 0) eqn:E; [reflexivity|]. apply Z.ltb_ge in E.
    destruct (decide (b = block addr /\ 0 = page addr)) as [[-> Hp0]|Hne].
    + rewrite Hp0, Hat', Hat. reflexivity.
    + rewrite Hother; [reflexivity|lia|lia|lia].
Qed.

(** X27.  Erase, write, read is a round trip on the
    simulated flash device: erasing a block sets every page of it to the
    erased page (all 0xFF, data and spare) and leaves the other blocks
    alone; a page of bytes written to a page of the erased block is read
    back as it was written. *)
Theorem flash_erase_write_read (dev : flash_driver_device_t) (addr : bp_flash_addr_t)
    (page_data buf : list Z) :
  flash_wf F dev -> addr_ok F addr -> page_bytes page_data ->
  Z.of_nat (length page_data) = FLASH_SIM_PAGE_SIZE F ->
  Z.of_nat (length buf) = FLASH_SIM_PAGE_SIZE F ->
  exists dev1 dev2,
    bplib_flash_sim_block_erase K F dev (block addr) = Ret (BP_SUCCESS K, dev1)
    /\ (forall p : Z, 0 <= p < FLASH_SIM_PAGES_PER_BLOCK F ->
          page_at dev1 (block addr) p = Some (erased_page F))
    /\ (forall b' p' : Z, 0 <= b' -> b' <> block addr ->
          page_at dev1 b' p' = page_at dev b' p')
    /\ bplib_flash_sim_page_write K F dev1 addr page_data = Ret (BP_SUCCESS K, dev2)
    /\ bplib_flash_sim_page_read K F dev2 addr buf = Ret (BP_SUCCESS K, page_data).
Proof.
  intros Hwf Haddr Hbytes Hlen Hbuf.
  pose proof Haddr as [Hb Hp].
  destruct (block_erase_result dev (block addr) Hwf Hb) as (dev1 & He & Hwf1 & Hin & Hout).
  destruct (page_write_result dev1 addr page_data Hwf1 Haddr)
    as (pg & dev2 & Hat & _ & Hw & Hwf2 & Hat2 & _); [lia|].
  rewrite (Hin _ Hp) in Hat. injection Hat as <-.
  exists dev1, dev2. split; [exact He|]. split; [exact Hin|]. split; [exact Hout|].
  split; [exact Hw|].
  rewrite (page_read_page dev2 addr _ buf (proj1 Hb) (proj1 Hp) Hat2).
  - simpl. rewrite land_erased; [reflexivity|exact Hbytes|lia].
  - simpl. rewrite length_zip_with, length_replicate. lia.
  - exact Hbuf.
Qed.

(** X28.  The bad-block mark of the simulated flash
    device: after [bplib_flash_sim_block_mark_bad] the block is reported
    bad, the other blocks report what they reported before and every page
    reads as before; erasing the block erases the mark with it, and the
    block is reported good again. *)
Theorem flash_bad_block_mark (dev : flash_driver_device_t) (b : Z) :
  flash_wf F dev -> 0 <= b < FLASH_SIM_NUM_BLOCKS F ->
  0 < FLASH_SIM_PAGES_PER_BLOCK F -> 0 < FLASH_SIM_SPARE_SIZE F ->
  exists dev1 dev2,
    bplib_flash_sim_block_mark_bad K dev b = Ret (BP_SUCCESS K, dev1)
    /\ bplib_flash_sim_block_is_bad dev1 b = Ret 1
    /\ (forall b' : Z, b' <> b ->
          bplib_flash_sim_block_is_bad dev1 b' = bplib_flash_sim_block_is_bad dev b')
    /\ (forall (addr : bp_flash_addr_t) (buf : list Z),
          bplib_flash_sim_page_read K F dev1 addr buf
          = bplib_flash_sim_page_read K F dev addr buf)
    /\ bplib_flash_sim_block_erase K F dev1 b = Ret (BP_SUCCESS K, dev2)
    /\ bplib_flash_sim_block_is_bad dev2 b = Ret 0.
Proof.
  intros Hwf Hb Hppb Hss.
  assert (Hp : 0 <= 0 < FLASH_SIM_PAGES_PER_BLOCK F) by lia.
  destruct (page_at_wf dev b 0 Hwf Hb Hp) as (blk & pg & Hblk & Hbw & Hpg & [Hdl Hsl] & Hat).
  set (pg1 := {| data := data pg; spare := <[Z.to_nat 0 := FLASH_SIM_BAD_BLOCK_MARK]> (spare pg) |}).
  assert (Hpg1 : page_wf F pg1).
  { split; simpl; [exact Hdl|]. rewrite length_insert. exact Hsl. }
  destruct (set_page_result dev b 0 pg1 Hwf Hb Hp Hpg1) as (dev1 & Hset & Hwf1 & Hat1 & Hother).
  destruct (block_erase_result dev1 b Hwf1 Hb) as (dev2 & He & Hwf2 & Hin & _).
  exists dev1, dev2. split; [|split; [|split; [|split; [|split; [exact He|]]]]].
  - unfold bplib_flash_sim_block_mark_bad.
    rewrite (load_in_bounds _ _ _ (proj1 Hb) Hblk). cbn [bind].
    rewrite (load_in_bounds (pages blk) 0 pg (Z.le_refl 0) Hpg). cbn [bind].
    rewrite store_in_bounds by lia. cbn [bind].
    fold pg1. now rewrite Hset.
  - rewrite block_is_bad_at, Hat1.
    replace (b <? 0) with false by (symmetry; apply Z.ltb_ge; lia).
    rewrite (load_in_bounds (spare pg1) 0 FLASH_SIM_BAD_BLOCK_MARK (Z.le_refl 0)).
    + reflexivity.
    + simpl. apply list_lookup_insert_eq. lia.
  - intros b' Hne. rewrite !block_is_bad_at.
    destruct (b' <? 0) eqn:E; [reflexivity|]. apply Z.ltb_ge in E.
    rewrite Hother; [reflexivity|lia|lia|lia].
  - intros addr buf. rewrite !page_read_at.
    destruct ((block addr <? 0) || (page addr <? 0)) eqn:E; [reflexivity|].
    apply orb_false_iff in E as [E1 E2]. apply Z.ltb_ge in E1, E2.
    destruct (decide (block addr = b /\ page addr = 0)) as [[-> ->]|Hne].
    + rewrite Hat1, Hat. reflexivity.
    + rewrite Hother; [reflexivity|lia|lia|lia].
  - rewrite block_is_bad_at, (Hin 0 Hp).
    replace (b <? 0) with false by (symmetry; apply Z.ltb_ge; lia).
    rewrite (load_in_bounds (spare (erased_page F)) 0 0xFF (Z.le_refl 0)).
    + reflexivity.
    + simpl. apply lookup_replicate_2. lia.
Qed.

End FlashFacts.

(** ** The operating system layer *)


Lemma strnlen_loop_result (fuel : nat) :
  forall (str : list Z) (len maxlen : Z),
    0 <= len <= Z.of_nat (length str) ->
    maxlen - len <= Z.of_nat fuel ->
    strnlen_loop fuel str len maxlen
    = match first_nul (take (Z.to_nat (maxlen - len)) (drop (Z.to_nat len) str)) with
      | Some k => Ret (len + Z.of_nat k)
      | None => if maxlen <=? Z.of_nat (length str) then Ret maxlen else UB OutOfBounds
      end.
Proof.
  induction fuel as [|fuel IH]; intros str len maxlen Hlen Hfuel.
  - simpl. replace (len <? maxlen) with false by (symmetry; apply Z.ltb_ge; lia).
    replace (Z.to_nat (maxlen - len)) with 0%nat by lia. rewrite take_0. simpl.
    replace (maxlen <=? Z.of_nat (length str)) with true by (symmetry; apply Z.leb_le; lia).
    reflexivity.
  - cbn [strnlen_loop]. destruct (len <? maxlen) eqn:E.
    2:{ apply Z.ltb_ge in E.
        replace (Z.to_nat (maxlen - len)) with 0%nat by lia. rewrite take_0. simpl.
        replace (maxlen <=? Z.of_nat (length str)) with true
          by (symmetry; apply Z.leb_le; lia).
        reflexivity. }
    apply Z.ltb_lt in E.
    destruct (str !! Z.to_nat len) as [c|] eqn:Hc.
    + rewrite (load_in_bounds str len c (proj1 Hlen) Hc). cbn [bind].
      rewrite (drop_S _ _ _ Hc).
      replace (Z.to_nat (maxlen - len)) with (S (Z.to_nat (maxlen - (len + 1)))) by lia.
      cbn [take first_nul].
      destruct (c =? 0) eqn:Ec.
      * now rewrite Z.add_0_r.
      * pose proof (lookup_lt_Some _ _ _ Hc).
        rewrite IH by lia.
        replace (Z.to_nat (len + 1)) with (S (Z.to_nat len)) by lia.
        destruct (first_nul _) as [k|]; simpl; [f_equal; lia|reflexivity].
    + pose proof (proj1 (lookup_ge_None _ _) Hc).
      unfold load. rewrite Hc.
      replace (len <? 0) with false by (symmetry; apply Z.ltb_ge; lia).
      cbn [bind]. rewrite drop_ge by lia. rewrite take_nil. simpl.
      replace (maxlen <=? Z.of_nat (length str)) with false
        by (symmetry; apply Z.leb_gt; lia).
      reflexivity.
Qed.

(** X29.  [bplib_os_strnlen] returns the index of
    the first NUL among the first [maxlen] characters of the string, and
    [maxlen] when there is none, also when [maxlen] is zero or negative,
    in which case it reads nothing; it reads past the end of the array
    exactly when the array is shorter than [maxlen] and holds no NUL. *)
Theorem strnlen_first_nul_or_maxlen (str : list Z) (maxlen : Z) :
  bplib_os_strnlen str maxlen
  = match first_nul (take (Z.to_nat maxlen) str) with
    | Some k => Ret (Z.of_nat k)
    | None => if maxlen <=? Z.of_nat (length str) then Ret maxlen else UB OutOfBounds
    end.
Proof.
  unfold bplib_os_strnlen.
  rewrite strnlen_loop_result by lia.
  rewrite Z.sub_0_r. change (Z.to_nat 0) with 0%nat. rewrite drop_0.
  destruct (first_nul _); reflexivity.
Qed.

Section ClockFacts.
Context (K : bplib_h).

(** X30.  For clock readings in the range of a 64-bit
    [time_t], [bplib_os_systime] returns [BP_SUCCESS] exactly when the
    previous reading is not before the year 2000 and the present one is not
    before the previous one, and [BP_ERROR] otherwise: so also on the first
    call when [bplib_os_init] has not stored a previous reading (it is
    zero then), because the unsigned difference wraps.  A time from 2000 on is
    reported as the seconds since 2000. *)
Theorem systime_reliable_exactly (clk : os_clock) :
  BP_SUCCESS K <> BP_ERROR K ->
  - 2 ^ 63 <= now_sec clk < 2 ^ 63 ->
  - 2 ^ 63 <= prevnow_sec clk < 2 ^ 63 ->
  (fst (bplib_os_systime K clk) = BP_SUCCESS K
   <-> UNIX_SECS_AT_2000 <= prevnow_sec clk <= now_sec clk)
  /\ (fst (bplib_os_systime K clk) = BP_SUCCESS K
      \/ fst (bplib_os_systime K clk) = BP_ERROR K)
  /\ (UNIX_SECS_AT_2000 <= now_sec clk ->
      snd (bplib_os_systime K clk) = now_sec clk - UNIX_SECS_AT_2000).
Proof.
  intros Hse Hnow Hprev. unfold bplib_os_systime, u64, UNIX_SECS_AT_2000. cbn [fst snd].
  split; [|split].
  - destruct (now_sec clk <? 946684800) eqn:E1; cbn [orb].
    + apply Z.ltb_lt in E1. split; [congruence|lia].
    + apply Z.ltb_ge in E1. rewrite (Z.mod_small (now_sec clk - 946684800)) by lia.
      destruct (Z_lt_le_dec (prevnow_sec clk) 946684800) as [Hp|Hp].
      * rewrite <- (Z_mod_plus_full (prevnow_sec clk - 946684800) 1 (2 ^ 64)).
        rewrite (Z.mod_small (prevnow_sec clk - 946684800 + 1 * 2 ^ 64)) by lia.
        replace (_ <? _) with true by (symmetry; apply Z.ltb_lt; lia).
        split; [congruence|lia].
      * rewrite (Z.mod_small (prevnow_sec clk - 946684800)) by lia.
        destruct (now_sec clk - 946684800 <? prevnow_sec clk - 946684800) eqn:E2.
        -- apply Z.ltb_lt in E2. split; [congruence|lia].
        -- apply Z.ltb_ge in E2. split; [lia|reflexivity].
  - destruct (_ || _); auto.
  - intros H. apply Z.mod_small. lia.
Qed.

End ClockFacts.

(** ** The further properties on concrete inputs *)

Lemma table4_wf : cbuf_wf table4.
Proof.
  exists (replicate 4 CBuf.zero_bundle). simpl. repeat split; lia.
Qed.

Lemma table4_added_wf : cbuf_wf table4_added.
Proof.
  exists (<[1%nat := bundle5]> (replicate 4 CBuf.zero_bundle)). simpl. repeat split; lia.
Qed.

Lemma cbuf_create_fresh_table_witness :
  BP_SID_VACANT bplib_h_example = 0
  /\ 0 < 4 <= BP_MAX_INDEX bplib_h_example
  /\ (exists c : CBuf.cbuf_t,
        CBuf.cbuf_create bplib_h_example true true None 4
        = Ret (BP_SUCCESS bplib_h_example, Some c)
        /\ CBuf.cbuf_count c = 0
        /\ CBuf.cbuf_next bplib_h_example c = Ret (BP_TIMEOUT bplib_h_example, c, None))
  /\ CBuf.cbuf_create bplib_h_example true false None 4
     = Ret (BP_ERROR bplib_h_example,
            Some {| CBuf.table := None; CBuf.size := 0; CBuf.num_entries := 0;
                    CBuf.newest_cid := 0; CBuf.oldest_cid := 0 |})
  /\ CBuf.cbuf_create bplib_h_example false true None 4 = UB NullDeref.
Proof.
  split; [reflexivity|]. split; [simpl; lia|].
  destruct (cbuf_create_fresh_table bplib_h_example None 4)
    as ((c & H1 & _ & _ & H2 & _ & _ & _ & H3) & H4 & H5); [reflexivity | simpl; lia |].
  split; [|split; [exact H4|exact (H5 true)]].
  exists c. split; [exact H1|]. split; [exact H2|exact H3].
Defined.

Lemma cbuf_add_remove_round_trip_witness :
  cbuf_wf table4
  /\ CBuf.cbuf_add bplib_h_example table4 bundle5 false
     = Ret (BP_SUCCESS bplib_h_example, table4_added)
  /\ CBuf.cbuf_available bplib_h_example table4_added 5 = Ret (BP_ERROR bplib_h_example)
  /\ exists c2 : CBuf.cbuf_t,
       CBuf.cbuf_remove bplib_h_example table4_added 5
       = Ret (BP_SUCCESS bplib_h_example, c2, Some bundle5)
       /\ CBuf.cbuf_count c2 = 0.
Proof.
  assert (Hadd : CBuf.cbuf_add bplib_h_example table4 bundle5 false
                 = Ret (BP_SUCCESS bplib_h_example, table4_added))
    by (vm_compute; reflexivity).
  destruct (cbuf_add_remove_round_trip bplib_h_example table4 table4_added bundle5 false
              table4_wf)
    as (Hav & c2 & Hrm & _ & _ & Hcount);
    [vm_compute; discriminate | vm_compute; discriminate | exact Hadd |].
  split; [exact table4_wf|]. split; [exact Hadd|]. split; [exact Hav|].
  exists c2. split; [exact Hrm|]. apply Hcount. simpl. lia.
Defined.

Lemma cbuf_add_duplicate_witness :
  cbuf_wf table4
  /\ CBuf.cbuf_add bplib_h_example table4 bundle5 false
     = Ret (BP_SUCCESS bplib_h_example, table4_added)
  /\ CBuf.cid bundle5_again = CBuf.cid bundle5
  /\ CBuf.cbuf_add bplib_h_example table4_added bundle5_again false
     = Ret (BP_DUPLICATE, table4_added)
  /\ exists c2 : CBuf.cbuf_t,
       CBuf.cbuf_add bplib_h_example table4_added bundle5_again true
       = Ret (BP_SUCCESS bplib_h_example, c2)
       /\ slot_of c2 5 = Some bundle5_again.
Proof.
  assert (Hadd : CBuf.cbuf_add bplib_h_example table4 bundle5 false
                 = Ret (BP_SUCCESS bplib_h_example, table4_added))
    by (vm_compute; reflexivity).
  destruct (cbuf_add_duplicate bplib_h_example table4 table4_added bundle5 bundle5_again
              false table4_wf)
    as (Hdup & c2 & Hover & Hslot & _);
    [vm_compute; discriminate | vm_compute; discriminate | exact Hadd | reflexivity |].
  split; [exact table4_wf|]. split; [exact Hadd|]. split; [reflexivity|].
  split; [exact Hdup|]. exists c2. split; [exact Hover|exact Hslot].
Defined.

Lemma cbuf_other_slots_untouched_witness :
  cbuf_wf table4
  /\ CBuf.size table4_added = CBuf.size table4
  /\ slot_of table4_added 2 = slot_of table4 2.
Proof.
  destruct (proj1 (cbuf_other_slots_untouched bplib_h_example table4 table4_wf)
              bundle5 false (BP_SUCCESS bplib_h_example) table4_added)
    as [Hs Hk]; [vm_compute; reflexivity|].
  split; [exact table4_wf|]. split; [exact Hs|].
  apply Hk. vm_compute. discriminate.
Defined.

Lemma cbuf_next_peeks_oldest_witness :
  cbuf_wf table4_added
  /\ CBuf.cbuf_next bplib_h_example table4_added
     = Ret (BP_SUCCESS bplib_h_example, table4_peeked, Some bundle5)
  /\ CBuf.cbuf_next bplib_h_example table4_peeked
     = Ret (BP_SUCCESS bplib_h_example, table4_peeked, Some bundle5).
Proof.
  assert (Hrun : CBuf.cbuf_next bplib_h_example table4_added
                 = Ret (BP_SUCCESS bplib_h_example, table4_peeked, Some bundle5))
    by (vm_compute; reflexivity).
  destruct (cbuf_next_peeks_oldest bplib_h_example table4_added table4_added_wf)
    as (r & c' & o & Hn & _ & _ & _ & _ & _ & Hagain).
  rewrite Hrun in Hn. injection Hn as Hr Hc Ho. subst r c' o.
  split; [exact table4_added_wf|]. split; [exact Hrun|exact Hagain].
Defined.

Lemma cbuf_run_stays_in_table_witness :
  cbuf_wf table4
  /\ exists c' : CBuf.cbuf_t,
       CBuf.run bplib_h_example table4 table4_ops = Ret c'
       /\ cbuf_wf c' /\ CBuf.size c' = 4.
Proof.
  split; [exact table4_wf|].
  exact (cbuf_run_stays_in_table bplib_h_example table4 table4_ops table4_wf).
Defined.

Lemma cbuf_count_exact_when_adds_vacant_witness :
  cbuf_wf table4
  /\ adds_to_vacant bplib_h_example table4 table4_ops
  /\ CBuf.run bplib_h_example table4 table4_ops = Ret table4_done
  /\ CBuf.cbuf_count table4_done = CBuf.occupied bplib_h_example table4_done.
Proof.
  assert (Hv : adds_to_vacant bplib_h_example table4 table4_ops).
  { simpl. repeat split. discriminate. }
  assert (Hrun : CBuf.run bplib_h_example table4 table4_ops = Ret table4_done)
    by (vm_compute; reflexivity).
  split; [exact table4_wf|]. split; [exact Hv|]. split; [exact Hrun|].
  apply (cbuf_count_exact_when_adds_vacant bplib_h_example table4 table4_done table4_ops
           table4_wf); [simpl; lia | vm_compute; discriminate | vm_compute; reflexivity
                       | exact Hv | exact Hrun].
Defined.

Lemma crc_write_read_round_trip_witness :
  0 <= 0xABCD < 2 ^ 16
  /\ write_crc16 0xABCD (zero_block 4) 1 = Ret [0; 0xAB; 0xCD; 0]
  /\ read_crc16 [0; 0xAB; 0xCD; 0] 1 = Ret 0xABCD
  /\ write_crc32 0x89ABCDEF (zero_block 4) 0 = Ret [0x89; 0xAB; 0xCD; 0xEF]
  /\ read_crc32 [0x89; 0xAB; 0xCD; 0xEF] 0 = Ret 0x89ABCDEF.
Proof.
  assert (H16 : 0 <= 0xABCD < 2 ^ 16) by lia.
  assert (H32 : 0 <= 0x89ABCDEF < 2 ^ 32) by lia.
  assert (Hw16 : write_crc16 0xABCD (zero_block 4) 1 = Ret [0; 0xAB; 0xCD; 0])
    by (vm_compute; reflexivity).
  assert (Hw32 : write_crc32 0x89ABCDEF (zero_block 4) 0 = Ret [0x89; 0xAB; 0xCD; 0xEF])
    by (vm_compute; reflexivity).
  split; [exact H16|]. split; [exact Hw16|]. split.
  - exact (proj1 (proj1 (crc_write_read_round_trip (zero_block 4) [0; 0xAB; 0xCD; 0]
                           1 0xABCD) H16 Hw16)).
  - split; [exact Hw32|].
    exact (proj1 (proj2 (crc_write_read_round_trip (zero_block 4) [0x89; 0xAB; 0xCD; 0xEF]
                           0 0x89ABCDEF) H32 Hw32)).
Defined.

Lemma bib_update_writes_only_crc_witness :
  bib_update bplib_h_example crc_get_model (zero_block 128) 128 hello 5 bib_crc16_blk 0
  = Ret (BP_SUCCESS bplib_h_example, (fst bib_updated, snd bib_updated), 0)
  /\ length (fst bib_updated) = length (zero_block 128)
  /\ fst bib_updated !! 12%nat = zero_block 128 !! 12%nat
  /\ read_crc16 (fst bib_updated) 13 = Ret (crc16 (snd bib_updated)).
Proof.
  assert (Hrun :
    bib_update bplib_h_example crc_get_model (zero_block 128) 128 hello 5 bib_crc16_blk 0
    = Ret (BP_SUCCESS bplib_h_example, (fst bib_updated, snd bib_updated), 0))
    by (vm_compute; reflexivity).
  pose proof (bib_update_writes_only_crc bplib_h_example crc_get_model (zero_block 128)
                (fst bib_updated) 128 hello 5 bib_crc16_blk (snd bib_updated) 0
                (BP_SUCCESS bplib_h_example) 0 Hrun) as H.
  cbv zeta in H. destruct H as (Hlen & Hframe & _ & Hcrc).
  split; [exact Hrun|]. split; [exact Hlen|]. split.
  - apply Hframe. left. vm_compute. lia.
  - destruct Hcrc as [(_ & _ & Hr)|(Hc & _)];
      [vm_compute; discriminate | vm_compute; reflexivity | vm_compute; reflexivity
       | reflexivity | exact Hr | discriminate Hc].
Defined.

Lemma bib_update_then_verify_detects_witness :
  bib_update bplib_h_example crc_get_model (zero_block 128) 128 hello 5 bib_crc16_blk 0
  = Ret (BP_SUCCESS bplib_h_example, (fst bib_updated, snd bib_updated), 0)
  /\ bib_verify bplib_h_example crc_get_model hello 5 (snd bib_updated) 0
     = (BP_SUCCESS bplib_h_example, 0)
  /\ bib_verify bplib_h_example crc_get_model check_string 9 (snd bib_updated) 0
     = (BP_ERROR bplib_h_example, BP_FLAG_FAILED_INTEGRITY_CHECK bplib_h_example).
Proof.
  assert (Hrun :
    bib_update bplib_h_example crc_get_model (zero_block 128) 128 hello 5 bib_crc16_blk 0
    = Ret (BP_SUCCESS bplib_h_example, (fst bib_updated, snd bib_updated), 0))
    by (vm_compute; reflexivity).
  assert (Hv := fun H1 H2 H3 H4 =>
    bib_update_then_verify_detects bplib_h_example crc_get_model (zero_block 128)
      (fst bib_updated) 128 hello 5 bib_crc16_blk (snd bib_updated) 0 0 H1 H2 H3 H4 Hrun).
  cbv zeta in Hv.
  split; [exact Hrun|]. split.
  - rewrite (Hv ltac:(vm_compute; discriminate) ltac:(vm_compute; reflexivity)
               ltac:(vm_compute; reflexivity) ltac:(vm_compute; reflexivity) hello 5 0).
    vm_compute. reflexivity.
  - rewrite (Hv ltac:(vm_compute; discriminate) ltac:(vm_compute; reflexivity)
               ltac:(vm_compute; reflexivity) ltac:(vm_compute; reflexivity) check_string 9 0).
    vm_compute. reflexivity.
Defined.

Lemma bib_read_success_witness :
  bib_events_ok bplib_h_example
  /\ bib_read bplib_h_example (sdnv_read_model bplib_h_example) (fst bib_written) 32
       bib_crc16_blk true 0
     = Ret (15, bib_reread, 0)
  /\ 15 <= 32
  /\ fst bib_written !! 0%nat = Some BP_BIB_BLK_TYPE
  /\ bib_fields_valid bplib_h_example bib_reread.
Proof.
  assert (Hok : bib_events_ok bplib_h_example) by (repeat split).
  assert (Hrun :
    bib_read bplib_h_example (sdnv_read_model bplib_h_example) (fst bib_written) 32
      bib_crc16_blk true 0
    = Ret (15, bib_reread, 0)) by (vm_compute; reflexivity).
  destruct (bib_read_success bplib_h_example (sdnv_read_model bplib_h_example)
              (fst bib_written) 32 bib_crc16_blk bib_reread true 0 15 0 Hok Hrun)
    as (Hr & _ & Hb & Hval & _); [vm_compute; discriminate|].
  split; [exact Hok|]. split; [exact Hrun|]. split; [exact Hr|]. split; [exact Hb|exact Hval].
Defined.

Lemma bib_write_success_witness :
  bib_events_ok bplib_h_example
  /\ bib_write bplib_h_example (sdnv_write_model bplib_h_example) (zero_block 32) 32
       bib_crc16_blk false 0
     = Ret (15, (fst bib_written, snd bib_written), 0)
  /\ value (compound_length (snd bib_written)) = 4
  /\ value (security_result_length (snd bib_written)) = 2
  /\ value (bib_blklen (snd bib_written)) = 9.
Proof.
  assert (Hok : bib_events_ok bplib_h_example) by (repeat split).
  assert (Hrun :
    bib_write bplib_h_example (sdnv_write_model bplib_h_example) (zero_block 32) 32
      bib_crc16_blk false 0
    = Ret (15, (fst bib_written, snd bib_written), 0)) by (vm_compute; reflexivity).
  destruct (bib_write_success bplib_h_example (sdnv_write_model bplib_h_example)
              (zero_block 32) (fst bib_written) 32 bib_crc16_blk (snd bib_written)
              false 0 15 0 Hok Hrun)
    as (_ & _ & _ & _ & Hc & Hs & Hl); [vm_compute; discriminate|].
  split; [exact Hok|]. split; [exact Hrun|]. split; [exact Hc|]. split; [exact Hs|exact Hl].
Defined.

Lemma pay_write_model_keeps_payload : keeps_payload (pay_write_model bplib_h_example).
Proof.
  intros block size pay upd flags. unfold pay_write_model, bplog_ret.
  destruct (size <? 1).
  - destruct (bplog _ _ _). simpl. auto.
  - destruct (sdnv_write_model _ _ _ _ _) as [[? ?] ?].
    destruct (sdnv_write_model _ _ _ _ _) as [[? ?] ?].
    destruct (negb _); simpl; auto.
Qed.

Lemma send_events_ok_example : send_events_ok bplib_h_example.
Proof. repeat split. discriminate. Qed.

Lemma send_result_run (create : list create_call -> create_call -> Z) :
  (exists r, v6_send_bundle bplib_h_example (sdnv_write_model bplib_h_example)
               sdnv_mask_model crc_get_model (pay_write_model bplib_h_example) create
               8 example_clock fragmenting_bundle hello 5 0 0 = Ret r) ->
  v6_send_bundle bplib_h_example (sdnv_write_model bplib_h_example) sdnv_mask_model
    crc_get_model (pay_write_model bplib_h_example) create
    8 example_clock fragmenting_bundle hello 5 0 0
  = Ret (fst (fst (fst (send_result create))), snd (fst (fst (send_result create))),
         snd (fst (send_result create)), snd (send_result create)).
Proof.
  intros [r Hr]. unfold send_result. rewrite Hr. now destruct r as [[[? ?] ?] ?].
Qed.

Lemma send_rejects_without_fragmentation_witness :
  allow_fragmentation (attributes (populated_bundle (example_attributes 4 false false)))
  = false
  /\ max_length (attributes (populated_bundle (example_attributes 4 false false)))
     - headersize (data (populated_bundle (example_attributes 4 false false))) < 5
  /\ send_model 8%nat (populated_bundle (example_attributes 4 false false)) hello 5
     = Ret (BP_ERROR bplib_h_example,
            send_payload (populated_bundle (example_attributes 4 false false)) hello 5,
            BP_FLAG_BUNDLE_TOO_LARGE bplib_h_example, []).
Proof.
  split; [vm_compute; reflexivity|]. split; [vm_compute; reflexivity|].
  apply (send_rejects_without_fragmentation bplib_h_example
           (sdnv_write_model bplib_h_example) sdnv_mask_model crc_get_model
           (pay_write_model bplib_h_example) (create_ok bplib_h_example)
           8%nat example_clock (populated_bundle (example_attributes 4 false false))
           hello 5 0 0);
    [vm_compute; reflexivity | vm_compute; reflexivity | left; vm_compute; reflexivity].
Defined.

Lemma send_fragments_partition_witness :
  keeps_payload (pay_write_model bplib_h_example)
  /\ send_events_ok bplib_h_example
  /\ map cc_size (snd (send_result (create_ok bplib_h_example))) = [2; 2; 1]
  /\ sum_sizes (snd (send_result (create_ok bplib_h_example))) = 5
  /\ forall (i : nat) (call : create_call),
       snd (send_result (create_ok bplib_h_example)) !! i = Some call ->
       ptr_at hello (sum_sizes (take i (snd (send_result (create_ok bplib_h_example)))))
       = Ret (cc_payload call).
Proof.
  assert (Hrun := send_result_run (create_ok bplib_h_example)
                    ltac:(eexists; vm_compute; reflexivity)).
  pose proof (send_fragments_partition bplib_h_example _ _ _ _ _ _ _ _ _ _ _ _ _ _ _ _
                pay_write_model_keeps_payload Hrun) as H.
  cbv zeta in H. destruct H as [Heach Hsum].
  split; [exact pay_write_model_keeps_payload|]. split; [exact send_events_ok_example|].
  split; [vm_compute; reflexivity|]. split.
  - apply (Hsum send_events_ok_example). vm_compute. reflexivity.
  - intros i call Hi. exact (proj1 (proj2 (proj2 (Heach i call Hi)))).
Defined.

Lemma send_stops_at_refusal_witness :
  keeps_payload (pay_write_model bplib_h_example)
  /\ map cc_size (snd (send_result (create_once bplib_h_example))) = [2; 2]
  /\ fst (fst (fst (send_result (create_once bplib_h_example)))) = BP_ERROR bplib_h_example
  /\ exists fl0 : Z,
       snd (fst (send_result (create_once bplib_h_example)))
       = Z.lor fl0 (BP_FLAG_STORE_FAILURE bplib_h_example).
Proof.
  assert (Hrun := send_result_run (create_once bplib_h_example)
                    ltac:(eexists; vm_compute; reflexivity)).
  destruct (send_stops_at_refusal bplib_h_example _ _ _ _ _ _ _ _ _ _ _ _ _ _ _ _
              pay_write_model_keeps_payload Hrun 1%nat
              {| cc_is_record := false; cc_payload := [0x4C; 0x4C; 0x4F]; cc_size := 2;
                 cc_timeout := 0 |})
    as [_ Hrefused]; [vm_compute; reflexivity|].
  destruct Hrefused as [_ Hlast]; [vm_compute; discriminate|].
  destruct Hlast as [Hr Hfl]; [vm_compute; reflexivity|].
  split; [exact pay_write_model_keeps_payload|]. split; [vm_compute; reflexivity|].
  split; [exact Hr|exact Hfl].
Defined.

Lemma send_sequence_number_witness :
  keeps_payload (pay_write_model bplib_h_example)
  /\ send_events_ok bplib_h_example
  /\ prebuilt fragmenting_bundle = true
  /\ value (createseq (primary_block (blocks fragmenting_bundle))) = 0
  /\ value (createseq (primary_block (blocks
              (snd (fst (fst (send_result (create_ok bplib_h_example)))))))) = 1.
Proof.
  assert (Hrun := send_result_run (create_ok bplib_h_example)
                    ltac:(eexists; vm_compute; reflexivity)).
  pose proof (send_sequence_number bplib_h_example _ _ _ _ _ _ _ _ _ _ _ _ _ _ _ _
                pay_write_model_keeps_payload send_events_ok_example Hrun) as H.
  cbv zeta in H.
  split; [exact pay_write_model_keeps_payload|]. split; [exact send_events_ok_example|].
  split; [vm_compute; reflexivity|]. split; [vm_compute; reflexivity|].
  rewrite H. vm_compute. reflexivity.
Defined.

Lemma v6_is_expired_monotone_witness :
  v6_is_expired bplib_h_example (local_bundle false) 100 50 false = true
  /\ 100 <= 200
  /\ v6_is_expired bplib_h_example (local_bundle false) 200 50 false = true
  /\ v6_is_expired bplib_h_example (local_bundle true) 200 50 false = false.
Proof.
  assert (H1 : v6_is_expired bplib_h_example (local_bundle false) 100 50 false = true)
    by (vm_compute; reflexivity).
  assert (H2 : 100 <= 200) by lia.
  split; [exact H1|]. split; [exact H2|]. split.
  - exact (proj1 (v6_is_expired_monotone bplib_h_example (local_bundle false)
                    100 200 50 false) H1 H2).
  - apply (proj2 (v6_is_expired_monotone bplib_h_example (local_bundle true)
                    200 200 50 false)).
    right. left. reflexivity.
Defined.

Lemma v6_build_success_layout_witness :
  v6_build bplib_h_example (sdnv_write_model bplib_h_example) (wrote 50) (wrote 12)
    ipn2eid_model (created_bundle (example_attributes 4096 false false)) None [] 0 0
  = Ret (BP_SUCCESS bplib_h_example,
         populated_bundle (example_attributes 4096 false false), 0)
  /\ prebuilt (populated_bundle (example_attributes 4096 false false)) = true
  /\ payoffset (data (populated_bundle (example_attributes 4096 false false)))
     < BP_BUNDLE_HDR_BUF_SIZE
  /\ cteboffset (data (populated_bundle (example_attributes 4096 false false))) = 0.
Proof.
  assert (Hrun :
    v6_build bplib_h_example (sdnv_write_model bplib_h_example) (wrote 50) (wrote 12)
      ipn2eid_model (created_bundle (example_attributes 4096 false false)) None [] 0 0
    = Ret (BP_SUCCESS bplib_h_example,
           populated_bundle (example_attributes 4096 false false), 0))
    by (vm_compute; reflexivity).
  pose proof (v6_build_success_layout bplib_h_example _ _ _ _ _ _ _ _ _ _ _
                ltac:(vm_compute; discriminate) ltac:(vm_compute; reflexivity)
                ltac:(vm_compute; reflexivity) Hrun) as H.
  cbv zeta in H. destruct H as (_ & _ & Hpre & _ & Hpay & _ & _ & Hcteb & _).
  split; [exact Hrun|]. split; [exact Hpre|]. split; [exact Hpay|].
  apply Hcteb. vm_compute. reflexivity.
Defined.

Lemma receive_rejects_before_blocks_witness :
  found (-1) local_pri bundle_plain 61 true 0 = (-1, local_pri, 0)
  /\ receive_with (found (-1) local_pri)
     = Ret (BP_ERROR bplib_h_example, (local_bundle false, empty_payload, bundle_plain),
            BP_FLAG_FAILED_TO_PARSE bplib_h_example).
Proof.
  split; [reflexivity|].
  apply (proj1 (receive_rejects_before_blocks bplib_h_example
                  (sdnv_read_model bplib_h_example) (sdnv_write_model bplib_h_example)
                  crc_get_model (found (-1) local_pri) (found 10 received_cteb)
                  (found 6 received_pay) (wrote 50) (wrote 12) ipn2eid_model
                  8%nat example_clock (local_bundle false) bundle_plain 61 empty_payload 0
                  received_cteb bib_crc16_blk (-1) local_pri 0 eq_refl));
    [lia | vm_compute; reflexivity].
Defined.

Lemma receive_primary_block_only_witness :
  found 50 local_pri (zero_block 50) 50 true 0 = (50, local_pri, 0)
  /\ value (dictlen local_pri) = 0
  /\ receive_model local_pri 8%nat (local_bundle false) (zero_block 50)
     = Ret (BP_SUCCESS bplib_h_example, (local_bundle false, empty_payload, zero_block 50), 0).
Proof.
  split; [reflexivity|]. split; [reflexivity|].
  apply (receive_primary_block_only bplib_h_example
           (sdnv_read_model bplib_h_example) (sdnv_write_model bplib_h_example)
           crc_get_model (found 50 local_pri) (found 10 received_cteb)
           (found 6 received_pay) (wrote 50) (wrote 12) ipn2eid_model
           8%nat example_clock (local_bundle false) (zero_block 50) 50 empty_payload 0
           received_cteb bib_crc16_blk 50 local_pri 0 eq_refl);
    [lia | reflexivity | lia | vm_compute; reflexivity].
Defined.

Lemma receive_local_delivery_witness :
  value (dstnode local_pri) = local_node (route (local_bundle false))
  /\ exists payload' : bp_payload_t,
       dispose_model local_pri 56 bundle_plain
       = Ret (BP_PENDING_ACCEPTANCE, (local_bundle false, payload', bundle_plain), 0)
       /\ memptr payload' = memptr empty_payload
       /\ node payload' = BP_IPN_NULL bplib_h_example.
Proof.
  split; [reflexivity|].
  pose proof (receive_local_delivery bplib_h_example (sdnv_write_model bplib_h_example)
                (wrote 50) (wrote 12) ipn2eid_model (local_bundle false) local_pri 56
                [0; 50; 56] bundle_plain false received_cteb empty_payload 0 eq_refl) as H.
  cbv zeta in H. destruct H as [_ H].
  destruct H as (p' & _ & Hm & Hplain & _); [right; reflexivity | reflexivity |].
  destruct Hplain as (Hd & Hn & _); [reflexivity|].
  exists p'. split; [exact Hd|]. split; [exact Hm|exact Hn].
Defined.

Lemma receive_admin_record_witness :
  value (dstnode admin_pri) = local_node (route (local_bundle false))
  /\ is_admin_rec admin_pri = true
  /\ load [0x40] 0 = Ret (BP_ACS_REC_TYPE bplib_h_example)
  /\ dispose_model admin_pri 0 [0x40]
     = Ret (BP_PENDING_ACKNOWLEDGMENT,
            (local_bundle false, with_service (with_node empty_payload 3) 1, [0x40]), 0).
Proof.
  split; [reflexivity|]. split; [reflexivity|]. split; [reflexivity|].
  pose proof (receive_admin_record bplib_h_example (sdnv_write_model bplib_h_example)
                (wrote 50) (wrote 12) ipn2eid_model (local_bundle false) admin_pri 0
                [0; 50; 56] [0x40] false received_cteb empty_payload 0
                (BP_ACS_REC_TYPE bplib_h_example) eq_refl (or_intror eq_refl) eq_refl
                eq_refl) as H.
  cbv zeta in H. destruct H as [H _]. exact (H eq_refl).
Defined.

Lemma receive_keeps_local_bundle_witness :
  value (dstnode (snd (fst (found 50 local_pri bundle_plain 61 true 0))))
  = local_node (route (local_bundle false))
  /\ returned (receive_with (found 50 local_pri)) = Some (BP_PENDING_ACCEPTANCE, 0)
  /\ exists (r : Z) (b' : bp_bundle_t) (p' : bp_payload_t) (buf' : list Z) (fl' : Z),
       receive_with (found 50 local_pri) = Ret (r, (b', p', buf'), fl')
       /\ b' = local_bundle false.
Proof.
  split; [reflexivity|]. split; [vm_compute; reflexivity|].
  destruct (receive_with (found 50 local_pri)) as [[[r [[b' p'] buf']] fl']|f|] eqn:E.
  - exists r, b', p', buf', fl'. split; [reflexivity|].
    refine (receive_keeps_local_bundle bplib_h_example _ _ _ _ _ _ _ _ _ _ _ _ _ _ _ _ _ _
              _ _ _ _ _ _ E).
    reflexivity.
  - vm_compute in E. discriminate E.
  - vm_compute in E. discriminate E.
Defined.

Lemma receive_payload_descriptor_witness :
  ptr_at (rx_buffer rx_at_payload) (rx_index rx_at_payload) = Ret pay_bytes
  /\ found 6 received_pay pay_bytes (61 - rx_index rx_at_payload) true
       (rx_flags rx_at_payload)
     = (6, received_pay, 0)
  /\ exists (r : Z) (b' : bp_bundle_t) (p' : bp_payload_t) (buf' : list Z) (fl' : Z),
       payload_model rx_at_payload = Ret (r, (b', p', buf'), fl')
       /\ memptr p' = hello
       /\ pl_data p' = {| pl_exprtime := 4010; ackapp := false; payloadsize := 5 |}.
Proof.
  assert (Hptr : ptr_at (rx_buffer rx_at_payload) (rx_index rx_at_payload) = Ret pay_bytes)
    by (vm_compute; reflexivity).
  split; [exact Hptr|]. split; [reflexivity|].
  destruct (payload_model rx_at_payload) as [[[r [[b' p'] buf']] fl']|f|] eqn:E.
  - exists r, b', p', buf', fl'. split; [reflexivity|].
    exact (proj2 (receive_payload_descriptor bplib_h_example _ _ _ _ _ _ _ _ _ _ _ _
                    pay_bytes 6 received_pay 0 _ _ _ _ _ Hptr eq_refl E)
             ltac:(lia)).
  - vm_compute in E. discriminate E.
  - vm_compute in E. discriminate E.
Defined.

Lemma copy_regions_concatenates_witness :
  regions_within [50; 60; 66] (Z.of_nat (length bundle_custody))
  /\ copy_regions [50; 60; 66] bundle_custody
       (replicate (Z.to_nat BP_BUNDLE_HDR_BUF_SIZE) 0) 0
     = Ret (Some (cteb_bytes ++ replicate 118 0, 10)).
Proof.
  assert (Hw : regions_within [50; 60; 66] (Z.of_nat (length bundle_custody))).
  { simpl. lia. }
  split; [exact Hw|].
  rewrite (copy_regions_concatenates [50; 60; 66] bundle_custody
             (replicate (Z.to_nat BP_BUNDLE_HDR_BUF_SIZE) 0) 0 Hw);
    [vm_compute; reflexivity | vm_compute; split; [discriminate|reflexivity]
     | vm_compute; reflexivity].
Defined.

Lemma flash_example_wf : flash_wf flash_sim_h_example flash_example.
Proof.
  split; [reflexivity|]. repeat constructor.
Qed.

Lemma flash_addr_example_ok : addr_ok flash_sim_h_example flash_addr_example.
Proof. unfold addr_ok. simpl. lia. Qed.

Lemma flash_page_write_clears_bits_witness :
  flash_wf flash_sim_h_example flash_example
  /\ addr_ok flash_sim_h_example flash_addr_example
  /\ exists dev' : FlashSim.flash_driver_device_t,
       flash_write flash_example flash_addr_example [0xFF; 0xFF; 0x0F; 0xFF]
       = Ret (BP_SUCCESS bplib_h_example, dev')
       /\ flash_read dev' flash_addr_example [0; 0; 0; 0]
          = Ret (BP_SUCCESS bplib_h_example, [0x0F; 0xF0; 0x0F; 0x00])
       /\ flash_read dev' {| FlashSim.block := 1; FlashSim.page := 1 |} [0; 0; 0; 0]
          = flash_read flash_example {| FlashSim.block := 1; FlashSim.page := 1 |}
              [0; 0; 0; 0].
Proof.
  split; [exact flash_example_wf|]. split; [exact flash_addr_example_ok|].
  destruct (flash_page_write_clears_bits bplib_h_example flash_sim_h_example flash_example
              flash_addr_example [0xFF; 0xFF; 0x0F; 0xFF]
              flash_example_wf flash_addr_example_ok)
    as (pg & dev' & Hat & Hw & _ & Hr & Ho & _); [simpl; lia|].
  vm_compute in Hat. injection Hat as <-.
  exists dev'. split; [exact Hw|]. split.
  - apply (Hr [0; 0; 0; 0]). reflexivity.
  - apply Ho. right. simpl. lia.
Defined.

Lemma flash_erase_write_read_witness :
  flash_wf flash_sim_h_example flash_example
  /\ addr_ok flash_sim_h_example flash_addr_example
  /\ page_bytes [0x12; 0x34; 0x56; 0x78]
  /\ exists dev1 dev2 : FlashSim.flash_driver_device_t,
       flash_erase flash_example 1 = Ret (BP_SUCCESS bplib_h_example, dev1)
       /\ flash_write dev1 flash_addr_example [0x12; 0x34; 0x56; 0x78]
          = Ret (BP_SUCCESS bplib_h_example, dev2)
       /\ flash_read dev2 flash_addr_example [0; 0; 0; 0]
          = Ret (BP_SUCCESS bplib_h_example, [0x12; 0x34; 0x56; 0x78]).
Proof.
  assert (Hb : page_bytes [0x12; 0x34; 0x56; 0x78]) by (repeat constructor; lia).
  split; [exact flash_example_wf|]. split; [exact flash_addr_example_ok|].
  split; [exact Hb|].
  destruct (flash_erase_write_read bplib_h_example flash_sim_h_example flash_example
              flash_addr_example [0x12; 0x34; 0x56; 0x78] [0; 0; 0; 0]
              flash_example_wf flash_addr_example_ok Hb)
    as (dev1 & dev2 & He & _ & _ & Hw & Hr); [reflexivity | reflexivity |].
  exists dev1, dev2. split; [exact He|]. split; [exact Hw|exact Hr].
Defined.

Lemma flash_bad_block_mark_witness :
  flash_wf flash_sim_h_example flash_example
  /\ FlashSim.bplib_flash_sim_block_is_bad flash_example 1 = Ret 0
  /\ exists dev1 dev2 : FlashSim.flash_driver_device_t,
       FlashSim.bplib_flash_sim_block_mark_bad bplib_h_example flash_example 1
       = Ret (BP_SUCCESS bplib_h_example, dev1)
       /\ FlashSim.bplib_flash_sim_block_is_bad dev1 1 = Ret 1
       /\ FlashSim.bplib_flash_sim_block_is_bad dev1 0 = Ret 0
       /\ flash_erase dev1 1 = Ret (BP_SUCCESS bplib_h_example, dev2)
       /\ FlashSim.bplib_flash_sim_block_is_bad dev2 1 = Ret 0.
Proof.
  split; [exact flash_example_wf|]. split; [vm_compute; reflexivity|].
  destruct (flash_bad_block_mark bplib_h_example flash_sim_h_example flash_example 1
              flash_example_wf)
    as (dev1 & dev2 & Hm & Hbad & Hother & _ & He & Hgood);
    [simpl; lia | simpl; lia | simpl; lia |].
  exists dev1, dev2. split; [exact Hm|]. split; [exact Hbad|]. split.
  - rewrite Hother by lia. vm_compute. reflexivity.
  - split; [exact He|exact Hgood].
Defined.

Lemma systime_reliable_exactly_witness :
  BP_SUCCESS bplib_h_example <> BP_ERROR bplib_h_example
  /\ UNIX_SECS_AT_2000 <= prevnow_sec example_clock <= now_sec example_clock
  /\ fst (bplib_os_systime bplib_h_example example_clock) = BP_SUCCESS bplib_h_example
  /\ snd (bplib_os_systime bplib_h_example example_clock) = 1000.
Proof.
  assert (Hne : BP_SUCCESS bplib_h_example <> BP_ERROR bplib_h_example)
    by (vm_compute; discriminate).
  assert (Hord : UNIX_SECS_AT_2000 <= prevnow_sec example_clock <= now_sec example_clock)
    by (vm_compute; split; discriminate).
  destruct (systime_reliable_exactly bplib_h_example example_clock Hne)
    as (Hiff & _ & Hval); [vm_compute; split; [discriminate|reflexivity]
                          | vm_compute; split; [discriminate|reflexivity] |].
  split; [exact Hne|]. split; [exact Hord|]. split; [exact (proj2 Hiff Hord)|].
  rewrite Hval by (vm_compute; discriminate).
  vm_compute. reflexivity.
Defined.
